(* ===== verification/_CoqProject ===== *)
-Q . S2P
Prelude.v
State.v
PyStr.v
PySeq.v
SplitList.v
Blocking.v
Scalar.v
Format.v
FormatG.v
Tensor.v
Allclose.v
Dtype.v
Report.v
Readback.v
Linalg.v
Operator.v
Stream.v
Scoped.v
Scenarios.v
Float64.v
Quadratic.v
