(* ===== verification/Prelude.v ===== *)
(** * Verification of curvlinops (BrunoKM/curvlinops): utilities, block
    partitioning and the test scenarios of the Hessian linear operator

    ** The program

    curvlinops implements implicit linear operators for curvature matrices of
    neural networks.  The repository fragment under [src/] holds

    - [src/curvlinops/utils.py]: [split_list] (the block partitioner: it
      splits an ordered parameter list into contiguous, order-preserving
      blocks of requested sizes, raising [ValueError] when the sizes do not
      sum to the list's length) and [allclose_report] (tolerance-based
      comparison that prints the entries that differ);
    - [src/test/test_hessian.py]: the test scenarios of
      [HessianLinearOperator] (matvec, matmat and block-diagonal matmat, each
      with and without the adjoint and the SciPy front end) and the two
      blocking schemes [BLOCKING_FNS] the tests feed to [split_list].

    The operator itself ([HessianLinearOperator], its SciPy bridge and the
    automatic-differentiation kernel) is not under [src/].  The tests
    construct it and multiply with it, so the development models it from the
    specification ([Operator]) and says so wherever it does; the kernel is a
    parameter.

    ** Files, in dependency order

    - [Prelude] (this file): Python exceptions as values ([exn], with
      [is_ValueError] for the classes that [raises(ValueError)] accepts),
      the error monad [result] with stdpp's bind notation, the [len]
      abbreviation,
      integer sums [sumZ], prefix sums [scan], the [pyseq] rewrite database
      and the [pysimpl]/[pylen] tactics.
    - [State]: the state-and-error monad [st] (a function from the state to
      an outcome and the state it leaves), [try_finally] and the scoped
      acquisition [scoped].
    - [PyStr]: [py_str_int], the decimal text of an [int] inside an
      f-string, and the lemma that reads a number back out of a message.
    - [PySeq]: the Python and NumPy primitives that [split_list] calls, each
      with the semantics of the interpreter: [py_sum] (left fold from 0),
      [range], list slicing [slice] with CPython's index adjustment
      ([adjust_index]: negative indices count from the end, out-of-range
      indices are clamped), [cumsum] on int64 with wrap-around
      ([int64_wrap]) and [ndarray_getitem] (IndexError out of bounds).
    - [SplitList]: [split_list] as written in [utils.py], the reference
      partitioner [chunks] (structural take/drop), the contract
      [is_partition], and the theorems relating them.
    - [Blocking]: the blocking schemes of [test_hessian.py] ([per_parameter],
      [two_blocks]) and the proof that [split_list] accepts what they return.
    - [Scalar]: the interface [Scalar] of a tensor's dtype (the arithmetic
      and comparisons that [isclose] performs on entries), its instances for
      IEEE 754 binary floats ([float32], [float64], on [spec_float] of the
      Standard Library) and for exact rationals ([exact]), the conversion
      of a Python float to a dtype ([SFconv], [SF2Q]), and [isclose_elem],
      the test of [Tensor.isclose] on one pair of entries.
    - [Format]: the format specification [.5e] of an entry: the decimal
      exponent ([exponent10], [ilog10]), the rounding ([round_half_even]),
      the normal form [to_sci] and its text [format_sci], for floats
      ([format_e_float], with [nan] and [inf]) and for exact entries
      ([format_e_Q]), behind the class [Format]; and [parse_sci], which
      reads a text back.
    - [FormatG]: the text of a double written to a C++ stream
      ([format_g]: six significant digits, fixed or scientific notation by
      the decimal exponent, no zeros at the end), which ends the message
      of a refused tolerance, and [parse_g], which reads a text of either
      notation back.
    - [Tensor]: tensors as a shape and the row-major list of their entries,
      with the operations [allclose_report] calls: [unravel_index] and
      [ravel_index], broadcasting ([broadcast_shapes], [expand]),
      [logical_not], [tensor_all], [argwhere], indexing with a boolean mask
      ([getitem_mask], with PyTorch's [IndexError]s) and [flatten].
    - [Allclose]: [tensor_isclose] and [tensor_allclose], and
      [allclose_report] as written in [utils.py], against the single-pass
      reference [reference_lines].
    - [Dtype]: tensors that carry their dtype ([dtensor]), the check of
      the dtypes that [isclose] performs first ([isclose_dtype]), and
      [allclose_report_dtype], the pipeline on such tensors.
    - [Report]: what [allclose_report] prints: the text of an index as
      PyTorch prints a row of [argwhere] ([index_repr]), the f-string of a
      line ([fstring]), [print] on standard output, and [allclose_report_io],
      the function with standard output threaded through.
    - [Readback]: a reader of the lines that [allclose_report] prints:
      [parse_index] reads an index as PyTorch prints it, and [parse_line]
      returns the index and the texts of the three numbers of a line.
    - [Linalg]: what the tests compute with the dense reference: [dot],
      [mat_vec] and [mat_mat] (the operator [@]), [transpose] ([.conj().T]
      on real entries) and [block_diag] ([torch.block_diag]), on matrices
      given as a column count and a list of rows; the sum [vadd] and the
      scaling [vscale] of vectors.
    - [Operator]: the operator of the specification: the collaborators as
      classes ([Batch], [CurvatureKernel]), the resolver ([resolve]), the
      state [operator], construction [HessianLinearOperator] (which
      validates both partitions with [split_list]), [matvec], [matmat],
      [adjoint], the operators a program can reach ([reachable]), the SciPy
      front end ([to_scipy], [lo_matvec],
      [lo_matmat]), and the classes [ShapedKernel] and [LinearKernel] of
      the kernels that keep the dimension and that are linear in the vector.
    - [Stream]: outcomes up to the equivalence of the entries
      ([result_equiv]) and operators that differ in the order of their
      batches ([same_batches]).
    - [Scoped]: the kernel calls with their effect on the values of the
      parameters: the class [KernelCall], every call in the scoped
      acquisition of [State], and the products [matvec_st] and [matmat_st]
      with the state threaded through ([stream_st] over the batches,
      [batch_st] over the blocks).
    - [Scenarios]: the three tests of [test_hessian.py], each as a function
      of the fixture [case], the flags and the random input that returns the
      two values the test compares; [raises_ValueError_block] is the block
      [with raises(ValueError)] of the matrix-vector test.
    - [Float64]: the quadratic loss with float64 weights, and the tests run
      on it.
    - [Quadratic]: a quadratic loss as a concrete kernel, on which the
      operator and the tests run and the hypotheses of the theorems hold.

    ** How state and errors are modelled

    A Python function that may raise returns
    [result A]: [Return a] for a normal return, [Raise e] for an exception
    [e : exn].  A list comprehension whose element expression may raise is a
    [mapM] in this monad, so the first failing element aborts the whole
    comprehension, as in Python.  Python [int] is [Z] (unbounded); a NumPy
    int64 is a [Z] kept in range by [int64_wrap] after every addition.
    [len x] is [Z.of_nat (length x)].

    [allclose_report] prints: standard output is its state.  Standard
    output is the list of the texts printed so far, one per call of [print];
    [allclose_report_io] (in [Report]) takes it and returns it with the flag.
    It is [allclose_report] (in [Allclose]), which returns the flag and the
    items of the loop (the record [report_line] of the values the f-string
    formats: index, both entries, their ratio), followed by the loop that
    prints the f-string of each item.  An exception leaves standard output as
    it was: every operation that can raise comes before the first [print].
    [logical_not_] works in place on the
    tensor that [isclose] has just returned, which nothing else refers to,
    so it is modelled as a function.  The tolerances [rtol] and [atol] are
    Python floats, that is float64 values ([spec_float] at precision 53),
    whatever the dtype of the tensors: [isclose] tests their sign and
    whether both are zero on the floats themselves, and converts them to
    the dtype of the tensors ([s_of_float]: rounding to nearest for a float
    dtype, the exact value over the rationals) where they meet an entry.

    The kernel perturbs the values of the parameters while it runs, and can
    fail.  In [Scoped] the values are a state [S] and a kernel call is a
    function [S -> result A * S] (the monad [st] of [State]): the outcome
    and the state it leaves, also when it raises.  [scoped] is the snapshot
    and the [finally] that puts it back.  [Operator] is the same operator
    with a kernel that is a function; [Scoped] proves that it is what the
    calls compute.

    The operator holds a reference to its data stream and iterates it once
    per product.  The specification requires a stream that is finite and
    can be iterated again, so the stream is the list of its batches, and
    every product scans the whole list.

    The exception classes of the operator are those of the specification
    ([ConfigurationError], [ShapeMismatchError]).  The matrix-vector test
    expects a [ValueError] from a construction that cannot resolve the batch
    size; [ConfigurationError] is therefore an instance of [ValueError]
    ([is_ValueError]), as a subclass is in Python, and
    [raises_ValueError_block] accepts it.

    ** What the theorems show

    - [PySeq]: slicing never fails, returns a contiguous segment, has the
      length [max 0 (stop' - start')] of the adjusted indices, and adjacent
      in-range slices concatenate; [cumsum] has the length of its input and
      agrees with exact prefix sums [scan] whenever every partial sum fits
      in int64.
    - [SplitList]: [split_list] raises [ValueError] exactly when
      [len x <> sum sizes], with a message that carries both magnitudes, and
      otherwise returns (no IndexError is reachable) one sub-list per size;
      for non-negative sizes the result is [chunks x sizes], it is the
      unique partition of [x] with the requested lengths, and concatenating
      it gives [x] back; with a negative size the guard can still pass, and
      the sub-lists then do not have the requested sizes; the running sums
      can then leave the int64 range, and the wrap-around shows in the
      result ([split_list_wraps]).
    - [Blocking]: both blocking schemes sum to the number of parameters, so
      [split_list] never raises on them; per-parameter blocking yields
      singletons and two-block blocking yields the two halves.
    - [State]: a computation built from [mret], [st_lift], binds and
      [scoped] calls leaves the state as it found it ([restores]).
    - [Scalar]: over exact arithmetic and at tolerances that have a value
      (finite, not negative) [isclose_elem] is the documented inequality
      [|a - b| <= atol + rtol * |b|] at those values ([isclose_elem_exact]);
      on floats a NaN is close to nothing, every other entry is close to
      itself, and an infinity only to itself ([isclose_elem_infinity]);
      closeness is not symmetric; float32 rounds the tolerances
      ([SFconv_float32]).
    - [Format]: the digits that [.5e] prints are normalised, a text reads
      back as the sign, digits and exponent it was printed from, the number
      it denotes is within half a unit of its last digit of the exact value
      of the entry, ties go to the even digit, and the loop that counts
      digits has fuel enough.
    - [FormatG]: what [strip_zeros] drops is zeros at the end, and what it
      leaves does not end in one; in each of the three layouts (scientific,
      fixed with digits before the point, fixed below one) the text of six
      digits reads back as the number of the six digits
      ([parse_g_format_g_sci]), so that the text of a double denotes a
      number within half a unit of its sixth significant digit
      ([format_g_nearest]); the texts of tolerances in both notations, with
      a carry of the rounding into the exponent ([format_g_carry]).
    - [Tensor]: flat positions and multi-indices determine each other;
      expanding a tensor to its own shape changes nothing; a mask of the
      tensor's shape selects the entries at its true positions, and a mask
      of any other shape with at least as many dimensions is refused.
    - [Allclose]: on well-formed tensors of one shape [allclose_report]
      returns the value of [allclose] and prints exactly one line per pair
      of entries that is not close, in row-major order (the pipeline of
      whole-tensor operations equals a single pass); it raises
      [RuntimeError] exactly for invalid tolerances or shapes that do not
      broadcast (with the two sizes and the dimension in the message); on
      tensors of different shapes that broadcast it returns
      [True] or raises [IndexError], never [False]; a float tensor compared
      with itself gives [True] exactly when it holds no NaN, and a line for
      every NaN ([allclose_report_self]); a negative tolerance that float32
      rounds to [-0.0] is refused ([allclose_report_float32_sign]), and the
      message of a refused tolerance ends in its value
      ([allclose_report_refused]).
    - [Dtype]: on tensors of one dtype the pipeline is that of [Allclose]
      in the arithmetic of the dtype; tensors of different dtypes are
      refused by the first call, before the tolerances are looked at;
      [allclose_report] raises [RuntimeError] exactly for different dtypes,
      invalid tolerances or shapes that do not broadcast; the same call on
      the same values can be [True] on float32 and [False] on float64
      ([allclose_report_dtype_rounding]).
    - [Report]: on well-formed tensors of one shape a call of
      [allclose_report] appends to standard output the f-string of every
      pair of entries that is not close, in row-major order
      ([allclose_report_io_reference]); on well-formed tensors of any
      shapes, a call that returns has returned [True] exactly when it
      printed nothing ([allclose_report_io_quiet]); the text of an index in
      each layout of PyTorch (one line, several lines, summarised).
    - [Readback]: the reader returns, from the line printed for an item,
      the index of the item and the texts of its numbers
      ([parse_line_fstring]), for every index printed in full; on float
      entries that have a value the texts read back as numbers within half
      a unit of the sixth digit ([parse_line_float]).
    - [Linalg]: over exact arithmetic a block-diagonal matrix acts block by
      block; its transpose is the block-diagonal matrix of the transposed
      blocks; transposing twice gives a well-formed matrix back.
    - [Operator]: the outcome of construction on every input (the resolver's
      [ConfigurationError], the [ValueError] of [split_list], or the
      operator) and of [matvec] (the blockwise action or
      [ShapeMismatchError]); the operators a program can hold (the step
      relation [reachable]: the constructor, then adjoint views) keep the
      invariant [op_inv] that construction establishes, and never refuse a
      vector of their dimension; over exact arithmetic the blockwise action is the
      product with the block-diagonal matrix of the blocks' matrices; over a
      linear kernel [matvec] is linear ([matvec_linear]); on every dtype,
      for a kernel that keeps the dimension, what [matvec] returns has the
      dimension of the operator ([matvec_shape]).
    - [Stream]: over exact arithmetic the product does not depend on the
      order in which the stream yields its batches, in values and in
      exceptions ([matvec_stream_order]).
    - [Scoped]: from a state in which the calls return what the kernel
      computes, [matvec_st] and [matmat_st], which scan the stream in the
      outer loop and the blocks in the inner one, are [matvec] and [matmat]
      and leave the state as it was ([matvec_st_refines]); a call that
      raises ends the product with its exception ([matvec_st_raises]).
    - [Scenarios]: over exact arithmetic each test compares two equivalent
      values, for either blocking scheme, front end and adjoint flag, when
      the reference of every block is the symmetric matrix of the accumulated
      kernel on that block ([exact_reference]); with a mapping-like first
      batch the block [with raises(ValueError)] of the matrix-vector test
      passes ([test_matvec_guard_passes]), and the test then compares two
      equivalent values when the fixture names a batch-size function, and
      ends with the resolver's error when it names none
      ([test_matvec_guard]).
    - [Float64]: on float64 entries the two values of a test differ in
      their last bit; [allclose_report], applied to them, returns [True] at
      the tolerances that the tests name, and at zero tolerances prints
      texts that read the same; the order of the batches changes a product
      ([stream_order_float64]).
    - [Quadratic]: the quadratic loss satisfies [exact_reference] on every
      block and is a [LinearKernel], so the theorems of [Scenarios] and
      [Operator] apply to it; its call [quadratic_call] perturbs the
      parameters and fails on a batch of negative size, and the products
      restore them.

    ** Bounds

    CPython lists hold at most [PY_SSIZE_T_MAX = 2^63 - 1] items; theorems
    that need the absence of int64 overflow assume [len x <= PY_SSIZE_T_MAX]
    (written [py_list x]), which every list of a running program satisfies.
    NumPy converts a list of Python ints to int64 only when every element
    fits; elements outside the int64 range make NumPy choose another dtype
    and are outside the model (theorems that depend on it assume
    [Forall int64_range sizes] or derive it from non-negativity and the
    guard).  Floats are kept at their width: [float32] has 24 bits of
    precision and exponent bound 128, [float64] 53 and 1024, with the
    rounding of [SpecFloat]; theorems stated over [exact] say so.
    Floating-point addition is not associative ([float64_add_not_associative]
    in [Scalar]), so the theorems of [Linalg], [Operator] and [Scenarios]
    that equate two ways of summing are stated for dtypes with exact
    arithmetic (the class [ExactArith], up to the equivalence of the dtype;
    instance: the rationals with [Qeq]); the tests themselves compare within
    [rtol] and [atol].

    Two definitions use fuel.  [ilog10_go] divides by ten until one digit is
    left; [ilog10] gives it [Z.log2 q] steps, which is enough because a
    division by ten lowers the binary logarithm ([ilog10_enough_fuel]).
    [groups_go] cuts a list into groups of [n] items with the length of the
    list as fuel, one step per group, and no item is lost
    ([concat_groups_go]).  The text of an index follows
    PyTorch's default print options: lines of 80 characters and, above 1000
    items, the first and the last three.

    ** Not modelled

    - Integer, boolean, complex and half-precision dtypes and the
      promotion among them, [equal_nan], print options other than the
      defaults, and tensors on a device other than the CPU (whose index
      prints its device).  A NaN has no sign in [spec_float]: a refused
      NaN tolerance is printed as [nan], also where the C library would
      print [-nan].  Over the rationals a tolerance is its exact
      value; an infinite tolerance, which the rationals cannot hold, is
      taken to 0 ([exact_infinite_tolerance]), so the theorems over exact
      arithmetic are stated for tolerances that have a value.
    - The texts of numbers are those of the C library that Python and
      PyTorch call ([.5e] of an f-string, [%g] of the stream that writes a
      refused tolerance); they are modelled from its documented behaviour,
      with the digits counted by [ilog10], and are mapped to the line of
      [utils.py] that formats.
    - Of the operator: dtype and device metadata, and the conversion of
      entries between the array libraries at the SciPy front end.  What the
      kernel computes and what it does to the parameters during a call are
      not modelled: they are the classes [CurvatureKernel] and
      [KernelCall].  The specification does not fix the order of the two
      loops of a blocked product; [Scoped] takes the stream as the outer
      one, and the order shows only in which of several failing calls
      raises first.  [matmat] is defined as the specification defines it,
      by [matvec] on every column; a batched product is not modelled.  The
      operator is square ([shape] is the dimension twice), as a Hessian is.
      The products of the wrapper that [to_scipy] returns delegate to the
      operator.  Streams that cannot be iterated again
      (generators) are excluded by the specification and are not modelled.
    - Of the tests: [report_nonclose] and [functorch_hessian] (neither is
      under [src/] nor fixed by the specification); the model of a test
      returns the two values that [report_nonclose] is called on, and the
      reference is a parameter.  The theorems of [Scenarios] say that the
      two values are equivalent over exact arithmetic; whether
      [report_nonclose] accepts their float64 counterparts is not claimed.
    - A bound on the rounding error of the operator over floats: the
      theorems on values hold over exact arithmetic, and [Float64] runs the
      tests on float64 entries.
    - Data loaders, random number generation, devices, and streams that
      do not end.  The source is modelled in full: what could still be added
      is a theory of rounding errors over [SpecFloat], which the installed
      libraries do not provide. *)

From stdpp Require Export prelude strings pretty.

#[global] Open Scope Z_scope.

(** [len x] is Python's [len(x)].  An abbreviation, so that [lia] sees the
    [Z.of_nat] and knows the value is non-negative. *)
Abbreviation len l := (Z.of_nat (length l)).

(** ** Exceptions and the error monad *)

(** The exception classes the modelled code can raise, each with the message
    it is constructed with: [ValueError], [IndexError] and [RuntimeError] of
    Python, NumPy and PyTorch, the two classes that the specification names
    for the operator, and the [Failed] of pytest. *)
Inductive exn : Type :=
| ValueError (msg : string)
| IndexError (msg : string)
| RuntimeError (msg : string)
| ConfigurationError (msg : string)
| ShapeMismatchError (msg : string)
| Failed (msg : string).

#[global] Instance exn_eq_dec : EqDecision exn.
Proof. solve_decision. Defined.

(** [isinstance(e, ValueError)].  The specification names the class of the
    resolver's error and not its parents; the test of the repository that
    expects a [ValueError] from the constructor ([test_hessian.py], line 20)
    needs it to be one, so [ConfigurationError] is a [ValueError]. *)
Definition is_ValueError (e : exn) : bool :=
  match e with
  | ValueError _ | ConfigurationError _ => true
  | _ => false
  end.

(** The outcome of a call: a normal return or a raised exception. *)
Inductive result (A : Type) : Type :=
| Return (a : A)
| Raise (e : exn).

Arguments Return {A} a.
Arguments Raise {A} e.

#[global] Instance result_eq_dec `{EqDecision A} : EqDecision (result A).
Proof. solve_decision. Defined.

#[global] Instance result_ret : MRet result := @Return.

#[global] Instance result_bind : MBind result := λ A B f m,
  match m with Return a => f a | Raise e => Raise e end.

#[global] Instance result_fmap : FMap result := λ A B f m,
  match m with Return a => Return (f a) | Raise e => Raise e end.

(** [returns m]: the call returned normally. *)
Definition returns {A} (m : result A) : Prop := ∃ a, m = Return a.

(** [raises_ValueError m]: the call raised [ValueError]. *)
Definition raises_ValueError {A} (m : result A) : Prop :=
  ∃ msg, m = Raise (ValueError msg).

#[global] Instance returns_dec {A} (m : result A) : Decision (returns m).
Proof.
  destruct m as [a|e]; [left; by exists a | right; by intros [a ?]].
Defined.

(** ** Integer sums and prefix sums *)

(** The sum of a list of integers, by structural recursion. *)
Definition sumZ (l : list Z) : Z := foldr Z.add 0 l.

Arguments sumZ : simpl never.

(** [scan a l] is the list of exact prefix sums of [l] started at [a]:
    [a; a + l0; a + l0 + l1; ...], one more element than [l]. *)
Fixpoint scan (a : Z) (l : list Z) : list Z :=
  a :: match l with
       | [] => []
       | s :: l' => scan (a + s) l'
       end.

(** ** The rewrite database and tactics of the development *)

Create Rewrite HintDb pyseq.

(** [pysimpl] unfolds the monad operations on a known constructor. *)
Ltac pysimpl :=
  repeat (progress (cbn [mbind mret fmap result_bind result_ret result_fmap] in *)).

(** [pylen] normalises list lengths and closes the arithmetic. *)
Ltac pylen := autorewrite with pyseq in *; try lia.

(** ** Lemmas on the error monad *)

Lemma bind_Return {A B} (f : A → result B) (a : A) : Return a ≫= f = f a.
Proof. done. Qed.

Lemma bind_Raise {A B} (f : A → result B) (e : exn) : Raise e ≫= f = Raise e.
Proof. done. Qed.

Lemma returns_Return {A} (a : A) : returns (Return a).
Proof. by exists a. Qed.

Lemma not_returns_Raise {A} (e : exn) : ¬ returns (@Raise A e).
Proof. by intros [a ?]. Qed.

(** A comprehension whose element expression never raises is a plain map. *)
Lemma mapM_Return {A B} (f : A → result B) (g : A → B) (l : list A) :
  Forall (λ a, f a = Return (g a)) l → mapM f l = Return (g <$> l).
Proof.
  induction 1 as [|a l Ha _ IH]; [done|].
  cbn [mapM]. rewrite Ha, IH. done.
Qed.

(** A comprehension returns exactly when every element expression does. *)
Lemma mapM_returns {A B} (f : A → result B) (l : list A) :
  returns (mapM f l) ↔ Forall (λ a, returns (f a)) l.
Proof.
  induction l as [|a l IH]; [split; [constructor|intros; apply returns_Return]|].
  rewrite Forall_cons, <- IH. cbn [mapM].
  destruct (f a) as [b|e]; cbn; [|split; [by intros []%not_returns_Raise|by intros [[] _]]].
  destruct (mapM f l) as [k|e]; cbn.
  - split; [intros _; split; apply returns_Return|intros _; apply returns_Return].
  - split; [by intros []%not_returns_Raise|by intros [_ []%not_returns_Raise]].
Qed.

(** The exception of a comprehension is that of one of its elements. *)
Lemma mapM_raises {A B} (f : A → result B) (l : list A) (e : exn) :
  mapM f l = Raise e → ∃ a, a ∈ l ∧ f a = Raise e.
Proof.
  induction l as [|a l IH]; [done|]. cbn [mapM].
  destruct (f a) as [b|e'] eqn:Ha; cbn.
  - destruct (mapM f l) as [k|e'']; cbn; [done|]. intros [= ->].
    destruct IH as (a' & ? & ?); [done|]. exists a'. split; [by right|done].
  - intros [= ->]. exists a. split; [by left|done].
Qed.

(** ** Lemmas on sums *)

Lemma sumZ_nil : sumZ [] = 0.
Proof. done. Qed.

Lemma sumZ_cons (a : Z) (l : list Z) : sumZ (a :: l) = a + sumZ l.
Proof. done. Qed.

Lemma sumZ_app (l k : list Z) : sumZ (l ++ k) = sumZ l + sumZ k.
Proof. induction l as [|a l IH]; [done|]. rewrite <- app_comm_cons, !sumZ_cons. lia. Qed.

Lemma foldl_add_sumZ (a : Z) (l : list Z) : foldl Z.add a l = a + sumZ l.
Proof.
  revert a. induction l as [|b l IH]; intros a; cbn [foldl].
  - rewrite sumZ_nil. lia.
  - rewrite IH, sumZ_cons. lia.
Qed.

Lemma sumZ_nonneg (l : list Z) : Forall (λ s, 0 ≤ s) l → 0 ≤ sumZ l.
Proof. induction 1; rewrite ?sumZ_nil, ?sumZ_cons; lia. Qed.

Lemma sumZ_replicate (n : nat) (a : Z) : sumZ (replicate n a) = Z.of_nat n * a.
Proof. induction n as [|n IH]; cbn [replicate]; rewrite ?sumZ_nil, ?sumZ_cons; lia. Qed.

Lemma length_scan (a : Z) (l : list Z) : length (scan a l) = S (length l).
Proof. revert a. induction l as [|s l IH]; intros a; cbn; [done|]. by rewrite IH. Qed.

Lemma scan_cons (a s : Z) (l : list Z) : scan a (s :: l) = a :: scan (a + s) l.
Proof. done. Qed.

(** Consecutive pairs of prefix sums, one step unfolded. *)
Lemma zip_with_scan_cons {B} (f : Z → Z → B) (a s : Z) (l : list Z) :
  zip_with f (scan a (s :: l)) (tail (scan a (s :: l)))
  = f a (a + s) :: zip_with f (scan (a + s) l) (tail (scan (a + s) l)).
Proof. cbn [scan tail]. by destruct l. Qed.

#[export] Hint Rewrite @length_app @length_take @length_drop @length_fmap
  @length_replicate @length_seq length_seqZ length_scan @length_zip_with
  @length_cons @length_nil : pyseq.
