(* ===== verification/State.v ===== *)
(** * State: the state-and-error monad

    Python code that changes a state and can raise is a function from the
    state to an outcome and the state it leaves: the monad [st S].  An
    exception keeps the state it was raised in.  [try_finally] is
    [try: ... finally: ...], and [scoped] is the scoped acquisition of the
    specification: a snapshot of the state, put back when the body exits on
    either path.  [restores] says that a computation leaves the state as it
    found it; the hint database [restores] proves it of a computation built
    from the combinators. *)

From S2P Require Import Prelude.

(** ** The state-and-error monad *)

(** A computation over the state [S] that returns or raises. *)
Definition st (S A : Type) : Type := S → result A * S.

Section monad.
Context {S : Type}.

#[global] Instance st_ret : MRet (st S) := λ A a σ, (Return a, σ).

(** A raised exception skips the rest and keeps the state it was raised
    in. *)
#[global] Instance st_bind : MBind (st S) := λ A B f m σ,
  match m σ with
  | (Return a, σ') => f a σ'
  | (Raise e, σ') => (Raise e, σ')
  end.

(** A pure outcome. *)
Definition st_lift {A} (r : result A) : st S A := λ σ, (r, σ).

Definition st_get : st S S := λ σ, (Return σ, σ).

Definition st_put (σ : S) : st S unit := λ _, (Return (), σ).

(** [try: body finally: cleanup]: the cleanup runs on both exit paths of
    the body; an exception of the cleanup replaces the outcome. *)
Definition try_finally {A} (body : st S A) (cleanup : st S unit) : st S A := λ σ,
  let r := body σ in
  match cleanup r.2 with
  | (Return _, σ') => (r.1, σ')
  | (Raise e, σ') => (Raise e, σ')
  end.

(** The scoped acquisition: a snapshot of the state, restored when the
    body exits. *)
Definition scoped {A} (body : st S A) : st S A :=
  saved ← st_get; try_finally body (st_put saved).

(** A computation that leaves the state as it found it, on both exit
    paths. *)
Definition restores {A} (m : st S A) : Prop := ∀ σ, (m σ).2 = σ.

End monad.

(** ** The laws of the monad *)

Create HintDb restores discriminated.

Section laws.
Context {S : Type}.
Implicit Types (σ : S).

Lemma st_bind_lift {A B} (r : result A) (f : A → st S B) σ :
  (st_lift r ≫= f) σ = match r with Return a => f a σ | Raise e => (Raise e, σ) end.
Proof. by destruct r. Qed.

Lemma st_bind_run {A B} (m : st S A) (f : A → st S B) (r : result A) σ σ' :
  m σ = (r, σ') → (m ≫= f) σ = (st_lift r ≫= f) σ'.
Proof. unfold mbind, st_bind, st_lift. by intros ->. Qed.

(** The scoped call returns what the body returns, in the state it was
    entered in. *)
Lemma scoped_run {A} (body : st S A) σ : scoped body σ = ((body σ).1, σ).
Proof. done. Qed.

Lemma restores_run {A} (m : st S A) σ : restores m → m σ = ((m σ).1, σ).
Proof. intros Hm. specialize (Hm σ). by destruct (m σ) as [r σ']; simplify_eq/=. Qed.

Lemma restores_ret {A} (a : A) : restores (S := S) (mret a).
Proof. done. Qed.

Lemma restores_lift {A} (r : result A) : restores (S := S) (st_lift r).
Proof. done. Qed.

Lemma restores_bind {A B} (m : st S A) (f : A → st S B) :
  restores m → (∀ a, restores (f a)) → restores (m ≫= f).
Proof.
  intros Hm Hf σ. rewrite (st_bind_run m f (m σ).1 σ σ) by by apply restores_run.
  rewrite st_bind_lift. destruct (m σ).1; [apply Hf|done].
Qed.

Lemma restores_scoped {A} (body : st S A) : restores (scoped body).
Proof. done. Qed.

Lemma restores_mapM {A B} (f : A → st S B) (l : list A) :
  (∀ a, restores (f a)) → restores (mapM f l).
Proof.
  intros Hf. induction l as [|a l IH]; [done|].
  cbn [mapM]. apply restores_bind; [done|]. intros b.
  apply restores_bind; [done|]. intros k. apply restores_ret.
Qed.

(** A computation that agrees with a pure one at every item of a list,
    from a state that it leaves alone there, agrees on the list. *)
Lemma mapM_st_pure_Forall {A B} (f : A → st S B) (g : A → result B) (l : list A) σ :
  Forall (λ a, f a σ = (g a, σ)) l → mapM f l σ = (mapM g l, σ).
Proof.
  induction 1 as [|a l Ha _ IH]; [done|].
  cbn [mapM]. rewrite (st_bind_run _ _ _ _ _ Ha), st_bind_lift.
  destruct (g a) as [y|e]; [|done]. pysimpl.
  rewrite (st_bind_run _ _ _ _ _ IH), st_bind_lift. by destruct (mapM g l).
Qed.

Lemma mapM_st_pure {A B} (f : A → st S B) (g : A → result B) (l : list A) σ :
  (∀ a, f a σ = (g a, σ)) → mapM f l σ = (mapM g l, σ).
Proof. intros Hf. by apply mapM_st_pure_Forall, Forall_true. Qed.

End laws.

#[export] Hint Resolve restores_ret restores_lift restores_scoped : restores.
#[export] Hint Extern 2 (restores (_ ≫= _)) => apply restores_bind; [|intros ?] : restores.
