(* ===== verification/PyStr.v ===== *)
(** * PyStr: integers inside f-strings

    An f-string field [{n}] of a Python [int] is its decimal representation
    with a leading minus sign for negative numbers, which is what stdpp's
    [pretty] computes on [Z].  This file proves what a reader of a message
    needs: the decimal representation holds digits and the sign only, so a
    number embedded between fixed text can be read back. *)

From S2P Require Import Prelude.
From Stdlib Require Export Ascii.

(** ** Definitions *)

(** [str(n)] for a Python [int]. *)
Definition py_str_int (n : Z) : string := pretty n.

(** A character of a decimal representation: a digit or the sign. *)
Definition numeric_char (c : ascii) : bool :=
  bool_decide (c ∈ ["0"; "1"; "2"; "3"; "4"; "5"; "6"; "7"; "8"; "9"; "-"]%char).

(** Every character of [s] satisfies [p]. *)
Fixpoint string_forall (p : ascii → bool) (s : string) : bool :=
  match s with
  | EmptyString => true
  | String c s' => p c && string_forall p s'
  end.

(** [numeric s]: [s] holds digits and minus signs only. *)
Definition numeric (s : string) : bool := string_forall numeric_char s.

(** ** Decimal representations are numeric *)

Lemma numeric_pretty_N_char (x : N) : numeric_char (pretty_N_char x) = true.
Proof. unfold pretty_N_char. by repeat case_match. Qed.

Lemma numeric_pretty_N_go (x : N) (s : string) :
  numeric s = true → numeric (pretty_N_go x s) = true.
Proof.
  revert s. induction (N.lt_wf_0 x) as [x _ IH]; intros s Hs.
  assert (x = 0 ∨ 0 < x)%N as [->|?] by lia.
  - by rewrite pretty_N_go_0.
  - rewrite pretty_N_go_step by done. apply IH; [by apply N.div_lt|].
    unfold numeric in *. cbn [string_forall].
    by rewrite numeric_pretty_N_char, Hs.
Qed.

Lemma numeric_pretty_N (x : N) : numeric (pretty x) = true.
Proof.
  unfold pretty, pretty_N. case_decide; [done|].
  by apply numeric_pretty_N_go.
Qed.

Lemma numeric_app (s1 s2 : string) :
  numeric (s1 +:+ s2) = numeric s1 && numeric s2.
Proof.
  unfold numeric. induction s1 as [|c s1 IH]; [done|].
  change (numeric_char c && string_forall numeric_char (s1 +:+ s2)
          = numeric_char c && string_forall numeric_char s1
            && string_forall numeric_char s2).
  by rewrite IH, andb_assoc.
Qed.

Lemma numeric_py_str_int (n : Z) : numeric (py_str_int n) = true.
Proof.
  destruct n as [|p|p]; [done|..].
  - exact (numeric_pretty_N (N.pos p)).
  - change (numeric ("-" +:+ pretty (N.pos p)) = true).
    by rewrite numeric_app, numeric_pretty_N.
Qed.

#[global] Instance py_str_int_inj : Inj (=) (=) py_str_int.
Proof. unfold py_str_int. apply _. Qed.

(** ** Reading a field back *)

(** Two texts that agree, each a numeric field followed by the same
    non-numeric character, have the same field and the same remainder. *)
Lemma numeric_field_inj (s1 s2 r1 r2 : string) (c : ascii) :
  numeric s1 = true → numeric s2 = true → numeric_char c = false →
  s1 +:+ String c r1 = s2 +:+ String c r2 → s1 = s2 ∧ r1 = r2.
Proof.
  intros H1 H2 Hc. revert s2 H2.
  induction s1 as [|a s1 IH]; intros [|b s2] H2 Heq; cbn in Heq.
  - by injection Heq as ->.
  - injection Heq as -> _. unfold numeric in H2. cbn in H2.
    rewrite Hc in H2. done.
  - injection Heq as -> _. unfold numeric in H1. cbn in H1.
    rewrite Hc in H1. done.
  - injection Heq as -> Heq. unfold numeric in *. cbn in H1, H2.
    apply andb_prop in H1 as [_ H1]. apply andb_prop in H2 as [_ H2].
    destruct (IH H1 s2 H2 Heq) as [-> ->]. done.
Qed.
