(* ===== verification/PySeq.v ===== *)
(** * PySeq: the Python and NumPy primitives that [split_list] calls

    Each definition gives one built-in the semantics the interpreter gives
    it: [py_sum] is [sum] (a left fold from 0), [range] is [range(n)],
    [slice] is list slicing [x[start:stop]] with CPython's index adjustment
    ([PySlice_AdjustIndices] for step 1), [cumsum] is [numpy.cumsum] on an
    int64 array (every partial sum wrapped to 64 bits) and
    [ndarray_getitem] is integer indexing of a one-dimensional array.  The
    lemmas are the facts about them that the components share. *)

From S2P Require Import Prelude.

(** ** Bounds of the runtime *)

(** [sys.maxsize]: the largest length a CPython list can have. *)
Definition PY_SSIZE_T_MAX : Z := 2 ^ 63 - 1.

(** [py_list x]: [x] is a list a running CPython program can hold. *)
Definition py_list {A} (x : list A) : Prop := len x ≤ PY_SSIZE_T_MAX.

(** The range of NumPy's int64. *)
Definition int64_range (z : Z) : Prop := - 2 ^ 63 ≤ z ≤ 2 ^ 63 - 1.

#[global] Instance int64_range_dec z : Decision (int64_range z).
Proof. unfold int64_range. apply _. Defined.

(** Two's-complement wrap-around of an integer to 64 bits. *)
Definition int64_wrap (z : Z) : Z := (z + 2 ^ 63) `mod` 2 ^ 64 - 2 ^ 63.

(** ** Python built-ins *)

(** [sum(l)]: start from 0 and add the items from left to right. *)
Definition py_sum (l : list Z) : Z := foldl Z.add 0 l.

(** [range(n)]: [0, 1, ..., n - 1], empty when [n <= 0]. *)
Definition range (n : Z) : list Z := seqZ 0 n.

(** One bound of a slice, adjusted to a list of length [n]: a negative
    index counts from the end, and what is still out of range is clamped. *)
Definition adjust_index (n i : Z) : Z :=
  if decide (i < 0) then (if decide (i + n < 0) then 0 else i + n)
  else if decide (n ≤ i) then n else i.

(** [x[start:stop]]: the items from the adjusted [start] up to, not
    including, the adjusted [stop]; empty when they cross. *)
Definition slice {A} (x : list A) (start stop : Z) : list A :=
  let lo := adjust_index (len x) start in
  let hi := adjust_index (len x) stop in
  take (Z.to_nat (hi - lo)) (drop (Z.to_nat lo) x).

(** ** NumPy *)

(** The running sums of [l] from accumulator [acc], each wrapped to int64. *)
Fixpoint cumsum_from (acc : Z) (l : list Z) : list Z :=
  match l with
  | [] => []
  | a :: l' => let s := int64_wrap (acc + a) in s :: cumsum_from s l'
  end.

(** [numpy.cumsum(l)] for a list of Python ints that fit in int64. *)
Definition cumsum (l : list Z) : list Z := cumsum_from 0 l.

(** The exception NumPy raises for an index outside the array. *)
Definition index_error (i n : Z) : exn :=
  IndexError ("index " +:+ pretty i +:+ " is out of bounds for axis 0 with size "
              +:+ pretty n).

(** [arr[i]] for a one-dimensional array and an integer [i]: a negative
    index counts from the end; out of bounds raises [IndexError]. *)
Definition ndarray_getitem (arr : list Z) (i : Z) : result Z :=
  let n := len arr in
  let j := if decide (i < 0) then i + n else i in
  if decide (0 ≤ j) then
    match arr !! Z.to_nat j with
    | Some v => Return v
    | None => Raise (index_error i n)
    end
  else Raise (index_error i n).

Arguments slice : simpl never.
Arguments cumsum : simpl never.
Arguments range : simpl never.
Arguments ndarray_getitem : simpl never.

(** ** [sum] and [range] *)

Lemma py_sum_sumZ (l : list Z) : py_sum l = sumZ l.
Proof. unfold py_sum. by rewrite foldl_add_sumZ. Qed.

Lemma py_sum_app (l k : list Z) : py_sum (l ++ k) = py_sum l + py_sum k.
Proof. rewrite !py_sum_sumZ. apply sumZ_app. Qed.

Lemma length_range (n : Z) : length (range n) = Z.to_nat n.
Proof. apply length_seqZ. Qed.

Lemma range_len {A} (l : list A) : range (len l) = Z.of_nat <$> seq 0 (length l).
Proof.
  unfold range, seqZ. rewrite Nat2Z.id. apply list_fmap_ext. intros; lia.
Qed.

(** ** Index adjustment *)

Lemma adjust_index_bounds (n i : Z) : 0 ≤ n → 0 ≤ adjust_index n i ≤ n.
Proof. intros. unfold adjust_index. repeat case_decide; lia. Qed.

Lemma adjust_index_in_range (n i : Z) : 0 ≤ i ≤ n → adjust_index n i = i.
Proof. intros. unfold adjust_index. repeat case_decide; lia. Qed.

Lemma adjust_index_negative (n i : Z) :
  - n ≤ i < 0 → adjust_index n i = i + n.
Proof. intros. unfold adjust_index. repeat case_decide; lia. Qed.

Lemma adjust_index_mono (n i j : Z) :
  0 ≤ n → 0 ≤ i ≤ j → adjust_index n i ≤ adjust_index n j.
Proof. intros. unfold adjust_index. repeat case_decide; lia. Qed.

(** ** int64 *)

Lemma int64_wrap_range (z : Z) : int64_range (int64_wrap z).
Proof.
  unfold int64_range, int64_wrap.
  pose proof (Z.mod_pos_bound (z + 2 ^ 63) (2 ^ 64)). lia.
Qed.

Lemma int64_wrap_id (z : Z) : int64_range z → int64_wrap z = z.
Proof.
  unfold int64_range, int64_wrap. intros. rewrite Z.mod_small; lia.
Qed.

Lemma int64_wrap_idemp (z : Z) : int64_wrap (int64_wrap z) = int64_wrap z.
Proof. apply int64_wrap_id, int64_wrap_range. Qed.

(** Wrapping an intermediate sum does not change the wrapped total. *)
Lemma int64_wrap_add_l (a b : Z) : int64_wrap (int64_wrap a + b) = int64_wrap (a + b).
Proof.
  unfold int64_wrap.
  replace ((a + 2 ^ 63) `mod` 2 ^ 64 - 2 ^ 63 + b + 2 ^ 63)
    with ((a + 2 ^ 63) `mod` 2 ^ 64 + b) by lia.
  replace (a + b + 2 ^ 63) with ((a + 2 ^ 63) + b) by lia.
  by rewrite Zplus_mod_idemp_l.
Qed.

Lemma int64_wrap_0 : int64_wrap 0 = 0.
Proof. done. Qed.

(** ** Slicing *)

Section slice.
Context {A : Type}.
Implicit Types (x : list A) (a b c : Z).

(** Within range, a slice is [stop - start] items after dropping [start]. *)
Lemma slice_in_range x a b :
  0 ≤ a ≤ len x → 0 ≤ b ≤ len x →
  slice x a b = take (Z.to_nat (b - a)) (drop (Z.to_nat a) x).
Proof. intros. unfold slice. by rewrite !adjust_index_in_range. Qed.

Lemma slice_adjust x a b :
  slice x a b = slice x (adjust_index (len x) a) (adjust_index (len x) b).
Proof.
  unfold slice.
  rewrite !(adjust_index_in_range _ (adjust_index _ _)); [done|..];
    apply adjust_index_bounds; lia.
Qed.

Lemma length_slice x a b :
  len (slice x a b) = Z.max 0 (adjust_index (len x) b - adjust_index (len x) a).
Proof.
  unfold slice. rewrite length_take, length_drop.
  pose proof (adjust_index_bounds (len x) a).
  pose proof (adjust_index_bounds (len x) b). lia.
Qed.

Lemma slice_crossed x a b :
  adjust_index (len x) b ≤ adjust_index (len x) a → slice x a b = [].
Proof.
  intros. unfold slice.
  replace (Z.to_nat _) with 0%nat by lia. done.
Qed.

Lemma slice_full x : slice x 0 (len x) = x.
Proof.
  rewrite slice_in_range by lia.
  rewrite Z.sub_0_r, Nat2Z.id. cbn [Z.to_nat drop]. by rewrite firstn_all.
Qed.

(** A slice is a contiguous segment of the list, whatever the indices. *)
Lemma slice_segment x a b : ∃ pre post, x = pre ++ slice x a b ++ post.
Proof.
  unfold slice.
  set (lo := Z.to_nat (adjust_index (len x) a)). set (n := Z.to_nat _).
  exists (take lo x), (drop n (drop lo x)).
  by rewrite take_drop, take_drop.
Qed.

(** Adjacent slices concatenate. *)
Lemma slice_app x a b c :
  0 ≤ a ≤ b → b ≤ c ≤ len x → slice x a b ++ slice x b c = slice x a c.
Proof.
  intros. rewrite !slice_in_range by lia.
  replace (drop (Z.to_nat b) x)
    with (drop (Z.to_nat (b - a)) (drop (Z.to_nat a) x))
    by (rewrite drop_drop; f_equal; lia).
  rewrite take_take_drop. f_equal; lia.
Qed.

(** What follows a prefix of [x] of length [a], sliced relative to it. *)
Lemma slice_drop x a b c :
  0 ≤ a ≤ len x → 0 ≤ b ≤ c → a + c ≤ len x →
  slice (drop (Z.to_nat a) x) b c = slice x (a + b) (a + c).
Proof.
  intros. rewrite !slice_in_range by (rewrite ?length_drop; lia).
  rewrite drop_drop. f_equal; [lia | f_equal; lia].
Qed.

End slice.

(** ** [cumsum] *)

Lemma length_cumsum_from (acc : Z) (l : list Z) : length (cumsum_from acc l) = length l.
Proof. revert acc. induction l as [|a l IH]; intros acc; cbn; [done|]. by rewrite IH. Qed.

Lemma length_cumsum (l : list Z) : length (cumsum l) = length l.
Proof. apply length_cumsum_from. Qed.

(** The closed form of [cumsum]: the exact prefix sums, each wrapped. *)
Lemma cumsum_from_scan (acc : Z) (l : list Z) :
  cumsum_from (int64_wrap acc) l = int64_wrap <$> tail (scan acc l).
Proof.
  revert acc. induction l as [|a l IH]; intros acc; [done|].
  cbn [cumsum_from scan tail]. rewrite int64_wrap_add_l, IH.
  by destruct l.
Qed.

Lemma cumsum_scan (l : list Z) : cumsum l = int64_wrap <$> tail (scan 0 l).
Proof. unfold cumsum. rewrite <- int64_wrap_0 at 1. apply cumsum_from_scan. Qed.

(** The boundaries [cumsum([0] + sizes)] of [split_list]. *)
Lemma cumsum_cons_0 (l : list Z) : cumsum (0 :: l) = int64_wrap <$> scan 0 l.
Proof. rewrite cumsum_scan. cbn [scan tail]. by destruct l. Qed.

(** Without overflow [cumsum] is exact. *)
Lemma cumsum_cons_0_exact (l : list Z) :
  Forall int64_range (scan 0 l) → cumsum (0 :: l) = scan 0 l.
Proof.
  intros Hr. rewrite cumsum_cons_0.
  rewrite <- (list_fmap_id (scan 0 l)) at 2.
  apply Forall_fmap_ext_1. eapply Forall_impl; [done|].
  intros z Hz. by rewrite int64_wrap_id.
Qed.

(** ** Exact prefix sums *)

Lemma scan_lookup (a : Z) (l : list Z) (i : nat) :
  (i ≤ length l)%nat → scan a l !! i = Some (a + sumZ (take i l)).
Proof.
  revert a i. induction l as [|s l IH]; intros a [|i] Hi; cbn in Hi |- *;
    try (f_equal; rewrite ?sumZ_nil; lia).
  rewrite IH by lia. f_equal. rewrite sumZ_cons. lia.
Qed.

Lemma scan_last (a : Z) (l : list Z) : last (scan a l) = Some (a + sumZ l).
Proof.
  rewrite last_lookup, length_scan. cbn [pred].
  rewrite scan_lookup by lia. by rewrite firstn_all.
Qed.

(** For non-negative summands the prefix sums grow from [a] to the total. *)
Lemma scan_bounds (a : Z) (l : list Z) :
  Forall (λ s, 0 ≤ s) l → Forall (λ b, a ≤ b ≤ a + sumZ l) (scan a l).
Proof.
  intros Hl. revert a. induction Hl as [|s l Hs Hl IH]; intros a.
  - cbn. rewrite sumZ_nil. repeat constructor; lia.
  - pose proof (sumZ_nonneg l Hl). cbn [scan]. rewrite sumZ_cons.
    constructor; [lia|].
    eapply Forall_impl; [apply IH|]. cbn. intros; lia.
Qed.

(** ** Array indexing *)

Lemma ndarray_getitem_in_range (arr : list Z) (i : Z) (v : Z) :
  0 ≤ i → arr !! Z.to_nat i = Some v → ndarray_getitem arr i = Return v.
Proof.
  intros Hi Hv. unfold ndarray_getitem. cbv zeta.
  rewrite (decide_False (P := i < 0)) by lia.
  rewrite decide_True by lia. by rewrite Hv.
Qed.

Lemma ndarray_getitem_out_of_range (arr : list Z) (i : Z) :
  len arr ≤ i → ndarray_getitem arr i = Raise (index_error i (len arr)).
Proof.
  intros Hi. unfold ndarray_getitem. cbv zeta.
  rewrite (decide_False (P := i < 0)) by lia.
  rewrite decide_True by lia.
  by rewrite lookup_ge_None_2 by lia.
Qed.

Lemma ndarray_getitem_cons (b : Z) (arr : list Z) (i : Z) :
  0 ≤ i < len arr → ndarray_getitem (b :: arr) (i + 1) = ndarray_getitem arr i.
Proof.
  intros Hi. destruct (lookup_lt_is_Some_2 arr (Z.to_nat i)) as [v Hv]; [lia|].
  rewrite (ndarray_getitem_in_range arr i v) by (done || lia).
  apply ndarray_getitem_in_range; [lia|].
  replace (Z.to_nat (i + 1)) with (S (Z.to_nat i)) by lia. done.
Qed.

(** ** The behaviour of the primitives, as the components rely on it *)

(** [numpy.cumsum] on int64 is the exact running sum wrapped to 64
    bits: wrapping after every addition gives the same array as wrapping
    each exact prefix sum once, so an overflow in the middle does not
    corrupt later entries that fit again. *)
Theorem cumsum_closed_form (l : list Z) :
  cumsum l = int64_wrap <$> tail (scan 0 l)
  ∧ Forall int64_range (cumsum l).
Proof.
  split; [apply cumsum_scan|].
  rewrite cumsum_scan. apply Forall_fmap, Forall_true, int64_wrap_range.
Qed.

(** Item [k] of [x[start:stop]] is item [lo + k] of [x] as long as
    [lo + k] is below [hi], where [lo] and [hi] are the adjusted bounds;
    beyond that the slice has ended.  Slicing never fails. *)
Theorem lookup_slice {A} (x : list A) (start stop : Z) (k : nat) :
  slice x start stop !! k
  = if decide (adjust_index (len x) start + Z.of_nat k < adjust_index (len x) stop)
    then x !! (Z.to_nat (adjust_index (len x) start) + k)%nat
    else None.
Proof.
  unfold slice.
  pose proof (adjust_index_bounds (len x) start).
  pose proof (adjust_index_bounds (len x) stop).
  case_decide.
  - rewrite lookup_take_lt by lia. by rewrite lookup_drop.
  - rewrite lookup_take_ge by lia. done.
Qed.

(** Indexing a one-dimensional array returns the item at [i], counted
    from the end when [i] is negative, and raises [IndexError] exactly when
    [i] is outside [-len arr .. len arr - 1]. *)
Theorem ndarray_getitem_spec (arr : list Z) (i : Z) :
  ndarray_getitem arr i
  = if decide (- len arr ≤ i < len arr)
    then from_option Return (Raise (index_error i (len arr)))
           (arr !! Z.to_nat (i `mod` len arr))
    else Raise (index_error i (len arr)).
Proof.
  unfold ndarray_getitem. cbv zeta.
  destruct (decide (- len arr ≤ i < len arr)) as [Hr|Hr];
    destruct (decide (i < 0)) as [Hn|Hn].
  - rewrite decide_True by lia.
    replace (i `mod` len arr) with (i + len arr); [by destruct (arr !! _)|].
    apply Z.mod_unique with (-1); lia.
  - rewrite decide_True by lia. rewrite Z.mod_small by lia. by destruct (arr !! _).
  - by rewrite decide_False by lia.
  - rewrite decide_True by lia. by rewrite lookup_ge_None_2 by lia.
Qed.
