(* ===== verification/SplitList.v ===== *)
(** * SplitList: the block partitioner [split_list] of [utils.py]

    [split_list] is translated line by line: the guard on [len(x)] and
    [sum(sizes)] with its [ValueError], the boundaries
    [cumsum([0] + sizes)] (an int64 array), and the comprehension that
    slices [x] between consecutive boundaries.  Indexing the boundaries may
    raise in the model, as it may in NumPy; the theorems show that it never
    does.  [chunks] is the reference partitioner by structural recursion and
    [is_partition] the contract of the block partitioner. *)

From S2P Require Import Prelude PyStr PySeq.

(** ** The code *)

(** The [ValueError] of [split_list], with the message the f-string builds
    from the list's length and the requested total. *)
Definition split_list_error (n total : Z) : exn :=
  ValueError ("List to be split has length " +:+ py_str_int n
              +:+ ", but requested sub-list with a total"
              +:+ " of " +:+ py_str_int total +:+ " entries.").

(** One element of the comprehension: [x[boundaries[i] : boundaries[i + 1]]]. *)
Definition split_list_item {A} (x : list A) (boundaries : list Z) (i : Z)
    : result (list A) :=
  lo ← ndarray_getitem boundaries i;
  hi ← ndarray_getitem boundaries (i + 1);
  mret (slice x lo hi).

(** [split_list(x, sizes)]. *)
Definition split_list {A} (x : list A) (sizes : list Z) : result (list (list A)) :=
  if decide (len x ≠ py_sum sizes) then
    Raise (split_list_error (len x) (py_sum sizes))
  else
    let boundaries := cumsum ([0] ++ sizes) in
    mapM (split_list_item x boundaries) (range (len sizes)).

(** ** The reference and the contract *)

(** The reference partitioner: take the first block, recurse on the rest. *)
Fixpoint chunks {A} (x : list A) (sizes : list nat) : list (list A) :=
  match sizes with
  | [] => []
  | n :: ns => take n x :: chunks (drop n x) ns
  end.

(** The contract of the block partitioner: contiguous, order-preserving,
    non-overlapping blocks, block [i] holding [sizes[i]] items. *)
Definition is_partition {A} (x : list A) (sizes : list Z) (parts : list (list A))
    : Prop :=
  concat parts = x ∧ (λ p : list A, len p) <$> parts = sizes.

(** The sizes the interface documents: no negative entry. *)
Definition valid_sizes (sizes : list Z) : Prop := Forall (λ s, 0 ≤ s) sizes.

#[global] Instance valid_sizes_dec sizes : Decision (valid_sizes sizes).
Proof. unfold valid_sizes. apply _. Defined.

(** ** The comprehension over consecutive boundaries *)

Section comprehension.
Context {A : Type}.
Implicit Types (x : list A) (bs sizes : list Z) (parts : list (list A)).

(** Within the array both lookups succeed and the item is a slice. *)
Lemma split_list_item_in_range x bs (i : nat) (lo hi : Z) :
  bs !! i = Some lo → bs !! S i = Some hi →
  split_list_item x bs (Z.of_nat i) = Return (slice x lo hi).
Proof.
  intros Hlo Hhi. unfold split_list_item.
  rewrite (ndarray_getitem_in_range bs (Z.of_nat i) lo)
    by (rewrite ?Nat2Z.id; done || lia).
  rewrite bind_Return.
  rewrite (ndarray_getitem_in_range bs (Z.of_nat i + 1) hi); [done|lia|].
  by replace (Z.to_nat (Z.of_nat i + 1)) with (S i) by lia.
Qed.

(** The comprehension over an array of [n + 1] boundaries returns the [n]
    slices between consecutive boundaries. *)
Lemma mapM_split_list_item x bs (n : nat) :
  length bs = S n →
  mapM (split_list_item x bs) (range (Z.of_nat n))
  = Return (zip_with (slice x) bs (tail bs)).
Proof.
  intros Hn.
  rewrite (mapM_Return _ (λ i, slice x (bs !!! Z.to_nat i) (bs !!! S (Z.to_nat i)))).
  - f_equal. apply list_eq. intros i.
    rewrite list_lookup_fmap, lookup_zip_with, lookup_tail.
    destruct (decide (i < n)%nat) as [Hi|Hi].
    + unfold range. rewrite lookup_seqZ_lt by lia. cbn.
      destruct (lookup_lt_is_Some_2 bs i) as [lo Hlo]; [lia|].
      destruct (lookup_lt_is_Some_2 bs (S i)) as [hi Hhi]; [lia|].
      rewrite Hlo, Hhi. cbn. rewrite Z.add_0_l, Nat2Z.id.
      by rewrite (list_lookup_total_correct _ _ _ Hlo),
        (list_lookup_total_correct _ _ _ Hhi).
    + unfold range. rewrite lookup_seqZ_ge by lia. cbn.
      rewrite (lookup_ge_None_2 bs (S i)) by lia. by destruct (bs !! i).
  - apply Forall_seqZ. intros i Hi.
    destruct (lookup_lt_is_Some_2 bs (Z.to_nat i)) as [lo Hlo]; [lia|].
    destruct (lookup_lt_is_Some_2 bs (S (Z.to_nat i))) as [hi Hhi]; [lia|].
    rewrite (list_lookup_total_correct _ _ _ Hlo),
      (list_lookup_total_correct _ _ _ Hhi).
    rewrite <- (Z2Nat.id i) at 1 by lia. by apply split_list_item_in_range.
Qed.

End comprehension.

(** ** The reference partitioner *)

Section chunks.
Context {A : Type}.
Implicit Types (x : list A) (ns : list nat) (parts : list (list A)).

Lemma length_chunks x ns : length (chunks x ns) = length ns.
Proof. revert x. induction ns as [|n ns IH]; intros x; cbn; [done|]. by rewrite IH. Qed.

(** The blocks, concatenated, are the prefix of [x] they were cut from. *)
Lemma concat_chunks x ns : concat (chunks x ns) = take (sum_list ns) x.
Proof.
  revert x. induction ns as [|n ns IH]; intros x; cbn.
  - by rewrite take_0.
  - by rewrite IH, take_take_drop.
Qed.

(** Each block has the requested length when the list is long enough. *)
Lemma fmap_length_chunks x ns :
  (sum_list ns ≤ length x)%nat → length <$> chunks x ns = ns.
Proof.
  revert x. induction ns as [|n ns IH]; intros x Hx; [done|].
  cbn in Hx. cbn [chunks fmap list_fmap].
  rewrite length_take. fold (fmap (M := list) (@length A)).
  rewrite IH by (rewrite length_drop; lia). f_equal. lia.
Qed.

(** Cutting a concatenation at the lengths of its parts gives the parts. *)
Lemma chunks_concat parts : chunks (concat parts) (length <$> parts) = parts.
Proof.
  induction parts as [|p parts IH]; [done|].
  cbn [concat fmap list_fmap chunks]. fold (fmap (M := list) (@length A)).
  by rewrite take_app_length, drop_app_length, IH.
Qed.

(** Block [k] starts after the blocks before it and has [ns[k]] items. *)
Lemma lookup_chunks x ns (k n : nat) :
  ns !! k = Some n →
  chunks x ns !! k = Some (take n (drop (sum_list (take k ns)) x)).
Proof.
  revert x k. induction ns as [|m ns IH]; intros x [|k] Hk; try done.
  - by injection Hk as ->.
  - cbn [chunks lookup list_lookup]. rewrite (IH _ _ Hk), drop_drop. done.
Qed.

(** Chunks of size one are the items, each in a list of its own. *)
Lemma chunks_singletons x :
  chunks x (replicate (length x) 1%nat) = (λ p, [p]) <$> x.
Proof.
  induction x as [|p x IH]; [done|].
  by rewrite fmap_cons, <- IH.
Qed.

End chunks.

(** ** Sizes as integers and as naturals *)

Lemma sum_list_to_nat (sizes : list Z) :
  valid_sizes sizes → Z.of_nat (sum_list (Z.to_nat <$> sizes)) = sumZ sizes.
Proof.
  induction 1 as [|s sizes Hs _ IH]; [done|].
  rewrite fmap_cons, sumZ_cons. cbn. lia.
Qed.

Lemma fmap_of_nat_to_nat (sizes : list Z) :
  valid_sizes sizes → Z.of_nat <$> (Z.to_nat <$> sizes) = sizes.
Proof.
  induction 1 as [|s sizes Hs _ IH]; [done|].
  rewrite !fmap_cons, IH. f_equal. lia.
Qed.

Lemma valid_sizes_fmap_len {A} (parts : list (list A)) :
  valid_sizes ((λ p : list A, len p) <$> parts).
Proof. apply Forall_fmap, Forall_true. intros p. cbn. lia. Qed.

Lemma sumZ_fmap_len {A} (parts : list (list A)) :
  sumZ ((λ p : list A, len p) <$> parts) = len (concat parts).
Proof.
  induction parts as [|p parts IH]; [done|].
  cbn [fmap list_fmap concat]. fold (fmap (M := list) (λ p : list A, len p)).
  rewrite sumZ_cons, IH, length_app. lia.
Qed.

(** ** Boundaries *)

Section boundaries.
Context {A : Type}.
Implicit Types (x : list A) (sizes : list Z) (parts : list (list A)).

(** With documented sizes and a guard that passed, no partial sum leaves
    [0 .. len x], so the int64 arithmetic of [cumsum] never wraps. *)
Lemma boundaries_bounds x sizes :
  valid_sizes sizes → len x = py_sum sizes →
  Forall (λ b, 0 ≤ b ≤ len x) (scan 0 sizes).
Proof.
  intros Hv Hg. rewrite py_sum_sumZ in Hg. rewrite Hg.
  by apply (scan_bounds 0).
Qed.

Lemma boundaries_exact x sizes :
  valid_sizes sizes → py_list x → len x = py_sum sizes →
  cumsum (0 :: sizes) = scan 0 sizes.
Proof.
  intros Hv Hx Hg. apply cumsum_cons_0_exact.
  eapply Forall_impl; [by apply (boundaries_bounds x)|].
  unfold py_list, PY_SSIZE_T_MAX, int64_range in *. cbn. intros; lia.
Qed.

(** Slicing [x] between consecutive exact prefix sums from offset [a] is
    the reference partitioner applied to what follows the offset. *)
Lemma zip_with_slice_scan x sizes (a : Z) :
  0 ≤ a → valid_sizes sizes → a + sumZ sizes ≤ len x →
  zip_with (slice x) (scan a sizes) (tail (scan a sizes))
  = chunks (drop (Z.to_nat a) x) (Z.to_nat <$> sizes).
Proof.
  intros Ha Hv. revert a Ha. induction Hv as [|s sizes Hs Hv IH]; intros a Ha Hx.
  { done. }
  rewrite sumZ_cons in Hx. pose proof (sumZ_nonneg sizes Hv).
  rewrite zip_with_scan_cons, IH by lia.
  rewrite fmap_cons. cbn [chunks].
  rewrite slice_in_range, drop_drop by lia.
  f_equal; [f_equal; lia | do 2 f_equal; lia].
Qed.

End boundaries.
(** ** The reference partitioner meets the contract, and only it does *)

Section contract.
Context {A : Type}.
Implicit Types (x : list A) (sizes : list Z) (parts : list (list A)).

Lemma fmap_len_chunks x sizes :
  valid_sizes sizes → sumZ sizes ≤ len x →
  (λ p : list A, len p) <$> chunks x (Z.to_nat <$> sizes) = sizes.
Proof.
  intros Hv Hx.
  transitivity (Z.of_nat <$> (length <$> chunks x (Z.to_nat <$> sizes))).
  { by rewrite <- list_fmap_compose. }
  rewrite fmap_length_chunks; [by apply fmap_of_nat_to_nat|].
  apply Nat2Z.inj_le. by rewrite sum_list_to_nat.
Qed.

Lemma chunks_is_partition x sizes :
  valid_sizes sizes → len x = sumZ sizes →
  is_partition x sizes (chunks x (Z.to_nat <$> sizes)).
Proof.
  intros Hv Hx. split; [|apply fmap_len_chunks; [done|lia]].
  rewrite concat_chunks. apply take_ge.
  apply Nat2Z.inj_le. rewrite sum_list_to_nat by done. lia.
Qed.

Lemma is_partition_chunks x sizes parts :
  is_partition x sizes parts → parts = chunks x (Z.to_nat <$> sizes).
Proof.
  intros [<- <-]. rewrite <- list_fmap_compose.
  rewrite (list_fmap_ext _ length parts) by (intros; cbn; lia).
  by rewrite chunks_concat.
Qed.

Lemma is_partition_valid x sizes parts :
  is_partition x sizes parts → valid_sizes sizes ∧ len x = sumZ sizes.
Proof.
  intros [<- <-]. split; [apply valid_sizes_fmap_len|].
  by rewrite sumZ_fmap_len.
Qed.

End contract.

(** ** [split_list]: the guard, totality and the closed form *)

Section split_list.
Context {A : Type}.
Implicit Types (x : list A) (sizes : list Z) (parts : list (list A)).

Lemma split_list_guard_fails x sizes :
  len x ≠ py_sum sizes →
  split_list x sizes = Raise (split_list_error (len x) (py_sum sizes)).
Proof. intros. unfold split_list. by rewrite decide_True. Qed.

(** Past the guard the comprehension returns the slices of [x] between
    consecutive boundaries: no index is out of bounds. *)
Lemma split_list_guard_passes x sizes :
  len x = py_sum sizes →
  split_list x sizes
  = Return (zip_with (slice x) (cumsum (0 :: sizes)) (tail (cumsum (0 :: sizes)))).
Proof.
  intros. unfold split_list. rewrite decide_False by (intros ?; done).
  apply mapM_split_list_item. by rewrite length_cumsum.
Qed.

(** The message of the [ValueError] determines both magnitudes: two
    mismatches with different lengths or different requested totals never
    produce the same message. *)
Theorem split_list_error_inj (n total n' total' : Z) :
  split_list_error n total = split_list_error n' total' → n = n' ∧ total = total'.
Proof.
  unfold split_list_error. intros [= Hm].
  apply (inj (String.append _)) in Hm.
  change (py_str_int n +:+ String ","%char (" but requested sub-list with a total of "
            +:+ py_str_int total +:+ " entries.")
          = py_str_int n' +:+ String ","%char (" but requested sub-list with a total of "
            +:+ py_str_int total' +:+ " entries.")) in Hm.
  apply numeric_field_inj in Hm as [Hn Hm]; [|apply numeric_py_str_int..|done].
  apply (inj (String.append _)) in Hm.
  change (py_str_int total +:+ String " "%char "entries."
          = py_str_int total' +:+ String " "%char "entries.") in Hm.
  apply numeric_field_inj in Hm as [Ht _]; [|apply numeric_py_str_int..|done].
  split; by apply (inj py_str_int).
Qed.

(** C2: [split_list] raises exactly when the list's length differs from the
    sum of the sizes, and what it raises is the [ValueError] whose message
    reports the length and the requested total. *)
Theorem split_list_raises_iff x sizes (e : exn) :
  split_list x sizes = Raise e
  ↔ len x ≠ py_sum sizes ∧ e = split_list_error (len x) (py_sum sizes).
Proof.
  destruct (decide (len x = py_sum sizes)) as [Hg|Hg].
  - rewrite split_list_guard_passes by done. split; [intros [=]|intros [? _]; done].
  - rewrite split_list_guard_fails by done.
    split; [by intros [= <-]|by intros [_ ->]].
Qed.

Lemma split_list_returns_guard x sizes :
  returns (split_list x sizes) ↔ len x = py_sum sizes.
Proof.
  destruct (decide (len x = py_sum sizes)) as [Hg|Hg].
  - rewrite split_list_guard_passes by done. split; [done|]. intros _. apply returns_Return.
  - rewrite split_list_guard_fails by done. split; [|done].
    intros []%not_returns_Raise.
Qed.

(** C3: [split_list] returns normally exactly when the guard passes: the
    indexing of the boundaries never raises [IndexError], whatever the
    sizes, negative ones included. *)
Theorem split_list_returns_iff x sizes :
  returns (split_list x sizes) ↔ len x = py_sum sizes.
Proof. apply split_list_returns_guard. Qed.

(** What a normal return tells: the guard passed and the result is the
    slices between consecutive boundaries. *)
Lemma split_list_returns_inv x sizes parts :
  split_list x sizes = Return parts →
  len x = py_sum sizes
  ∧ parts = zip_with (slice x) (cumsum (0 :: sizes)) (tail (cumsum (0 :: sizes))).
Proof.
  intros Hs. assert (len x = py_sum sizes) as Hg.
  { apply split_list_returns_guard. rewrite Hs. apply returns_Return. }
  split; [done|]. rewrite split_list_guard_passes in Hs by done. congruence.
Qed.

Lemma split_list_eq_chunks x sizes :
  valid_sizes sizes → py_list x → len x = py_sum sizes →
  split_list x sizes = Return (chunks x (Z.to_nat <$> sizes)).
Proof.
  intros Hv Hx Hg. rewrite split_list_guard_passes by done.
  rewrite (boundaries_exact x) by done.
  rewrite zip_with_slice_scan by (rewrite <- ?py_sum_sumZ; done || lia).
  done.
Qed.

(** C1: with non-negative sizes that sum to the length of a list CPython
    can hold, [split_list] computes the reference partition [chunks]: take
    [sizes[0]] items, then [sizes[1]] of the rest, and so on. *)
Theorem split_list_chunks x sizes :
  valid_sizes sizes → py_list x → len x = py_sum sizes →
  split_list x sizes = Return (chunks x (Z.to_nat <$> sizes)).
Proof. apply split_list_eq_chunks. Qed.

Lemma split_list_is_partition x sizes parts :
  py_list x →
  (split_list x sizes = Return parts ∧ valid_sizes sizes)
  ↔ is_partition x sizes parts.
Proof.
  intros Hx. split.
  - intros [Hs Hv]. pose proof (split_list_returns_inv _ _ _ Hs) as [Hg _].
    rewrite split_list_eq_chunks in Hs by done.
    assert (parts = chunks x (Z.to_nat <$> sizes)) as -> by congruence.
    apply chunks_is_partition; [done|]. by rewrite <- py_sum_sumZ.
  - intros Hp. destruct (is_partition_valid _ _ _ Hp) as [Hv Hg].
    split; [|done]. rewrite split_list_eq_chunks by (rewrite ?py_sum_sumZ; done).
    by rewrite <- (is_partition_chunks _ _ _ Hp).
Qed.

(** C4: [split_list] implements the contract of the block partitioner and
    nothing else: for a list CPython can hold, it returns [parts] on
    non-negative sizes exactly when [parts] are contiguous blocks of [x], in
    order, that concatenate to [x] and have the requested lengths. *)
Theorem split_list_partition_iff x sizes parts :
  py_list x →
  (split_list x sizes = Return parts ∧ valid_sizes sizes)
  ↔ is_partition x sizes parts.
Proof. apply split_list_is_partition. Qed.

End split_list.

(** ** Consequences for the caller *)

Section consequences.
Context {A : Type}.
Implicit Types (x : list A) (sizes : list Z) (parts : list (list A)).

(** C11: joining what [split_list] returns for non-negative sizes gives the
    list back: no item is lost, duplicated or reordered. *)
Theorem split_list_concat x sizes parts :
  valid_sizes sizes → py_list x →
  split_list x sizes = Return parts → concat parts = x.
Proof.
  intros Hv Hx Hs.
  by destruct (proj1 (split_list_is_partition x sizes parts Hx) (conj Hs Hv)).
Qed.

(** Splitting a concatenation at the lengths of its parts returns the
    parts: [split_list] inverts joining. *)
Theorem split_list_of_concat parts :
  py_list (concat parts) →
  split_list (concat parts) ((λ p : list A, len p) <$> parts) = Return parts.
Proof.
  intros Hx.
  by apply (split_list_is_partition (concat parts) _ parts Hx).
Qed.

(** C16: the docstring's promise that each sub-list has the size specified
    in [sizes] holds exactly for non-negative sizes: when [split_list]
    returns, the lengths of the sub-lists are [sizes] if and only if no
    size is negative. *)
Theorem split_list_sizes_iff x sizes parts :
  py_list x → split_list x sizes = Return parts →
  ((λ p : list A, len p) <$> parts = sizes ↔ valid_sizes sizes).
Proof.
  intros Hx Hs. split.
  - intros <-. apply valid_sizes_fmap_len.
  - intros Hv.
    by destruct (proj1 (split_list_is_partition x sizes parts Hx) (conj Hs Hv)).
Qed.

(** Whenever [split_list] returns, it returns one sub-list per entry of
    [sizes]. *)
Theorem split_list_length x sizes parts :
  split_list x sizes = Return parts → length parts = length sizes.
Proof.
  intros [_ ->]%split_list_returns_inv.
  rewrite length_zip_with, length_tl, length_cumsum, length_cons. lia.
Qed.


(** C17: for non-negative sizes and a list CPython can hold, the int64
    arithmetic of [cumsum] does not overflow: the boundaries are the exact
    prefix sums, every one between 0 and [len x]. *)
Theorem split_list_no_overflow x sizes :
  valid_sizes sizes → py_list x → len x = py_sum sizes →
  cumsum ([0] ++ sizes) = scan 0 sizes
  ∧ Forall (λ b, 0 ≤ b ≤ len x) (cumsum ([0] ++ sizes)).
Proof.
  intros Hv Hx Hg. cbn [app]. rewrite (boundaries_exact x) by done.
  split; [done|]. by apply boundaries_bounds.
Qed.

(** For non-negative sizes, block [k] of the result is the slice of
    [x] that starts at the sum of the sizes before [k] and holds [sizes[k]]
    items: the blocks are contiguous, in order and do not overlap. *)
Theorem split_list_block x sizes parts (k : nat) (s : Z) :
  valid_sizes sizes → py_list x → split_list x sizes = Return parts →
  sizes !! k = Some s →
  parts !! k = Some (slice x (sumZ (take k sizes)) (sumZ (take k sizes) + s)).
Proof.
  intros Hv Hx Hs Hk.
  pose proof (split_list_returns_inv _ _ _ Hs) as [Hg _].
  rewrite split_list_eq_chunks in Hs by done.
  assert (parts = chunks x (Z.to_nat <$> sizes)) as -> by congruence.
  rewrite (lookup_chunks _ _ k (Z.to_nat s)) by (by rewrite list_lookup_fmap, Hk).
  assert (valid_sizes (take k sizes)) as Hvk by (by apply Forall_take).
  assert (0 ≤ s) by (by eapply (Forall_lookup_1 _ sizes)).
  pose proof (sumZ_nonneg _ Hvk).
  assert (sumZ (take k sizes) + s ≤ len x).
  { assert (sumZ sizes = sumZ (take k sizes) + (s + sumZ (drop (S k) sizes))) as Hsum.
    { rewrite <- (take_drop k sizes) at 1.
      by rewrite sumZ_app, (drop_S _ _ _ Hk), sumZ_cons. }
    assert (0 ≤ sumZ (drop (S k) sizes)) by (by apply sumZ_nonneg, Forall_drop).
    rewrite Hg, py_sum_sumZ. lia. }
  rewrite slice_in_range by lia. f_equal. f_equal; [f_equal; lia|].
  f_equal. rewrite <- fmap_take. apply Nat2Z.inj.
  rewrite sum_list_to_nat by done. lia.
Qed.

End consequences.

(** ** Concrete runs *)

(** The example of the interface: five items in blocks of two and three. *)
Example split_list_two_three :
  split_list ["a"; "b"; "c"; "d"; "e"] [2; 3]
  = Return [["a"; "b"]; ["c"; "d"; "e"]].
Proof. by vm_compute. Qed.

(** A list of two items with requested total one raises the
    [ValueError] whose message reads both numbers. *)
Example split_list_length_mismatch :
  split_list ["a"; "b"] [1]
  = Raise (ValueError
      "List to be split has length 2, but requested sub-list with a total of 1 entries.").
Proof. by vm_compute. Qed.

(** Sizes with a negative entry can pass the guard; the call then
    returns sub-lists that neither have the requested sizes nor concatenate
    to the list (here item "b" is returned twice). *)
Example split_list_negative_size :
  split_list ["a"; "b"] [2; -1; 1] = Return [["a"; "b"]; []; ["b"]]
  ∧ ¬ is_partition ["a"; "b"] [2; -1; 1] [["a"; "b"]; []; ["b"]].
Proof. split; [by vm_compute|]. by intros [[=] _]. Qed.

(** With a negative size the running sums can leave the int64 range, and
    the wrap-around of [cumsum] shows in the result: the sizes below fit an
    int64 array and sum to the length of the list, the third boundary
    [2^63] wraps to [-2^63], and the last sub-list is the whole list, where
    the exact boundaries would give an empty one. *)
Example split_list_wraps :
  let sizes := [2 ^ 62; 2 ^ 62; 2 - 2 ^ 63] in
  Forall int64_range sizes ∧ py_sum sizes = 2
  ∧ cumsum (0 :: sizes) = [0; 2 ^ 62; - 2 ^ 63; 2]
  ∧ scan 0 sizes = [0; 2 ^ 62; 2 ^ 63; 2]
  ∧ split_list ["a"; "b"] sizes = Return [["a"; "b"]; []; ["a"; "b"]]
  ∧ zip_with (slice ["a"; "b"]) (scan 0 sizes) (tail (scan 0 sizes))
    = [["a"; "b"]; []; []].
Proof. split; [by repeat constructor|]. repeat split; by vm_compute. Qed.

(** ** Witnesses *)

Lemma split_list_chunks_witness :
  valid_sizes [2; 3] ∧ py_list ["a"; "b"; "c"; "d"; "e"]
  ∧ split_list ["a"; "b"; "c"; "d"; "e"] [2; 3]
    = Return (chunks ["a"; "b"; "c"; "d"; "e"] (Z.to_nat <$> [2; 3])).
Proof.
  assert (valid_sizes [2; 3]) as Hv by (repeat constructor; lia).
  assert (py_list ["a"; "b"; "c"; "d"; "e"]) as Hx by (by vm_compute).
  split; [done|]. split; [done|].
  apply (split_list_chunks ["a"; "b"; "c"; "d"; "e"] [2; 3] Hv Hx). reflexivity.
Defined.

Lemma split_list_partition_iff_witness :
  py_list ["a"; "b"; "c"]
  ∧ ((split_list ["a"; "b"; "c"] [1; 2] = Return [["a"]; ["b"; "c"]]
      ∧ valid_sizes [1; 2])
     ↔ is_partition ["a"; "b"; "c"] [1; 2] [["a"]; ["b"; "c"]]).
Proof.
  assert (py_list ["a"; "b"; "c"]) as Hx by (by vm_compute).
  split; [done|].
  apply (split_list_partition_iff ["a"; "b"; "c"] [1; 2] [["a"]; ["b"; "c"]] Hx).
Defined.

Lemma split_list_concat_witness :
  concat [["a"]; ["b"; "c"]] = ["a"; "b"; "c"].
Proof.
  apply (split_list_concat ["a"; "b"; "c"] [1; 2] [["a"]; ["b"; "c"]]).
  - repeat constructor; lia.
  - by vm_compute.
  - by vm_compute.
Defined.

Lemma split_list_of_concat_witness :
  split_list (concat [["a"]; []; ["b"; "c"]])
    ((λ p : list string, len p) <$> [["a"]; []; ["b"; "c"]])
  = Return [["a"]; []; ["b"; "c"]].
Proof. apply (split_list_of_concat [["a"]; []; ["b"; "c"]]). by vm_compute. Defined.

Lemma split_list_sizes_iff_witness :
  (λ p : list string, len p) <$> [["a"; "b"]; []; ["b"]] = [2; -1; 1]
  ↔ valid_sizes [2; -1; 1].
Proof.
  apply (split_list_sizes_iff ["a"; "b"] [2; -1; 1] [["a"; "b"]; []; ["b"]]).
  - by vm_compute.
  - by vm_compute.
Defined.

Lemma split_list_length_witness :
  length [["a"; "b"]; []; ["b"]] = length [2; -1; 1].
Proof.
  apply (split_list_length ["a"; "b"] [2; -1; 1] [["a"; "b"]; []; ["b"]]).
  by vm_compute.
Defined.


Lemma split_list_no_overflow_witness :
  cumsum ([0] ++ [2; 3]) = scan 0 [2; 3]
  ∧ Forall (λ b, 0 ≤ b ≤ len ["a"; "b"; "c"; "d"; "e"]) (cumsum ([0] ++ [2; 3])).
Proof.
  apply (split_list_no_overflow ["a"; "b"; "c"; "d"; "e"] [2; 3]).
  - repeat constructor; lia.
  - by vm_compute.
  - reflexivity.
Defined.

Lemma split_list_error_inj_witness : split_list_error 2 1 ≠ split_list_error 2 3.
Proof. intros H. by apply (split_list_error_inj 2 1 2 3) in H as [_ [=]]. Defined.

Lemma split_list_block_witness :
  [["a"]; ["b"; "c"]] !! 1%nat
  = Some (slice ["a"; "b"; "c"] (sumZ (take 1 [1; 2])) (sumZ (take 1 [1; 2]) + 2)).
Proof.
  apply (split_list_block ["a"; "b"; "c"] [1; 2] [["a"]; ["b"; "c"]] 1 2).
  - repeat constructor; lia.
  - by vm_compute.
  - by vm_compute.
  - reflexivity.
Defined.
