(* ===== verification/Blocking.v ===== *)
(** * Blocking: the blocking schemes of [test_hessian.py]

    [BLOCKING_FNS] maps the name of a scheme to the function that computes
    the block sizes of a parameter list: one block per parameter, or two
    blocks of (almost) equal size.  The block-diagonal test hands these
    sizes to the operator and to [split_list].  This file models the two
    lambdas and proves that what they return always passes the guard of
    [split_list], and which blocks come out. *)

From S2P Require Import Prelude PySeq SplitList.

(** ** The code *)

(** The keys of [BLOCKING_FNS]. *)
Inductive blocking : Type :=
| PerParameter
| TwoBlocks.

#[global] Instance blocking_eq_dec : EqDecision blocking.
Proof. solve_decision. Defined.

(** ["per-parameter"]: [[1 for _ in range(len(params))]]. *)
Definition per_parameter {A} (params : list A) : list Z :=
  (λ _ : Z, 1) <$> range (len params).

(** ["two-blocks"]: [[1]] for a single parameter, else the floor of half the
    parameters and the rest. *)
Definition two_blocks {A} (params : list A) : list Z :=
  if decide (len params = 1) then [1]
  else [len params `div` 2; len params - len params `div` 2].

(** [BLOCKING_FNS[blocking]]. *)
Definition BLOCKING_FNS {A} (b : blocking) : list A → list Z :=
  match b with
  | PerParameter => per_parameter
  | TwoBlocks => two_blocks
  end.

(** The blocks the test compares against:
    [split_list(params, BLOCKING_FNS[blocking](params))]. *)
Definition test_blocks {A} (b : blocking) (params : list A) : result (list (list A)) :=
  split_list params (BLOCKING_FNS b params).

(** ** Lemmas *)

Section blocking.
Context {A : Type}.
Implicit Types (params : list A) (b : blocking).

Lemma per_parameter_replicate params :
  per_parameter params = replicate (length params) 1.
Proof.
  unfold per_parameter. rewrite range_len, <- list_fmap_compose.
  rewrite (const_fmap _ (seq 0 (length params)) 1) by done.
  by rewrite length_seq.
Qed.

Lemma two_blocks_single params : length params = 1%nat → two_blocks params = [1].
Proof. intros Hn. unfold two_blocks. rewrite decide_True by lia. done. Qed.

Lemma two_blocks_halves params :
  length params ≠ 1%nat →
  two_blocks params = [len params `div` 2; len params - len params `div` 2].
Proof. intros Hn. unfold two_blocks. rewrite decide_False by lia. done. Qed.

Lemma blocking_sizes_valid b params :
  valid_sizes (BLOCKING_FNS b params) ∧ py_sum (BLOCKING_FNS b params) = len params.
Proof.
  destruct b; cbn [BLOCKING_FNS].
  - rewrite per_parameter_replicate, py_sum_sumZ, sumZ_replicate.
    split; [|lia]. apply Forall_replicate. lia.
  - unfold two_blocks. case_decide as Hn.
    + split; [repeat constructor; lia|]. by rewrite Hn.
    + pose proof (Z.div_pos (len params) 2).
      pose proof (Z.div_le_upper_bound (len params) 2 (len params)).
      split; [repeat constructor; lia|]. rewrite py_sum_sumZ. unfold sumZ. cbn. lia.
Qed.

(** The sizes of either blocking scheme are non-negative and sum to
    the number of parameters, so they pass the guard of [split_list]. *)
Theorem blocking_sizes_sum b params :
  valid_sizes (BLOCKING_FNS b params) ∧ py_sum (BLOCKING_FNS b params) = len params.
Proof. apply blocking_sizes_valid. Qed.

Lemma test_blocks_chunks b params :
  py_list params →
  test_blocks b params
  = Return (chunks params (Z.to_nat <$> BLOCKING_FNS b params)).
Proof.
  intros Hx. destruct (blocking_sizes_valid b params) as [Hv Hs].
  by apply split_list_eq_chunks.
Qed.

(** The block-diagonal test never sees [split_list] raise: for either
    scheme it returns the reference partition of the parameters. *)
Theorem test_blocks_returns b params :
  py_list params →
  test_blocks b params
  = Return (chunks params (Z.to_nat <$> BLOCKING_FNS b params)).
Proof. apply test_blocks_chunks. Qed.

(** C20: per-parameter blocking puts every parameter in a block of its own,
    in order. *)
Theorem test_blocks_per_parameter params :
  py_list params →
  test_blocks PerParameter params = Return ((λ p, [p]) <$> params).
Proof.
  intros Hx. rewrite test_blocks_chunks by done. cbn [BLOCKING_FNS].
  rewrite per_parameter_replicate, fmap_replicate.
  by rewrite chunks_singletons.
Qed.

(** C19: two-block blocking of two or more parameters (or none) cuts the
    list at the floor of half its length; of one parameter it is the single
    block. *)
Theorem test_blocks_two_blocks params :
  py_list params →
  test_blocks TwoBlocks params
  = Return (if decide (length params = 1%nat) then [params]
            else [take (length params / 2) params; drop (length params / 2) params]).
Proof.
  intros Hx. rewrite test_blocks_chunks by done. cbn [BLOCKING_FNS].
  case_decide as Hn.
  - rewrite two_blocks_single by done. cbn. f_equal. f_equal.
    apply take_ge. cbn. lia.
  - rewrite two_blocks_halves by done.
    assert (Z.to_nat (len params `div` 2) = (length params / 2)%nat) as Hh.
    { rewrite <- (Nat2Z.id (length params / 2)). f_equal.
      by rewrite Nat2Z.inj_div. }
    cbn [fmap list_fmap chunks]. rewrite Hh. do 3 f_equal.
    apply take_ge. rewrite length_drop.
    pose proof (Nat.Div0.div_le_upper_bound (length params) 2 (length params)).
    pose proof (Z.div_le_upper_bound (len params) 2 (len params)). lia.
Qed.

(** C35: for a non-empty parameter list every block of either scheme holds
    at least one parameter. *)
Theorem blocking_sizes_positive b params :
  params ≠ [] → Forall (λ s, 0 < s) (BLOCKING_FNS b params).
Proof.
  intros Hne. assert (0 < len params) by (destruct params; [done|cbn; lia]).
  destruct b; cbn [BLOCKING_FNS].
  - rewrite per_parameter_replicate. apply Forall_replicate. lia.
  - unfold two_blocks. case_decide as Hn; [repeat constructor; lia|].
    pose proof (Z.div_str_pos (len params) 2).
    pose proof (Z.div_lt (len params) 2).
    repeat constructor; lia.
Qed.

End blocking.

(** ** Concrete runs *)

(** On an empty parameter list the two-block scheme returns two blocks
    of size zero, which [split_list] accepts and turns into two empty
    blocks. *)
Example two_blocks_empty :
  two_blocks (@nil string) = [0; 0]
  ∧ test_blocks TwoBlocks (@nil string) = Return [[]; []].
Proof. split; by vm_compute. Qed.

Example two_blocks_five :
  test_blocks TwoBlocks ["w1"; "b1"; "w2"; "b2"; "w3"]
  = Return [["w1"; "b1"]; ["w2"; "b2"; "w3"]].
Proof. by vm_compute. Qed.

(** ** Witnesses *)

Lemma test_blocks_returns_witness :
  test_blocks PerParameter ["w"; "b"]
  = Return (chunks ["w"; "b"] (Z.to_nat <$> BLOCKING_FNS PerParameter ["w"; "b"])).
Proof. apply (test_blocks_returns PerParameter ["w"; "b"]). by vm_compute. Defined.

Lemma test_blocks_per_parameter_witness :
  test_blocks PerParameter ["w"; "b"] = Return [["w"]; ["b"]].
Proof. apply (test_blocks_per_parameter ["w"; "b"]). by vm_compute. Defined.

Lemma test_blocks_two_blocks_witness :
  test_blocks TwoBlocks ["w1"; "b1"; "w2"]
  = Return (if decide (length ["w1"; "b1"; "w2"] = 1%nat) then [["w1"; "b1"; "w2"]]
            else [take (3 / 2) ["w1"; "b1"; "w2"]; drop (3 / 2) ["w1"; "b1"; "w2"]]).
Proof. apply (test_blocks_two_blocks ["w1"; "b1"; "w2"]). by vm_compute. Defined.

Lemma blocking_sizes_positive_witness :
  Forall (λ s, 0 < s) (BLOCKING_FNS TwoBlocks ["w1"; "b1"; "w2"]).
Proof. apply (blocking_sizes_positive TwoBlocks ["w1"; "b1"; "w2"]). done. Defined.
