(* ===== verification/Scalar.v ===== *)
(** * Scalar: the element arithmetic of a tensor and element-wise closeness

    [allclose_report] compares two tensors entry by entry with
    [Tensor.isclose].  What that comparison computes on one pair of entries
    depends on the tensor's dtype only through a handful of operations,
    collected in the class [Scalar].  Two instances are given: IEEE 754
    binary floating point ([spec_float] of the Standard Library, at the
    precision of float32 and of float64), which is what the tensors hold,
    and the rationals, on which the comparison can be stated as the
    inequality of the documentation.

    The tolerances are Python floats, that is float64 values, whatever the
    dtype of the tensors: their sign and whether they are zero is tested on
    the float itself, and where a tolerance meets an entry in an arithmetic
    operation it is first converted to the dtype ([s_of_float]).

    [isclose_elem] is the entry-wise test as PyTorch performs it: equal
    entries are close; with both tolerances zero nothing else is; otherwise
    entries are also close when the error [|a - b|] is finite and at most
    [atol + |rtol * b|]. *)

From S2P Require Import Prelude.
From Stdlib Require Import QArith Qabs Lqa SpecFloat.

(** ** The interface *)

(** The operations of a dtype that the comparison and the report use. *)
Class Scalar (S : Type) : Type := {
  s_zero : S;
  s_add : S → S → S;
  s_sub : S → S → S;
  s_mul : S → S → S;
  s_div : S → S → S;
  s_abs : S → S;
  s_eqb : S → S → bool;
  s_leb : S → S → bool;
  s_isfinite : S → bool;
  s_of_float : spec_float → S;
}.

(** A default entry, for reading a list of entries with a total lookup. *)
Definition scalar_inhabited {E : Type} {Sc : Scalar E} : Inhabited E := populate s_zero.

(** ** Instances *)

(** The float of the format with [prec] bits of mantissa and exponent bound
    [emax] that is nearest to [x], with ties to the even mantissa: the
    conversion of a Python float to the dtype of a float tensor. *)
Definition SFconv (prec emax : Z) (x : spec_float) : spec_float :=
  match x with
  | S754_finite s m e => binary_normalize prec emax (cond_Zopp s (Z.pos m)) e s
  | _ => x
  end.

(** The fraction [n / d] of integers, for a positive [d]. *)
Definition frac (n d : Z) : Q := Qmake n (Z.to_pos d).

(** [x] or [- x]. *)
Definition signed (neg : bool) (x : Q) : Q := if neg then (- x)%Q else x.

(** The exact value [m * 2^e] of a finite binary float, as a fraction. *)
Definition float_frac (m : positive) (e : Z) : Z * Z :=
  if decide (0 ≤ e)%Z then (Z.pos m * 2 ^ e, 1)%Z else (Z.pos m, 2 ^ (- e))%Z.

(** The value of a float that has one: a zero or a finite float. *)
Definition float_value (x : spec_float) : option Q :=
  match x with
  | S754_zero _ => Some 0%Q
  | S754_finite s m e => let nd := float_frac m e in Some (signed s (frac nd.1 nd.2))
  | _ => None
  end.

(** A Python float as a rational: its value.  The rationals hold no
    infinity and no NaN: the conversion is meant for floats that have a
    value, and returns 0 for the others.  The theorems on exact entries
    assume tolerances that have a value; with an infinite tolerance the
    exact instance departs from the floats ([exact_infinite_tolerance]). *)
Definition SF2Q (x : spec_float) : Q := default 0%Q (float_value x).

(** IEEE 754 binary floating point with [prec] bits of mantissa and
    exponent bound [emax]. *)
Definition float_scalar (prec emax : Z) : Scalar spec_float := {|
  s_zero := S754_zero false;
  s_add := SFadd prec emax;
  s_sub := SFsub prec emax;
  s_mul := SFmul prec emax;
  s_div := SFdiv prec emax;
  s_abs := SFabs;
  s_eqb := SFeqb;
  s_leb := SFleb;
  s_isfinite := λ x,
    match x with
    | S754_zero _ | S754_finite _ _ _ => true
    | S754_infinity _ | S754_nan => false
    end;
  s_of_float := SFconv prec emax;
|}.

(** [torch.float32] and [torch.float64]. *)
Definition float32 : Scalar spec_float := float_scalar 24 128.

Definition float64 : Scalar spec_float := float_scalar 53 1024.

(** Exact rational arithmetic: every value is finite. *)
Definition exact : Scalar Q := {|
  s_zero := 0%Q;
  s_add := Qplus;
  s_sub := Qminus;
  s_mul := Qmult;
  s_div := Qdiv;
  s_abs := Qabs;
  s_eqb := Qeq_bool;
  s_leb := Qle_bool;
  s_isfinite := λ _, true;
  s_of_float := SF2Q;
|}.

#[global] Instance spec_float_eq_dec : EqDecision spec_float.
Proof. solve_decision. Defined.

(** ** Element-wise closeness *)

Section isclose_elem.
Context {S : Type} {Sc : Scalar S}.

(** [atol + |rtol * other|]: each tolerance is converted to the dtype of
    the tensor it meets. *)
Definition allowed_error (rtol atol : spec_float) (b : S) : S :=
  s_add (s_of_float atol) (s_abs (s_mul (s_of_float rtol) b)).

(** [|self - other|]. *)
Definition actual_error (a b : S) : S := s_abs (s_sub a b).

(** One entry of [self.isclose(other, rtol, atol)].  Whether both
    tolerances are zero is tested on the Python floats. *)
Definition isclose_elem (rtol atol : spec_float) (a b : S) : bool :=
  let close := s_eqb a b in
  if SFeqb rtol (S754_zero false) && SFeqb atol (S754_zero false) then close
  else close
       || (s_isfinite (actual_error a b)
           && s_leb (actual_error a b) (allowed_error rtol atol b)).

(** Equal entries are close whatever the tolerances. *)
Lemma isclose_elem_eqb (rtol atol : spec_float) (a b : S) :
  s_eqb a b = true → isclose_elem rtol atol a b = true.
Proof. intros Heq. unfold isclose_elem. rewrite Heq. by case_match. Qed.

(** With both tolerances zero, closeness is equality. *)
Lemma isclose_elem_zero_tolerance (rtol atol : spec_float) (a b : S) :
  SFeqb rtol (S754_zero false) = true → SFeqb atol (S754_zero false) = true →
  isclose_elem rtol atol a b = s_eqb a b.
Proof. intros Hr Ha. unfold isclose_elem. by rewrite Hr, Ha. Qed.

(** Entries whose error is not finite are close only when equal. *)
Lemma isclose_elem_not_finite (rtol atol : spec_float) (a b : S) :
  s_isfinite (actual_error a b) = false → isclose_elem rtol atol a b = s_eqb a b.
Proof.
  intros Hf. unfold isclose_elem. rewrite Hf.
  case_match; [done|]. by rewrite andb_false_l, orb_false_r.
Qed.

End isclose_elem.

(** ** Floating point: NaN and the infinities *)

Section float.
Context (prec emax : Z).

(** [m * 2^e] rounded to the format: a way to write float literals. *)
Definition float_lit (m e : Z) : spec_float := binary_normalize prec emax m e false.

Lemma SFeqb_nan_r (a : spec_float) : SFeqb a S754_nan = false.
Proof. by destruct a. Qed.

Lemma SFsub_nan_r (a : spec_float) : SFsub prec emax a S754_nan = S754_nan.
Proof. by destruct a. Qed.

Lemma actual_error_infinity_l (s : bool) (b : spec_float) :
  s_isfinite (Scalar := float_scalar prec emax)
    (actual_error (Sc := float_scalar prec emax) (S754_infinity s) b) = false.
Proof. by destruct b as [?|[]| |? ? ?], s. Qed.

Lemma actual_error_infinity_r (a : spec_float) (s : bool) :
  s_isfinite (Scalar := float_scalar prec emax)
    (actual_error (Sc := float_scalar prec emax) a (S754_infinity s)) = false.
Proof. by destruct a as [?|[]| |? ? ?], s. Qed.

Lemma isclose_elem_nan_false (rtol atol a b : spec_float) :
  a = S754_nan ∨ b = S754_nan →
  isclose_elem (Sc := float_scalar prec emax) rtol atol a b = false.
Proof.
  intros Hn. rewrite isclose_elem_not_finite.
  - destruct Hn as [-> | ->]; [done|apply SFeqb_nan_r].
  - destruct Hn as [-> | ->]; cbn; [done|]. by rewrite SFsub_nan_r.
Qed.

(** An entry that is not NaN compares equal to itself. *)
Lemma SFeqb_refl (a : spec_float) : a ≠ S754_nan → SFeqb a a = true.
Proof.
  destruct a as [s|s| |s m e]; intros Ha; try done; try by destruct s.
  unfold SFeqb, SFcompare. by destruct s; rewrite Z.compare_refl, Pos.compare_cont_refl.
Qed.

(** An entry is close to itself exactly when it is not NaN, whatever the
    tolerances. *)
Lemma isclose_elem_self (rtol atol a : spec_float) :
  isclose_elem (Sc := float_scalar prec emax) rtol atol a a = bool_decide (a ≠ S754_nan).
Proof.
  case_bool_decide as Ha.
  - by apply isclose_elem_eqb, SFeqb_refl.
  - apply isclose_elem_nan_false. left. by destruct (decide (a = S754_nan)).
Qed.

(** A NaN entry is never close to anything, itself included, whatever
    the tolerances: a comparison in which either entry is NaN is false. *)
Theorem isclose_elem_nan (rtol atol a b : spec_float) :
  a = S754_nan ∨ b = S754_nan →
  isclose_elem (Sc := float_scalar prec emax) rtol atol a b = false.
Proof. apply isclose_elem_nan_false. Qed.

(** C22: an infinite entry is close exactly to the entries that compare
    equal to it (the infinity of the same sign): no tolerance, however
    large, makes an infinity close to a finite value. *)
Theorem isclose_elem_infinity (rtol atol a b : spec_float) (s : bool) :
  a = S754_infinity s ∨ b = S754_infinity s →
  isclose_elem (Sc := float_scalar prec emax) rtol atol a b
  = bool_decide (a = b).
Proof.
  intros Hi. rewrite isclose_elem_not_finite.
  - destruct Hi as [-> | ->]; cbn.
    + by destruct b as [?|[]| |? ? ?], s.
    + by destruct a as [?|[]| |? ? ?], s.
  - destruct Hi as [-> | ->];
      [apply actual_error_infinity_l|apply actual_error_infinity_r].
Qed.

End float.

(** The Python float written [n / d] in decimal notation, for integers that
    a double holds exactly: the double nearest to the quotient. *)
Definition py_float (n d : Z) : spec_float :=
  SFdiv 53 1024 (float_lit 53 1024 n 0) (float_lit 53 1024 d 0).

(** ** Python floats in a float tensor *)

(** A float of the format is converted to itself: on a float64 tensor a
    tolerance is used as it is. *)
Lemma SFconv_valid (prec emax : Z) (x : spec_float) :
  valid_binary prec emax x = true → SFconv prec emax x = x.
Proof.
  destruct x as [s|s| |s m e]; try done.
  intros [Hc He]%andb_prop. apply Z.eqb_eq in Hc.
  assert (binary_round prec emax s m e = S754_finite s m e) as Hr; [|by destruct s].
  unfold binary_round, shl_align. rewrite Hc, Z.sub_diag.
  unfold binary_round_aux, shr_fexp. cbn [Zdigits2 shr_record_of_loc].
  rewrite Hc, Z.sub_diag. cbn. rewrite Hc, Z.sub_diag. cbn. by rewrite He.
Qed.

(** The allowed error on a float tensor of the format of the tolerances. *)
Lemma allowed_error_valid (prec emax : Z) (rtol atol b : spec_float) :
  valid_binary prec emax rtol = true → valid_binary prec emax atol = true →
  allowed_error (Sc := float_scalar prec emax) rtol atol b
  = SFadd prec emax atol (SFabs (SFmul prec emax rtol b)).
Proof.
  intros Hr Ha. unfold allowed_error. cbn [s_add s_abs s_mul s_of_float float_scalar].
  by rewrite !SFconv_valid.
Qed.

(** On a float32 tensor a tolerance is rounded: [0.1], which no binary
    format holds exactly, becomes the float32 nearest to the float64
    nearest to one tenth, and a tolerance below half of the least
    positive float32 becomes zero and keeps its sign. *)
Example SFconv_float32 :
  SFconv 24 128 (py_float 1 10) = S754_finite false 13421773 (-27)
  ∧ SFconv 24 128 (py_float 1 (10 ^ 50)) = S754_zero false
  ∧ SFconv 24 128 (py_float (-1) (10 ^ 50)) = S754_zero true
  ∧ SFconv 24 128 (py_float (10 ^ 50) 1) = S754_infinity false.
Proof. by vm_compute. Qed.

(** The zero test is on the Python floats: on float32 entries with
    [rtol = 1e-50], which the dtype rounds to zero, the comparison still
    goes through the errors; close entries are then the equal ones. *)
Example isclose_elem_float32_tiny :
  isclose_elem (Sc := float32) (py_float 1 (10 ^ 50)) (py_float 0 1)
    (float_lit 24 128 1 0) (float_lit 24 128 1 0) = true
  ∧ isclose_elem (Sc := float32) (py_float 1 (10 ^ 50)) (py_float 0 1)
      (float_lit 24 128 8388609 (-23)) (float_lit 24 128 1 0) = false
  ∧ SFeqb (py_float 1 (10 ^ 50)) (S754_zero false) = false.
Proof. by vm_compute. Qed.

(** Floating-point addition is not associative: in float64,
    [(0.1 + 0.2) + 0.3] and [0.1 + (0.2 + 0.3)] differ. *)
Example float64_add_not_associative :
  s_add (Scalar := float64) (s_add (Scalar := float64) (py_float 1 10) (py_float 2 10))
    (py_float 3 10)
  ≠ s_add (Scalar := float64) (py_float 1 10)
      (s_add (Scalar := float64) (py_float 2 10) (py_float 3 10)).
Proof. by vm_compute. Qed.

(** ** Exact arithmetic: the inequality of the documentation *)

Section exact.
Implicit Types (rtol atol x : spec_float) (a b : Q).

(** A tolerance that [isclose] accepts has a value that is not negative. *)
Lemma float_frac_pos (m : positive) (e : Z) :
  (0 < (float_frac m e).1)%Z ∧ (0 < (float_frac m e).2)%Z.
Proof. unfold float_frac. case_decide; cbn [fst snd]; split; try lia; nia. Qed.

Lemma SF2Q_nonneg x : SFleb (S754_zero false) x = true → (0 <= SF2Q x)%Q.
Proof.
  destruct x as [s|s| |[] m e]; try done. intros _.
  pose proof (float_frac_pos m e) as [Hn Hd]. unfold SF2Q, Qle. cbn. lia.
Qed.

Lemma SF2Q_zero x : SFeqb x (S754_zero false) = true → SF2Q x = 0%Q.
Proof. by destruct x as [s|[]| |[] m e]. Qed.

Lemma allowed_error_exact rtol atol b :
  (0 <= SF2Q rtol)%Q →
  (allowed_error (Sc := exact) rtol atol b == SF2Q atol + SF2Q rtol * Qabs b)%Q.
Proof.
  intros Hr. unfold allowed_error. cbn [s_add s_abs s_mul s_of_float exact].
  by rewrite Qabs_Qmult, (Qabs_pos (SF2Q rtol)).
Qed.

Lemma allowed_error_exact_nonneg (r t : Q) b :
  (0 <= r)%Q → (0 <= t)%Q → (0 <= t + r * Qabs b)%Q.
Proof.
  intros Hr Ha. pose proof (Qabs_nonneg b).
  pose proof (Qmult_le_0_compat _ _ Hr H). lra.
Qed.

Lemma Qabs_sub_eq_0 a b : (a == b)%Q ↔ (Qabs (a - b) <= 0)%Q.
Proof.
  rewrite Qabs_Qle_condition. split; intros; lra.
Qed.

Lemma isclose_elem_exact_iff rtol atol a b :
  SFleb (S754_zero false) rtol = true → SFleb (S754_zero false) atol = true →
  isclose_elem (Sc := exact) rtol atol a b = true
  ↔ (Qabs (a - b) <= SF2Q atol + SF2Q rtol * Qabs b)%Q.
Proof.
  intros Hr%SF2Q_nonneg Ha%SF2Q_nonneg.
  pose proof (allowed_error_exact_nonneg _ _ b Hr Ha) as Hnn.
  unfold isclose_elem. cbn [s_eqb s_leb s_isfinite exact].
  destruct (SFeqb rtol _ && SFeqb atol _) eqn:Hz.
  - apply andb_prop in Hz as [Hr0%SF2Q_zero Ha0%SF2Q_zero].
    rewrite Qeq_bool_iff, Qabs_sub_eq_0, Hr0, Ha0.
    by rewrite Qmult_0_l, Qplus_0_l.
  - rewrite orb_true_iff, andb_true_l, Qeq_bool_iff, Qle_bool_iff.
    rewrite allowed_error_exact by done. unfold actual_error.
    cbn [s_abs s_sub exact].
    rewrite Qabs_sub_eq_0. split; [intros [?|?]|]; [lra|done|by right].
Qed.

Lemma SF2Q_value x (q : Q) : float_value x = Some q → SF2Q x = q.
Proof. unfold SF2Q. by intros ->. Qed.

Lemma isclose_elem_exact_value rtol atol (r t : Q) a b :
  SFleb (S754_zero false) rtol = true → SFleb (S754_zero false) atol = true →
  float_value rtol = Some r → float_value atol = Some t →
  isclose_elem (Sc := exact) rtol atol a b = true ↔ (Qabs (a - b) <= t + r * Qabs b)%Q.
Proof.
  intros Hr Ha Hvr%SF2Q_value Hvt%SF2Q_value.
  rewrite isclose_elem_exact_iff by done. by rewrite Hvr, Hvt.
Qed.

(** C34: over exact arithmetic, for tolerances that [isclose] accepts and
    that have values [r] and [t] (they are not infinite), the test that
    [isclose] performs, with its shortcut for equal entries and its special
    case for zero tolerances, is the documented inequality
    [|a - b| <= t + r * |b|]. *)
Theorem isclose_elem_exact rtol atol (r t : Q) a b :
  SFleb (S754_zero false) rtol = true → SFleb (S754_zero false) atol = true →
  float_value rtol = Some r → float_value atol = Some t →
  isclose_elem (Sc := exact) rtol atol a b = true ↔ (Qabs (a - b) <= t + r * Qabs b)%Q.
Proof. apply isclose_elem_exact_value. Qed.

(** Over exact arithmetic closeness is monotone in the tolerances:
    entries close under tolerances of values [r] and [t] stay close under
    tolerances of larger values. *)
Theorem isclose_elem_exact_mono rtol atol rtol' atol' (r t r' t' : Q) a b :
  SFleb (S754_zero false) rtol = true → SFleb (S754_zero false) atol = true →
  float_value rtol = Some r → float_value atol = Some t →
  float_value rtol' = Some r' → float_value atol' = Some t' →
  (r <= r')%Q → (t <= t')%Q →
  isclose_elem (Sc := exact) rtol atol a b = true →
  isclose_elem (Sc := exact) rtol' atol' a b = true.
Proof.
  intros Hr Ha Hvr Hvt Hvr' Hvt' Hrr Htt.
  pose proof (SF2Q_nonneg _ Hr) as Hr0. pose proof (SF2Q_nonneg _ Ha) as Ha0.
  rewrite (SF2Q_value _ _ Hvr) in Hr0. rewrite (SF2Q_value _ _ Hvt) in Ha0.
  assert (SFleb (S754_zero false) rtol' = true ∧ SFleb (S754_zero false) atol' = true)
    as [Hr' Ha'].
  { split; [clear Hvt' Ha0 Htt|clear Hvr' Hr0 Hrr].
    - destruct rtol' as [?|?| |[] m e]; try done. exfalso. injection Hvr' as <-.
      pose proof (float_frac_pos m e) as [Hn Hd]. unfold Qle in *. cbn in *. nia.
    - destruct atol' as [?|?| |[] m e]; try done. exfalso. injection Hvt' as <-.
      pose proof (float_frac_pos m e) as [Hn Hd]. unfold Qle in *. cbn in *. nia. }
  rewrite (isclose_elem_exact_value rtol atol r t), (isclose_elem_exact_value rtol' atol' r' t')
    by done.
  intros Hc. pose proof (Qabs_nonneg b).
  assert (r * Qabs b <= r' * Qabs b)%Q by (apply Qmult_le_compat_r; lra).
  lra.
Qed.

(** Over exact arithmetic every entry is close to itself. *)
Lemma isclose_elem_exact_refl rtol atol a :
  isclose_elem (Sc := exact) rtol atol a a = true.
Proof. apply isclose_elem_eqb. cbn [s_eqb exact]. by apply Qeq_bool_iff. Qed.

End exact.

(** ** Exact arithmetic *)

(** The laws of addition and multiplication that the identities of this
    file need, up to the equivalence of the dtype. *)
Class ExactArith {E : Type} (Sc : Scalar E) `{Equiv E} : Prop := {
  exact_equivalence :: Equivalence (≡@{E});
  s_add_proper :: Proper ((≡) ==> (≡) ==> (≡)) (s_add (S := E));
  s_mul_proper :: Proper ((≡) ==> (≡) ==> (≡)) (s_mul (S := E));
  s_add_comm (a b : E) : s_add a b ≡ s_add b a;
  s_add_assoc (a b c : E) : s_add a (s_add b c) ≡ s_add (s_add a b) c;
  s_add_0_l (a : E) : s_add s_zero a ≡ a;
  s_mul_0_l (a : E) : s_mul s_zero a ≡ s_zero;
  s_mul_0_r (a : E) : s_mul a s_zero ≡ s_zero;
  s_mul_add_distr_l (a b c : E) : s_mul a (s_add b c) ≡ s_add (s_mul a b) (s_mul a c);
}.

#[global] Instance Q_equiv : Equiv Q := Qeq.

#[global] Instance exact_arith : ExactArith exact.
Proof.
  split; try apply _; unfold equiv, Q_equiv; cbn; intros.
  - apply Qplus_comm.
  - apply Qplus_assoc.
  - apply Qplus_0_l.
  - apply Qmult_0_l.
  - apply Qmult_0_r.
  - apply Qmult_plus_distr_r.
Qed.

(** ** Concrete entries *)

(** Closeness is not symmetric: the tolerance scales with the second
    argument, so with [rtol = 0.5] the entry 1.0 is close to 2.0 while 2.0
    is not close to 1.0, in float64 as in exact arithmetic. *)
Theorem isclose_elem_asymmetric :
  isclose_elem (Sc := float64) (py_float 1 2) (py_float 0 1)
    (float_lit 53 1024 1 0) (float_lit 53 1024 2 0) = true
  ∧ isclose_elem (Sc := float64) (py_float 1 2) (py_float 0 1)
      (float_lit 53 1024 2 0) (float_lit 53 1024 1 0) = false
  ∧ isclose_elem (Sc := exact) (py_float 1 2) (py_float 0 1) 1 2 = true
  ∧ isclose_elem (Sc := exact) (py_float 1 2) (py_float 0 1) 2 1 = false.
Proof. by vm_compute. Qed.

(** With an infinite tolerance the exact instance departs from the
    floats: float64 finds every pair of finite entries close under
    [atol = inf], and the exact instance, in which the tolerance has no
    value, does not. *)
Example exact_infinite_tolerance :
  isclose_elem (Sc := float64) (py_float 0 1) (S754_infinity false)
    (py_float 1 1) (py_float 5 1) = true
  ∧ isclose_elem (Sc := exact) (py_float 0 1) (S754_infinity false) 1 5 = false.
Proof. by vm_compute. Qed.

(** ** Witnesses *)

Lemma isclose_elem_nan_witness :
  isclose_elem (Sc := float_scalar 24 128) (py_float 1 1) (py_float 1 1)
    S754_nan S754_nan = false.
Proof. apply (isclose_elem_nan 24 128). by left. Defined.

Lemma isclose_elem_infinity_witness :
  isclose_elem (Sc := float_scalar 24 128) (py_float 1 1) (py_float 1 1)
    (S754_infinity false) (float_lit 24 128 3 0)
  = bool_decide (S754_infinity false = float_lit 24 128 3 0).
Proof. apply (isclose_elem_infinity 24 128 _ _ _ _ false). by left. Defined.

Lemma isclose_elem_exact_witness :
  isclose_elem (Sc := exact) (py_float 1 2) (py_float 1 4) 10 11 = true
  ↔ (Qabs (10 - 11) <= (4503599627370496 # 18014398509481984) + (4503599627370496 # 9007199254740992) * Qabs 11)%Q.
Proof.
  apply (isclose_elem_exact (py_float 1 2) (py_float 1 4)
           (4503599627370496 # 9007199254740992) (4503599627370496 # 18014398509481984) 10 11);
    by vm_compute.
Defined.

Lemma isclose_elem_exact_mono_witness :
  isclose_elem (Sc := exact) (py_float 1 2) (py_float 1 4) 10 11 = true.
Proof.
  apply (isclose_elem_exact_mono (py_float 1 4) (py_float 1 4) (py_float 1 2) (py_float 1 4)
           (4503599627370496 # 18014398509481984) (4503599627370496 # 18014398509481984)
           (4503599627370496 # 9007199254740992) (4503599627370496 # 18014398509481984) 10 11);
    by vm_compute.
Defined.

