(* ===== verification/Format.v ===== *)
(** * Format: the format specification [.5e] of an entry

    The f-string of [allclose_report] prints each entry and the ratio with
    [{t1:.5e}].  The entry is a tensor without dimensions, whose
    [__format__] hands the specification to the Python number it holds; for
    a [float] the result is the decimal number with one digit before the
    point and five after it that is nearest to the exact value of the float,
    ties going to the even digit, followed by the decimal exponent with
    its sign and at least two digits; [nan] and [inf] are printed by name.

    This file computes that text: the decimal exponent of a positive
    fraction ([exponent10], by counting digits with [ilog10]), the rounding
    ([round_half_even]), the normal form [sci] and its text ([format_sci]),
    for a fraction ([format_e_Q]) and for a binary float
    ([format_e_float]), and reads a text back ([parse_sci]).  The theorems
    show that the digits printed are normalised, that a text reads back as
    what it was printed from, and that the number printed is within half a
    unit of its last digit of the entry. *)

From S2P Require Import Prelude PyStr Scalar.
From Stdlib Require Import QArith Qabs Qpower SpecFloat.

#[local] Open Scope Z_scope.

(** ** Definitions *)

(** The number of decimal digits of [q], less one: the loop divides by ten
    until one digit is left. *)
Fixpoint ilog10_go (fuel : nat) (q : Z) : Z :=
  match fuel with
  | O => 0
  | S fuel' => if decide (q < 10) then 0 else 1 + ilog10_go fuel' (q / 10)
  end.

(** The binary logarithm bounds the number of divisions by ten. *)
Definition ilog10 (q : Z) : Z := ilog10_go (Z.to_nat (Z.log2 q)) q.

(** The decimal exponent of the positive fraction [n / d]: the [e] with
    [10^e <= n / d < 10^(e + 1)]. *)
Definition exponent10 (n d : Z) : Z :=
  if decide (d ≤ n) then ilog10 (n / d) else - (ilog10 ((d - 1) / n) + 1).

(** [n / d * 10^k], as a fraction. *)
Definition scale10 (n d k : Z) : Z * Z :=
  if decide (0 ≤ k) then (n * 10 ^ k, d) else (n, d * 10 ^ (- k)).

(** The integer nearest to [n / d], the even one of two that are equally
    near. *)
Definition round_half_even (n d : Z) : Z :=
  let q := n / d in
  let r := n mod d in
  if decide (2 * r < d) then q
  else if decide (d < 2 * r) then q + 1
  else if Z.even q then q else q + 1.

(** A decimal number in scientific notation with [p] digits after the
    point: the sign, the [p + 1] digits as an integer, and the exponent. *)
Record sci : Type := Sci {
  sci_neg : bool;
  sci_digits : Z;
  sci_exp : Z;
}.

(** The normal form of [n / d] with [p] digits after the point, for
    [0 <= n] and [0 < d].  Rounding up to [10^(p + 1)] carries into the
    exponent. *)
Definition to_sci (p : Z) (neg : bool) (n d : Z) : sci :=
  if decide (n = 0) then Sci neg 0 0
  else
    let e := exponent10 n d in
    let nd := scale10 n d (p - e) in
    let m := round_half_even nd.1 nd.2 in
    if decide (m = 10 ^ (p + 1)) then Sci neg (10 ^ p) (e + 1) else Sci neg m e.

(** The character of a digit. *)
Definition digit_char (d : Z) : ascii := pretty_N_char (Z.to_N d).

(** The last [k] decimal digits of [m], before [acc]. *)
Fixpoint digits (k : nat) (m : Z) (acc : string) : string :=
  match k with
  | O => acc
  | S k' => digits k' (m / 10) (String (digit_char (m mod 10)) acc)
  end.

(** The exponent: its sign, and its digits, at least two. *)
Definition format_exp (e : Z) : string :=
  (if decide (e < 0) then "-" else "+")
  +:+ digits (2 `max` Z.to_nat (ilog10 (Z.abs e) + 1)) (Z.abs e) EmptyString.

(** The text of a number in scientific notation; without digits after the
    point there is no point. *)
Definition format_sci (p : nat) (s : sci) : string :=
  (if sci_neg s then "-" else EmptyString)
  +:+ match digits (S p) (sci_digits s) EmptyString with
      | String c rest =>
          String c (match p with O => EmptyString | _ => String "." rest end)
      | EmptyString => EmptyString
      end
  +:+ "e" +:+ format_exp (sci_exp s).

(** Reading the text back: the value of a digit, [k] digits from the left
    of a text (with what follows them), the sign, the point, the exponent,
    and a whole number in scientific notation with [p] digits after the
    point. *)
Definition digit_value (c : ascii) : option Z := Z.of_nat <$> Ascii.is_nat c.

Fixpoint read_digits (k : nat) (acc : Z) (s : string) : option (Z * string) :=
  match k, s with
  | O, _ => Some (acc, s)
  | S k', String c s' => d ← digit_value c; read_digits k' (acc * 10 + d) s'
  | S _, EmptyString => None
  end.

Definition parse_sign (text : string) : bool * string :=
  match text with
  | String "-" t => (true, t)
  | _ => (false, text)
  end.

Definition parse_point (p : nat) (text : string) : option string :=
  match p, text with
  | O, _ => Some text
  | S _, String "." t => Some t
  | _, _ => None
  end.

Definition parse_exp (text : string) : option Z :=
  match text with
  | String "e" (String "+" ex) => r ← read_digits (String.length ex) 0 ex; Some r.1
  | String "e" (String "-" ex) => r ← read_digits (String.length ex) 0 ex; Some (- r.1)
  | _ => None
  end.

Definition parse_sci (p : nat) (text : string) : option sci :=
  let nb := parse_sign text in
  r0 ← read_digits 1 0 nb.2;
  t ← parse_point p r0.2;
  r ← read_digits p r0.1 t;
  e ← parse_exp r.2;
  Some (Sci nb.1 r.1 e).

(** The number that a normal form with [p] digits after the point
    denotes, and half a unit of its last digit. *)
Definition sci_value (p : Z) (s : sci) : Q :=
  signed (sci_neg s) (inject_Z (sci_digits s) * 10 ^ (sci_exp s - p))%Q.

Definition half_unit (p : Z) (s : sci) : Q := ((1 # 2) * 10 ^ (sci_exp s - p))%Q.

(** The normal form of a fraction, and [format(q, '.<p>e')]. *)
Definition Q_sci (p : Z) (q : Q) : sci :=
  to_sci p (bool_decide (Qnum q < 0)) (Z.abs (Qnum q)) (Z.pos (Qden q)).

Definition format_e_Q (p : nat) (q : Q) : string := format_sci p (Q_sci (Z.of_nat p) q).

(** The normal form of a float that has a value. *)
Definition float_sci (p : Z) (x : spec_float) : option sci :=
  match x with
  | S754_zero s => Some (to_sci p s 0 1)
  | S754_finite s m e => let nd := float_frac m e in Some (to_sci p s nd.1 nd.2)
  | _ => None
  end.

(** [format(x, '.<p>e')] for a Python [float]: the normal form of a value,
    the name of an infinity or of a NaN. *)
Definition format_e_float (p : nat) (x : spec_float) : string :=
  match float_sci (Z.of_nat p) x with
  | Some s => format_sci p s
  | None =>
      match x with
      | S754_infinity true => "-inf"
      | S754_infinity false => "inf"
      | _ => "nan"
      end
  end.

(** The entries that [{t:.<p>e}] can print. *)
Class Format (E : Type) : Type := format_e : nat → E → string.

#[global] Instance Q_format : Format Q := format_e_Q.
#[global] Instance float_format : Format spec_float := format_e_float.

(** ** Counting digits *)

Lemma log2_div10 q : 10 ≤ q → Z.log2 (q / 10) < Z.log2 q.
Proof.
  intros Hq. apply Z.log2_lt_pow2; [apply Z.div_str_pos; lia|].
  pose proof (Z.log2_spec q ltac:(lia)) as [_ Hs].
  assert (0 < Z.log2 q) by (apply Z.log2_pos; lia).
  replace (Z.log2 q) with (Z.succ (Z.log2 q - 1)) in Hs |- * by lia.
  rewrite !Z.pow_succ_r in * by lia.
  apply Z.div_lt_upper_bound; lia.
Qed.

Lemma ilog10_go_spec fuel q :
  0 < q → Z.log2 q ≤ Z.of_nat fuel →
  0 ≤ ilog10_go fuel q ∧ 10 ^ ilog10_go fuel q ≤ q < 10 ^ (ilog10_go fuel q + 1).
Proof.
  revert q. induction fuel as [|fuel IH]; intros q Hq Hf; cbn [ilog10_go].
  - assert (q < 2 ^ 1) by (apply Z.log2_lt_pow2; lia). cbn. lia.
  - case_decide; [cbn; lia|].
    pose proof (log2_div10 q ltac:(lia)).
    destruct (IH (q / 10)) as (Hk & Hlo & Hhi); [apply Z.div_str_pos; lia|lia|].
    split; [lia|].
    rewrite (Z.add_comm 1), !Z.pow_add_r by lia.
    change (10 ^ 1) with 10 in *. rewrite Z.pow_add_r in Hhi by lia. change (10 ^ 1) with 10 in *.
    pose proof (Z.div_mod q 10 ltac:(lia)). pose proof (Z.mod_pos_bound q 10 ltac:(lia)).
    lia.
Qed.

Lemma ilog10_spec q :
  0 < q → 0 ≤ ilog10 q ∧ 10 ^ ilog10 q ≤ q < 10 ^ (ilog10 q + 1).
Proof. intros Hq. apply ilog10_go_spec; [done|]. pose proof (Z.log2_nonneg q). lia. Qed.

(** More fuel changes nothing. *)
Lemma ilog10_go_enough fuel q :
  0 < q → Z.log2 q ≤ Z.of_nat fuel → ilog10_go fuel q = ilog10 q.
Proof.
  intros Hq Hf.
  destruct (ilog10_go_spec fuel q Hq Hf) as (H1 & H2 & H3).
  destruct (ilog10_spec q Hq) as (H4 & H5 & H6).
  destruct (Z.lt_trichotomy (ilog10_go fuel q) (ilog10 q)) as [Hlt|[Heq|Hgt]]; [|done|].
  - assert (10 ^ (ilog10_go fuel q + 1) ≤ 10 ^ ilog10 q) by (apply Z.pow_le_mono_r; lia). lia.
  - assert (10 ^ (ilog10 q + 1) ≤ 10 ^ ilog10_go fuel q) by (apply Z.pow_le_mono_r; lia). lia.
Qed.

Lemma round_half_even_spec n d :
  0 < d → 2 * Z.abs (n - round_half_even n d * d) ≤ d.
Proof.
  intros Hd. unfold round_half_even.
  pose proof (Z.div_mod n d ltac:(lia)). pose proof (Z.mod_pos_bound n d Hd).
  repeat case_decide; try case_match; nia.
Qed.

Lemma round_half_even_tie n d :
  0 < d → 2 * (n mod d) = d → Z.even (round_half_even n d) = true.
Proof.
  intros Hd Ht. unfold round_half_even. rewrite !decide_False by lia.
  destruct (Z.even (n / d)) eqn:He; [done|].
  rewrite Z.even_add, He. done.
Qed.

Lemma round_half_even_lower n d a : 0 < d → a * d ≤ n → a ≤ round_half_even n d.
Proof.
  intros Hd Ha. assert (a ≤ n / d) by (apply Z.div_le_lower_bound; lia).
  unfold round_half_even. repeat case_decide; try case_match; lia.
Qed.

Lemma round_half_even_upper n d a : 0 < d → n < a * d → round_half_even n d ≤ a.
Proof.
  intros Hd Ha. assert (n / d < a) by (apply Z.div_lt_upper_bound; lia).
  unfold round_half_even. repeat case_decide; try case_match; lia.
Qed.

(** ** Fractions and powers of ten *)

Lemma frac_pos n (p : positive) : frac n (Z.pos p) = (n # p)%Q.
Proof. done. Qed.

Lemma frac_le a b c d : 0 < b → 0 < d → (frac a b <= frac c d)%Q ↔ a * d ≤ c * b.
Proof. destruct b, d; try lia. intros _ _. done. Qed.

Lemma frac_lt a b c d : 0 < b → 0 < d → (frac a b < frac c d)%Q ↔ a * d < c * b.
Proof. destruct b, d; try lia. intros _ _. done. Qed.

Lemma frac_mul a b c d :
  0 < b → 0 < d → (frac a b * frac c d == frac (a * c) (b * d))%Q.
Proof. destruct b, d; try lia. intros _ _. done. Qed.

Lemma inject_Z_frac a : inject_Z a = frac a 1.
Proof. done. Qed.

Lemma pow10_nonneg k : 0 ≤ k → (10 ^ k == frac (10 ^ k) 1)%Q.
Proof. intros Hk. by rewrite <- inject_Z_frac, Zpower_Qpower. Qed.

Lemma pow10_neg k : 0 ≤ k → (10 ^ (- k) == frac 1 (10 ^ k))%Q.
Proof.
  intros Hk. rewrite Qpower_opp, pow10_nonneg by done.
  assert (0 < 10 ^ k) as Hp by (apply Z.pow_pos_nonneg; lia).
  destruct (10 ^ k) as [|q|q]; try lia. done.
Qed.

Lemma pow10_pos k : (0 < 10 ^ k)%Q.
Proof. by apply Qpower_0_lt. Qed.

Lemma pow10_add a b : (10 ^ (a + b) == 10 ^ a * 10 ^ b)%Q.
Proof. by apply Qpower_plus. Qed.

Lemma scale10_den n d k : 0 < d → 0 < (scale10 n d k).2.
Proof.
  intros Hd. unfold scale10. case_decide; [done|]. cbn.
  assert (0 < 10 ^ (- k)) by (apply Z.pow_pos_nonneg; lia). lia.
Qed.

Lemma scale10_value n d k :
  0 < d → (frac (scale10 n d k).1 (scale10 n d k).2 == frac n d * 10 ^ k)%Q.
Proof.
  intros Hd. unfold scale10. case_decide; cbn [fst snd].
  - rewrite pow10_nonneg, frac_mul by lia. by rewrite Z.mul_1_r.
  - assert (0 < 10 ^ (- k)) by (apply Z.pow_pos_nonneg; lia).
    replace k with (- - k) at 2 by lia.
    rewrite pow10_neg, frac_mul by lia. by rewrite Z.mul_1_r.
Qed.

Lemma exponent10_spec n d :
  0 < n → 0 < d →
  (10 ^ exponent10 n d <= frac n d < 10 ^ (exponent10 n d + 1))%Q.
Proof.
  intros Hn Hd. unfold exponent10.
  pose proof (Z.div_mod n d ltac:(lia)). pose proof (Z.mod_pos_bound n d Hd).
  case_decide.
  - destruct (ilog10_spec (n / d)) as (Hk & Hlo & Hhi); [apply Z.div_str_pos; lia|].
    rewrite !pow10_nonneg, frac_le, frac_lt by lia. nia.
  - pose proof (Z.div_mod (d - 1) n ltac:(lia)). pose proof (Z.mod_pos_bound (d - 1) n Hn).
    destruct (ilog10_spec ((d - 1) / n)) as (Hk & Hlo & Hhi); [apply Z.div_str_pos; lia|].
    set (k := ilog10 ((d - 1) / n)) in *.
    assert (0 < 10 ^ k) by (apply Z.pow_pos_nonneg; lia).
    assert (0 < 10 ^ (k + 1)) by (apply Z.pow_pos_nonneg; lia).
    replace (- (k + 1) + 1) with (- k) by lia.
    rewrite !pow10_neg, frac_le, frac_lt by lia.
    rewrite Z.pow_add_r in * by lia. change (10 ^ 1) with 10 in *. nia.
Qed.

(** The scaled fraction lies between [10^p] and [10^(p + 1)]. *)
Lemma scale10_exponent10 p n d :
  0 ≤ p → 0 < n → 0 < d →
  let nd := scale10 n d (p - exponent10 n d) in
  10 ^ p * nd.2 ≤ nd.1 < 10 ^ (p + 1) * nd.2.
Proof.
  intros Hp Hn Hd nd. pose proof (scale10_den n d (p - exponent10 n d) Hd) as Hden.
  pose proof (scale10_value n d (p - exponent10 n d) Hd) as Hv. fold nd in Hden, Hv.
  destruct (exponent10_spec n d Hn Hd) as [Hlo Hhi].
  pose proof (pow10_pos (p - exponent10 n d)) as Hpos.
  rewrite <- (Z.mul_1_r nd.1).
  rewrite <- frac_le, <- frac_lt, <- !pow10_nonneg, Hv by lia. split.
  - replace p with (exponent10 n d + (p - exponent10 n d)) at 1 by lia.
    rewrite pow10_add. by apply Qmult_le_compat_r; [|apply Qlt_le_weak].
  - replace (p + 1) with (exponent10 n d + 1 + (p - exponent10 n d)) by lia.
    rewrite pow10_add. by apply Qmult_lt_compat_r.
Qed.

Lemma to_sci_digits p neg n d :
  0 ≤ p → 0 < n → 0 < d →
  10 ^ p ≤ sci_digits (to_sci p neg n d) < 10 ^ (p + 1).
Proof.
  intros Hp Hn Hd. unfold to_sci. rewrite decide_False by lia.
  destruct (scale10_exponent10 p n d Hp Hn Hd) as [Hlo Hhi].
  pose proof (scale10_den n d (p - exponent10 n d) Hd) as Hden.
  pose proof (round_half_even_lower _ _ _ Hden Hlo).
  pose proof (round_half_even_upper _ _ _ Hden Hhi).
  assert (10 ^ p < 10 ^ (p + 1)) by (apply Z.pow_lt_mono_r; lia).
  case_decide; cbn [sci_digits]; lia.
Qed.

Lemma round_half_even_error n d :
  0 < d → (Qabs (frac n d - inject_Z (round_half_even n d)) <= 1 # 2)%Q.
Proof.
  intros Hd. pose proof (round_half_even_spec n d Hd) as Hr.
  destruct d as [|q|q]; try lia. unfold Qle. cbn. 
  replace (n * 1 + - round_half_even n (Z.pos q) * Z.pos q)
    with (n - round_half_even n (Z.pos q) * Z.pos q) by lia. lia.
Qed.

(** An error of half a unit before scaling is half a unit of the scale. *)
Lemma scaled_error (x y m : Q) j k :
  j + k = 0 →
  (y == x * 10 ^ j → Qabs (y - m) <= 1 # 2 →
   Qabs (x - m * 10 ^ k) <= (1 # 2) * 10 ^ k)%Q.
Proof.
  intros Hjk Hy Hm. pose proof (pow10_pos k) as Hpos.
  assert (x == y * 10 ^ k)%Q as ->.
  { rewrite Hy, <- Qmult_assoc, <- pow10_add, Hjk. ring. }
  assert (y * 10 ^ k - m * 10 ^ k == (y - m) * 10 ^ k)%Q as -> by ring.
  rewrite Qabs_Qmult, (Qabs_pos (10 ^ k)) by by apply Qlt_le_weak.
  by apply Qmult_le_compat_r; [|apply Qlt_le_weak].
Qed.

(** ** The number printed is the nearest *)

Lemma to_sci_neg p neg n d : sci_neg (to_sci p neg n d) = neg.
Proof. unfold to_sci. by repeat case_decide. Qed.

Lemma signed_error neg (x y : Q) :
  (Qabs (signed neg x - signed neg y) == Qabs (x - y))%Q.
Proof.
  destruct neg; [|done]. unfold signed.
  assert (- x - - y == - (x - y))%Q as -> by ring. apply Qabs_opp.
Qed.

Lemma sci_zero_error p d :
  0 < d → (Qabs (frac 0 d - inject_Z 0 * 10 ^ (0 - p)) <= (1 # 2) * 10 ^ (0 - p))%Q.
Proof.
  intros Hd. pose proof (pow10_pos (0 - p)).
  assert (frac 0 d - inject_Z 0 * 10 ^ (0 - p) == 0)%Q as ->.
  { destruct d; try lia. unfold Qeq. cbn. lia. }
  cbn. apply Qmult_le_0_compat; [done|by apply Qlt_le_weak].
Qed.

(** The carry: [10^p * 10^(e + 1 - p)] is [10^(p + 1) * 10^(e - p)], and
    half a unit grows. *)
Lemma sci_carry_value p e :
  0 ≤ p →
  (inject_Z (10 ^ p) * 10 ^ (e + 1 - p) == inject_Z (10 ^ (p + 1)) * 10 ^ (e - p))%Q.
Proof.
  intros Hp. rewrite !inject_Z_frac, <- !pow10_nonneg by lia.
  rewrite <- !pow10_add. by replace (p + (e + 1 - p)) with (p + 1 + (e - p)) by lia.
Qed.

Lemma half_unit_mono p e : ((1 # 2) * 10 ^ (e - p) <= (1 # 2) * 10 ^ (e + 1 - p))%Q.
Proof.
  apply Qmult_le_l; [done|].
  replace (e + 1 - p) with (e - p + 1) by lia. rewrite pow10_add.
  rewrite <- (Qmult_1_r (10 ^ (e - p))) at 1.
  apply Qmult_le_l; [apply pow10_pos|done].
Qed.

(** The number that [to_sci] returns is within half a unit of its last
    digit of the fraction. *)
Lemma to_sci_error p neg n d :
  0 ≤ p → 0 ≤ n → 0 < d →
  let s := to_sci p neg n d in
  (Qabs (signed neg (frac n d) - sci_value p s) <= half_unit p s)%Q.
Proof.
  intros Hp Hn Hd s. subst s. unfold sci_value, half_unit.
  rewrite to_sci_neg, signed_error. unfold to_sci.
  case_decide as Hz; [subst n; by apply sci_zero_error|].
  set (e := exponent10 n d).
  pose proof (scale10_den n d (p - e) Hd) as Hden.
  pose proof (scale10_value n d (p - e) Hd) as Hv.
  pose proof (round_half_even_error (scale10 n d (p - e)).1 _ Hden) as Hr.
  pose proof (scaled_error _ _ _ (p - e) (e - p) ltac:(lia) Hv Hr) as He.
  case_decide as Hc; cbn [sci_digits sci_exp]; [|done].
  rewrite Hc in He. rewrite sci_carry_value by done.
  eapply Qle_trans; [exact He|apply half_unit_mono].
Qed.

Lemma Q_signed_frac (q : Q) :
  Qeq q (signed (bool_decide (Qnum q < 0)) (frac (Z.abs (Qnum q)) (Z.pos (Qden q)))).
Proof.
  destruct q as [n d]. cbn [Qnum Qden]. unfold signed, frac, Qeq.
  case_bool_decide; cbn; lia.
Qed.

(** The normal form of a float is the normal form of its value. *)
Lemma float_sci_value p (x : spec_float) (v : Q) :
  float_value x = Some v →
  ∃ neg n d, 0 ≤ n ∧ 0 < d ∧ (v == signed neg (frac n d))%Q
             ∧ float_sci p x = Some (to_sci p neg n d).
Proof.
  destruct x as [s|s| |s m e]; intros [= <-]; cbn [float_sci].
  - exists s, 0, 1. repeat split; try lia. by destruct s.
  - exists s, (float_frac m e).1, (float_frac m e).2.
    assert (0 ≤ 2 ^ e) by (apply Z.pow_nonneg; lia).
    assert (e < 0 → 0 < 2 ^ (- e)) by (intros; apply Z.pow_pos_nonneg; lia).
    unfold float_frac. case_decide; cbn [fst snd]; repeat split; lia.
Qed.

Lemma float_sci_error p (x : spec_float) (v : Q) (s : sci) :
  0 ≤ p → float_value x = Some v → float_sci p x = Some s →
  (Qabs (v - sci_value p s) <= half_unit p s)%Q.
Proof.
  intros Hp (neg & n & d & Hn & Hd & Hv & Hs)%(float_sci_value p) Hx.
  rewrite Hs in Hx. injection Hx as <-. rewrite Hv. by apply to_sci_error.
Qed.

(** ** Reading the text back *)

(** A property of the ten digits holds of every digit. *)
Lemma digit_ind (P : Z → Prop) :
  P 0 → P 1 → P 2 → P 3 → P 4 → P 5 → P 6 → P 7 → P 8 → P 9 →
  ∀ d, 0 ≤ d < 10 → P d.
Proof.
  intros ? ? ? ? ? ? ? ? ? ? d Hd.
  assert (d = 0 ∨ d = 1 ∨ d = 2 ∨ d = 3 ∨ d = 4 ∨ d = 5 ∨ d = 6 ∨ d = 7 ∨ d = 8 ∨ d = 9)
    as Hc by lia.
  by repeat (destruct Hc as [->|Hc]; [done|]); subst.
Qed.

Lemma digit_value_char d : 0 ≤ d < 10 → digit_value (digit_char d) = Some d.
Proof. revert d. by apply digit_ind. Qed.

Lemma digits_app k m acc t : digits k m acc +:+ t = digits k m (acc +:+ t).
Proof. revert m acc. induction k as [|k IH]; intros m acc; [done|]. cbn. by rewrite IH. Qed.

Lemma length_digits k m acc : String.length (digits k m acc) = (k + String.length acc)%nat.
Proof.
  revert m acc. induction k as [|k IH]; intros m acc; [done|]. cbn [digits].
  rewrite IH. cbn. lia.
Qed.

Lemma digits_S k m acc :
  digits (S k) m acc = String (digit_char ((m / 10 ^ Z.of_nat k) mod 10)) (digits k m acc).
Proof.
  revert m acc. induction k as [|k IH]; intros m acc.
  - cbn. by rewrite Z.div_1_r.
  - change (digits (S (S k)) m acc)
      with (digits (S k) (m / 10) (String (digit_char (m mod 10)) acc)).
    rewrite IH. rewrite Z.div_div by (try apply Z.pow_pos_nonneg; lia).
    rewrite Nat2Z.inj_succ, Z.pow_succ_r by lia. done.
Qed.

Lemma read_digits_digits k a m rest :
  0 ≤ m →
  read_digits k a (digits k m rest) = Some (a * 10 ^ Z.of_nat k + m mod 10 ^ Z.of_nat k, rest).
Proof.
  intros Hm. revert a. induction k as [|k IH]; intros a.
  - cbn. rewrite Z.mod_1_r. do 2 f_equal. lia.
  - rewrite digits_S. cbn [read_digits].
    assert (0 < 10 ^ Z.of_nat k) by (apply Z.pow_pos_nonneg; lia).
    rewrite digit_value_char by (apply Z.mod_pos_bound; lia). cbn.
    rewrite IH. do 2 f_equal.
    rewrite Nat2Z.inj_succ, Z.pow_succ_r by lia.
    rewrite (Z.mul_comm 10), Z.rem_mul_r by lia. lia.
Qed.

Lemma app_String c (s t : string) : String c s +:+ t = String c (s +:+ t).
Proof. done. Qed.

Lemma app_EmptyString (t : string) : EmptyString +:+ t = t.
Proof. done. Qed.

Lemma append_assoc (s t u : string) : (s +:+ t) +:+ u = s +:+ (t +:+ u).
Proof. induction s as [|c s IH]; [done|]. by rewrite !app_String, IH. Qed.

Lemma append_nil_r (s : string) : s +:+ EmptyString = s.
Proof. induction s as [|c s IH]; [done|]. by rewrite app_String, IH. Qed.

Lemma digit_char_not_minus d : 0 ≤ d < 10 → digit_char d ≠ "-"%char.
Proof. revert d. by apply digit_ind. Qed.

Lemma read_digit a d t :
  0 ≤ d < 10 → read_digits 1 a (String (digit_char d) t) = Some (a * 10 + d, t).
Proof. intros Hd. cbn. by rewrite digit_value_char. Qed.

Lemma parse_sign_digit (neg : bool) d t :
  0 ≤ d < 10 →
  parse_sign ((if neg then "-" else EmptyString) +:+ String (digit_char d) t)
  = (neg, String (digit_char d) t).
Proof.
  intros Hd. destruct neg; [done|]. rewrite app_EmptyString.
  pose proof (digit_char_not_minus d Hd) as Hc.
  unfold parse_sign. destruct (digit_char d) as [[] [] [] [] [] [] [] []]; done.
Qed.

Lemma parse_exp_format e : parse_exp (String "e" (format_exp e)) = Some e.
Proof.
  unfold format_exp. set (k := (2 `max` Z.to_nat (ilog10 (Z.abs e) + 1))%nat).
  assert (Z.abs e < 10 ^ Z.of_nat k) as Hlt.
  { destruct (decide (e = 0)) as [->|Hne]; [by apply Z.pow_pos_nonneg|].
    destruct (ilog10_spec (Z.abs e)) as (H0 & _ & Hhi); [lia|].
    eapply Z.lt_le_trans; [exact Hhi|]. apply Z.pow_le_mono_r; lia. }
  assert (read_digits (String.length (digits k (Z.abs e) EmptyString)) 0
            (digits k (Z.abs e) EmptyString) = Some (Z.abs e, EmptyString)) as Hr.
  { rewrite length_digits. cbn [String.length]. rewrite Nat.add_0_r.
    rewrite read_digits_digits by lia. rewrite Z.mod_small by lia. done. }
  case_decide; rewrite app_String, app_EmptyString; cbn [parse_exp];
    rewrite Hr; cbn; f_equal; lia.
Qed.

Lemma parse_format_sci p (s : sci) :
  0 ≤ sci_digits s < 10 ^ (Z.of_nat p + 1) → parse_sci p (format_sci p s) = Some s.
Proof.
  intros [Hlo Hhi]. destruct s as [neg m e]. cbn [sci_neg sci_digits sci_exp] in *.
  assert (0 < 10 ^ Z.of_nat p) as Hpos by (apply Z.pow_pos_nonneg; lia).
  assert (0 ≤ m / 10 ^ Z.of_nat p < 10) as Hd.
  { split; [by apply Z.div_pos|]. apply Z.div_lt_upper_bound; [done|].
    by rewrite Z.mul_comm, <- Z.pow_succ_r, <- Z.add_1_r by lia. }
  unfold format_sci, parse_sci. cbn [sci_neg sci_digits sci_exp].
  rewrite digits_S, (Z.mod_small _ 10) by done.
  destruct p as [|p].
  - rewrite !app_String, !app_EmptyString, parse_sign_digit by done. cbn [fst snd].
    rewrite read_digit by done. cbn [mbind option_bind parse_point fst snd read_digits].
    rewrite parse_exp_format. cbn. do 2 f_equal. rewrite Z.div_1_r. lia.
  - rewrite !app_String, parse_sign_digit by done. cbn [fst snd].
    rewrite read_digit by done. cbn [mbind option_bind parse_point fst snd].
    rewrite digits_app, read_digits_digits by done. cbn [mbind option_bind fst snd].
    rewrite ?app_String, ?app_EmptyString, parse_exp_format. cbn. do 2 f_equal.
    pose proof (Z.div_mod m (10 ^ Z.of_nat (S p)) ltac:(lia)). lia.
Qed.

(** The digits of a normal form, zero included. *)
Lemma to_sci_range p neg n d :
  0 ≤ p → 0 ≤ n → 0 < d → 0 ≤ sci_digits (to_sci p neg n d) < 10 ^ (p + 1).
Proof.
  intros Hp Hn Hd. assert (0 < 10 ^ p) by (apply Z.pow_pos_nonneg; lia).
  destruct (decide (n = 0)) as [->|Hne].
  - unfold to_sci. rewrite decide_True by done. cbn.
    assert (0 < 10 ^ (p + 1)) by (apply Z.pow_pos_nonneg; lia). lia.
  - pose proof (to_sci_digits p neg n d Hp ltac:(lia) Hd). lia.
Qed.

(** The text of a float that has a value reads back as a number within
    half a unit of its last digit of the value. *)
Lemma format_e_float_parse (p : nat) (x : spec_float) (v : Q) :
  float_value x = Some v →
  ∃ s, parse_sci p (format_e_float p x) = Some s
       ∧ (Qabs (v - sci_value (Z.of_nat p) s) <= half_unit (Z.of_nat p) s)%Q.
Proof.
  intros Hv. destruct (float_sci_value (Z.of_nat p) x v Hv)
    as (neg & n & d & Hn & Hd & Hq & Hs).
  unfold format_e_float. rewrite Hs. eexists. split.
  - apply parse_format_sci. apply to_sci_range; lia.
  - rewrite Hq. apply to_sci_error; lia.
Qed.

(** The normal form of a fraction is within half a unit of the fraction. *)
Lemma Q_sci_error p (q : Q) :
  0 ≤ p → (Qabs (q - sci_value p (Q_sci p q)) <= half_unit p (Q_sci p q))%Q.
Proof.
  intros Hp. rewrite (Q_signed_frac q) at 1. by apply to_sci_error; [|lia|].
Qed.

(** The loop that counts decimal digits ends with the count: with the
    fuel of the binary logarithm, or any more, the result is the [k] with
    [10^k <= q < 10^(k + 1)]. *)
Theorem ilog10_enough_fuel (fuel : nat) q :
  0 < q → Z.log2 q ≤ Z.of_nat fuel →
  ilog10_go fuel q = ilog10 q ∧ 10 ^ ilog10 q ≤ q < 10 ^ (ilog10 q + 1).
Proof.
  intros Hq Hf. split; [by apply ilog10_go_enough|by apply ilog10_spec].
Qed.

(** The digits printed for a number that is not zero are normalised:
    [p + 1] digits of which the first is not zero. *)
Theorem to_sci_normalised p neg n d :
  0 ≤ p → 0 < n → 0 < d →
  10 ^ p ≤ sci_digits (to_sci p neg n d) < 10 ^ (p + 1).
Proof. apply to_sci_digits. Qed.

(** C8: the number printed for a float is the nearest with [p] digits
    after the point: the text of [{x:.<p>e}] for a float that has a value
    reads back as a number that differs from the exact value of the float by
    at most half a unit of the last digit printed. *)
Theorem format_e_float_nearest (p : nat) (x : spec_float) (v : Q) :
  float_value x = Some v →
  ∃ s, parse_sci p (format_e p x) = Some s
       ∧ (Qabs (v - sci_value (Z.of_nat p) s) <= half_unit (Z.of_nat p) s)%Q.
Proof. apply format_e_float_parse. Qed.

(** A text in scientific notation reads back as the sign, the digits
    and the exponent it was printed from. *)
Theorem parse_sci_format_sci (p : nat) (s : sci) :
  0 ≤ sci_digits s < 10 ^ (Z.of_nat p + 1) → parse_sci p (format_sci p s) = Some s.
Proof. apply parse_format_sci. Qed.

(** A fraction midway between two numbers with [p] digits after the
    point is printed as the one whose last digit is even. *)
Theorem round_half_even_midway n d :
  0 < d → 2 * (n mod d) = d →
  Z.even (round_half_even n d) = true ∧ 2 * Z.abs (n - round_half_even n d * d) = d.
Proof.
  intros Hd Ht. split; [by apply round_half_even_tie|].
  pose proof (Z.div_mod n d ltac:(lia)). unfold round_half_even.
  rewrite !decide_False by lia. case_match; nia.
Qed.

(** ** What Python prints *)

Example format_e_one : format_e 5 (py_float 1 1) = "1.00000e+00".
Proof. by vm_compute. Qed.

Example format_e_tenth : format_e 5 (py_float 1 10) = "1.00000e-01".
Proof. by vm_compute. Qed.

(** A tie goes to the even digit. *)
Example format_e_tie : format_e 5 (py_float 1234565 10) = "1.23456e+05".
Proof. by vm_compute. Qed.

(** Rounding up carries into the exponent. *)
Example format_e_carry : format_e 5 (py_float 9999995 10) = "1.00000e+06".
Proof. by vm_compute. Qed.

Example format_e_negative : format_e 5 (SFopp (py_float 2 3)) = "-6.66667e-01".
Proof. by vm_compute. Qed.

Example format_e_zero :
  format_e 5 (S754_zero false) = "0.00000e+00"
  ∧ format_e 5 (S754_zero true) = "-0.00000e+00".
Proof. by vm_compute. Qed.

(** The largest double and the smallest positive one. *)
Example format_e_extremes :
  format_e 5 (S754_finite false (2 ^ 53 - 1) 971) = "1.79769e+308"
  ∧ format_e 5 (S754_finite false 1 (-1074)) = "4.94066e-324".
Proof. by vm_compute. Qed.

Example format_e_fraction : format_e 5 (2 # 3)%Q = "6.66667e-01".
Proof. by vm_compute. Qed.

Example format_e_names :
  format_e 5 S754_nan = "nan" ∧ format_e 5 (S754_infinity false) = "inf"
  ∧ format_e 5 (S754_infinity true) = "-inf".
Proof. done. Qed.

(** ** Witnesses *)

Lemma ilog10_enough_fuel_witness :
  ilog10_go 40 123456 = ilog10 123456
  ∧ 10 ^ ilog10 123456 ≤ 123456 < 10 ^ (ilog10 123456 + 1).
Proof. apply (ilog10_enough_fuel 40 123456); [lia|by vm_compute]. Defined.

Lemma to_sci_normalised_witness :
  10 ^ 5 ≤ sci_digits (to_sci 5 false 2 3) < 10 ^ (5 + 1).
Proof. apply (to_sci_normalised 5 false 2 3); lia. Defined.

Lemma format_e_float_nearest_witness :
  ∃ s, parse_sci 5 (format_e 5 (py_float 1 10)) = Some s
       ∧ (Qabs ((7205759403792794 # 72057594037927936) - sci_value (Z.of_nat 5) s)
          <= half_unit (Z.of_nat 5) s)%Q.
Proof.
  apply (format_e_float_nearest 5 (py_float 1 10) (7205759403792794 # 72057594037927936)).
  by vm_compute.
Defined.

Lemma parse_sci_format_sci_witness :
  parse_sci 5 (format_sci 5 (Sci true 123456 (-7))) = Some (Sci true 123456 (-7)).
Proof. apply (parse_sci_format_sci 5 (Sci true 123456 (-7))). cbn. lia. Defined.

Lemma round_half_even_midway_witness :
  Z.even (round_half_even 5 2) = true ∧ 2 * Z.abs (5 - round_half_even 5 2 * 2) = 2.
Proof. apply (round_half_even_midway 5 2); [lia|by vm_compute]. Defined.
