(* ===== verification/FormatG.v ===== *)
(** * FormatG: the value in the message of a refused tolerance

    [isclose] refuses a negative tolerance with a message that ends in the
    tolerance: PyTorch writes the double to a C++ stream, which prints it
    with six significant digits in the shorter of the fixed and the
    scientific notation, without trailing zeros (the conversion [%g]).

    The six digits and the decimal exponent are those of [Format]
    ([float_sci] with five digits after the point).  With the exponent
    between -4 and 5 the notation is fixed, otherwise scientific; zeros at
    the end of the fraction are dropped, and the point with them when
    nothing is left.

    [parse_g] reads a text of either notation back.  The theorems show
    that what is dropped is zeros at the end, that the text of six digits
    denotes the number of the six digits in every notation
    ([parse_g_format_g_sci], [sci_value_scaled]), and that the text of a
    double denotes a number within half a unit of the sixth digit of the
    double ([format_g_nearest]). *)

From S2P Require Import Prelude PyStr Scalar Format.
From Stdlib Require Import QArith Qabs Qpower SpecFloat.

#[local] Open Scope Z_scope.

(** ** Definitions *)

(** A text of [k] zeros. *)
Fixpoint zeros_text (k : nat) : string :=
  match k with
  | O => EmptyString
  | S k' => String "0" (zeros_text k')
  end.

(** A text without the zeros at its end. *)
Fixpoint strip_zeros (s : string) : string :=
  match s with
  | EmptyString => EmptyString
  | String c rest =>
      match strip_zeros rest with
      | EmptyString => if decide (c = "0"%char) then EmptyString else String c EmptyString
      | r => String c r
      end
  end.

(** The digits before the point and those after it; without digits after
    it there is no point. *)
Definition with_point (int frac : string) : string :=
  match frac with
  | EmptyString => int
  | _ => int +:+ "." +:+ frac
  end.

(** The text of a normal form of six digits. *)
Definition format_g_sci (s : sci) : string :=
  let ds := digits 6 (sci_digits s) EmptyString in
  let X := sci_exp s in
  (if sci_neg s then "-" else EmptyString)
  +:+ (if decide (sci_digits s = 0) then "0"
       else if decide (X < -4 ∨ 6 ≤ X) then
         with_point (String.substring 0 1 ds) (strip_zeros (String.substring 1 5 ds))
         +:+ "e" +:+ format_exp X
       else if decide (0 ≤ X) then
         with_point (String.substring 0 (Z.to_nat X + 1) ds)
           (strip_zeros (String.substring (Z.to_nat X + 1) (5 - Z.to_nat X) ds))
       else with_point "0" (zeros_text (Z.to_nat (- X - 1)) +:+ strip_zeros ds)).

(** A double written to a stream. *)
Definition format_g (x : spec_float) : string :=
  match float_sci 5 x with
  | Some s => format_g_sci s
  | None =>
      match x with
      | S754_infinity true => "-inf"
      | S754_infinity false => "inf"
      | _ => "nan"
      end
  end.

(** Reading a text back: the digits at the left of a text, as many as
    there are, with their number and what follows them. *)
Fixpoint read_number (acc : Z) (text : string) : Z * nat * string :=
  match text with
  | String c t =>
      match digit_value c with
      | Some d => let '(v, k, rest) := read_number (acc * 10 + d) t in (v, S k, rest)
      | None => (acc, 0%nat, text)
      end
  | EmptyString => (acc, 0%nat, text)
  end.

(** The digits after a point, if there is a point. *)
Definition read_fraction (acc : Z) (text : string) : Z * nat * string :=
  match text with
  | String "." t => read_number acc t
  | _ => (acc, 0%nat, text)
  end.

(** The number that a text of either notation denotes: its sign, its
    digits as one integer, and the power of ten that they are scaled by
    (a normal form without digits after the point). *)
Definition parse_g (text : string) : option sci :=
  let nb := parse_sign text in
  let '(i, k, t) := read_number 0 nb.2 in
  if decide (k = 0%nat) then None
  else
    let '(m, j, t) := read_fraction i t in
    e ← match t with EmptyString => Some 0 | _ => parse_exp t end;
    Some (Sci nb.1 m (e - Z.of_nat j)).

(** A text at which the reading of digits stops. *)
Definition stops (text : string) : Prop :=
  match text with
  | String c _ => digit_value c = None
  | EmptyString => True
  end.

(** What [to_sci] returns for six digits: zero, or six digits of which
    the first is not zero. *)
Definition six_digits (s : sci) : Prop :=
  (sci_digits s = 0 ∧ sci_exp s = 0) ∨ 10 ^ 5 ≤ sci_digits s < 10 ^ 6.

(** What follows the digits of a text: nothing, or the exponent [e]. *)
Definition ends_with (rest : string) (e : Z) : Prop :=
  (rest = EmptyString ∧ e = 0) ∨ rest = String "e" (format_exp e).

(** The text of [s] reads back as its digits without the last [k], which
    are zeros, scaled by [k] more powers of ten. *)
Definition reads_back (s : sci) (k : nat) : Prop :=
  sci_digits s mod 10 ^ Z.of_nat k = 0
  ∧ parse_g (format_g_sci s)
    = Some (Sci (sci_neg s) (sci_digits s / 10 ^ Z.of_nat k) (sci_exp s - 5 + Z.of_nat k)).

(** ** Trailing zeros *)

Lemma strip_zeros_zeros (k : nat) : strip_zeros (zeros_text k) = EmptyString.
Proof. induction k as [|k IH]; [done|]. cbn. by rewrite IH. Qed.

(** What is dropped is zeros, and only zeros at the end. *)
Lemma strip_zeros_app (s : string) :
  ∃ k : nat, s = strip_zeros s +:+ zeros_text k.
Proof.
  induction s as [|c s [k IH]]; [by exists 0%nat|].
  cbn [strip_zeros]. destruct (strip_zeros s) as [|c' r] eqn:Hs.
  - case_decide as Hc.
    + exists (S k). subst c. rewrite app_EmptyString in *. cbn. by f_equal.
    + exists k. rewrite app_String. by f_equal.
  - exists k. rewrite app_String. by f_equal.
Qed.

(** The text that is left does not end in a zero. *)
Lemma strip_zeros_last (s t : string) : strip_zeros s ≠ t +:+ "0".
Proof.
  revert t. induction s as [|c s IH]; intros t; [by destruct t|].
  cbn [strip_zeros]. destruct (strip_zeros s) as [|c' r] eqn:Hs.
  - case_decide as Hc; [by destruct t|]. destruct t as [|c1 t].
    + rewrite app_EmptyString. congruence.
    + rewrite app_String. intros [= _ Ht]. by destruct t.
  - destruct t as [|c1 t]; [by destruct r|]. rewrite app_String. intros [= <- Hr]. by eapply IH.
Qed.

Lemma strip_zeros_idemp (s : string) : strip_zeros (strip_zeros s) = strip_zeros s.
Proof.
  induction s as [|c s IH]; [done|]. cbn [strip_zeros].
  destruct (strip_zeros s) as [|c' r] eqn:Hs.
  - case_decide as Hc; [done|]. cbn. by rewrite decide_False.
  - cbn [strip_zeros] in *. by rewrite IH.
Qed.

(** ** The digits of a number *)

(** Zeros are the digits of zero. *)
Lemma zeros_text_digits (k : nat) (acc : string) : zeros_text k +:+ acc = digits k 0 acc.
Proof.
  revert acc. induction k as [|k IH]; intros acc; [done|].
  rewrite digits_S, Z.div_0_l, Z.mod_0_l by (try apply Z.pow_nonzero; lia).
  cbn [zeros_text]. by rewrite app_String, IH.
Qed.

(** The first digits of a number are the digits of its quotient. *)
Lemma digits_add (a b : nat) m acc :
  digits (a + b) m acc = digits a (m / 10 ^ Z.of_nat b) (digits b m acc).
Proof.
  revert m acc. induction b as [|b IH]; intros m acc.
  - by rewrite Nat.add_0_r, Z.div_1_r.
  - rewrite Nat.add_succ_r. cbn [digits]. rewrite IH.
    rewrite Z.div_div, Nat2Z.inj_succ, Z.pow_succ_r by (try apply Z.pow_pos_nonneg; lia).
    done.
Qed.

Lemma pow10_split (a b : nat) : 10 ^ Z.of_nat (a + b) = 10 ^ Z.of_nat a * 10 ^ Z.of_nat b.
Proof. rewrite Nat2Z.inj_add, Z.pow_add_r; lia. Qed.

Lemma pow10_nat_pos (k : nat) : 0 < 10 ^ Z.of_nat k.
Proof. apply Z.pow_pos_nonneg; lia. Qed.

(** Only the digit zero is printed as [0]. *)
Lemma digit_char_zero d : 0 ≤ d < 10 → digit_char d = "0"%char ↔ d = 0.
Proof. revert d. apply digit_ind; by split. Qed.

Lemma strip_zeros_snoc (s : string) (c : ascii) :
  strip_zeros (s +:+ String c EmptyString)
  = if decide (c = "0"%char) then strip_zeros s else s +:+ String c EmptyString.
Proof.
  induction s as [|a s IH]; [done|].
  rewrite app_String. cbn [strip_zeros]. rewrite IH.
  case_decide; [done|]. by destruct s.
Qed.

(** Dropping the zeros at the end of the digits of a number divides it by
    a power of ten. *)
Lemma strip_zeros_digits (j : nat) f :
  0 ≤ f →
  ∃ k : nat, (k ≤ j)%nat ∧ f mod 10 ^ Z.of_nat k = 0
    ∧ strip_zeros (digits j f EmptyString)
      = digits (j - k) (f / 10 ^ Z.of_nat k) EmptyString.
Proof.
  revert f. induction j as [|j IH]; intros f Hf.
  { exists 0%nat. by rewrite Z.mod_1_r. }
  cbn [digits]. rewrite <- (app_EmptyString (String _ _)), <- digits_app, strip_zeros_snoc.
  case_decide as Hc.
  - apply digit_char_zero in Hc; [|apply Z.mod_pos_bound; lia].
    destruct (IH (f / 10) ltac:(by apply Z.div_pos)) as (k & Hk & Hz & ->).
    assert (0 < 10 ^ Z.of_nat k) by (apply Z.pow_pos_nonneg; lia).
    exists (S k). split; [lia|]. rewrite Nat2Z.inj_succ, Z.pow_succ_r by lia. split.
    + rewrite Z.rem_mul_r by lia. lia.
    + by rewrite Z.div_div by lia.
  - exists 0%nat. split; [lia|]. rewrite Z.mod_1_r, Z.div_1_r, digits_app. done.
Qed.

(** The two parts of a text, by their lengths. *)
Lemma substring_app_l (s t : string) : String.substring 0 (String.length s) (s +:+ t) = s.
Proof.
  induction s as [|c s IH]; [by destruct t|]. rewrite app_String. cbn. by rewrite IH.
Qed.

Lemma substring_app_r (s t : string) :
  String.substring (String.length s) (String.length t) (s +:+ t) = t.
Proof.
  induction s as [|c s IH]; [|done]. rewrite app_EmptyString.
  induction t as [|c t IH]; [done|]. cbn in *. by rewrite IH.
Qed.

(** The digits of a number cut in two: the digits of the quotient and
    those of the rest. *)
Lemma substring_digits (a b : nat) m :
  String.substring 0 a (digits (a + b) m EmptyString)
  = digits a (m / 10 ^ Z.of_nat b) EmptyString
  ∧ String.substring a b (digits (a + b) m EmptyString) = digits b m EmptyString.
Proof.
  rewrite digits_add, <- (app_EmptyString (digits b _ _)), <- digits_app.
  rewrite app_EmptyString. split.
  - rewrite <- (substring_app_l (digits a _ _) (digits b m EmptyString)) at 2.
    by rewrite length_digits, Nat.add_0_r.
  - rewrite <- (substring_app_r (digits a (m / 10 ^ Z.of_nat b) EmptyString)
                  (digits b m EmptyString)) at 2.
    by rewrite !length_digits, !Nat.add_0_r.
Qed.

(** ** Reading a text back *)

(** Reading stops at a character that is no digit. *)
Lemma read_number_stops a t : stops t → read_number a t = (a, 0%nat, t).
Proof. destruct t as [|c t]; [done|]. cbn. by intros ->. Qed.

(** The digits of a number read back as the number, after what was read
    before them. *)
Lemma read_number_digits (k : nat) a m rest :
  0 ≤ m → stops rest →
  read_number a (digits k m rest) = (a * 10 ^ Z.of_nat k + m mod 10 ^ Z.of_nat k, k, rest).
Proof.
  intros Hm Hr. revert a. induction k as [|k IH]; intros a.
  - cbn [digits]. rewrite read_number_stops by done. rewrite Z.mod_1_r. do 2 f_equal. lia.
  - rewrite digits_S. cbn [read_number].
    assert (0 < 10 ^ Z.of_nat k) by (apply Z.pow_pos_nonneg; lia).
    rewrite digit_value_char by (apply Z.mod_pos_bound; lia).
    rewrite IH. do 2 f_equal.
    rewrite Nat2Z.inj_succ, Z.pow_succ_r by lia.
    rewrite (Z.mul_comm 10), Z.rem_mul_r by lia. lia.
Qed.

(** After the digits: no digit follows, no fraction, and the exponent reads
    back. *)
Lemma ends_with_stops rest e : ends_with rest e → stops rest.
Proof. by intros [[-> _]| ->]. Qed.

Lemma ends_with_exp rest e :
  ends_with rest e → match rest with EmptyString => Some 0 | _ => parse_exp rest end = Some e.
Proof. intros [[-> ->]| ->]; [done|]. apply parse_exp_format. Qed.

Lemma ends_with_fraction rest e a : ends_with rest e → read_fraction a rest = (a, 0%nat, rest).
Proof. by intros [[-> _]| ->]. Qed.

(** Reading a text that starts with digits. *)
Lemma parse_g_digits (neg : bool) (a : nat) i t :
  0 ≤ i → stops t →
  parse_g ((if neg then "-" else EmptyString) +:+ digits (S a) i t)
  = (let '(m, j, t') := read_fraction (i mod 10 ^ Z.of_nat (S a)) t in
     e ← match t' with EmptyString => Some 0 | _ => parse_exp t' end;
     Some (Sci neg m (e - Z.of_nat j))).
Proof.
  intros Hi Ht. unfold parse_g.
  assert (0 < 10 ^ Z.of_nat a) by (apply Z.pow_pos_nonneg; lia).
  rewrite digits_S, parse_sign_digit by (apply Z.mod_pos_bound; lia). cbn [fst snd].
  rewrite <- digits_S, read_number_digits by done. by rewrite decide_False.
Qed.

(** The digits of [f], with a point before the last [b] of them. *)
Lemma parse_g_with_point (neg : bool) (a b : nat) f rest e :
  0 ≤ f → ends_with rest e →
  parse_g ((if neg then "-" else EmptyString)
           +:+ with_point (digits (S a) (f / 10 ^ Z.of_nat b) EmptyString)
                 (digits b f EmptyString) +:+ rest)
  = Some (Sci neg (f mod 10 ^ Z.of_nat (S a + b)) (e - Z.of_nat b)).
Proof.
  intros Hf Hr. pose proof (ends_with_stops _ _ Hr) as Hs.
  assert (0 < 10 ^ Z.of_nat b) by (apply Z.pow_pos_nonneg; lia).
  assert (0 < 10 ^ Z.of_nat (S a)) by (apply Z.pow_pos_nonneg; lia).
  assert (0 ≤ f / 10 ^ Z.of_nat b) by (by apply Z.div_pos).
  destruct b as [|b].
  - change (digits 0 f EmptyString) with EmptyString. cbn [with_point].
    rewrite digits_app, app_EmptyString, parse_g_digits by done.
    rewrite (ends_with_fraction _ e), (ends_with_exp _ e) by done. cbn.
    rewrite Nat.add_0_r, Z.div_1_r. done.
  - rewrite (digits_S b f). cbn [with_point]. rewrite <- digits_S.
    rewrite !append_assoc, digits_app, app_String, !app_EmptyString, parse_g_digits by done.
    cbn [read_fraction]. rewrite digits_app, app_EmptyString, read_number_digits by done.
    rewrite (ends_with_exp _ e) by done. cbn. do 3 f_equal.
    replace (Z.of_nat (S (a + S b))) with (Z.of_nat (S b) + Z.of_nat (S a)) by lia.
    rewrite Z.pow_add_r, Z.rem_mul_r by lia. lia.
Qed.

(** The text of [m] without its last [k] digits, which are zeros, with a
    point before the last [b] of those that are left. *)
Lemma parse_g_layout (neg : bool) (a b k : nat) m x rest e :
  0 ≤ m < 10 ^ Z.of_nat (S a + b + k) → m mod 10 ^ Z.of_nat k = 0 →
  ends_with rest e → e - Z.of_nat b = x - 5 + Z.of_nat k →
  parse_g ((if neg then "-" else EmptyString)
           +:+ with_point (digits (S a) (m / 10 ^ Z.of_nat (k + b)) EmptyString)
                 (digits b (m / 10 ^ Z.of_nat k) EmptyString) +:+ rest)
  = Some (Sci neg (m / 10 ^ Z.of_nat k) (x - 5 + Z.of_nat k)).
Proof.
  intros [Hm Hlt] Hk Hr <-. pose proof (pow10_nat_pos k). pose proof (pow10_nat_pos b).
  rewrite pow10_split, <- Z.div_div by lia.
  rewrite (parse_g_with_point _ _ _ _ _ e) by (by try apply Z.div_pos). do 2 f_equal.
  apply Z.mod_small. split; [by apply Z.div_pos|].
  apply Z.div_lt_upper_bound; [done|]. by rewrite Z.mul_comm, <- pow10_split.
Qed.

(** ** The three notations *)

(** Six digits of which the first is not zero, in scientific notation, in
    fixed notation with digits before the point, and in fixed notation
    below one. *)

Section read_back.
Context (s : sci) (Hs : 10 ^ 5 ≤ sci_digits s < 10 ^ 6).

Lemma parse_g_scientific : sci_exp s < -4 ∨ 6 ≤ sci_exp s → ∃ k, reads_back s k.
Proof using Hs.
  intros HX. destruct (substring_digits 1 5 (sci_digits s)) as [H1 H2].
  destruct (strip_zeros_digits 5 (sci_digits s)) as (k & Hk & Hz & Hst); [lia|].
  exists k. split; [done|]. unfold format_g_sci.
  rewrite decide_False, decide_True by lia. cbn [Nat.add] in H1, H2. rewrite H1, H2, Hst.
  replace (Z.of_nat 5) with (Z.of_nat (k + (5 - k))) by lia.
  apply (parse_g_layout _ 0 _ _ _ _ (String "e" (format_exp (sci_exp s))) (sci_exp s));
    [|done|by right|lia].
  replace (1 + (5 - k) + k)%nat with 6%nat by lia. split; [lia|apply Hs].
Qed.

Lemma parse_g_fixed : 0 ≤ sci_exp s < 6 → ∃ k, reads_back s k.
Proof using Hs.
  intros HX. set (n := Z.to_nat (sci_exp s)).
  destruct (substring_digits (n + 1) (5 - n) (sci_digits s)) as [H1 H2].
  destruct (strip_zeros_digits (5 - n) (sci_digits s)) as (k & Hk & Hz & Hst); [lia|].
  exists k. split; [done|]. unfold format_g_sci.
  rewrite decide_False, decide_False, decide_True by lia. fold n.
  replace (n + 1 + (5 - n))%nat with 6%nat in H1, H2 by lia. rewrite H1, H2, Hst.
  replace (Z.of_nat (5 - n)) with (Z.of_nat (k + (5 - n - k))) by lia.
  rewrite Nat.add_1_r, <- (append_nil_r (with_point _ _)).
  apply (parse_g_layout _ n _ _ _ _ EmptyString 0); [|done|by left|lia].
  replace (S n + (5 - n - k) + k)%nat with 6%nat by lia. split; [lia|apply Hs].
Qed.

Lemma parse_g_small : -4 ≤ sci_exp s < 0 → ∃ k, reads_back s k.
Proof using Hs.
  intros HX. set (z := Z.to_nat (- sci_exp s - 1)).
  destruct (strip_zeros_digits 6 (sci_digits s)) as (k & Hk & Hz & Hst); [lia|].
  exists k. split; [done|]. unfold format_g_sci.
  rewrite decide_False, decide_False, decide_False by lia. fold z. rewrite Hst.
  pose proof (pow10_nat_pos k). pose proof (pow10_nat_pos (6 - k)).
  assert (sci_digits s / 10 ^ Z.of_nat k < 10 ^ Z.of_nat (6 - k)) as Hf.
  { apply Z.div_lt_upper_bound; [done|].
    rewrite <- pow10_split. replace (k + (6 - k))%nat with 6%nat by lia. apply Hs. }
  assert (0 ≤ sci_digits s / 10 ^ Z.of_nat k) as Hf0 by (apply Z.div_pos; lia).
  rewrite zeros_text_digits, <- (Z.div_small _ _ (conj Hf0 Hf)), <- digits_add.
  rewrite <- (append_nil_r (with_point _ _)).
  change "0"%string with (digits 1 0 EmptyString).
  rewrite <- (Z.div_small (sci_digits s) (10 ^ Z.of_nat (k + (z + (6 - k))))).
  - apply (parse_g_layout _ 0 _ _ _ _ EmptyString 0); [|done|by left|lia].
    split; [lia|]. eapply Z.lt_le_trans; [apply Hs|].
    apply (Z.pow_le_mono_r 10 6); lia.
  - split; [lia|]. eapply Z.lt_le_trans; [apply Hs|]. apply (Z.pow_le_mono_r 10 6); lia.
Qed.

End read_back.

(** ** The number printed *)

Lemma to_sci_six_digits neg n d : 0 ≤ n → 0 < d → six_digits (to_sci 5 neg n d).
Proof.
  intros Hn Hd. destruct (decide (n = 0)) as [->|Hne]; [by left|].
  right. apply (to_sci_digits 5); lia.
Qed.

(** The text of six digits reads back as the digits without the zeros at
    their end, scaled accordingly. *)
Lemma parse_g_format_g_sci (s : sci) :
  six_digits s →
  ∃ k : nat, sci_digits s mod 10 ^ Z.of_nat k = 0
    ∧ parse_g (format_g_sci s)
      = Some (Sci (sci_neg s) (sci_digits s / 10 ^ Z.of_nat k) (sci_exp s - 5 + Z.of_nat k)).
Proof.
  intros [[Hm HX]|Hm].
  - exists 5%nat. destruct s as [neg m X]. cbn in Hm, HX. subst. by destruct neg.
  - destruct (decide (sci_exp s < -4 ∨ 6 ≤ sci_exp s)); [by apply parse_g_scientific|].
    destruct (decide (0 ≤ sci_exp s)); [apply parse_g_fixed|apply parse_g_small]; lia.
Qed.

(** Dropping zeros at the end of the digits does not change the number. *)
Lemma sci_value_scaled neg m x (k : nat) :
  m mod 10 ^ Z.of_nat k = 0 →
  (sci_value 0 (Sci neg (m / 10 ^ Z.of_nat k) (x - 5 + Z.of_nat k))
   == sci_value 5 (Sci neg m x))%Q.
Proof.
  intros Hk. pose proof (pow10_nat_pos k).
  assert (m = m / 10 ^ Z.of_nat k * 10 ^ Z.of_nat k) as Hm.
  { pose proof (Z.div_mod m (10 ^ Z.of_nat k) ltac:(lia)). lia. }
  unfold sci_value. cbn [sci_neg sci_digits sci_exp]. rewrite Hm at 2.
  replace (x - 5 + Z.of_nat k - 0) with (Z.of_nat k + (x - 5)) by lia.
  destruct neg; unfold signed;
    rewrite pow10_add, inject_Z_mult, (pow10_nonneg (Z.of_nat k)), <- inject_Z_frac by lia;
    ring.
Qed.

Lemma format_g_parse (x : spec_float) (v : Q) :
  float_value x = Some v →
  ∃ d s, parse_g (format_g x) = Some d ∧ float_sci 5 x = Some s
         ∧ (Qabs (v - sci_value 0 d) <= half_unit 5 s)%Q.
Proof.
  intros Hv. destruct (float_sci_value 5 x v Hv) as (neg & n & d & Hn & Hd & Hq & Hs).
  destruct (parse_g_format_g_sci (to_sci 5 neg n d)) as (k & Hk & Hp);
    [by apply to_sci_six_digits|].
  unfold format_g. rewrite Hs. eexists _, _. split; [exact Hp|]. split; [done|].
  rewrite sci_value_scaled by done. rewrite Hq.
  destruct (to_sci 5 neg n d) as [neg' m X] eqn:Hsci. cbn [sci_neg sci_digits sci_exp].
  rewrite <- Hsci. replace neg' with neg by (by rewrite <- (to_sci_neg 5 neg n d), Hsci).
  apply to_sci_error; lia.
Qed.

(** C33: the text of a refused tolerance denotes the tolerance to six
    digits: for a double that has a value, the text that a C++ stream prints
    reads back, in either notation, as a number that differs from the exact
    value of the double by at most half a unit of the sixth significant
    digit. *)
Theorem format_g_nearest (x : spec_float) (v : Q) :
  float_value x = Some v →
  ∃ d s, parse_g (format_g x) = Some d ∧ float_sci 5 x = Some s
         ∧ (Qabs (v - sci_value 0 d) <= half_unit 5 s)%Q.
Proof. apply format_g_parse. Qed.

(** ** Concrete values *)

(** Whole numbers and short fractions are printed in full. *)
Example format_g_fixed :
  format_g (py_float (-1) 1) = "-1" ∧ format_g (py_float (-1) 2) = "-0.5"
  ∧ format_g (py_float (-1) 10) = "-0.1" ∧ format_g (py_float 100000 1) = "100000"
  ∧ format_g (py_float 123456 1000) = "123.456" ∧ format_g (py_float (-1) 10000) = "-0.0001".
Proof. by vm_compute. Qed.

(** Below [1e-4] and from [1e6] on the notation is scientific, and the
    digits after the sixth are rounded away. *)
Example format_g_scientific :
  format_g (py_float (-1) 100000) = "-1e-05" ∧ format_g (py_float 1000000 1) = "1e+06"
  ∧ format_g (py_float (-123456789) 1) = "-1.23457e+08"
  ∧ format_g (py_float (-1) (10 ^ 50)) = "-1e-50"
  ∧ format_g (py_float 1234 100000000) = "1.234e-05".
Proof. by vm_compute. Qed.

(** Rounding to six digits can carry into the notation: [999999.5] is
    printed as [1e+06]. *)
Example format_g_carry : format_g (py_float 9999995 10) = "1e+06".
Proof. by vm_compute. Qed.

Example format_g_names :
  format_g S754_nan = "nan" ∧ format_g (S754_infinity true) = "-inf"
  ∧ format_g (S754_zero false) = "0" ∧ format_g (S754_zero true) = "-0".
Proof. by vm_compute. Qed.

(** The texts read back: the point moves into the power of ten. *)
Example parse_g_run :
  parse_g "-0.5" = Some (Sci true 5 (-1)) ∧ parse_g "123.456" = Some (Sci false 123456 (-3))
  ∧ parse_g "-1.23457e+08" = Some (Sci true 123457 3)
  ∧ parse_g "1e-50" = Some (Sci false 1 (-50))
  ∧ parse_g "100000" = Some (Sci false 100000 0) ∧ parse_g "-0" = Some (Sci true 0 0)
  ∧ parse_g "nan" = None ∧ parse_g ".5" = None.
Proof. by vm_compute. Qed.

(** ** Witnesses *)

Lemma format_g_nearest_witness :
  ∃ d s, parse_g (format_g (py_float (-1) 10)) = Some d
         ∧ float_sci 5 (py_float (-1) 10) = Some s
         ∧ (Qabs (- (7205759403792794 # 72057594037927936) - sci_value 0 d)
            <= half_unit 5 s)%Q.
Proof.
  apply (format_g_nearest (py_float (-1) 10) (- (7205759403792794 # 72057594037927936))).
  by vm_compute.
Defined.
