(* ===== verification/Tensor.v ===== *)
(** * Tensor: shaped arrays in row-major order

    A tensor is a shape and the flat list of its entries in row-major
    (C-contiguous) order, which is the order in which PyTorch enumerates
    entries in [argwhere], boolean-mask indexing and [flatten].  This file
    models the tensor operations that [allclose_report] calls, apart from
    the arithmetic of the entries (file [Scalar]): multi-dimensional
    indices ([unravel_index], [ravel_index]), broadcasting of shapes and
    [expand], [logical_not_], [all], [argwhere], indexing with a boolean
    mask and [flatten]. *)

From S2P Require Import Prelude PyStr PySeq SplitList.

(** ** Data *)

(** A tensor: its shape and its entries in row-major order. *)
Record tensor (A : Type) : Type := Tensor {
  t_shape : list nat;
  t_data : list A;
}.

Arguments Tensor {A} t_shape t_data.
Arguments t_shape {A} t.
Arguments t_data {A} t.

(** The number of entries of a tensor of the given shape. *)
Definition numel (shape : list nat) : nat := foldr Nat.mul 1%nat shape.

(** A tensor is well formed when it has as many entries as its shape says. *)
Definition tensor_wf {A} (t : tensor A) : Prop :=
  length (t_data t) = numel (t_shape t).

#[global] Instance tensor_wf_dec {A} (t : tensor A) : Decision (tensor_wf t).
Proof. unfold tensor_wf. apply _. Defined.

(** ** Multi-dimensional indices *)

(** The multi-index of the entry at flat position [k]. *)
Fixpoint unravel_index (shape : list nat) (k : nat) : list nat :=
  match shape with
  | [] => []
  | _ :: rest => (k / numel rest)%nat :: unravel_index rest (k `mod` numel rest)%nat
  end.

(** The flat position of the entry at a multi-index. *)
Fixpoint ravel_index (shape idx : list nat) : nat :=
  match shape, idx with
  | _ :: rest, i :: idx' => (i * numel rest + ravel_index rest idx')%nat
  | _, _ => 0%nat
  end.

(** A multi-index within the bounds of a shape. *)
Definition valid_index (shape idx : list nat) : Prop :=
  Forall2 (λ i d : nat, (i < d)%nat) idx shape.

(** ** Masks *)

(** The flat positions, from [k] on, at which a list of booleans is true. *)
Fixpoint positions_from (k : nat) (bs : list bool) : list nat :=
  match bs with
  | [] => []
  | b :: bs' => (if b then [k] else []) ++ positions_from (S k) bs'
  end.

(** The items of [xs] at which the mask is true, in order. *)
Fixpoint select {A} (bs : list bool) (xs : list A) : list A :=
  match bs, xs with
  | b :: bs', x :: xs' => (if b then [x] else []) ++ select bs' xs'
  | _, _ => []
  end.

(** [mask.logical_not_()]. *)
Definition logical_not (mask : tensor bool) : tensor bool :=
  Tensor (t_shape mask) (negb <$> t_data mask).

(** [mask.all().item()]. *)
Definition tensor_all (mask : tensor bool) : bool := forallb id (t_data mask).

(** [mask.argwhere()]: the multi-indices of the true entries, one row each,
    in row-major order. *)
Definition argwhere (mask : tensor bool) : list (list nat) :=
  unravel_index (t_shape mask) <$> positions_from 0 (t_data mask).

(** [t.flatten()]. *)
Definition flatten {A} (t : tensor A) : tensor A :=
  Tensor [length (t_data t)] (t_data t).

(** ** Broadcasting *)

(** The broadcast of two sizes of one dimension: equal sizes, or one of
    them 1. *)
Definition broadcast_dim (a b : nat) : option nat :=
  if decide (a = b) then Some a
  else if decide (a = 1%nat) then Some b
  else if decide (b = 1%nat) then Some a
  else None.

(** Broadcasting of two shapes given last dimension first. *)
Fixpoint broadcast_rev (s1 s2 : list nat) : option (list nat) :=
  match s1, s2 with
  | [], s | s, [] => Some s
  | a :: s1', b :: s2' =>
      d ← broadcast_dim a b; r ← broadcast_rev s1' s2'; Some (d :: r)
  end.

(** The shape two tensors are broadcast to: shapes are aligned at their
    last dimension; [None] when they are incompatible. *)
Definition broadcast_shapes (s1 s2 : list nat) : option (list nat) :=
  reverse <$> broadcast_rev (reverse s1) (reverse s2).

(** The dimension at which two shapes, given last dimension first, do not
    broadcast: the two sizes and the position [i] in the broadcast shape,
    counted down from its last dimension. *)
Fixpoint mismatch_rev (i : nat) (s1 s2 : list nat) : option (nat * nat * nat) :=
  match s1, s2 with
  | a :: s1', b :: s2' =>
      match broadcast_dim a b with
      | None => Some (a, b, i)
      | Some _ => mismatch_rev (pred i) s1' s2'
      end
  | _, _ => None
  end.

Definition broadcast_mismatch (s1 s2 : list nat) : option (nat * nat * nat) :=
  mismatch_rev (length s1 `max` length s2 - 1) (reverse s1) (reverse s2).

(** The message of the [RuntimeError] for shapes that do not broadcast. *)
Definition broadcast_error (s1 s2 : list nat) : string :=
  match broadcast_mismatch s1 s2 with
  | Some (a, b, i) =>
      "The size of tensor a (" +:+ py_str_int (Z.of_nat a)
      +:+ ") must match the size of tensor b (" +:+ py_str_int (Z.of_nat b)
      +:+ ") at non-singleton dimension " +:+ py_str_int (Z.of_nat i)
  | None => EmptyString
  end.

(** The multi-index into a tensor of shape [src] that a multi-index [idx]
    of the broadcast shape reads: leading dimensions are dropped, and a
    dimension of size 1 is read at 0. *)
Definition expand_index (src idx : list nat) : list nat :=
  zip_with (λ d i : nat, if decide (d = 1%nat) then 0%nat else i) src
    (drop (length idx - length src) idx).

(** [t.expand(target)]: the view of [t] at a broadcast shape, with its
    entries enumerated in row-major order. *)
Definition expand `{Inhabited A} (t : tensor A) (target : list nat) : tensor A :=
  Tensor target
    ((λ k, t_data t !!! ravel_index (t_shape t)
                          (expand_index (t_shape t) (unravel_index target k)))
     <$> seq 0 (numel target)).

(** ** Indexing with a boolean mask *)

(** A shape as PyTorch prints it in messages: [[2, 3]]. *)
Fixpoint shape_items (shape : list nat) : string :=
  match shape with
  | [] => EmptyString
  | [d] => py_str_int (Z.of_nat d)
  | d :: rest => py_str_int (Z.of_nat d) +:+ ", " +:+ shape_items rest
  end.

Definition shape_str (shape : list nat) : string := "[" +:+ shape_items shape +:+ "]".

(** The first dimension at which a mask does not fit the indexed tensor. *)
Fixpoint mask_mismatch (i : nat) (mshape tshape : list nat) : option nat :=
  match mshape, tshape with
  | m :: mshape', d :: tshape' =>
      if decide (m = d) then mask_mismatch (S i) mshape' tshape' else Some i
  | _, _ => None
  end.

(** [t[mask]]: the mask must have at most as many dimensions as [t] and
    agree with the leading dimensions of [t]; the result holds the rows of
    [t] (entries, when the shapes are equal) at which the mask is true. *)
Definition getitem_mask {A} (t : tensor A) (mask : tensor bool) : result (tensor A) :=
  let mshape := t_shape mask in
  let tshape := t_shape t in
  if decide (length tshape < length mshape)%nat then
    Raise (IndexError ("too many indices for tensor of dimension "
                       +:+ py_str_int (len tshape)))
  else
    match mask_mismatch 0 mshape tshape with
    | Some i =>
        Raise (IndexError ("The shape of the mask " +:+ shape_str mshape
                           +:+ " at index " +:+ py_str_int (Z.of_nat i)
                           +:+ " does not match the shape of the indexed tensor "
                           +:+ shape_str tshape
                           +:+ " at index " +:+ py_str_int (Z.of_nat i)))
    | None =>
        let row_shape := drop (length mshape) tshape in
        let rows := chunks (t_data t) (replicate (numel mshape) (numel row_shape)) in
        let chosen := select (t_data mask) rows in
        Return (Tensor (length chosen :: row_shape) (concat chosen))
    end.

(** ** Shapes and indices *)

Lemma numel_cons (d : nat) (shape : list nat) : numel (d :: shape) = (d * numel shape)%nat.
Proof. done. Qed.

Lemma numel_nil : numel [] = 1%nat.
Proof. done. Qed.

Lemma length_unravel_index (shape : list nat) (k : nat) :
  length (unravel_index shape k) = length shape.
Proof. revert k. induction shape as [|d shape IH]; intros k; cbn; [done|]. by rewrite IH. Qed.

(** The multi-index of a position within the tensor is within its bounds. *)
Lemma unravel_index_valid (shape : list nat) (k : nat) :
  (k < numel shape)%nat → valid_index shape (unravel_index shape k).
Proof.
  revert k. induction shape as [|d shape IH]; intros k Hk; [constructor|].
  rewrite numel_cons in Hk. cbn [unravel_index].
  assert (numel shape ≠ 0)%nat by lia.
  constructor.
  - apply Nat.Div0.div_lt_upper_bound. lia.
  - apply IH. by apply Nat.mod_upper_bound.
Qed.

(** A valid multi-index is the position of an entry of the tensor. *)
Lemma ravel_index_lt (shape idx : list nat) :
  valid_index shape idx → (ravel_index shape idx < numel shape)%nat.
Proof.
  intros Hv. induction Hv as [|i d idx shape Hi _ IH]; [cbn; lia|].
  rewrite numel_cons. cbn [ravel_index]. nia.
Qed.

Lemma ravel_unravel (shape : list nat) (k : nat) :
  (k < numel shape)%nat → ravel_index shape (unravel_index shape k) = k.
Proof.
  revert k. induction shape as [|d shape IH]; intros k Hk.
  - rewrite numel_nil in Hk. cbn. lia.
  - rewrite numel_cons in Hk. cbn [unravel_index ravel_index].
    assert (numel shape ≠ 0)%nat by lia.
    rewrite IH by (by apply Nat.mod_upper_bound).
    rewrite (Nat.div_mod_eq k (numel shape)) at 3. lia.
Qed.

(** C23: multi-indices and flat positions determine each other: the flat
    position of the multi-index of position [k] is [k], for every position
    of the tensor. *)
Theorem ravel_unravel_index (shape : list nat) (k : nat) :
  (k < numel shape)%nat → ravel_index shape (unravel_index shape k) = k.
Proof. apply ravel_unravel. Qed.

(** Conversely the multi-index of the flat position of a valid
    multi-index is that multi-index. *)
Theorem unravel_ravel_index (shape idx : list nat) :
  valid_index shape idx → unravel_index shape (ravel_index shape idx) = idx.
Proof.
  intros Hv. induction Hv as [|i d idx shape Hi Hv IH]; [done|].
  pose proof (ravel_index_lt shape idx Hv).
  cbn [ravel_index unravel_index]. f_equal.
  - rewrite Nat.div_add_l by lia. rewrite Nat.div_small by done. lia.
  - rewrite Nat.add_comm, Nat.Div0.mod_add, Nat.mod_small by done. done.
Qed.

(** ** Masks *)

Section masks.
Context {A : Type}.
Implicit Types (bs : list bool) (xs : list A) (k : nat).

Lemma length_select bs xs :
  length bs = length xs → length (select bs xs) = length (positions_from 0 bs).
Proof.
  generalize 0%nat as k. revert xs.
  induction bs as [|b bs IH]; intros [|x xs] k Hl; try done.
  cbn [select positions_from]. rewrite !length_app, (IH xs (S k)) by (cbn in Hl; lia).
  by destruct b.
Qed.

(** The selected items are the items at the true positions. *)
Lemma select_positions bs xs k :
  length bs = length xs →
  Forall2 (λ p x, (k ≤ p)%nat ∧ xs !! (p - k)%nat = Some x ∧ bs !! (p - k)%nat = Some true)
    (positions_from k bs) (select bs xs).
Proof.
  revert xs k. induction bs as [|b bs IH]; intros [|x xs] k Hl; try done.
  cbn [select positions_from]. apply Forall2_app.
  - destruct b; [|constructor]. repeat constructor; rewrite ?Nat.sub_diag; done || lia.
  - eapply Forall2_impl; [apply (IH xs (S k)); cbn in Hl; lia|].
    intros p y (Hp & Hx & Hb). replace (p - k)%nat with (S (p - S k)) by lia.
    split; [lia|done].
Qed.

(** Selecting commutes with mapping the items. *)
Lemma select_fmap {B} (f : A → B) bs xs : select bs (f <$> xs) = f <$> select bs xs.
Proof.
  revert xs. induction bs as [|b bs IH]; intros [|x xs]; try done.
  cbn [select fmap list_fmap]. fold (fmap (M := list) f).
  rewrite IH, fmap_app. by destruct b.
Qed.

(** Every position is reported or not according to the mask. *)
Lemma positions_from_spec bs k (p : nat) :
  p ∈ positions_from k bs ↔ (k ≤ p)%nat ∧ bs !! (p - k)%nat = Some true.
Proof.
  revert k. induction bs as [|b bs IH]; intros k.
  - split; [by intros ?%elem_of_nil|by intros [_ ?]].
  - cbn [positions_from]. rewrite elem_of_app, IH. split.
    + intros [Hp|[Hp Hb]].
      * destruct b; [|by apply elem_of_nil in Hp].
        apply list_elem_of_singleton in Hp as ->. by rewrite Nat.sub_diag.
      * split; [lia|]. by replace (p - k)%nat with (S (p - S k)) by lia.
    + intros [Hp Hb]. destruct (decide (p = k)) as [->|Hne].
      * left. rewrite Nat.sub_diag in Hb. injection Hb as ->. by apply list_elem_of_singleton.
      * right. split; [lia|]. by replace (p - k)%nat with (S (p - S k)) in Hb by lia.
Qed.

End masks.

Lemma forallb_id_true (bs : list bool) :
  forallb id bs = true ↔ positions_from 0 (negb <$> bs) = [].
Proof.
  generalize 0%nat as k. induction bs as [|b bs IH]; intros k; [done|].
  cbn [forallb fmap list_fmap positions_from]. fold (fmap (M := list) negb).
  rewrite andb_true_iff, (IH (S k)).
  destruct b; cbn; (split; [by intros [? ?]|by intros ?]).
Qed.

(** ** Broadcasting *)

Lemma broadcast_dim_diag (a : nat) : broadcast_dim a a = Some a.
Proof. unfold broadcast_dim. by rewrite decide_True. Qed.

Lemma broadcast_dim_comm (a b : nat) : broadcast_dim a b = broadcast_dim b a.
Proof. unfold broadcast_dim. repeat case_decide; congruence. Qed.

Lemma broadcast_rev_diag (s : list nat) : broadcast_rev s s = Some s.
Proof.
  induction s as [|a s IH]; [done|].
  cbn [broadcast_rev]. by rewrite broadcast_dim_diag, IH.
Qed.

Lemma broadcast_rev_comm (s1 s2 : list nat) : broadcast_rev s1 s2 = broadcast_rev s2 s1.
Proof.
  revert s2. induction s1 as [|a s1 IH]; intros [|b s2]; try done.
  cbn [broadcast_rev]. by rewrite broadcast_dim_comm, IH.
Qed.

(** Shapes fail to broadcast exactly when a dimension is reported, and the
    sizes reported differ and are not 1. *)
Lemma mismatch_rev_None (i : nat) (s1 s2 : list nat) :
  mismatch_rev i s1 s2 = None ↔ is_Some (broadcast_rev s1 s2).
Proof.
  revert i s2. induction s1 as [|a s1 IH]; intros i [|b s2]; cbn; try by eauto.
  destruct (broadcast_dim a b); cbn; [|by split; [|intros []]].
  rewrite IH. by destruct (broadcast_rev s1 s2); cbn; split; (eauto || intros []).
Qed.

Lemma mismatch_rev_Some (i : nat) (s1 s2 : list nat) (a b j : nat) :
  mismatch_rev i s1 s2 = Some (a, b, j) →
  a ≠ b ∧ a ≠ 1%nat ∧ b ≠ 1%nat
  ∧ ∃ k : nat, s1 !! k = Some a ∧ s2 !! k = Some b ∧ j = (i - k)%nat.
Proof.
  revert i s2. induction s1 as [|a' s1 IH]; intros i [|b' s2]; cbn; try done.
  destruct (broadcast_dim a' b') eqn:Hd.
  - intros (? & ? & ? & k & ? & ? & ->)%IH. repeat split; try done.
    exists (S k). repeat split; try done. lia.
  - intros [= -> -> ->]. unfold broadcast_dim in Hd. repeat case_decide; try done.
    repeat split; try done. exists 0%nat. repeat split. lia.
Qed.

Lemma broadcast_mismatch_None (s1 s2 : list nat) :
  broadcast_mismatch s1 s2 = None ↔ is_Some (broadcast_shapes s1 s2).
Proof.
  unfold broadcast_mismatch, broadcast_shapes. rewrite mismatch_rev_None.
  by destruct (broadcast_rev _ _); cbn; split; (eauto || intros []).
Qed.

(** The broadcast shape has the dimensions of the longer shape. *)
Lemma length_broadcast_rev (s1 s2 s : list nat) :
  broadcast_rev s1 s2 = Some s → length s = (length s1 `max` length s2)%nat.
Proof.
  revert s2 s. induction s1 as [|a s1 IH]; intros [|b s2] s Hs; simplify_eq/=; try done.
  destruct (broadcast_dim a b); simplify_eq/=.
  destruct (broadcast_rev s1 s2) eqn:Hr; simplify_eq/=. by rewrite (IH _ _ Hr).
Qed.

(** A tensor broadcasts with itself to its own shape. *)
Lemma broadcast_shapes_diag (s : list nat) : broadcast_shapes s s = Some s.
Proof. unfold broadcast_shapes. by rewrite broadcast_rev_diag; cbn; rewrite reverse_involutive. Qed.

Lemma broadcast_shapes_comm (s1 s2 : list nat) :
  broadcast_shapes s1 s2 = broadcast_shapes s2 s1.
Proof. unfold broadcast_shapes. by rewrite broadcast_rev_comm. Qed.

Lemma length_broadcast_shapes (s1 s2 s : list nat) :
  broadcast_shapes s1 s2 = Some s → length s = (length s1 `max` length s2)%nat.
Proof.
  unfold broadcast_shapes. destruct (broadcast_rev _ _) as [r|] eqn:Hr; [|done].
  intros [= <-]. apply length_broadcast_rev in Hr.
  by rewrite !length_reverse in *.
Qed.

(** ** Expanding *)

Lemma expand_index_id (shape idx : list nat) :
  valid_index shape idx → expand_index shape idx = idx.
Proof.
  intros Hv. unfold expand_index.
  rewrite (Forall2_length _ _ _ Hv), Nat.sub_diag, drop_0.
  induction Hv as [|i d idx shape Hi _ IH]; [done|].
  cbn [zip_with]. rewrite IH. case_decide; [f_equal; lia|done].
Qed.

(** Reading every position of a list in order gives the list. *)
Lemma fmap_lookup_total_seq `{Inhabited A} (l : list A) :
  (λ k, l !!! k) <$> seq 0 (length l) = l.
Proof.
  apply list_eq. intros k. rewrite list_lookup_fmap.
  destruct (decide (k < length l)%nat) as [Hk|Hk].
  - rewrite lookup_seq_lt by done. cbn.
    destruct (lookup_lt_is_Some_2 l k Hk) as [x Hx].
    by rewrite Hx, (list_lookup_total_correct _ _ _ Hx).
  - rewrite lookup_seq_ge, lookup_ge_None_2 by lia. done.
Qed.

Lemma expand_wf `{Inhabited A} (t : tensor A) (target : list nat) :
  tensor_wf (expand t target).
Proof. unfold tensor_wf, expand. cbn. by rewrite length_fmap, length_seq. Qed.

(** Expanding a well-formed tensor to its own shape gives the tensor
    back: every entry is read at its own position. *)
Theorem expand_id `{Inhabited A} (t : tensor A) :
  tensor_wf t → expand t (t_shape t) = t.
Proof.
  intros Hwf. destruct t as [shape data]. unfold tensor_wf, expand in *.
  cbn [t_shape t_data] in *. f_equal. rewrite <- Hwf.
  rewrite <- (fmap_lookup_total_seq data) at 2.
  apply list_fmap_ext. intros i k [-> Hk]%lookup_seq. rewrite Hwf in Hk.
  by rewrite expand_index_id, ravel_unravel
    by (try apply unravel_index_valid; cbn; lia).
Qed.

(** ** Indexing with a boolean mask *)

Lemma mask_mismatch_diag (i : nat) (s : list nat) : mask_mismatch i s s = None.
Proof.
  revert i. induction s as [|d s IH]; intros i; [done|].
  cbn [mask_mismatch]. by rewrite decide_True.
Qed.

Lemma mask_mismatch_None (i : nat) (mshape tshape : list nat) :
  length mshape = length tshape → mask_mismatch i mshape tshape = None →
  mshape = tshape.
Proof.
  revert i tshape. induction mshape as [|m mshape IH]; intros i [|d tshape] Hl Hm;
    try done.
  cbn [mask_mismatch] in Hm. case_decide as Hd; [|done]. subst d.
  f_equal. apply (IH (S i)); [cbn in Hl; lia|done].
Qed.

Section getitem_mask.
Context {A : Type}.
Implicit Types (t : tensor A) (mask : tensor bool).

(** With a mask of the tensor's shape the result is the vector of the
    entries at which the mask is true. *)
Lemma getitem_mask_same_shape t mask :
  tensor_wf t → t_shape mask = t_shape t →
  getitem_mask t mask
  = Return (Tensor [length (select (t_data mask) (t_data t))]
                   (select (t_data mask) (t_data t))).
Proof.
  intros Hwf Hs. unfold getitem_mask. rewrite Hs, mask_mismatch_diag.
  rewrite decide_False by lia. rewrite drop_all, numel_nil, <- Hwf.
  rewrite chunks_singletons, select_fmap, length_fmap.
  f_equal. f_equal. induction (select _ _) as [|x l IH]; [done|]. cbn. by f_equal.
Qed.

(** A mask with at least as many dimensions as the tensor and another shape
    is refused. *)
Lemma getitem_mask_other_shape t mask :
  (length (t_shape t) ≤ length (t_shape mask))%nat → t_shape mask ≠ t_shape t →
  ∃ msg, getitem_mask t mask = Raise (IndexError msg).
Proof.
  intros Hl Hne. unfold getitem_mask. case_decide as Hlt; [by eexists|].
  destruct (mask_mismatch 0 _ _) as [i|] eqn:Hm; [by eexists|].
  destruct Hne. apply (mask_mismatch_None 0); [lia|done].
Qed.

(** Indexing with a mask raises nothing but [IndexError]. *)
Lemma getitem_mask_raises t mask (e : exn) :
  getitem_mask t mask = Raise e → ∃ msg, e = IndexError msg.
Proof.
  unfold getitem_mask. case_decide; [intros [= <-]; by eexists|].
  destruct (mask_mismatch 0 _ _); [intros [= <-]; by eexists|done].
Qed.

End getitem_mask.

(** ** Witnesses *)

Lemma ravel_unravel_index_witness :
  ravel_index [2; 3]%nat (unravel_index [2; 3]%nat 4) = 4%nat.
Proof. apply (ravel_unravel_index [2; 3]%nat 4). cbn. lia. Defined.

Lemma unravel_ravel_index_witness :
  unravel_index [2; 3]%nat (ravel_index [2; 3]%nat [1; 2]%nat) = [1; 2]%nat.
Proof. apply (unravel_ravel_index [2; 3]%nat [1; 2]%nat). repeat constructor; lia. Defined.

Lemma expand_id_witness :
  expand (Tensor [2; 2]%nat [1; 2; 3; 4]) [2; 2]%nat = Tensor [2; 2]%nat [1; 2; 3; 4].
Proof. apply (expand_id (Tensor [2; 2]%nat [1; 2; 3; 4])). by vm_compute. Defined.
