(* ===== verification/Allclose.v ===== *)
(** * Allclose: [allclose_report] of [curvlinops/utils.py]

    [allclose_report(tensor1, tensor2, rtol, atol)] returns whether two
    tensors are close and, when they are not, prints one line for every
    entry at which they differ.  It is written as a pipeline of whole-tensor
    operations: [allclose], then [isclose] negated in place, [argwhere] of
    that mask, the two tensors indexed with the mask and flattened, and a
    loop over the three sequences zipped together.

    The model of this file returns the value and the items of the loop
    together.  An item is the record of the four values the f-string formats
    (the index, the two entries and their ratio); their text and standard
    output are in [Report].  The tolerances are Python floats. *)

From S2P Require Import Prelude PyStr Scalar Format FormatG Tensor.
From Stdlib Require Import QArith SpecFloat.

#[local] Existing Instance scalar_inhabited.

Section allclose.
Context {E : Type} {Sc : Scalar E}.
Implicit Types (t : tensor E) (rtol atol : spec_float) (a b : E) (d : list E).

(** ** The tensor operations *)

(** [tensor1.isclose(tensor2, rtol=rtol, atol=atol)]: negative (or NaN)
    tolerances and shapes that do not broadcast are refused; otherwise both
    tensors are expanded to the broadcast shape and compared entry by
    entry.  The messages are PyTorch's; that of a tolerance ends in the
    tolerance, as a C++ stream prints it. *)
Definition tensor_isclose t1 t2 rtol atol : result (tensor bool) :=
  if negb (SFleb (S754_zero false) rtol) then
    Raise (RuntimeError ("rtol must be greater than or equal to zero, but got "
                         +:+ format_g rtol))
  else if negb (SFleb (S754_zero false) atol) then
    Raise (RuntimeError ("atol must be greater than or equal to zero, but got "
                         +:+ format_g atol))
  else
    match broadcast_shapes (t_shape t1) (t_shape t2) with
    | None => Raise (RuntimeError (broadcast_error (t_shape t1) (t_shape t2)))
    | Some shape =>
        Return (Tensor shape (zip_with (isclose_elem rtol atol)
                                (t_data (expand t1 shape)) (t_data (expand t2 shape))))
    end.

(** [tensor1.allclose(tensor2, rtol=rtol, atol=atol)]: every entry of
    [isclose] holds. *)
Definition tensor_allclose t1 t2 rtol atol : result bool :=
  tensor_all <$> tensor_isclose t1 t2 rtol atol.

(** ** The report *)

(** What one printed line shows:
    [at index {idx}: {t1:.5e} ≠ {t2:.5e}, ratio: {t1 / t2:.5e}]. *)
Record report_line : Type := ReportLine {
  line_idx : list nat;
  line_t1 : E;
  line_t2 : E;
  line_ratio : E;
}.

(** The body of the loop, for one item of the zip. *)
Definition print_line (idx : list nat) (t12 : E * E) : report_line :=
  ReportLine idx t12.1 t12.2 (s_div t12.1 t12.2).

(** The loop over [zip(indices, entries1, entries2)]: a zip stops at the
    shortest of its arguments. *)
Definition report_lines (idxs : list (list nat)) d1 d2 : list report_line :=
  zip_with print_line idxs (zip d1 d2).

(** [allclose_report]: the returned flag and the lines printed. *)
Definition allclose_report t1 t2 rtol atol : result (bool * list report_line) :=
  close ← tensor_allclose t1 t2 rtol atol;
  if negb close then
    nonclose_idx ← logical_not <$> tensor_isclose t1 t2 rtol atol;
    let idxs := argwhere nonclose_idx in
    v1 ← flatten <$> getitem_mask t1 nonclose_idx;
    v2 ← flatten <$> getitem_mask t2 nonclose_idx;
    mret (close, report_lines idxs (t_data v1) (t_data v2))
  else mret (close, []).

(** ** The reference: one pass over the entries *)

(** The lines of a single loop over the positions from [k] on, which
    reports the entries that are not close. *)
Fixpoint reference_lines (shape : list nat) rtol atol (k : nat) d1 d2
    : list report_line :=
  match d1, d2 with
  | a :: d1', b :: d2' =>
      (if isclose_elem rtol atol a b then []
       else [print_line (unravel_index shape k) (a, b)])
      ++ reference_lines shape rtol atol (S k) d1' d2'
  | _, _ => []
  end.

(** Valid tolerances: what [isclose] accepts. *)
Definition valid_tolerance rtol atol : Prop :=
  SFleb (S754_zero false) rtol = true ∧ SFleb (S754_zero false) atol = true.

#[global] Instance valid_tolerance_dec rtol atol : Decision (valid_tolerance rtol atol).
Proof. unfold valid_tolerance. apply _. Defined.

(** Two tensors that [allclose_report] is meant for: well formed and of the
    same shape. *)
Definition comparable t1 t2 : Prop :=
  tensor_wf t1 ∧ tensor_wf t2 ∧ t_shape t1 = t_shape t2.

#[global] Instance comparable_dec t1 t2 : Decision (comparable t1 t2).
Proof. unfold comparable. apply _. Defined.

End allclose.

Arguments report_line E : clear implicits.
Arguments tensor_isclose : simpl never.
Arguments tensor_allclose : simpl never.

(** ** [isclose] and [allclose] *)

Section isclose.
Context {E : Type} {Sc : Scalar E}.
Implicit Types (t : tensor E) (rtol atol : spec_float) (a b : E) (d : list E)
  (shape : list nat).

Lemma tensor_isclose_valid t1 t2 rtol atol shape :
  valid_tolerance rtol atol →
  broadcast_shapes (t_shape t1) (t_shape t2) = Some shape →
  tensor_isclose t1 t2 rtol atol
  = Return (Tensor shape (zip_with (isclose_elem rtol atol)
                            (t_data (expand t1 shape)) (t_data (expand t2 shape)))).
Proof. intros [Hr Ha] Hs. unfold tensor_isclose. by rewrite Hr, Ha, Hs. Qed.

Lemma tensor_isclose_invalid t1 t2 rtol atol :
  ¬ valid_tolerance rtol atol ∨ broadcast_shapes (t_shape t1) (t_shape t2) = None →
  ∃ msg, tensor_isclose t1 t2 rtol atol = Raise (RuntimeError msg).
Proof.
  intros Hi. unfold tensor_isclose, valid_tolerance in *.
  destruct (SFleb _ rtol), (SFleb _ atol); cbn; try by eexists.
  destruct Hi as [[]| ->]; [done|by eexists].
Qed.

(** A tolerance that is negative or NaN is refused by name and with its
    value, the relative tolerance first, whatever the tensors. *)
Lemma tensor_isclose_refused t1 t2 rtol atol :
  ¬ valid_tolerance rtol atol →
  tensor_isclose t1 t2 rtol atol
  = Raise (RuntimeError
             (if SFleb (S754_zero false) rtol
              then "atol must be greater than or equal to zero, but got " +:+ format_g atol
              else "rtol must be greater than or equal to zero, but got " +:+ format_g rtol)).
Proof.
  intros Hv. unfold tensor_isclose, valid_tolerance in *.
  destruct (SFleb _ rtol); [|done]. destruct (SFleb _ atol); [|done]. by destruct Hv.
Qed.

(** [isclose] returns or raises a [RuntimeError]; the mask it returns has
    the broadcast shape. *)
Lemma tensor_isclose_inv t1 t2 rtol atol (r : result (tensor bool)) :
  tensor_isclose t1 t2 rtol atol = r →
  (∃ msg, r = Raise (RuntimeError msg))
  ∨ (∃ m, r = Return m ∧ valid_tolerance rtol atol
          ∧ broadcast_shapes (t_shape t1) (t_shape t2) = Some (t_shape m)).
Proof.
  intros <-. destruct (decide (valid_tolerance rtol atol)) as [Hv|Hv];
    [|left; apply tensor_isclose_invalid; by left].
  destruct (broadcast_shapes (t_shape t1) (t_shape t2)) as [shape|] eqn:Hs;
    [|left; apply tensor_isclose_invalid; by right].
  right. rewrite (tensor_isclose_valid _ _ _ _ shape) by done. by eexists.
Qed.

(** Shapes that do not broadcast are refused with the two sizes that
    differ, neither of them 1, and the dimension of the broadcast shape at
    which they meet. *)
Lemma tensor_isclose_sizes t1 t2 rtol atol :
  valid_tolerance rtol atol → broadcast_shapes (t_shape t1) (t_shape t2) = None →
  ∃ a b i : nat,
    tensor_isclose t1 t2 rtol atol
    = Raise (RuntimeError
               ("The size of tensor a (" +:+ py_str_int (Z.of_nat a)
                +:+ ") must match the size of tensor b (" +:+ py_str_int (Z.of_nat b)
                +:+ ") at non-singleton dimension " +:+ py_str_int (Z.of_nat i)))
    ∧ a ≠ b ∧ a ≠ 1%nat ∧ b ≠ 1%nat
    ∧ ∃ k : nat, reverse (t_shape t1) !! k = Some a ∧ reverse (t_shape t2) !! k = Some b
                 ∧ i = (length (t_shape t1) `max` length (t_shape t2) - 1 - k)%nat.
Proof.
  intros [Hr Ha] Hs. unfold tensor_isclose, broadcast_error. rewrite Hr, Ha, Hs. cbn [negb].
  destruct (broadcast_mismatch (t_shape t1) (t_shape t2)) as [[[a b] i]|] eqn:Hm.
  - exists a, b, i. split; [done|]. by apply mismatch_rev_Some in Hm.
  - apply broadcast_mismatch_None in Hm as [? Hm]. congruence.
Qed.

(** On tensors of one shape no expansion takes place. *)
Lemma tensor_isclose_comparable t1 t2 rtol atol :
  valid_tolerance rtol atol → comparable t1 t2 →
  tensor_isclose t1 t2 rtol atol
  = Return (Tensor (t_shape t1)
              (zip_with (isclose_elem rtol atol) (t_data t1) (t_data t2))).
Proof.
  intros Hv (Hw1 & Hw2 & Hs).
  rewrite (tensor_isclose_valid _ _ _ _ (t_shape t1))
    by (by rewrite <- ?Hs, ?broadcast_shapes_diag).
  rewrite (expand_id t1) by done. rewrite Hs at 2. by rewrite (expand_id t2).
Qed.

End isclose.

(** ** The pipeline and the single pass *)

Section report.
Context {E : Type} {Sc : Scalar E}.
Implicit Types (t : tensor E) (rtol atol : spec_float) (a b : E) (d : list E)
  (shape : list nat).
Implicit Types (line : report_line E) (lines : list (report_line E)).

(** The zip of the positions of the mask with the entries it selects from
    either tensor is the single pass over the entries. *)
Lemma report_lines_select shape rtol atol (k : nat) d1 d2 :
  report_lines
    (unravel_index shape
       <$> positions_from k (negb <$> zip_with (isclose_elem rtol atol) d1 d2))
    (select (negb <$> zip_with (isclose_elem rtol atol) d1 d2) d1)
    (select (negb <$> zip_with (isclose_elem rtol atol) d1 d2) d2)
  = reference_lines shape rtol atol k d1 d2.
Proof.
  revert k d2. induction d1 as [|a d1 IH]; intros k [|b d2]; try done.
  cbn [zip_with fmap list_fmap positions_from select reference_lines].
  fold (fmap (M := list) negb). rewrite <- (IH (S k) d2).
  by destruct (isclose_elem rtol atol a b).
Qed.

(** Nothing is reported exactly when every entry is close. *)
Lemma reference_lines_nil shape rtol atol (k : nat) d1 d2 :
  reference_lines shape rtol atol k d1 d2 = []
  ↔ forallb id (zip_with (isclose_elem rtol atol) d1 d2) = true.
Proof.
  revert k d2. induction d1 as [|a d1 IH]; intros k [|b d2]; try done.
  cbn [reference_lines zip_with forallb]. rewrite andb_true_iff, <- (IH (S k) d2).
  destruct (isclose_elem rtol atol a b); cbn; [tauto|].
  split; [done|by intros [? _]].
Qed.

(** The lines of the single pass: one for every position at which the
    entries are not close. *)
Lemma elem_of_reference_lines shape rtol atol (k0 : nat) d1 d2 line :
  line ∈ reference_lines shape rtol atol k0 d1 d2
  ↔ ∃ (k : nat) a b, d1 !! k = Some a ∧ d2 !! k = Some b
      ∧ isclose_elem rtol atol a b = false
      ∧ line = print_line (unravel_index shape (k0 + k)) (a, b).
Proof.
  revert k0 d2. induction d1 as [|a d1 IH]; intros k0 [|b d2];
    try (split; [by intros ?%elem_of_nil|by intros (? & ? & ? & ? & ? & _)]).
  cbn [reference_lines]. rewrite elem_of_app, (IH (S k0) d2). split.
  - intros [Hl|(k & a' & b' & H1 & H2 & Hc & ->)].
    + destruct (isclose_elem rtol atol a b) eqn:Hc; [by apply elem_of_nil in Hl|].
      apply list_elem_of_singleton in Hl as ->.
      exists 0%nat, a, b. by rewrite Nat.add_0_r.
    + exists (S k), a', b'. by rewrite Nat.add_succ_r.
  - intros ([|k] & a' & b' & H1 & H2 & Hc & ->).
    + left. simplify_eq/=. rewrite Hc, Nat.add_0_r. by apply list_elem_of_singleton.
    + right. exists k, a', b'. by rewrite Nat.add_succ_r.
Qed.

(** One pair of entries that is not close is enough for a report. *)
Lemma reference_lines_not_nil shape rtol atol d1 d2 (k : nat) a b :
  d1 !! k = Some a → d2 !! k = Some b → isclose_elem rtol atol a b = false →
  forallb id (zip_with (isclose_elem rtol atol) d1 d2) = false
  ∧ reference_lines shape rtol atol 0 d1 d2 ≠ [].
Proof.
  intros H1 H2 Hc.
  assert (reference_lines shape rtol atol 0 d1 d2 ≠ []) as Hne.
  { intros Hn.
    assert (print_line (unravel_index shape (0 + k)) (a, b)
            ∈ reference_lines shape rtol atol 0 d1 d2) as Hl
      by (apply elem_of_reference_lines; eauto 10).
    rewrite Hn in Hl. by apply elem_of_nil in Hl. }
  split; [|done]. apply not_true_iff_false. by rewrite <- reference_lines_nil.
Qed.

(** The pipeline on tensors of one shape, step by step. *)
Lemma allclose_report_comparable t1 t2 rtol atol :
  valid_tolerance rtol atol → comparable t1 t2 →
  allclose_report t1 t2 rtol atol
  = Return (forallb id (zip_with (isclose_elem rtol atol) (t_data t1) (t_data t2)),
            reference_lines (t_shape t1) rtol atol 0 (t_data t1) (t_data t2)).
Proof.
  intros Hv Hc. pose proof Hc as (Hw1 & Hw2 & Hs).
  unfold allclose_report, tensor_allclose.
  rewrite tensor_isclose_comparable by done. cbn [fmap result_fmap mbind result_bind].
  unfold tensor_all. cbn [t_data].
  destruct (forallb id _) eqn:Hall; cbn [negb].
  - f_equal. f_equal. symmetry. by apply reference_lines_nil.
  - rewrite !getitem_mask_same_shape by (done || by rewrite <- Hs).
    cbn. f_equal. f_equal. apply report_lines_select.
Qed.

(** What [allclose_report] does with the mask that [isclose] returns. *)
Lemma allclose_report_mask t1 t2 rtol atol (m : tensor bool) :
  tensor_isclose t1 t2 rtol atol = Return m →
  allclose_report t1 t2 rtol atol
  = if tensor_all m then Return (true, [])
    else v1 ← flatten <$> getitem_mask t1 (logical_not m);
         v2 ← flatten <$> getitem_mask t2 (logical_not m);
         mret (false, report_lines (argwhere (logical_not m)) (t_data v1) (t_data v2)).
Proof.
  intros Hm. unfold allclose_report, tensor_allclose. rewrite Hm.
  cbn [fmap result_fmap mbind result_bind]. by destruct (tensor_all m).
Qed.

(** When the shapes differ, either tensor refuses the mask of the broadcast
    shape. *)
Lemma getitem_mask_broadcast {B} t1 t2 (m : tensor bool)
    (k : tensor E → tensor E → result B) :
  t_shape t1 ≠ t_shape t2 →
  broadcast_shapes (t_shape t1) (t_shape t2) = Some (t_shape m) →
  ∃ msg, (v1 ← flatten <$> getitem_mask t1 m;
          v2 ← flatten <$> getitem_mask t2 m; k v1 v2) = Raise (IndexError msg).
Proof.
  intros Hne Hm. pose proof (length_broadcast_shapes _ _ _ Hm) as Hl.
  destruct (getitem_mask t1 m) as [v1|e] eqn:H1; cbn.
  - destruct (decide (t_shape m = t_shape t1)) as [Hs|Hs].
    + destruct (getitem_mask_other_shape t2 m) as [msg ->];
        [lia|congruence|by eexists].
    + destruct (getitem_mask_other_shape t1 m) as [msg ?]; [lia|done|congruence].
  - destruct (getitem_mask_raises _ _ _ H1) as [msg ->]. by eexists.
Qed.

(** C5: the pipeline of whole-tensor operations is the single pass: on
    well-formed tensors of one shape and valid tolerances, [allclose_report]
    returns whether every pair of entries is close, and prints, in row-major
    order, one line for every pair that is not. *)
Theorem allclose_report_reference t1 t2 rtol atol :
  valid_tolerance rtol atol → comparable t1 t2 →
  allclose_report t1 t2 rtol atol
  = Return (forallb id (zip_with (isclose_elem rtol atol) (t_data t1) (t_data t2)),
            reference_lines (t_shape t1) rtol atol 0 (t_data t1) (t_data t2)).
Proof. apply allclose_report_comparable. Qed.

(** C6: the report is sound and complete: a line is printed exactly for the
    positions at which the two entries are not close, and it shows the
    multi-index of the position, the two entries and their ratio. *)
Theorem allclose_report_lines t1 t2 rtol atol (c : bool) lines line :
  valid_tolerance rtol atol → comparable t1 t2 →
  allclose_report t1 t2 rtol atol = Return (c, lines) →
  line ∈ lines
  ↔ ∃ (k : nat) a b, t_data t1 !! k = Some a ∧ t_data t2 !! k = Some b
      ∧ isclose_elem rtol atol a b = false
      ∧ line = ReportLine (unravel_index (t_shape t1) k) a b (s_div a b).
Proof.
  intros Hv Hc. rewrite allclose_report_comparable by done. intros [= <- <-].
  apply elem_of_reference_lines.
Qed.

(** On well-formed tensors of one shape [allclose_report] always
    returns, and it returns [True] exactly when it prints nothing. *)
Theorem allclose_report_flag t1 t2 rtol atol :
  valid_tolerance rtol atol → comparable t1 t2 →
  ∃ (c : bool) lines,
    allclose_report t1 t2 rtol atol = Return (c, lines) ∧ (c = true ↔ lines = []).
Proof.
  intros Hv Hc. rewrite allclose_report_comparable by done.
  eexists _, _. split; [done|]. by rewrite reference_lines_nil.
Qed.

(** The value [allclose_report] returns is the value of [allclose]. *)
Theorem allclose_report_returns_allclose t1 t2 rtol atol :
  valid_tolerance rtol atol → comparable t1 t2 →
  fst <$> allclose_report t1 t2 rtol atol = tensor_allclose t1 t2 rtol atol.
Proof.
  intros Hv Hc. rewrite allclose_report_comparable by done.
  unfold tensor_allclose. by rewrite tensor_isclose_comparable.
Qed.

Lemma allclose_report_raises_iff t1 t2 rtol atol :
  (∃ msg, allclose_report t1 t2 rtol atol = Raise (RuntimeError msg))
  ↔ ¬ valid_tolerance rtol atol ∨ broadcast_shapes (t_shape t1) (t_shape t2) = None.
Proof.
  split.
  - intros [msg Hr]. destruct (decide (valid_tolerance rtol atol)) as [Hv|]; [|by left].
    right. destruct (broadcast_shapes _ _) as [shape|] eqn:Hs; [|done].
    rewrite (allclose_report_mask _ _ _ _ _ (tensor_isclose_valid _ _ _ _ _ Hv Hs)) in Hr.
    destruct (tensor_all _); [done|].
    destruct (getitem_mask t1 _) eqn:H1;
      [|by destruct (getitem_mask_raises _ _ _ H1) as [? ->]].
    destruct (getitem_mask t2 _) eqn:H2;
      [done|by destruct (getitem_mask_raises _ _ _ H2) as [? ->]].
  - intros [msg Hr]%(tensor_isclose_invalid t1 t2).
    unfold allclose_report, tensor_allclose. rewrite Hr. by eexists.
Qed.

(** The message for a tolerance that is refused carries its value. *)
Lemma allclose_report_refused t1 t2 rtol atol :
  ¬ valid_tolerance rtol atol →
  allclose_report t1 t2 rtol atol
  = Raise (RuntimeError
             (if SFleb (S754_zero false) rtol
              then "atol must be greater than or equal to zero, but got " +:+ format_g atol
              else "rtol must be greater than or equal to zero, but got " +:+ format_g rtol)).
Proof.
  intros Hv. unfold allclose_report, tensor_allclose. by rewrite tensor_isclose_refused.
Qed.

(** C13: [allclose_report] raises a [RuntimeError] exactly when a tolerance
    is negative (or NaN) or the shapes of the tensors do not broadcast. *)
Theorem allclose_report_RuntimeError t1 t2 rtol atol :
  (∃ msg, allclose_report t1 t2 rtol atol = Raise (RuntimeError msg))
  ↔ ¬ valid_tolerance rtol atol ∨ broadcast_shapes (t_shape t1) (t_shape t2) = None.
Proof. apply allclose_report_raises_iff. Qed.

(** C12: tensors of different shapes that broadcast are compared entry by
    entry of the broadcast shape, but can only be reported close: when some
    pair is not close, indexing the tensors with the mask of the broadcast
    shape raises an [IndexError] instead of returning [False]. *)
Theorem allclose_report_broadcast t1 t2 rtol atol (c : bool) :
  t_shape t1 ≠ t_shape t2 →
  tensor_allclose t1 t2 rtol atol = Return c →
  if c then allclose_report t1 t2 rtol atol = Return (true, [])
  else ∃ msg, allclose_report t1 t2 rtol atol = Raise (IndexError msg).
Proof.
  intros Hne Hc. unfold tensor_allclose in Hc.
  destruct (tensor_isclose_inv t1 t2 rtol atol _ eq_refl)
    as [[msg Hr]|(m & Hm & Hv & Hs)]; rewrite ?Hr, ?Hm in Hc; [done|].
  cbn in Hc. injection Hc as <-. rewrite (allclose_report_mask _ _ _ _ _ Hm).
  destruct (tensor_all m); [done|]. by apply getitem_mask_broadcast.
Qed.

(** Whenever [allclose_report] returns on well-formed tensors, whatever
    their shapes and the tolerances, it returns [True] exactly when it
    reports nothing; and it returns [False] only on tensors of one shape. *)
Lemma allclose_report_Return_flag t1 t2 rtol atol (c : bool) lines :
  tensor_wf t1 → tensor_wf t2 →
  allclose_report t1 t2 rtol atol = Return (c, lines) →
  (c = true ↔ lines = []) ∧ (c = false → t_shape t1 = t_shape t2).
Proof.
  intros Hw1 Hw2 Hr. destruct (decide (t_shape t1 = t_shape t2)) as [Hs|Hs].
  - destruct (decide (valid_tolerance rtol atol)) as [Hv|Hv];
      [|by rewrite allclose_report_refused in Hr].
    rewrite allclose_report_comparable in Hr by done. injection Hr as <- <-.
    by rewrite reference_lines_nil.
  - destruct (tensor_isclose_inv t1 t2 rtol atol _ eq_refl)
      as [[msg Hm]|(m & Hm & Hv & Hb)].
    + unfold allclose_report, tensor_allclose in Hr. by rewrite Hm in Hr.
    + rewrite (allclose_report_mask _ _ _ _ _ Hm) in Hr.
      destruct (tensor_all m); [by injection Hr as <- <-|].
      destruct (getitem_mask_broadcast t1 t2 (logical_not m)
                  (λ v1 v2, mret (false, report_lines (argwhere (logical_not m))
                                           (t_data v1) (t_data v2)))) as [msg Hi];
        [done|done|]. by rewrite Hi in Hr.
Qed.

(** Comparing a list of entries with itself, entry by entry. *)
Lemma forallb_zip_with_diag rtol atol d :
  Forall (λ a, isclose_elem rtol atol a a = true) d →
  forallb id (zip_with (isclose_elem rtol atol) d d) = true.
Proof. induction 1 as [|a d Ha _ IH]; [done|]. cbn. by rewrite Ha. Qed.

End report.

(** ** Floating point and exact entries *)

(** A well-formed float tensor that holds a NaN is not close to itself:
    [allclose_report] returns [False] and prints at least one line. *)
Theorem allclose_report_nan (prec emax : Z) (t : tensor spec_float)
    (rtol atol : spec_float) :
  valid_tolerance rtol atol → tensor_wf t →
  S754_nan ∈ t_data t →
  ∃ lines, allclose_report (Sc := float_scalar prec emax) t t rtol atol
           = Return (false, lines) ∧ lines ≠ [].
Proof.
  intros Hv Hw [k Hk]%list_elem_of_lookup.
  rewrite allclose_report_comparable by done.
  destruct (reference_lines_not_nil (Sc := float_scalar prec emax) (t_shape t)
              rtol atol _ _ k _ _ Hk Hk) as [-> Hne]; [|by eexists].
  apply isclose_elem_nan_false. by left.
Qed.

(** A float tensor compared with itself: a line for every NaN, and for
    nothing else. *)
Lemma reference_lines_self (prec emax : Z) (shape : list nat) (rtol atol : spec_float)
    (k : nat) (d : list spec_float) :
  let lines := reference_lines (Sc := float_scalar prec emax) shape rtol atol k d d in
  length lines = length (filter (λ a, a = S754_nan) d)
  ∧ Forall (λ l, line_t1 l = S754_nan ∧ line_t2 l = S754_nan) lines.
Proof.
  revert k. induction d as [|a d IH]; intros k; [done|].
  destruct (IH (S k)) as [Hl Hf]. cbn [reference_lines]. rewrite isclose_elem_self.
  rewrite filter_cons. case_bool_decide as Ha; case_decide; try done; cbn.
  subst a. split; [by rewrite Hl|by constructor].
Qed.

Lemma forallb_isclose_self (prec emax : Z) (rtol atol : spec_float) (d : list spec_float) :
  forallb id (zip_with (isclose_elem (Sc := float_scalar prec emax) rtol atol) d d)
  = bool_decide (S754_nan ∉ d).
Proof.
  induction d as [|a d IH]; [done|]. cbn. rewrite isclose_elem_self, IH.
  rewrite <- bool_decide_and. apply bool_decide_ext.
  rewrite not_elem_of_cons. split; (intros [Ha Hd]; split; [congruence|done]).
Qed.

Lemma allclose_report_float_self (prec emax : Z) (t : tensor spec_float)
    (rtol atol : spec_float) :
  valid_tolerance rtol atol → tensor_wf t →
  ∃ lines, allclose_report (Sc := float_scalar prec emax) t t rtol atol
           = Return (bool_decide (S754_nan ∉ t_data t), lines)
           ∧ length lines = length (filter (λ a, a = S754_nan) (t_data t))
           ∧ Forall (λ l, line_t1 l = S754_nan ∧ line_t2 l = S754_nan) lines.
Proof.
  intros Hv Hw. rewrite allclose_report_comparable by done.
  rewrite forallb_isclose_self. eexists. split; [done|]. apply reference_lines_self.
Qed.

(** C21: a float tensor compared with itself: on a well-formed tensor
    [allclose_report] returns [True] exactly when no entry is NaN, and it
    prints one line for every NaN entry, with NaN for both entries, and
    no other line. *)
Theorem allclose_report_self (prec emax : Z) (t : tensor spec_float)
    (rtol atol : spec_float) :
  valid_tolerance rtol atol → tensor_wf t →
  ∃ lines, allclose_report (Sc := float_scalar prec emax) t t rtol atol
           = Return (bool_decide (S754_nan ∉ t_data t), lines)
           ∧ length lines = length (filter (λ a, a = S754_nan) (t_data t))
           ∧ Forall (λ l, line_t1 l = S754_nan ∧ line_t2 l = S754_nan) lines.
Proof. apply allclose_report_float_self. Qed.

(** Over exact arithmetic a well-formed tensor is close to itself,
    whatever the tolerances: [allclose_report] returns [True] and prints
    nothing. *)
Theorem allclose_report_exact_refl (t : tensor Q) (rtol atol : spec_float) :
  valid_tolerance rtol atol → tensor_wf t →
  allclose_report (Sc := exact) t t rtol atol = Return (true, []).
Proof.
  intros Hv Hw. rewrite allclose_report_comparable by done.
  assert (forallb id (zip_with (isclose_elem (Sc := exact) rtol atol)
                        (t_data t) (t_data t)) = true) as Hall.
  { apply forallb_zip_with_diag, Forall_forall. intros a _.
    apply isclose_elem_exact_refl. }
  rewrite Hall. do 2 f_equal. by apply reference_lines_nil.
Qed.

(** ** Concrete runs *)

(** A run on two 2x2 tensors over exact arithmetic with [rtol = 0.1] and
    [atol = 0]: the entries at [[0, 1]] and [[1, 1]] differ, and a line is
    printed for each with the ratio of the entries. *)
Example allclose_report_two_lines :
  allclose_report (Sc := exact)
    (Tensor [2; 2]%nat [1; 2; 3; 4]%Q) (Tensor [2; 2]%nat [1; 5; 3; 7]%Q)
    (py_float 1 10) (py_float 0 1)
  = Return (false, [ReportLine [0; 1]%nat 2 5 (2 # 5); ReportLine [1; 1]%nat 4 7 (4 # 7)]%Q).
Proof. by vm_compute. Qed.

(** With the tolerances of the matrix-vector test, [rtol = 1e-4] and
    [atol = 1e-7], on float64 entries: 2.0001 is close to 2.0 and 2.001 is
    not. *)
Example allclose_report_float64 :
  allclose_report (Sc := float64)
    (Tensor [2]%nat [py_float 1 1; py_float 20001 10000])
    (Tensor [2]%nat [py_float 1 1; py_float 2 1])
    (py_float 1 10000) (py_float 1 10000000)
  = Return (true, [])
  ∧ fst <$> allclose_report (Sc := float64)
      (Tensor [2]%nat [py_float 1 1; py_float 2001 1000])
      (Tensor [2]%nat [py_float 1 1; py_float 2 1])
      (py_float 1 10000) (py_float 1 10000000)
    = Return false.
Proof. split; by vm_compute. Qed.

(** The sign of a tolerance is tested on the Python float: on float32
    tensors [rtol = -1e-50] is refused, although the dtype rounds it to
    [-0.0], which is not below zero. *)
Example allclose_report_float32_sign :
  allclose_report (Sc := float32)
    (Tensor [1]%nat [float_lit 24 128 1 0]) (Tensor [1]%nat [float_lit 24 128 1 0])
    (py_float (-1) (10 ^ 50)) (py_float 0 1)
  = Raise (RuntimeError "rtol must be greater than or equal to zero, but got -1e-50")
  ∧ SFleb (S754_zero false) (s_of_float (Scalar := float32) (py_float (-1) (10 ^ 50)))
    = true.
Proof. split; by vm_compute. Qed.

(** A negative [atol] and a NaN [rtol], each with its value in the
    message. *)
Example allclose_report_refused_run :
  allclose_report (Sc := exact) (Tensor [1]%nat [1%Q]) (Tensor [1]%nat [1%Q])
    (py_float 1 10) (py_float (-1) 2)
  = Raise (RuntimeError "atol must be greater than or equal to zero, but got -0.5")
  ∧ allclose_report (Sc := exact) (Tensor [1]%nat [1%Q]) (Tensor [1]%nat [1%Q])
      S754_nan (py_float (-1) 2)
    = Raise (RuntimeError "rtol must be greater than or equal to zero, but got nan").
Proof. split; by vm_compute. Qed.

(** Shapes that do not broadcast: the last dimensions, 3 and 4, differ. *)
Example allclose_report_sizes :
  allclose_report (Sc := exact)
    (Tensor [2; 3]%nat [1; 2; 3; 4; 5; 6]%Q) (Tensor [2; 4]%nat [1; 2; 3; 4; 5; 6; 7; 8]%Q)
    (py_float 1 10) (py_float 0 1)
  = Raise (RuntimeError ("The size of tensor a (3) must match the size of tensor b (4)"
                         +:+ " at non-singleton dimension 1")).
Proof. by vm_compute. Qed.

(** A tensor of one entry broadcasts against a tensor of two entries.
    When both entries are close to it the report returns [True]; when one
    is not, the run ends with the [IndexError] of the mask. *)
Example allclose_report_broadcast_run :
  allclose_report (Sc := exact)
    (Tensor [1]%nat [1%Q]) (Tensor [2]%nat [1; 1]%Q) (py_float 1 10) (py_float 0 1)
  = Return (true, [])
  ∧ allclose_report (Sc := exact)
      (Tensor [1]%nat [1%Q]) (Tensor [2]%nat [1; 2]%Q) (py_float 1 10) (py_float 0 1)
    = Raise (IndexError ("The shape of the mask [2] at index 0 does not match"
                         +:+ " the shape of the indexed tensor [1] at index 0")).
Proof. split; by vm_compute. Qed.

(** ** Witnesses *)

Lemma allclose_report_reference_witness :
  allclose_report (Sc := exact)
    (Tensor [2]%nat [1; 2]%Q) (Tensor [2]%nat [1; 3]%Q) (py_float 1 10) (py_float 0 1)
  = Return (forallb id (zip_with (isclose_elem (Sc := exact) (py_float 1 10) (py_float 0 1))
                          [1; 2] [1; 3])%Q,
            reference_lines (Sc := exact) [2]%nat (py_float 1 10) (py_float 0 1) 0
              [1; 2] [1; 3])%Q.
Proof.
  apply (allclose_report_reference (Sc := exact)
           (Tensor [2]%nat [1; 2]%Q) (Tensor [2]%nat [1; 3]%Q)); by vm_compute.
Defined.

Lemma allclose_report_lines_witness :
  ReportLine [1]%nat 2%Q 3%Q (2 # 3)%Q ∈ [ReportLine [1]%nat 2%Q 3%Q (2 # 3)%Q]
  ↔ ∃ (k : nat) (a b : Q), [1; 2]%Q !! k = Some a ∧ [1; 3]%Q !! k = Some b
      ∧ isclose_elem (Sc := exact) (py_float 1 10) (py_float 0 1) a b = false
      ∧ ReportLine [1]%nat 2%Q 3%Q (2 # 3)%Q
        = ReportLine (unravel_index [2]%nat k) a b (s_div (Scalar := exact) a b).
Proof.
  apply (allclose_report_lines (Sc := exact)
           (Tensor [2]%nat [1; 2]%Q) (Tensor [2]%nat [1; 3]%Q) (py_float 1 10) (py_float 0 1)
           false);
    by vm_compute.
Defined.

Lemma allclose_report_flag_witness :
  ∃ (c : bool) lines,
    allclose_report (Sc := exact)
      (Tensor [2]%nat [1; 2]%Q) (Tensor [2]%nat [1; 3]%Q) (py_float 1 10) (py_float 0 1)
    = Return (c, lines) ∧ (c = true ↔ lines = []).
Proof.
  apply (allclose_report_flag (Sc := exact)
           (Tensor [2]%nat [1; 2]%Q) (Tensor [2]%nat [1; 3]%Q)); by vm_compute.
Defined.

Lemma allclose_report_returns_allclose_witness :
  fst <$> allclose_report (Sc := exact)
            (Tensor [2]%nat [1; 2]%Q) (Tensor [2]%nat [1; 3]%Q) (py_float 1 10) (py_float 0 1)
  = tensor_allclose (Sc := exact)
      (Tensor [2]%nat [1; 2]%Q) (Tensor [2]%nat [1; 3]%Q) (py_float 1 10) (py_float 0 1).
Proof.
  apply (allclose_report_returns_allclose (Sc := exact)
           (Tensor [2]%nat [1; 2]%Q) (Tensor [2]%nat [1; 3]%Q)); by vm_compute.
Defined.

Lemma allclose_report_broadcast_witness :
  ∃ msg, allclose_report (Sc := exact)
           (Tensor [1]%nat [1%Q]) (Tensor [2]%nat [1; 2]%Q) (py_float 1 10) (py_float 0 1)
         = Raise (IndexError msg).
Proof.
  apply (allclose_report_broadcast (Sc := exact)
           (Tensor [1]%nat [1%Q]) (Tensor [2]%nat [1; 2]%Q) (py_float 1 10) (py_float 0 1)
           false);
    by vm_compute.
Defined.

Lemma allclose_report_nan_witness :
  ∃ lines, allclose_report (Sc := float_scalar 53 1024)
             (Tensor [2]%nat [py_float 1 1; S754_nan])
             (Tensor [2]%nat [py_float 1 1; S754_nan])
             (py_float 1 10000) (py_float 1 10000000)
           = Return (false, lines) ∧ lines ≠ [].
Proof.
  apply (allclose_report_nan 53 1024 (Tensor [2]%nat [py_float 1 1; S754_nan])).
  - by vm_compute.
  - by vm_compute.
  - apply list_elem_of_lookup. by exists 1%nat.
Defined.

Lemma allclose_report_exact_refl_witness :
  allclose_report (Sc := exact)
    (Tensor [2]%nat [1; 2]%Q) (Tensor [2]%nat [1; 2]%Q) (py_float 1 10) (py_float 0 1)
  = Return (true, []).
Proof.
  apply (allclose_report_exact_refl (Tensor [2]%nat [1; 2]%Q)); by vm_compute.
Defined.

Lemma allclose_report_self_witness :
  ∃ lines, allclose_report (Sc := float_scalar 53 1024)
             (Tensor [3]%nat [S754_nan; py_float 1 1; S754_nan])
             (Tensor [3]%nat [S754_nan; py_float 1 1; S754_nan])
             (py_float 1 10000) (py_float 1 10000000)
           = Return (bool_decide (S754_nan ∉ [S754_nan; py_float 1 1; S754_nan]), lines)
           ∧ length lines
             = length (filter (λ a, a = S754_nan) [S754_nan; py_float 1 1; S754_nan])
           ∧ Forall (λ l, line_t1 l = S754_nan ∧ line_t2 l = S754_nan) lines.
Proof.
  apply (allclose_report_self 53 1024 (Tensor [3]%nat [S754_nan; py_float 1 1; S754_nan]));
    by vm_compute.
Defined.
