(* ===== verification/Dtype.v ===== *)
(** * Dtype: tensors that carry their dtype

    [allclose_report] is called on two tensors, each of which has a dtype.
    [isclose], and [allclose] through it, refuse tensors of different
    dtypes before they look at the tolerances or at the shapes.  This file
    gives the tensors their dtype (float32 or float64), states the pipeline
    of [allclose_report] on them, and shows that it is the check of the
    dtypes followed by the pipeline of [Allclose] in the arithmetic of the
    common dtype. *)

From S2P Require Import Prelude PyStr Scalar Tensor Allclose.
From Stdlib Require Import SpecFloat.

(** ** Typed tensors *)

(** The floating-point dtypes, by the names under which PyTorch reports
    them: [torch.float32] and [torch.float64]. *)
Inductive dtype : Type := Float | Double.

#[global] Instance dtype_eq_dec : EqDecision dtype.
Proof. solve_decision. Defined.

Definition dtype_name (dt : dtype) : string :=
  match dt with Float => "Float" | Double => "Double" end.

(** The arithmetic of a dtype. *)
Definition dtype_scalar (dt : dtype) : Scalar spec_float :=
  match dt with Float => float32 | Double => float64 end.

(** A tensor with its dtype. *)
Record dtensor : Type := DTensor {
  dt_dtype : dtype;
  dt_tensor : tensor spec_float;
}.

Implicit Types (t : dtensor) (rtol atol : spec_float).

(** The error of [isclose] on tensors of different dtypes. *)
Definition dtype_error t1 t2 : exn :=
  RuntimeError (dtype_name (dt_dtype t1) +:+ " did not match " +:+ dtype_name (dt_dtype t2)).

(** ** The pipeline *)

(** [tensor1.isclose(tensor2, rtol=rtol, atol=atol)]: the dtypes are
    compared first. *)
Definition isclose_dtype t1 t2 rtol atol : result (tensor bool) :=
  if decide (dt_dtype t1 = dt_dtype t2) then
    tensor_isclose (Sc := dtype_scalar (dt_dtype t1)) (dt_tensor t1) (dt_tensor t2) rtol atol
  else Raise (dtype_error t1 t2).

(** [tensor1.allclose(tensor2, rtol=rtol, atol=atol)]. *)
Definition allclose_dtype t1 t2 rtol atol : result bool :=
  tensor_all <$> isclose_dtype t1 t2 rtol atol.

(** [allclose_report] on typed tensors; the ratio of a line is computed in
    the dtype of the entries. *)
Definition allclose_report_dtype t1 t2 rtol atol
    : result (bool * list (report_line spec_float)) :=
  close ← allclose_dtype t1 t2 rtol atol;
  if negb close then
    nonclose_idx ← logical_not <$> isclose_dtype t1 t2 rtol atol;
    let idxs := argwhere nonclose_idx in
    v1 ← flatten <$> getitem_mask (dt_tensor t1) nonclose_idx;
    v2 ← flatten <$> getitem_mask (dt_tensor t2) nonclose_idx;
    mret (close, report_lines (Sc := dtype_scalar (dt_dtype t1)) idxs (t_data v1) (t_data v2))
  else mret (close, []).

(** ** The check of the dtypes, then the arithmetic of the dtype *)

Lemma isclose_dtype_same t1 t2 rtol atol :
  dt_dtype t1 = dt_dtype t2 →
  isclose_dtype t1 t2 rtol atol
  = tensor_isclose (Sc := dtype_scalar (dt_dtype t1)) (dt_tensor t1) (dt_tensor t2) rtol atol.
Proof. intros Hd. unfold isclose_dtype. by case_decide. Qed.

Lemma isclose_dtype_mismatch t1 t2 rtol atol :
  dt_dtype t1 ≠ dt_dtype t2 → isclose_dtype t1 t2 rtol atol = Raise (dtype_error t1 t2).
Proof. intros Hd. unfold isclose_dtype. by case_decide. Qed.

(** On tensors of one dtype the pipeline is that of [Allclose] in the
    arithmetic of the dtype. *)
Lemma allclose_report_dtype_same t1 t2 rtol atol :
  dt_dtype t1 = dt_dtype t2 →
  allclose_report_dtype t1 t2 rtol atol
  = allclose_report (Sc := dtype_scalar (dt_dtype t1)) (dt_tensor t1) (dt_tensor t2) rtol atol.
Proof.
  intros Hd. unfold allclose_report_dtype, allclose_dtype.
  by rewrite isclose_dtype_same.
Qed.

(** Tensors of different dtypes are refused by the first call, whatever
    the tolerances and the shapes. *)
Lemma allclose_report_dtype_mismatch t1 t2 rtol atol :
  dt_dtype t1 ≠ dt_dtype t2 →
  allclose_report_dtype t1 t2 rtol atol = Raise (dtype_error t1 t2).
Proof.
  intros Hd. unfold allclose_report_dtype, allclose_dtype.
  by rewrite isclose_dtype_mismatch.
Qed.

(** C14: [allclose_report] raises a [RuntimeError] exactly when the dtypes
    differ, a tolerance is negative (or NaN) or the shapes do not
    broadcast. *)
Theorem allclose_report_dtype_RuntimeError t1 t2 rtol atol :
  (∃ msg, allclose_report_dtype t1 t2 rtol atol = Raise (RuntimeError msg))
  ↔ dt_dtype t1 ≠ dt_dtype t2 ∨ ¬ valid_tolerance rtol atol
    ∨ broadcast_shapes (t_shape (dt_tensor t1)) (t_shape (dt_tensor t2)) = None.
Proof.
  destruct (decide (dt_dtype t1 = dt_dtype t2)) as [Hd|Hd].
  - rewrite allclose_report_dtype_same, allclose_report_raises_iff by done. tauto.
  - rewrite allclose_report_dtype_mismatch by done. split; [by left|by eexists].
Qed.

(** On float64 tensors the tolerances are used as they are. *)
Lemma allowed_error_Double rtol atol (b : spec_float) :
  valid_binary 53 1024 rtol = true → valid_binary 53 1024 atol = true →
  allowed_error (Sc := dtype_scalar Double) rtol atol b
  = SFadd 53 1024 atol (SFabs (SFmul 53 1024 rtol b)).
Proof. apply allowed_error_valid. Qed.

(** ** Concrete runs *)

(** A float32 tensor against a float64 tensor of the same entries: the
    dtypes are reported, and a negative tolerance is not looked at. *)
Example allclose_report_dtype_mixed :
  allclose_report_dtype
    (DTensor Float (Tensor [1]%nat [float_lit 24 128 1 0]))
    (DTensor Double (Tensor [1]%nat [float_lit 53 1024 1 0]))
    (py_float (-1) 1) (py_float 0 1)
  = Raise (RuntimeError "Float did not match Double").
Proof. by vm_compute. Qed.

(** The same call on the same values in two dtypes: the entries [1 + 2^-23]
    and [1] differ by [2^-23], and [rtol] is the float64 just below that.
    Float32 rounds the tolerance up to [2^-23], and the entries are close;
    float64 keeps it, and they are not. *)
Example allclose_report_dtype_rounding :
  fst <$> allclose_report_dtype
    (DTensor Float (Tensor [1]%nat [float_lit 24 128 8388609 (-23)]))
    (DTensor Float (Tensor [1]%nat [float_lit 24 128 1 0]))
    (py_float (2 ^ 30 - 1) (2 ^ 53)) (py_float 0 1)
  = Return true
  ∧ fst <$> allclose_report_dtype
      (DTensor Double (Tensor [1]%nat [float_lit 53 1024 8388609 (-23)]))
      (DTensor Double (Tensor [1]%nat [float_lit 53 1024 1 0]))
      (py_float (2 ^ 30 - 1) (2 ^ 53)) (py_float 0 1)
    = Return false.
Proof. split; by vm_compute. Qed.

(** ** Witnesses *)

Lemma allclose_report_dtype_RuntimeError_witness :
  ∃ msg, allclose_report_dtype
           (DTensor Float (Tensor [1]%nat [float_lit 24 128 1 0]))
           (DTensor Double (Tensor [1]%nat [float_lit 53 1024 1 0]))
           (py_float 1 10) (py_float 0 1)
         = Raise (RuntimeError msg).
Proof.
  apply (allclose_report_dtype_RuntimeError
           (DTensor Float (Tensor [1]%nat [float_lit 24 128 1 0]))
           (DTensor Double (Tensor [1]%nat [float_lit 53 1024 1 0]))).
  by left.
Defined.
