(* ===== verification/Report.v ===== *)
(** * Report: what [allclose_report] prints

    The loop of [allclose_report] calls
    [print(f"at index {idx}: {t1:.5e} ≠ {t2:.5e}, ratio: {t1 / t2:.5e}")]
    once for every entry that is not close.  [idx] is a row of [argwhere],
    a one-dimensional [int64] tensor, whose text is PyTorch's
    [tensor([i, j])] with the default print options; the entries and the
    ratio are formatted as in [Format].

    Standard output is the list of the texts printed so far, one per call of
    [print]; [allclose_report_io] is [allclose_report] with that state
    threaded through.  The theorems show that the output grows by one text
    per entry that is not close, in row-major order, and that a call that
    returns has returned [True] exactly when it printed nothing. *)

From S2P Require Import Prelude PyStr Scalar Format Tensor Allclose.
From Stdlib Require Import QArith SpecFloat.

#[local] Close Scope Q_scope.

(** ** The text of an index *)

(** PyTorch's default print options. *)
Definition PRINT_OPTS_threshold : nat := 1000.
Definition PRINT_OPTS_edgeitems : nat := 3.
Definition PRINT_OPTS_linewidth : nat := 80.

(** [" " * n] and the line feed. *)
Definition spaces (n : nat) : string := Nat.iter n (String " ") EmptyString.
Definition newline : string := String "010" EmptyString.

(** [[data[i : i + n] for i in range(0, len(data), n)]]. *)
Fixpoint groups_go {A} (fuel n : nat) (data : list A) : list (list A) :=
  match fuel, data with
  | S fuel', _ :: _ => take n data :: groups_go fuel' n (drop n data)
  | _, _ => []
  end.

Definition groups {A} (n : nat) (data : list A) : list (list A) :=
  groups_go (length data) n data.

(** The items that a summarised vector shows. *)
Definition edge_items (idx : list nat) : list nat :=
  take PRINT_OPTS_edgeitems idx ++ drop (length idx - PRINT_OPTS_edgeitems) idx.

(** The width of the widest item. *)
Definition int_width (items : list nat) : nat :=
  foldr (λ i w, String.length (py_str_int (Z.of_nat i)) `max` w) 1 items.

(** An item, padded on the left to the common width. *)
Definition format_int (w i : nat) : string :=
  let s := py_str_int (Z.of_nat i) in spaces (w - String.length s) +:+ s.

(** [_vector_str]: the items between brackets, separated by [", "], broken
    into lines that fit the line width; a vector of more than
    [PRINT_OPTS_threshold] items shows its first and last three. *)
Definition vector_str (indent : nat) (idx : list nat) : string :=
  let summarize := bool_decide (PRINT_OPTS_threshold < length idx) in
  let w := int_width (if summarize then edge_items idx else idx) in
  let elements_per_line := 1 `max` ((PRINT_OPTS_linewidth - indent) / (w + 2)) in
  let data :=
    if summarize then
      (format_int w <$> take PRINT_OPTS_edgeitems idx) ++ [" ..."]
      ++ (format_int w <$> drop (length idx - PRINT_OPTS_edgeitems) idx)
    else format_int w <$> idx in
  "[" +:+ String.concat ("," +:+ newline +:+ spaces (indent + 1))
            (String.concat ", " <$> groups elements_per_line data)
  +:+ "]".

(** [str(idx)] for a row of [argwhere]: an empty row names its dtype. *)
Definition index_repr (idx : list nat) : string :=
  match idx with
  | [] => "tensor([], dtype=torch.int64)"
  | _ => "tensor(" +:+ vector_str (String.length "tensor(") idx +:+ ")"
  end.

(** ** The f-string and standard output *)

Section print.
Context {E : Type} {Sc : Scalar E} {Fm : Format E}.
Implicit Types (t : tensor E) (rtol atol : spec_float) (out : list string).
Implicit Types (l : report_line E) (lines : list (report_line E)).

(** [f"at index {idx}: {t1:.5e} ≠ {t2:.5e}, ratio: {t1 / t2:.5e}"]. *)
Definition fstring l : string :=
  "at index " +:+ index_repr (line_idx l) +:+ ": " +:+ format_e 5 (line_t1 l)
  +:+ " ≠ " +:+ format_e 5 (line_t2 l) +:+ ", ratio: " +:+ format_e 5 (line_ratio l).

(** [print(text)]: one more text on standard output. *)
Definition print (text : string) out : list string := out ++ [text].

(** The loop, on standard output. *)
Definition print_lines lines out : list string :=
  foldl (λ out l, print (fstring l) out) out lines.

(** [allclose_report] from a standard output [out]: the returned flag and
    the standard output after the call. *)
Definition allclose_report_io t1 t2 rtol atol out : result (bool * list string) :=
  r ← allclose_report t1 t2 rtol atol;
  mret (r.1, print_lines r.2 out).

End print.

(** ** The text of an index, on examples *)

Example index_repr_matrix : index_repr [0; 1]%nat = "tensor([0, 1])".
Proof. by vm_compute. Qed.

(** Items are padded to the width of the widest. *)
Example index_repr_padded : index_repr [3; 10; 0]%nat = "tensor([ 3, 10,  0])".
Proof. by vm_compute. Qed.

(** More items than fit a line of 80 characters continue on the next
    line, under the first. *)
Example index_repr_lines :
  index_repr (seq 100 20)
  = "tensor([100, 101, 102, 103, 104, 105, 106, 107, 108, 109, 110, 111, 112, 113,"
    +:+ newline +:+ "        114, 115, 116, 117, 118, 119])".
Proof. by vm_compute. Qed.

(** Above 1000 items only the first and the last three are shown. *)
Example index_repr_summarised :
  index_repr (replicate 1001 7%nat) = "tensor([7, 7, 7,  ..., 7, 7, 7])".
Proof. by vm_compute. Qed.

(** The index of the entry of a tensor without dimensions. *)
Example index_repr_scalar : index_repr [] = "tensor([], dtype=torch.int64)".
Proof. done. Qed.

(** ** Breaking into lines loses nothing *)

Section groups.
Context {A : Type}.
Implicit Types (data : list A) (n fuel : nat).

(** With the length of the list as fuel, or any more, the groups of at
    least one item each concatenate to the list: the loop ends before the
    fuel does. *)
Lemma concat_groups_go fuel n data :
  (0 < n)%nat → (length data ≤ fuel)%nat → concat (groups_go fuel n data) = data.
Proof.
  intros Hn. revert data. induction fuel as [|fuel IH]; intros [|a data] Hl; try done.
  - cbn in Hl. lia.
  - cbn [groups_go concat]. rewrite IH, take_drop; [done|].
    rewrite length_drop. cbn [length] in *. lia.
Qed.

Lemma concat_groups n data : (0 < n)%nat → concat (groups n data) = data.
Proof. intros Hn. by apply concat_groups_go. Qed.

(** No line holds more than [n] items. *)
Lemma groups_go_length fuel n data :
  Forall (λ g, (length g ≤ n)%nat) (groups_go fuel n data).
Proof.
  revert data. induction fuel as [|fuel IH]; intros [|a data]; try by constructor.
  cbn [groups_go]. constructor; [|apply IH]. rewrite length_take. lia.
Qed.

(** With at least one item per line, no line is empty. *)
Lemma groups_go_nonempty fuel n data :
  (0 < n)%nat → Forall (λ g, g ≠ []) (groups_go fuel n data).
Proof.
  intros Hn. revert data. induction fuel as [|fuel IH]; intros [|a data]; try by constructor.
  cbn [groups_go]. constructor; [|apply IH]. destruct n; [lia|done].
Qed.

Lemma groups_go_fmap {B} (f : A → B) fuel n data :
  groups_go fuel n (f <$> data) = fmap (M := list) f <$> groups_go fuel n data.
Proof.
  revert data. induction fuel as [|fuel IH]; intros [|a data]; try done.
  cbn [groups_go fmap list_fmap]. rewrite <- fmap_cons, <- fmap_take, <- fmap_drop, IH.
  done.
Qed.

Lemma groups_fmap {B} (f : A → B) n data :
  groups n (f <$> data) = fmap (M := list) f <$> groups n data.
Proof. unfold groups. by rewrite length_fmap, groups_go_fmap. Qed.

End groups.

(** ** Standard output only grows *)

Section output.
Context {E : Type} {Sc : Scalar E} {Fm : Format E}.
Implicit Types (t : tensor E) (rtol atol : spec_float) (out : list string).
Implicit Types (l : report_line E) (lines : list (report_line E)).

Lemma print_lines_app lines out : print_lines lines out = out ++ (fstring <$> lines).
Proof.
  revert out. induction lines as [|l lines IH]; intros out; cbn.
  - by rewrite app_nil_r.
  - fold (print_lines lines (print (fstring l) out)). rewrite IH.
    unfold print. by rewrite <- app_assoc.
Qed.

(** What a call returns, from what [allclose_report] returns. *)
Lemma allclose_report_io_Return t1 t2 rtol atol out (c : bool) lines :
  allclose_report t1 t2 rtol atol = Return (c, lines) →
  allclose_report_io t1 t2 rtol atol out = Return (c, out ++ (fstring <$> lines)).
Proof. intros Hr. unfold allclose_report_io. rewrite Hr. pysimpl. by rewrite print_lines_app. Qed.

Lemma allclose_report_io_inv t1 t2 rtol atol out (c : bool) out' :
  allclose_report_io t1 t2 rtol atol out = Return (c, out') →
  ∃ lines, allclose_report t1 t2 rtol atol = Return (c, lines)
           ∧ out' = out ++ (fstring <$> lines).
Proof.
  unfold allclose_report_io. destruct (allclose_report t1 t2 rtol atol) as [[c' lines]|e];
    [|done]. pysimpl. rewrite print_lines_app. intros [= <- <-]. by eexists.
Qed.

(** The same exception, if any. *)
Lemma allclose_report_io_Raise t1 t2 rtol atol out (e : exn) :
  allclose_report_io t1 t2 rtol atol out = Raise e
  ↔ allclose_report t1 t2 rtol atol = Raise e.
Proof.
  unfold allclose_report_io. destruct (allclose_report t1 t2 rtol atol) as [[c' lines]|e'];
    pysimpl; [done|]. split; by intros [= ->].
Qed.

(** On tensors of one shape the output grows by the texts of the entries
    that are not close. *)
Lemma allclose_report_io_comparable t1 t2 rtol atol out :
  valid_tolerance rtol atol → comparable t1 t2 →
  allclose_report_io t1 t2 rtol atol out
  = Return (forallb id (zip_with (isclose_elem rtol atol) (t_data t1) (t_data t2)),
            out ++ (fstring <$> reference_lines (t_shape t1) rtol atol 0
                                  (t_data t1) (t_data t2))).
Proof.
  intros Hv Hc. apply allclose_report_io_Return. by apply allclose_report_comparable.
Qed.

Lemma app_fmap_nil_iff {A} (f : A → string) (xs : list A) out :
  out ++ (f <$> xs) = out ↔ xs = [].
Proof.
  split; [|by intros ->; rewrite app_nil_r]. intros Heq.
  apply (f_equal length) in Heq. rewrite length_app, length_fmap in Heq.
  apply length_zero_iff_nil. lia.
Qed.

(** C7: what a call of [allclose_report] prints: on well-formed tensors of
    one shape and valid tolerances, the call returns whether every pair of
    entries is close and leaves on standard output, after what was there,
    the f-string of every pair that is not close, in row-major order. *)
Theorem allclose_report_io_reference t1 t2 rtol atol out :
  valid_tolerance rtol atol → comparable t1 t2 →
  allclose_report_io t1 t2 rtol atol out
  = Return (forallb id (zip_with (isclose_elem rtol atol) (t_data t1) (t_data t2)),
            out ++ (fstring <$> reference_lines (t_shape t1) rtol atol 0
                                  (t_data t1) (t_data t2))).
Proof. apply allclose_report_io_comparable. Qed.

(** Whatever the shapes and the tolerances, a call on well-formed tensors
    that returns has returned [True] exactly when it printed nothing. *)
Lemma allclose_report_io_flag t1 t2 rtol atol out (c : bool) out' :
  tensor_wf t1 → tensor_wf t2 →
  allclose_report_io t1 t2 rtol atol out = Return (c, out') →
  c = true ↔ out' = out.
Proof.
  intros Hw1 Hw2 (lines & Hr & ->)%allclose_report_io_inv.
  destruct (allclose_report_Return_flag _ _ _ _ _ _ Hw1 Hw2 Hr) as [-> _].
  by rewrite app_fmap_nil_iff.
Qed.

(** C15: the returned value and the printed text agree: whatever the shapes
    of two well-formed tensors and whatever the tolerances, a call of
    [allclose_report] that returns has returned [True] if and only if it
    left standard output as it was. *)
Theorem allclose_report_io_quiet t1 t2 rtol atol out (c : bool) out' :
  tensor_wf t1 → tensor_wf t2 →
  allclose_report_io t1 t2 rtol atol out = Return (c, out') →
  c = true ↔ out' = out.
Proof. apply allclose_report_io_flag. Qed.

End output.

(** ** Concrete runs *)

(** With the tolerances of the matrix-vector test, [rtol = 1e-4] and
    [atol = 1e-7], on float64 entries: 2.001 is not close to 2.0, and the
    call prints one text after what standard output held. *)
Example allclose_report_io_float64 :
  allclose_report_io (Sc := float64)
    (Tensor [2; 2]%nat [py_float 1 1; py_float 2001 1000; py_float 3 1; py_float 4 1])
    (Tensor [2; 2]%nat [py_float 1 1; py_float 2 1; py_float 3 1; py_float 4 1])
    (py_float 1 10000) (py_float 1 10000000) ["collected 1 item"]
  = Return (false,
            ["collected 1 item";
             "at index tensor([0, 1]): 2.00100e+00 ≠ 2.00000e+00, ratio: 1.00050e+00"]).
Proof. by vm_compute. Qed.

(** A NaN is reported against itself, and a division by zero prints an
    infinity. *)
Example allclose_report_io_nan :
  allclose_report_io (Sc := float64)
    (Tensor [2]%nat [S754_nan; py_float 1 1]) (Tensor [2]%nat [S754_nan; py_float 0 1])
    (py_float 1 10000) (py_float 1 10000000) []
  = Return (false,
            ["at index tensor([0]): nan ≠ nan, ratio: nan";
             "at index tensor([1]): 1.00000e+00 ≠ 0.00000e+00, ratio: inf"]).
Proof. by vm_compute. Qed.

(** Tensors without dimensions: the index printed is the empty tensor. *)
Example allclose_report_io_scalar :
  allclose_report_io (Sc := float64)
    (Tensor [] [py_float 1 1]) (Tensor [] [py_float 3 2])
    (py_float 1 10000) (py_float 1 10000000) []
  = Return (false,
            ["at index tensor([], dtype=torch.int64): 1.00000e+00 ≠ 1.50000e+00, "
             +:+ "ratio: 6.66667e-01"]).
Proof. by vm_compute. Qed.

(** ** Witnesses *)

Lemma allclose_report_io_reference_witness :
  allclose_report_io (Sc := exact)
    (Tensor [2]%nat [1; 2]%Q) (Tensor [2]%nat [1; 3]%Q) (py_float 1 10) (py_float 0 1)
    ["before"]
  = Return (forallb id (zip_with (isclose_elem (Sc := exact) (py_float 1 10) (py_float 0 1))
                          [1; 2]%Q [1; 3]%Q),
            ["before"]
            ++ (fstring <$> reference_lines (Sc := exact) [2]%nat (py_float 1 10)
                              (py_float 0 1) 0 [1; 2]%Q [1; 3]%Q)).
Proof.
  apply (allclose_report_io_reference (Sc := exact)
           (Tensor [2]%nat [1; 2]%Q) (Tensor [2]%nat [1; 3]%Q) (py_float 1 10) (py_float 0 1)
           ["before"]).
  - by vm_compute.
  - by vm_compute.
Defined.

Lemma allclose_report_io_quiet_witness :
  false = true
  ↔ ["before"; "at index tensor([1]): 2.00000e+00 ≠ 3.00000e+00, ratio: 6.66667e-01"]
    = ["before"].
Proof.
  apply (allclose_report_io_quiet (Sc := exact)
           (Tensor [2]%nat [1; 2]%Q) (Tensor [2]%nat [1; 3]%Q) (py_float 1 10) (py_float 0 1)
           ["before"]).
  - by vm_compute.
  - by vm_compute.
  - by vm_compute.
Defined.

