(* ===== verification/Readback.v ===== *)
(** * Readback: reading a report line back

    [allclose_report] prints
    [at index {idx}: {t1:.5e} ≠ {t2:.5e}, ratio: {t1 / t2:.5e}] for every
    entry that is not close.  This file gives a reader of such a line
    ([parse_line]): it takes the prefix off, reads the index as PyTorch
    prints it ([parse_index], a lexer over the characters that skips the
    padding and the line breaks), and cuts the three numbers at the text
    between them.

    The theorem: the reader returns, from the line printed for an item, the
    index of the item and the three texts of its numbers, for every index
    that PyTorch prints in full.  So the printed line determines the entry
    it reports, and what [Format] proves of a printed number applies to
    each of the three. *)

From S2P Require Import Prelude PyStr Scalar Format Tensor Allclose Report.
From Stdlib Require Import QArith Qabs SpecFloat.

#[local] Close Scope Q_scope.
#[local] Open Scope Z_scope.

(** ** The reader *)

(** [text] without the prefix [pre], if it starts with it. *)
Fixpoint strip_prefix (pre text : string) : option string :=
  match pre, text with
  | EmptyString, _ => Some text
  | String a pre', String b text' =>
      if decide (a = b) then strip_prefix pre' text' else None
  | String _ _, EmptyString => None
  end.

(** [text] cut at the first character [c]: what is before it and what is
    after it. *)
Fixpoint split_at (c : ascii) (text : string) : option (string * string) :=
  match text with
  | EmptyString => None
  | String a text' =>
      if decide (a = c) then Some (EmptyString, text')
      else r ← split_at c text'; Some (String a r.1, r.2)
  end.

(** The padding between the items of an index: spaces and line feeds. *)
Definition is_blank (c : ascii) : bool := bool_decide (c = " "%char ∨ c = "010"%char).

(** The items of an index, from the text after the opening bracket: the
    number being read, if any, and the items read so far, last first.  An
    item is a run of digits; padding comes before an item only; a comma
    ends an item and the closing bracket ends the last one. *)
Fixpoint read_items (text : string) (cur : option Z) (acc : list nat)
    : option (list nat * string) :=
  match text with
  | EmptyString => None
  | String c rest =>
      match digit_value c, cur with
      | Some d, _ => read_items rest (Some (10 * default 0 cur + d)) acc
      | None, Some n =>
          if decide (c = ","%char) then read_items rest None (Z.to_nat n :: acc)
          else if decide (c = "]"%char) then Some (reverse (Z.to_nat n :: acc), rest)
          else None
      | None, None => if is_blank c then read_items rest None acc else None
      end
  end.

(** An index as PyTorch prints it, and the text after it. *)
Definition parse_index (text : string) : option (list nat * string) :=
  t ← strip_prefix "tensor([" text;
  match read_items t None [] with
  | Some r => t' ← strip_prefix ")" r.2; Some (r.1, t')
  | None => t' ← strip_prefix "], dtype=torch.int64)" t; Some ([], t')
  end.

(** The text of one line of items, and the text between two lines. *)
Definition line_text (w : nat) (g : list nat) : string :=
  String.concat ", " (format_int w <$> g).

Definition line_sep (k : nat) : string := "," +:+ newline +:+ spaces k.

(** Reading goes on from the items read so far, of which the first is the
    number being read. *)
Definition resume (t : string) (stack : list nat) : option (list nat * string) :=
  match stack with
  | i :: acc => read_items t (Some (Z.of_nat i)) acc
  | [] => read_items t None []
  end.

(** A line of the report: its index and the texts of its three numbers. *)
Definition parse_line (text : string) : option (list nat * string * string * string) :=
  t ← strip_prefix "at index " text;
  i ← parse_index t;
  t ← strip_prefix ": " i.2;
  t1 ← split_at " " t;
  t ← strip_prefix "≠ " t1.2;
  t2 ← split_at "," t;
  r ← strip_prefix " ratio: " t2.2;
  Some (i.1, t1.1, t2.1, r).

(** The characters of a number: neither the space nor the comma that end
    it in a line. *)
Definition plain_char (c : ascii) : bool :=
  negb (bool_decide (c = " "%char)) && negb (bool_decide (c = ","%char)).

Definition plain (s : string) : bool := string_forall plain_char s.

(** The formats whose texts can be cut out of a line. *)
Class PlainFormat {E : Type} (Fm : Format E) : Prop :=
  format_plain (p : nat) (x : E) : plain (format_e p x) = true.

(** ** Texts *)

Lemma string_forall_app (p : ascii → bool) (s t : string) :
  string_forall p (s +:+ t) = string_forall p s && string_forall p t.
Proof.
  induction s as [|c s IH]; [done|].
  rewrite app_String. cbn [string_forall]. by rewrite IH, andb_assoc.
Qed.

Lemma strip_prefix_app (pre t : string) : strip_prefix pre (pre +:+ t) = Some t.
Proof.
  induction pre as [|c pre IH]; [done|].
  rewrite app_String. cbn [strip_prefix]. by rewrite decide_True.
Qed.

Lemma split_at_app (c : ascii) (s t : string) :
  string_forall (λ a, negb (bool_decide (a = c))) s = true →
  split_at c (s +:+ String c t) = Some (s, t).
Proof.
  induction s as [|a s IH]; intros Hs.
  - rewrite app_EmptyString. cbn. by rewrite decide_True.
  - cbn [string_forall] in Hs. apply andb_prop in Hs as [Ha Hs].
    apply negb_true_iff, bool_decide_eq_false in Ha.
    rewrite app_String. cbn [split_at]. rewrite decide_False by done.
    by rewrite IH.
Qed.

Lemma string_forall_impl (p q : ascii → bool) (s : string) :
  (∀ c, p c = true → q c = true) → string_forall p s = true → string_forall q s = true.
Proof.
  intros Hpq. induction s as [|c s IH]; [done|]. cbn.
  intros [Hc Hs]%andb_prop. by rewrite (Hpq c Hc), IH.
Qed.

(** A plain text ends at the first space, and at the first comma. *)
Lemma split_at_plain (c : ascii) (s t : string) :
  c = " "%char ∨ c = ","%char → plain s = true →
  split_at c (s +:+ String c t) = Some (s, t).
Proof.
  intros Hc Hs. apply split_at_app. revert Hs. apply string_forall_impl.
  intros a. unfold plain_char. intros [H1 H2]%andb_prop.
  apply negb_true_iff, bool_decide_eq_false in H1, H2.
  apply negb_true_iff, bool_decide_eq_false. by destruct Hc as [-> | ->].
Qed.

(** ** Reading a number *)

Lemma digit_value_blank (c : ascii) : is_blank c = true → digit_value c = None.
Proof. unfold is_blank. by intros [-> | ->]%bool_decide_eq_true. Qed.

Lemma read_items_blank (c : ascii) (t : string) (acc : list nat) :
  is_blank c = true → read_items (String c t) None acc = read_items t None acc.
Proof. intros Hc. cbn. by rewrite digit_value_blank, Hc. Qed.

Lemma read_items_spaces (k : nat) (t : string) (acc : list nat) :
  read_items (spaces k +:+ t) None acc = read_items t None acc.
Proof.
  induction k as [|k IH]; [done|].
  change (spaces (S k)) with (String " " (spaces k)). rewrite app_String.
  by rewrite read_items_blank.
Qed.

Lemma read_items_digit (d : Z) (t : string) (cur : option Z) (acc : list nat) :
  0 ≤ d < 10 →
  read_items (String (digit_char d) t) cur acc
  = read_items t (Some (10 * default 0 cur + d)) acc.
Proof. intros Hd. cbn. by rewrite digit_value_char. Qed.

Lemma pretty_N_go_app (x : N) (s t : string) :
  pretty_N_go x s +:+ t = pretty_N_go x (s +:+ t).
Proof.
  revert s. induction (N.lt_wf_0 x) as [x _ IH]; intros s.
  assert (x = 0 ∨ 0 < x)%N as [->|?] by lia.
  - by rewrite !pretty_N_go_0.
  - rewrite (pretty_N_go_step x s), (pretty_N_go_step x (s +:+ t)) by done.
    by rewrite IH by (by apply N.div_lt).
Qed.

(** The last digit of a number and the digits before it. *)
Lemma digit_split (x : N) :
  0 ≤ Z.of_N (x mod 10) < 10 ∧ Z.of_N x = 10 * Z.of_N (x / 10) + Z.of_N (x mod 10).
Proof.
  pose proof (N.mod_lt x 10 ltac:(done)) as Hlt. apply N2Z.inj_lt in Hlt.
  pose proof (N2Z.is_nonneg (x mod 10)).
  split; [done|]. rewrite (N.div_mod x 10) at 1 by done.
  by rewrite N2Z.inj_add, N2Z.inj_mul.
Qed.

(** The digits of a positive number, read from the left, add the number
    to what was read before, shifted. *)
Lemma read_items_pretty_N_go (x : N) :
  (0 < x)%N →
  ∃ k, 0 ≤ k ∧ ∀ s cur acc,
    read_items (pretty_N_go x s) cur acc
    = read_items s (Some (default 0 cur * 10 ^ k + Z.of_N x)) acc.
Proof.
  induction (N.lt_wf_0 x) as [x _ IH]; intros Hx.
  assert (pretty_N_char (x mod 10) = digit_char (Z.of_N (x mod 10))) as Hc
    by (unfold digit_char; by rewrite N2Z.id).
  destruct (digit_split x) as [Hd Hx10].
  destruct (decide (x / 10 = 0)%N) as [H0|H0].
  - exists 1. split; [done|]. intros s cur acc.
    rewrite pretty_N_go_step, H0, pretty_N_go_0, Hc, read_items_digit by done.
    rewrite H0 in Hx10. do 2 f_equal. rewrite Hx10. lia.
  - destruct (IH (x / 10)%N) as (k & Hk & Hr);
      [by apply N.div_lt|by apply N.neq_0_lt_0|].
    exists (k + 1). split; [lia|]. intros s cur acc.
    rewrite pretty_N_go_step, Hr, Hc, read_items_digit by done.
    do 2 f_equal. cbn [from_option id]. rewrite Hx10, Z.pow_add_r, Z.pow_1_r by lia. ring.
Qed.

Lemma read_items_py_str (i : nat) (t : string) (acc : list nat) :
  read_items (py_str_int (Z.of_nat i) +:+ t) None acc
  = read_items t (Some (Z.of_nat i)) acc.
Proof.
  destruct i as [|i]; [done|]. unfold py_str_int.
  change (pretty (Z.of_nat (S i))) with (pretty (N.of_nat (S i))).
  unfold pretty, pretty_N. rewrite decide_False by lia. rewrite pretty_N_go_app.
  by destruct (read_items_pretty_N_go (N.of_nat (S i))) as (k & _ & ->); [lia|].
Qed.

Lemma read_items_format_int (w i : nat) (t : string) (acc : list nat) :
  read_items (format_int w i +:+ t) None acc = read_items t (Some (Z.of_nat i)) acc.
Proof.
  unfold format_int. by rewrite append_assoc, read_items_spaces, read_items_py_str.
Qed.

(** ** Reading the items *)

Section items.
Implicit Types (w k i : nat) (g idx acc stack : list nat) (gs : list (list nat)).
Implicit Types (t sep : string).

Lemma concat_cons2 sep (x y : string) (l : list string) :
  String.concat sep (x :: y :: l) = x +:+ sep +:+ String.concat sep (y :: l).
Proof. done. Qed.

Lemma read_items_comma i t acc :
  read_items (String "," t) (Some (Z.of_nat i)) acc = read_items t None (i :: acc).
Proof. cbn. by rewrite Nat2Z.id. Qed.

Lemma resume_comma t stack :
  stack ≠ [] → resume (String "," t) stack = read_items t None stack.
Proof. destruct stack as [|i acc]; [done|]. intros _. apply read_items_comma. Qed.

Lemma resume_close t i acc : resume (String "]" t) (i :: acc) = Some (reverse (i :: acc), t).
Proof. cbn. by rewrite Nat2Z.id. Qed.

(** The items of a line, separated by a comma and a space. *)
Lemma read_items_group w g i t acc :
  read_items (line_text w (i :: g) +:+ t) None acc = resume t (reverse (i :: g) ++ acc).
Proof.
  unfold line_text. revert i acc. induction g as [|j g IH]; intros i acc.
  - cbn [fmap list_fmap String.concat]. by rewrite read_items_format_int.
  - rewrite !fmap_cons, concat_cons2, !append_assoc, read_items_format_int.
    rewrite <- fmap_cons, !app_String, app_EmptyString.
    rewrite read_items_comma, read_items_blank, IH by done.
    by rewrite (reverse_cons _ i), <- app_assoc.
Qed.

(** The lines, separated by a comma, a line feed and the indentation. *)
Lemma read_items_lines w k g gs t acc :
  Forall (λ g, g ≠ []) (g :: gs) →
  read_items (String.concat (line_sep k) (line_text w <$> g :: gs) +:+ t) None acc
  = resume t (reverse (concat (g :: gs)) ++ acc).
Proof.
  revert g acc. induction gs as [|g2 gs IH]; intros [|i g] acc Hne;
    try by inversion Hne.
  - cbn [fmap list_fmap String.concat concat]. by rewrite read_items_group, app_nil_r.
  - apply Forall_cons_1 in Hne as [_ Hne].
    rewrite !fmap_cons, concat_cons2, !append_assoc, read_items_group.
    rewrite <- fmap_cons. unfold line_sep at 1. rewrite !app_String, app_EmptyString.
    rewrite resume_comma by (rewrite reverse_cons; by destruct (reverse g)).
    rewrite append_assoc. unfold newline. rewrite app_String, app_EmptyString.
    rewrite read_items_blank, read_items_spaces, IH by done.
    cbn [concat]. by rewrite (reverse_app (i :: g)), <- app_assoc.
Qed.

End items.

(** ** Reading an index *)

Section index.
Implicit Types (idx : list nat) (t : string).

(** An index that is printed in full: its lines between brackets. *)
Lemma vector_str_full (indent : nat) idx :
  (length idx ≤ PRINT_OPTS_threshold)%nat →
  ∃ n, (0 < n)%nat
       ∧ vector_str indent idx
         = "[" +:+ String.concat (line_sep (indent + 1))
                     (line_text (int_width idx) <$> groups n idx) +:+ "]".
Proof.
  intros Hl. eexists. split; [|unfold vector_str].
  2: { rewrite bool_decide_eq_false_2 by lia. cbv zeta.
       by rewrite groups_fmap, <- list_fmap_compose. }
  lia.
Qed.

Lemma index_repr_cons (i : nat) idx t :
  (length (i :: idx) ≤ PRINT_OPTS_threshold)%nat →
  ∃ g gs, Forall (λ g, g ≠ []) (g :: gs) ∧ concat (g :: gs) = i :: idx
          ∧ ∃ w k, index_repr (i :: idx) +:+ t
                   = "tensor([" +:+ (String.concat (line_sep k) (line_text w <$> g :: gs)
                                     +:+ String "]" (String ")" t)).
Proof.
  intros Hl. destruct (vector_str_full (String.length "tensor(") (i :: idx) Hl)
    as (n & Hn & Hv).
  pose proof (concat_groups n (i :: idx) Hn) as Hc.
  pose proof (groups_go_nonempty (length (i :: idx)) n (i :: idx) Hn) as Hne.
  fold (groups n (i :: idx)) in Hne.
  destruct (groups n (i :: idx)) as [|g gs] eqn:Hg; [done|].
  exists g, gs. split; [done|]. split; [done|]. eexists _, _.
  unfold index_repr. rewrite Hv. by rewrite !append_assoc.
Qed.

(** The reader returns the index from its text, and the text that
    follows. *)
Lemma parse_index_repr idx t :
  (length idx ≤ PRINT_OPTS_threshold)%nat →
  parse_index (index_repr idx +:+ t) = Some (idx, t).
Proof.
  intros Hl. destruct idx as [|i idx]; [done|].
  destruct (index_repr_cons i idx t Hl) as (g & gs & Hne & Hc & w & k & ->).
  unfold parse_index. rewrite strip_prefix_app. cbn [mbind option_bind].
  rewrite read_items_lines, Hc, app_nil_r by done.
  destruct (reverse (i :: idx)) as [|j acc] eqn:Hr.
  - apply (f_equal length) in Hr. by rewrite length_reverse in Hr.
  - rewrite resume_close, <- Hr, reverse_involutive. done.
Qed.

End index.

(** ** The texts of the numbers are plain *)

Lemma plain_app (s t : string) : plain (s +:+ t) = plain s && plain t.
Proof. apply string_forall_app. Qed.

Lemma plain_digit_char (d : Z) : plain_char (digit_char d) = true.
Proof. unfold digit_char, pretty_N_char. by repeat case_match. Qed.

Lemma plain_digits (k : nat) (m : Z) (acc : string) :
  plain acc = true → plain (digits k m acc) = true.
Proof.
  revert m acc. induction k as [|k IH]; intros m acc Hacc; [done|].
  cbn [digits]. apply IH. unfold plain in *. cbn [string_forall].
  by rewrite plain_digit_char, Hacc.
Qed.

Lemma plain_format_exp (e : Z) : plain (format_exp e) = true.
Proof.
  unfold format_exp. rewrite plain_app, plain_digits by done. by case_decide.
Qed.

Lemma plain_format_sci (p : nat) (s : sci) : plain (format_sci p s) = true.
Proof.
  unfold format_sci. rewrite !plain_app, plain_format_exp, !andb_true_r.
  pose proof (plain_digits (S p) (sci_digits s) EmptyString eq_refl) as Hd.
  destruct (digits (S p) (sci_digits s) EmptyString) as [|c rest];
    [by destruct (sci_neg s)|].
  unfold plain in Hd. cbn [string_forall] in Hd. apply andb_prop in Hd as [Hc Hrest].
  unfold plain. cbn [string_forall]. rewrite Hc.
  destruct (sci_neg s), p; cbn [string_forall]; by rewrite ?Hrest.
Qed.

#[global] Instance Q_plain : PlainFormat Q_format.
Proof. intros p x. apply plain_format_sci. Qed.

#[global] Instance float_plain : PlainFormat float_format.
Proof.
  intros p x. unfold format_e, float_format, format_e_float.
  destruct (float_sci _ x); [apply plain_format_sci|]. by destruct x as [|[]| |].
Qed.

(** ** Reading a line *)

Section line.
Context {E : Type} {Sc : Scalar E} {Fm : Format E} {Pl : PlainFormat Fm}.
Implicit Types (l : report_line E).

(** The reader returns the index of an item and the texts of its three
    numbers from the line printed for it. *)
Lemma parse_line_fstring_short l :
  (length (line_idx l) ≤ PRINT_OPTS_threshold)%nat →
  parse_line (fstring l)
  = Some (line_idx l, format_e 5 (line_t1 l), format_e 5 (line_t2 l),
          format_e 5 (line_ratio l)).
Proof.
  intros Hl. unfold parse_line, fstring.
  rewrite strip_prefix_app. cbn [mbind option_bind].
  rewrite parse_index_repr by done. cbn [mbind option_bind fst snd].
  rewrite strip_prefix_app. cbn [mbind option_bind].
  change (" ≠ " +:+ ?r) with (String " " ("≠ " +:+ r)).
  rewrite split_at_plain by (by left || apply format_plain).
  cbn [mbind option_bind fst snd]. rewrite strip_prefix_app. cbn [mbind option_bind].
  change (", ratio: " +:+ ?r) with (String "," (" ratio: " +:+ r)).
  rewrite split_at_plain by (by right || apply format_plain).
  cbn [mbind option_bind fst snd]. by rewrite strip_prefix_app.
Qed.

(** C9: a line of the report can be read back: from the text that
    [allclose_report] prints for an item, the reader returns the index of
    the entry and the texts of the two entries and of their ratio, for
    every index that PyTorch prints in full (at most 1000 dimensions). *)
Theorem parse_line_fstring l :
  (length (line_idx l) ≤ PRINT_OPTS_threshold)%nat →
  parse_line (fstring l)
  = Some (line_idx l, format_e 5 (line_t1 l), format_e 5 (line_t2 l),
          format_e 5 (line_ratio l)).
Proof. apply parse_line_fstring_short. Qed.

(** Two items with the same line have the same index and the same
    texts. *)
Lemma fstring_inj l l' :
  (length (line_idx l) ≤ PRINT_OPTS_threshold)%nat →
  (length (line_idx l') ≤ PRINT_OPTS_threshold)%nat →
  fstring l = fstring l' →
  line_idx l = line_idx l'
  ∧ format_e 5 (line_t1 l) = format_e 5 (line_t1 l')
  ∧ format_e 5 (line_t2 l) = format_e 5 (line_t2 l').
Proof.
  intros Hl Hl' Heq. apply (f_equal parse_line) in Heq.
  rewrite !parse_line_fstring_short in Heq by done. by simplify_eq.
Qed.

End line.

(** ** Lines of float entries *)

(** From the line printed for two float entries that have a value, the
    reader returns the index, and the two texts read back as numbers within
    half a unit of the sixth digit of the entries. *)
Lemma parse_line_float (l : report_line spec_float) (v1 v2 : Q) :
  (length (line_idx l) ≤ PRINT_OPTS_threshold)%nat →
  float_value (line_t1 l) = Some v1 → float_value (line_t2 l) = Some v2 →
  ∃ text1 text2 ratio s1 s2,
    parse_line (fstring l) = Some (line_idx l, text1, text2, ratio)
    ∧ parse_sci 5 text1 = Some s1 ∧ parse_sci 5 text2 = Some s2
    ∧ (Qabs (v1 - sci_value 5 s1) <= half_unit 5 s1)%Q
    ∧ (Qabs (v2 - sci_value 5 s2) <= half_unit 5 s2)%Q.
Proof.
  intros Hl H1 H2.
  destruct (format_e_float_parse 5 _ _ H1) as (s1 & Hs1 & He1).
  destruct (format_e_float_parse 5 _ _ H2) as (s2 & Hs2 & He2).
  eexists _, _, _, s1, s2. by rewrite parse_line_fstring_short.
Qed.

(** ** Runs *)

Example parse_line_padded :
  parse_line "at index tensor([ 3, 10,  0]): 1.00000e+00 ≠ 2.00000e+00, ratio: 5.00000e-01"
  = Some ([3; 10; 0]%nat, "1.00000e+00", "2.00000e+00", "5.00000e-01").
Proof. by vm_compute. Qed.

(** An index over two lines, and entries that have no value. *)
Example parse_line_wrapped :
  parse_line (fstring (Fm := float_format)
                (ReportLine (seq 100 20) S754_nan (S754_infinity true) S754_nan))
  = Some (seq 100 20, "nan", "-inf", "nan").
Proof. by vm_compute. Qed.

Example parse_line_scalar :
  parse_line "at index tensor([], dtype=torch.int64): 1.50000e+00 ≠ 1.00000e+00, ratio: 1.50000e+00"
  = Some ([], "1.50000e+00", "1.00000e+00", "1.50000e+00").
Proof. by vm_compute. Qed.

(** A summarised index is not read: its text leaves items out. *)
Example parse_line_summarised :
  parse_index (index_repr (replicate 1001 7%nat)) = None.
Proof. by vm_compute. Qed.

Lemma parse_line_fstring_witness :
  parse_line (fstring (Fm := float_format)
                (ReportLine [0; 1]%nat (py_float 1 1) (py_float 2 1) (py_float 1 2)))
  = Some ([0; 1]%nat, format_e 5 (py_float 1 1), format_e 5 (py_float 2 1),
          format_e 5 (py_float 1 2)).
Proof.
  apply (parse_line_fstring (Fm := float_format)
           (ReportLine [0; 1]%nat (py_float 1 1) (py_float 2 1) (py_float 1 2))).
  unfold PRINT_OPTS_threshold. cbn [length line_idx]. lia.
Defined.
