(* ===== verification/Linalg.v ===== *)
(** * Linalg: vectors and matrices over a dtype

    The tests of the Hessian operator compare [op @ X] with
    [op_functorch @ X], where [op_functorch] is a dense matrix, built in the
    block-diagonal test by [torch.block_diag] from one matrix per block.
    This file models what those expressions compute: the dot product, the
    product of a matrix with a vector and with a matrix, [block_diag] and the
    transpose, over the arithmetic of a [Scalar].

    Floating-point addition is not associative, so the algebraic identities
    hold over exact arithmetic only.  They are stated up to the equivalence
    of the dtype ([Qeq] on the rationals of [exact]) for every dtype that
    satisfies the laws collected in [ExactArith]. *)

From S2P Require Import Prelude Scalar.

(** ** Vectors and matrices *)

Section ops.
Context {E : Type} {Sc : Scalar E}.
Implicit Types (u v w : list E) (a b : E).

(** A vector of zeros. *)
Definition zeros (n : nat) : list E := replicate n s_zero.

(** The sum of two vectors. *)
Definition vadd u v : list E := zip_with s_add u v.

(** A vector multiplied by a scalar. *)
Definition vscale a v : list E := s_mul a <$> v.

(** The dot product. *)
Definition dot u v : E := foldr s_add s_zero (zip_with s_mul u v).

(** A matrix: its number of columns and its rows. *)
Record matrix : Type := Matrix {
  m_cols : nat;
  m_rows : list (list E);
}.

(** Every row has [m_cols] entries. *)
Definition matrix_wf (M : matrix) : Prop := Forall (λ row, length row = m_cols M) (m_rows M).

#[global] Instance matrix_wf_dec (M : matrix) : Decision (matrix_wf M).
Proof. unfold matrix_wf. apply _. Defined.

(** [M @ v] for a vector [v]. *)
Definition mat_vec (M : matrix) v : list E := (λ row, dot row v) <$> m_rows M.

(** The columns of a matrix, first column first. *)
Fixpoint columns (n : nat) (rows : list (list E)) : list (list E) :=
  match n with
  | O => []
  | S n' => ((λ row, default s_zero (head row)) <$> rows) :: columns n' (tail <$> rows)
  end.

(** [M.T]. *)
Definition transpose (M : matrix) : matrix :=
  Matrix (length (m_rows M)) (columns (m_cols M) (m_rows M)).

(** [M @ X] for a matrix [X]: column [j] of the product is [M @ X[:, j]]. *)
Definition mat_mat (M X : matrix) : matrix :=
  transpose (Matrix (length (m_rows M)) (mat_vec M <$> columns (m_cols X) (m_rows X))).

(** [torch.block_diag] of a list of blocks: the blocks along the diagonal,
    zeros elsewhere. *)
Fixpoint block_diag (blocks : list matrix) : matrix :=
  match blocks with
  | [] => Matrix 0 []
  | M :: blocks' =>
      let rest := block_diag blocks' in
      Matrix (m_cols M + m_cols rest)
        (((λ row, row ++ zeros (m_cols rest)) <$> m_rows M)
         ++ ((λ row, zeros (m_cols M) ++ row) <$> m_rows rest))
  end.

End ops.

Arguments matrix E : clear implicits.

(** ** The dot product over exact arithmetic *)

Section exact.
Context {E : Type} {Sc : Scalar E} `{!Equiv E} {Ex : ExactArith Sc}.
Implicit Types (u v w : list E) (a b c d : E) (M : matrix E).

Lemma s_add_0_r a : s_add a s_zero ≡ a.
Proof. by rewrite s_add_comm, s_add_0_l. Qed.

(** [(a + b) + (c + d) = (a + c) + (b + d)]. *)
Lemma s_add_swap a b c d :
  s_add (s_add a b) (s_add c d) ≡ s_add (s_add a c) (s_add b d).
Proof.
  rewrite <- !s_add_assoc. f_equiv.
  by rewrite !s_add_assoc, (s_add_comm b c).
Qed.

#[global] Instance vadd_proper : Proper ((≡) ==> (≡) ==> (≡)) (vadd (E := E)).
Proof. intros u u' Hu v v' Hv. unfold vadd. by rewrite Hu, Hv. Qed.

#[global] Instance vscale_proper : Proper ((≡) ==> (≡) ==> (≡)) (vscale (E := E)).
Proof.
  intros a a' Ha v v' Hv. unfold vscale.
  induction Hv as [|b b' v v' Hb _ IH]; [done|]. cbn. f_equiv; [by rewrite Ha, Hb|done].
Qed.

(** Adding zeros changes nothing. *)
Lemma vadd_zeros_zeros (n : nat) : vadd (zeros n) (zeros n) ≡ zeros (E := E) n.
Proof.
  induction n as [|n IH]; [done|]. unfold zeros, vadd in *. cbn.
  f_equiv; [apply s_add_0_l|done].
Qed.

(** [(a + b) + (c + d) = (a + c) + (b + d)] on vectors. *)
Lemma vadd_swap u1 u2 v1 v2 :
  vadd (vadd u1 u2) (vadd v1 v2) ≡ vadd (vadd u1 v1) (vadd u2 v2).
Proof.
  revert u2 v1 v2. induction u1 as [|a u1 IH]; intros [|b u2] [|c v1] [|d v2]; try done.
  unfold vadd in *. cbn. f_equiv; [apply s_add_swap|apply IH].
Qed.

(** Scaling distributes over the sum of vectors. *)
Lemma vscale_vadd a u v : vscale a (vadd u v) ≡ vadd (vscale a u) (vscale a v).
Proof.
  revert v. induction u as [|b u IH]; intros [|c v]; try done.
  unfold vscale, vadd in *. cbn. f_equiv; [apply s_mul_add_distr_l|apply IH].
Qed.

#[global] Instance dot_proper : Proper ((≡) ==> (≡) ==> (≡)) (dot (E := E)).
Proof.
  intros u u' Hu v v' Hv. unfold dot. revert v v' Hv.
  induction Hu as [|a a' u u' Ha _ IH]; intros v v' Hv; [done|].
  destruct Hv as [|b b' v v' Hb Hv]; [done|]. cbn. f_equiv; [by f_equiv|by apply IH].
Qed.

Lemma length_zeros (n : nat) : length (zeros (E := E) n) = n.
Proof. apply length_replicate. Qed.

Lemma dot_cons a u b v : dot (a :: u) (b :: v) = s_add (s_mul a b) (dot u v).
Proof. done. Qed.

Lemma dot_zeros_l (n : nat) v : dot (zeros n) v ≡ s_zero.
Proof.
  revert v. induction n as [|n IH]; intros [|b v]; try done.
  change (zeros (S n)) with (s_zero :: zeros n).
  by rewrite dot_cons, IH, s_mul_0_l, s_add_0_l.
Qed.

(** The dot product of concatenations is the sum of the dot products. *)
Lemma dot_app u1 u2 v1 v2 :
  length u1 = length v1 →
  dot (u1 ++ u2) (v1 ++ v2) ≡ s_add (dot u1 v1) (dot u2 v2).
Proof.
  revert v1. induction u1 as [|a u1 IH]; intros [|b v1] Hl; try done.
  - cbn. by rewrite s_add_0_l.
  - cbn [app]. rewrite !dot_cons, IH by (cbn in Hl; lia). apply s_add_assoc.
Qed.

(** The dot product is additive in its second argument. *)
Lemma dot_vadd_r u v w :
  length v = length w → dot u (vadd v w) ≡ s_add (dot u v) (dot u w).
Proof.
  revert v w. induction u as [|a u IH]; intros [|b v] [|c w] Hl; try done;
    try (cbn; by rewrite s_add_0_l).
  change (vadd (b :: v) (c :: w)) with (s_add b c :: vadd v w).
  rewrite !dot_cons, IH by (cbn in Hl; lia).
  by rewrite s_mul_add_distr_l, s_add_swap.
Qed.

(** ** Matrices *)

Lemma length_mat_vec M v : length (mat_vec M v) = length (m_rows M).
Proof. unfold mat_vec. by rewrite length_fmap. Qed.

#[global] Instance mat_vec_proper M : Proper ((≡) ==> (≡)) (mat_vec M).
Proof.
  intros v v' Hv. unfold mat_vec. apply list_fmap_equiv_ext. intros _ row _.
  by rewrite Hv.
Qed.

(** The product with a matrix is additive. *)
Lemma mat_vec_vadd M v w :
  length v = length w →
  mat_vec M (vadd v w) ≡ vadd (mat_vec M v) (mat_vec M w).
Proof.
  intros Hl. unfold mat_vec, vadd. induction (m_rows M) as [|row rows IH]; [done|].
  cbn. f_equiv; [by apply dot_vadd_r|done].
Qed.

(** The first block acts on the first entries of the vector, the other
    blocks on the rest. *)
Lemma mat_vec_block_diag_cons M (blocks : list (matrix E)) v w :
  matrix_wf M → length v = m_cols M →
  mat_vec (block_diag (M :: blocks)) (v ++ w)
  ≡ mat_vec M v ++ mat_vec (block_diag blocks) w.
Proof.
  intros Hwf Hv. unfold mat_vec. cbn [block_diag m_rows].
  rewrite fmap_app, <- !list_fmap_compose. f_equiv.
  - apply list_fmap_equiv_ext. intros i row Hrow. cbv [compose].
    rewrite dot_app by (by rewrite (Forall_lookup_1 _ _ _ _ Hwf Hrow)).
    by rewrite dot_zeros_l, s_add_0_r.
  - apply list_fmap_equiv_ext. intros i row Hrow. cbv [compose].
    rewrite dot_app by (by rewrite length_zeros).
    by rewrite dot_zeros_l, s_add_0_l.
Qed.

(** The block-diagonal matrix acts block by block. *)
Lemma mat_vec_block_diag_concat (blocks : list (matrix E)) (vs : list (list E)) :
  Forall2 (λ M v, matrix_wf M ∧ length v = m_cols M) blocks vs →
  mat_vec (block_diag blocks) (concat vs) ≡ concat (zip_with mat_vec blocks vs).
Proof.
  induction 1 as [|M v blocks vs [Hwf Hv] _ IH]; [done|].
  cbn [concat zip_with]. by rewrite mat_vec_block_diag_cons, IH.
Qed.

(** C31: a block-diagonal matrix acts block by block: its product with
    the concatenation of one vector per block is the concatenation of the
    products of each block with its vector (over exact arithmetic, for
    well-formed blocks and vectors of the blocks' widths). *)
Theorem block_diag_acts_blockwise (blocks : list (matrix E)) (vs : list (list E)) :
  Forall2 (λ M v, matrix_wf M ∧ length v = m_cols M) blocks vs →
  mat_vec (block_diag blocks) (concat vs) ≡ concat (zip_with mat_vec blocks vs).
Proof. apply mat_vec_block_diag_concat. Qed.

End exact.

(** ** Shapes of block-diagonal matrices *)

Section block_diag_shape.
Context {E : Type} {Sc : Scalar E}.

Lemma block_diag_cols (blocks : list (matrix E)) :
  m_cols (block_diag blocks) = sum_list (m_cols <$> blocks).
Proof. induction blocks as [|M blocks IH]; [done|]. cbn. by rewrite IH. Qed.

Lemma block_diag_rows (blocks : list (matrix E)) :
  length (m_rows (block_diag blocks)) = sum_list ((λ M, length (m_rows M)) <$> blocks).
Proof.
  induction blocks as [|M blocks IH]; [done|].
  cbn. by rewrite length_app, !length_fmap, IH.
Qed.

(** The block-diagonal matrix of well-formed blocks is well formed. *)
Lemma block_diag_wf_rows (blocks : list (matrix E)) :
  Forall matrix_wf blocks →
  Forall (λ row, length row = m_cols (block_diag blocks)) (m_rows (block_diag blocks)).
Proof.
  induction 1 as [|M blocks HM _ IH]; [constructor|].
  unfold matrix_wf in *. cbn [block_diag m_rows m_cols]. apply Forall_app. split.
  - apply Forall_fmap. eapply Forall_impl; [exact HM|]. intros row Hr. cbn.
    by rewrite length_app, Hr, length_zeros.
  - apply Forall_fmap. eapply Forall_impl; [exact IH|]. intros row Hr. cbn.
    by rewrite length_app, Hr, length_zeros.
Qed.

Lemma block_diag_wf (blocks : list (matrix E)) :
  Forall matrix_wf blocks → matrix_wf (block_diag blocks).
Proof. apply block_diag_wf_rows. Qed.

End block_diag_shape.

(** ** Columns and the transpose *)

Section columns.
Context {E : Type} {Sc : Scalar E}.
Implicit Types (c : list E) (rows cols : list (list E)) (n k : nat).

Lemma length_columns n rows : length (columns n rows) = n.
Proof. revert rows. induction n as [|n IH]; intros rows; cbn; [done|]. by rewrite IH. Qed.

(** Every column has as many entries as the matrix has rows. *)
Lemma columns_wf n rows : Forall (λ col, length col = length rows) (columns n rows).
Proof.
  revert rows. induction n as [|n IH]; intros rows; cbn; constructor.
  - by rewrite length_fmap.
  - specialize (IH (tail <$> rows)). by rewrite length_fmap in IH.
Qed.

(** The columns of a matrix without rows. *)
Lemma columns_nil n : columns (E := E) n [] = replicate n [].
Proof. induction n as [|n IH]; cbn; [done|]. by rewrite IH. Qed.

(** Putting a row on top puts an entry on top of every column. *)
Lemma columns_cons n c rows :
  length c = n → columns n (c :: rows) = zip_with cons c (columns n rows).
Proof.
  intros <-. revert rows. induction c as [|a c IH]; intros rows; [done|].
  cbn [length columns fmap list_fmap head tail default zip_with].
  fold (fmap (M := list) (λ row : list E, default s_zero (head row))).
  fold (fmap (M := list) (@tail E)). by rewrite IH.
Qed.

Lemma fmap_head_zip_with_cons c rows :
  length c = length rows →
  (λ row, default s_zero (head row)) <$> zip_with cons c rows = c.
Proof.
  revert rows. induction c as [|a c IH]; intros [|row rows] Hl; try done.
  cbn. f_equal. apply IH. cbn in Hl. lia.
Qed.

Lemma fmap_tail_zip_with_cons c rows :
  length c = length rows → tail <$> zip_with cons c rows = rows.
Proof.
  revert rows. induction c as [|a c IH]; intros [|row rows] Hl; try done.
  cbn. f_equal. apply IH. cbn in Hl. lia.
Qed.

(** The columns of the matrix whose rows are the columns [cols] are
    [cols]: transposing twice gives the matrix back. *)
Lemma columns_columns n cols :
  Forall (λ col, length col = n) cols →
  columns (length cols) (columns n cols) = cols.
Proof.
  induction 1 as [|c cols Hc _ IH]; [done|].
  rewrite columns_cons by done. cbn [length columns].
  rewrite fmap_head_zip_with_cons, fmap_tail_zip_with_cons, IH
    by (by rewrite length_columns). done.
Qed.

(** The columns of rows stacked on rows. *)
Lemma columns_app n rows1 rows2 :
  columns n (rows1 ++ rows2) = zip_with app (columns n rows1) (columns n rows2).
Proof.
  revert rows1 rows2. induction n as [|n IH]; intros rows1 rows2; [done|].
  cbn [columns zip_with]. by rewrite !fmap_app, IH.
Qed.

(** The first [n] columns and the columns after them. *)
Lemma columns_add n k rows :
  columns (n + k) rows = columns n (take n <$> rows) ++ columns k (drop n <$> rows).
Proof.
  revert rows. induction n as [|n IH]; intros rows.
  { cbn. f_equal. induction rows as [|row rows IHr]; [done|]. cbn. by rewrite <- IHr. }
  cbn [Nat.add columns app]. rewrite IH, <- !list_fmap_compose. f_equal; [|f_equal].
  - apply list_fmap_ext. by intros _ [|a row] _.
  - f_equal. apply list_fmap_ext. by intros _ [|a row] _; cbn; rewrite ?take_nil.
  - f_equal. apply list_fmap_ext. by intros _ [|a row] _; cbn; rewrite ?drop_nil.
Qed.

(** The columns of a matrix of zeros. *)
Lemma columns_zeros n k : columns n (replicate k (zeros n)) = replicate n (zeros (E := E) k).
Proof.
  induction n as [|n IH]; [done|].
  change (zeros (S n)) with (s_zero :: zeros (E := E) n).
  cbn [columns]. rewrite !fmap_replicate. cbn [head tail default]. by rewrite IH.
Qed.

End columns.

(** A transpose is well formed, and so is a product. *)
Lemma transpose_wf {E : Type} {Sc : Scalar E} (M : matrix E) : matrix_wf (transpose M).
Proof. apply columns_wf. Qed.

Lemma mat_mat_wf {E : Type} {Sc : Scalar E} (M X : matrix E) : matrix_wf (mat_mat M X).
Proof. apply transpose_wf. Qed.

(** Transposing twice gives a well-formed matrix back. *)
Lemma transpose_involutive {E : Type} {Sc : Scalar E} (M : matrix E) :
  matrix_wf M → transpose (transpose M) = M.
Proof.
  intros Hwf. destruct M as [n rows]. unfold transpose, matrix_wf in *. cbn in *.
  by rewrite length_columns, columns_columns.
Qed.

(** ** The transpose of a block-diagonal matrix *)

Section transpose_block_diag.
Context {E : Type} {Sc : Scalar E}.
Implicit Types (z : list E) (rows : list (list E)) (c : nat).

Lemma fmap_take_pad_r c z rows :
  Forall (λ row, length row = c) rows → take c <$> ((λ row, row ++ z) <$> rows) = rows.
Proof.
  induction 1 as [|row rows Hr _ IH]; [done|].
  cbn. rewrite take_app_length' by done. by f_equal.
Qed.

Lemma fmap_drop_pad_r c z rows :
  Forall (λ row, length row = c) rows →
  drop c <$> ((λ row, row ++ z) <$> rows) = replicate (length rows) z.
Proof.
  induction 1 as [|row rows Hr _ IH]; [done|].
  cbn. rewrite drop_app_length' by done. by f_equal.
Qed.

Lemma fmap_take_pad_l c rows :
  take c <$> ((λ row, zeros c ++ row) <$> rows) = replicate (length rows) (zeros c).
Proof.
  induction rows as [|row rows IH]; [done|].
  cbn. rewrite take_app_length' by (by rewrite length_zeros). by f_equal.
Qed.

Lemma fmap_drop_pad_l c rows :
  drop c <$> ((λ row, zeros (E := E) c ++ row) <$> rows) = rows.
Proof.
  induction rows as [|row rows IH]; [done|].
  cbn. rewrite drop_app_length' by (by rewrite length_zeros). by f_equal.
Qed.

(** The transpose of a block-diagonal matrix is the block-diagonal matrix
    of the transposed blocks. *)
Lemma transpose_block_diag (blocks : list (matrix E)) :
  Forall matrix_wf blocks →
  transpose (block_diag blocks) = block_diag (transpose <$> blocks).
Proof.
  induction 1 as [|M blocks HM Hwf IH]; [done|].
  pose proof (block_diag_wf_rows blocks Hwf) as Hrest.
  rewrite fmap_cons. cbn [block_diag]. rewrite <- IH. unfold transpose at 1 3 4 5.
  cbn [m_cols m_rows]. rewrite length_app, !length_fmap. f_equal.
  rewrite columns_add, !fmap_app.
  rewrite fmap_take_pad_r, fmap_drop_pad_r, fmap_take_pad_l, fmap_drop_pad_l by done.
  rewrite !columns_app, !columns_zeros.
  rewrite zip_with_replicate_r_eq, zip_with_replicate_l by (by rewrite length_columns).
  done.
Qed.

(** C32: the transpose of a block-diagonal matrix of well-formed blocks is
    the block-diagonal matrix of the transposed blocks. *)
Theorem block_diag_transpose (blocks : list (matrix E)) :
  Forall matrix_wf blocks →
  transpose (block_diag blocks) = block_diag (transpose <$> blocks).
Proof. apply transpose_block_diag. Qed.

End transpose_block_diag.

(** ** Equivalent matrices *)

Section matrix_equiv.
Context {E : Type} {Sc : Scalar E} `{!Equiv E} {Ex : ExactArith Sc}.
Implicit Types (M N : matrix E) (rows : list (list E)).

(** Matrices are equivalent when they have the same number of columns and
    equivalent rows. *)
#[global] Instance matrix_equiv : Equiv (matrix E) := λ M N,
  m_cols M = m_cols N ∧ m_rows M ≡ m_rows N.

#[global] Instance matrix_equivalence : Equivalence (≡@{matrix E}).
Proof.
  split.
  - by intros M.
  - by intros M N [? ?].
  - intros M N N' [? ?] [? ?]. split; [congruence|by etrans].
Qed.

(** Equivalent matrices are well formed together. *)
Lemma matrix_wf_equiv M N : M ≡ N → matrix_wf N → matrix_wf M.
Proof.
  intros [Hc Hr]. unfold matrix_wf. rewrite Hc.
  induction Hr as [|row row' rows rows' Hrow _ IH]; [done|].
  intros [Hl Hwf]%Forall_cons. constructor; [|by apply IH].
  rewrite <- Hl. apply list_equiv_Forall2 in Hrow. by eapply Forall2_length.
Qed.

#[global] Instance columns_proper (n : nat) : Proper ((≡) ==> (≡)) (columns (E := E) n).
Proof.
  induction n as [|n IH]; intros rows rows' Hr; [done|].
  cbn [columns]. f_equiv.
  - induction Hr as [|row row' ? ? Hrow _ IHr]; [done|].
    cbn. f_equiv; [|done]. by destruct Hrow.
  - apply IH. induction Hr as [|row row' ? ? Hrow _ IHr]; [done|].
    cbn. f_equiv; [|done]. by destruct Hrow.
Qed.

#[global] Instance transpose_proper : Proper ((≡) ==> (≡)) (transpose (E := E)).
Proof.
  intros [n rows] [n' rows'] [Hn Hr]. cbn in *. subst n'. split; cbn.
  - by rewrite Hr.
  - by rewrite Hr.
Qed.

(** The products respect the equivalence of matrices. *)
Lemma mat_vec_equiv M N (v : list E) : M ≡ N → mat_vec M v ≡ mat_vec N v.
Proof.
  intros [_ Hr]. unfold mat_vec. induction Hr as [|row row' ? ? Hrow _ IH]; [done|].
  cbn. f_equiv; [by rewrite Hrow|done].
Qed.

(** A block-diagonal matrix of one block is the block. *)
Lemma block_diag_singleton M : block_diag [M] = M.
Proof.
  destruct M as [c rows]. cbn. rewrite Nat.add_0_r, app_nil_r. f_equal.
  induction rows as [|row rows IH]; [done|]. cbn. by rewrite app_nil_r, IH.
Qed.

End matrix_equiv.
