(* ===== verification/Operator.v ===== *)
(** * Operator: the implicit linear operator, from the specification

    [HessianLinearOperator] is not part of the sources under [src/]; the
    tests construct it and multiply with it.  This file models it from the
    specification: the batch-size resolver, construction with validation of
    the block sizes through [split_list], the shape, [matvec] as a sum over
    the batches of the data stream of what the curvature kernel returns
    (block by block when the operator is blocked), [matmat] column by column
    and the adjoint view.

    The curvature kernel (automatic differentiation) is an external
    collaborator: it is a parameter of the model, the class
    [CurvatureKernel], and theorems about the values of [matvec] assume
    what they need of it: that a matrix represents it ([matrix_of]), or
    that it is linear in the vector ([LinearKernel]). *)

From S2P Require Import Prelude PyStr PySeq SplitList Scalar Linalg.

(** ** The collaborators *)

(** What the operator asks of a batch of the data stream: whether its input
    is mapping-like, and the leading dimension of an array-like input. *)
Class Batch (B : Type) : Type := {
  mapping_like : B → bool;
  leading_dim : B → Z;
}.

(** The curvature kernel over parameters [P], batches [B] and entries [E]:
    the flattened size of a parameter, and
    [apply(model, loss_fn, parameter_subset, batch, vector)] for a fixed
    model and loss. *)
Class CurvatureKernel (P B E : Type) : Type := {
  param_numel : P → nat;
  kernel_apply : list P → B → list E → list E;
}.

Section operator.
Context {P B E : Type} {Sc : Scalar E} {Bt : Batch B} {K : CurvatureKernel P B E}.
Implicit Types (params block : list P) (data : list B) (v : list E) (b : B).

(** ** The batch-size resolver *)

(** The default resolver: the leading dimension of an array-like input; a
    mapping-like input is refused. *)
Definition resolver_error : exn :=
  ConfigurationError "batch_size_fn is required for mapping-like inputs".

Definition default_resolver b : result Z :=
  if mapping_like b then Raise resolver_error else Return (leading_dim b).

(** [resolve(batch)] with the caller's resolver if there is one. *)
Definition resolve (batch_size_fn : option (B → Z)) b : result Z :=
  match batch_size_fn with
  | Some f => Return (f b)
  | None => default_resolver b
  end.

(** ** The operator *)

(** The state of an operator: references to the parameters and the data
    stream, the resolver and the two block partitions. *)
Record operator : Type := Operator {
  op_params : list P;
  op_data : list B;
  op_batch_size_fn : option (B → Z);
  op_in_blocks : list Z;
  op_out_blocks : list Z;
}.

(** The flattened size of a list of parameters. *)
Definition dim params : nat := sum_list (param_numel <$> params).

(** Construction: every batch must have a size, and both partitions must
    split the parameter list; no partition means one block. *)
Definition HessianLinearOperator params data (batch_size_fn : option (B → Z))
    (in_blocks out_blocks : option (list Z)) : result operator :=
  _ ← mapM (resolve batch_size_fn) data;
  let in_blocks := default [len params] in_blocks in
  let out_blocks := default [len params] out_blocks in
  _ ← split_list params in_blocks;
  _ ← split_list params out_blocks;
  mret (Operator params data batch_size_fn in_blocks out_blocks).

(** [op.shape]: [(output_dim, input_dim)]. *)
Definition shape (op : operator) : nat * nat := (dim (op_params op), dim (op_params op)).

(** The sum over the data stream, in its order, of the kernel's results on
    one block of parameters. *)
Definition accumulate block data v : list E :=
  foldl (λ acc b, vadd acc (kernel_apply block b v)) (zeros (dim block)) data.

(** The error for a vector of the wrong length. *)
Definition shape_mismatch (expected actual : Z) : exn :=
  ShapeMismatchError ("expected " +:+ py_str_int expected +:+ " entries, got "
                      +:+ py_str_int actual).

(** [op.matvec(v)]: the vector is cut into one sub-vector per input block;
    block [i] of the result is the accumulated action of the kernel on
    block [i] of the parameters and sub-vector [i]; the blocks of the result
    are concatenated in order. *)
Definition matvec (op : operator) v : result (list E) :=
  if decide (length v ≠ (shape op).2) then
    Raise (shape_mismatch (Z.of_nat (shape op).2) (len v))
  else
    blocks ← split_list (op_params op) (op_in_blocks op);
    vs ← split_list v ((λ block, Z.of_nat (dim block)) <$> blocks);
    mret (concat (zip_with (λ block vi, accumulate block (op_data op) vi) blocks vs)).

(** [op.matmat(V)]: [matvec] on every column of a matrix with as many rows
    as the operator has columns. *)
Definition matmat (op : operator) (V : matrix E) : result (matrix E) :=
  if decide (length (m_rows V) ≠ (shape op).2) then
    Raise (shape_mismatch (Z.of_nat (shape op).2) (len (m_rows V)))
  else
    cols ← mapM (matvec op) (columns (m_cols V) (m_rows V));
    mret (transpose (Matrix (shape op).1 cols)).

(** [op.adjoint()]: the view with the roles of the input and output blocks
    swapped. *)
Definition adjoint (op : operator) : operator :=
  Operator (op_params op) (op_data op) (op_batch_size_fn op)
    (op_out_blocks op) (op_in_blocks op).

End operator.

Arguments operator P B : clear implicits.

(** ** Construction *)

Section construction.
Context {P B E : Type} {Sc : Scalar E} {Bt : Batch B} {K : CurvatureKernel P B E}.
Implicit Types (params block : list P) (data : list B) (v : list E) (b : B).
Implicit Types (fn : option (B → Z)) (sizes : list Z) (op : operator P B).

(** Every batch of the stream has a size: the caller gave a resolver, or no
    input is mapping-like. *)
Definition resolvable fn data : Prop :=
  is_Some fn ∨ Forall (λ b, mapping_like b = false) data.

#[global] Instance resolvable_dec fn data : Decision (resolvable fn data).
Proof. unfold resolvable. apply _. Defined.

Lemma resolve_returns fn b : returns (resolve fn b) ↔ is_Some fn ∨ mapping_like b = false.
Proof.
  unfold resolve, default_resolver. destruct fn as [f|]; [by split; eauto using returns_Return|].
  destruct (mapping_like b).
  - split; [by intros []%not_returns_Raise|by intros [[? [=]]|]].
  - split; [by right|intros; apply returns_Return].
Qed.

Lemma mapM_resolve_returns fn data :
  returns (mapM (resolve fn) data) ↔ resolvable fn data.
Proof.
  rewrite mapM_returns. unfold resolvable. rewrite Forall_forall. split.
  - intros Hall. destruct fn as [f|]; [by left; eexists|right].
    apply Forall_forall. intros b Hb. by destruct (proj1 (resolve_returns None b) (Hall b Hb)) as [[? [=]]|].
  - intros [Hf|Hall] b Hb; apply resolve_returns; [by left|right].
    by eapply Forall_forall in Hall.
Qed.

(** The resolver raises nothing but its [ConfigurationError]. *)
Lemma mapM_resolve_raises fn data (e : exn) :
  mapM (resolve fn) data = Raise e → e = resolver_error.
Proof.
  intros (b & _ & Hb)%mapM_raises. unfold resolve, default_resolver in Hb.
  destruct fn; [done|]. destruct (mapping_like b); [|done]. by injection Hb as <-.
Qed.

(** Construction succeeds when every batch has a size and both partitions
    sum to the number of parameters. *)
Lemma HessianLinearOperator_valid params data fn (in_blocks out_blocks : option (list Z)) :
  resolvable fn data →
  len params = py_sum (default [len params] in_blocks) →
  len params = py_sum (default [len params] out_blocks) →
  HessianLinearOperator params data fn in_blocks out_blocks
  = Return (Operator params data fn (default [len params] in_blocks)
              (default [len params] out_blocks)).
Proof.
  intros Hr%mapM_resolve_returns Hi%split_list_returns_guard Ho%split_list_returns_guard.
  unfold HessianLinearOperator.
  destruct Hr as [? ->], Hi as [? ->], Ho as [? ->]. done.
Qed.

(** No partition is one block: it always sums to the number of parameters. *)
Lemma py_sum_one_block params : len params = py_sum [len params].
Proof. rewrite py_sum_sumZ. unfold sumZ. cbn. lia. Qed.

(** Without a size for some batch construction fails with the resolver's
    error, whatever the blocks. *)
Lemma HessianLinearOperator_unresolvable params data fn
    (in_blocks out_blocks : option (list Z)) :
  ¬ resolvable fn data →
  HessianLinearOperator params data fn in_blocks out_blocks = Raise resolver_error.
Proof.
  intros Hr. unfold HessianLinearOperator.
  destruct (mapM (resolve fn) data) as [ns|e] eqn:Hm.
  - destruct Hr. apply mapM_resolve_returns. rewrite Hm. apply returns_Return.
  - by rewrite (mapM_resolve_raises _ _ _ Hm).
Qed.

(** A partition that does not sum to the number of parameters fails with
    the [ValueError] of [split_list]. *)
Lemma HessianLinearOperator_bad_blocks params data fn
    (in_blocks out_blocks : option (list Z)) :
  resolvable fn data →
  len params ≠ py_sum (default [len params] in_blocks)
  ∨ len params ≠ py_sum (default [len params] out_blocks) →
  HessianLinearOperator params data fn in_blocks out_blocks
  = Raise (split_list_error (len params)
             (if decide (len params = py_sum (default [len params] in_blocks))
              then py_sum (default [len params] out_blocks)
              else py_sum (default [len params] in_blocks))).
Proof.
  intros [ns Hr]%mapM_resolve_returns Hb. unfold HessianLinearOperator. rewrite Hr. pysimpl.
  case_decide as Hi.
  - destruct (proj2 (split_list_returns_guard params _) Hi) as [? ->]. pysimpl.
    destruct Hb as [?|Ho]; [done|]. by rewrite split_list_guard_fails.
  - by rewrite (split_list_guard_fails params (default _ in_blocks)).
Qed.

(** The outcome of construction.  Without a size for every batch
    (no resolver and a mapping-like input) it raises the resolver's
    [ConfigurationError]; otherwise a partition that does not sum to the
    number of parameters raises the [ValueError] of [split_list], the input
    partition first; otherwise the operator is returned with both
    partitions, one block for a partition that is not given. *)
Theorem HessianLinearOperator_outcome params data fn
    (in_blocks out_blocks : option (list Z)) :
  let ib := default [len params] in_blocks in
  let ob := default [len params] out_blocks in
  HessianLinearOperator params data fn in_blocks out_blocks
  = if decide (resolvable fn data) then
      if decide (len params = py_sum ib ∧ len params = py_sum ob)
      then Return (Operator params data fn ib ob)
      else Raise (split_list_error (len params)
                    (if decide (len params = py_sum ib) then py_sum ob else py_sum ib))
    else Raise resolver_error.
Proof.
  intros ib ob. case_decide as Hr; [|by apply HessianLinearOperator_unresolvable].
  case_decide as Hs.
  - destruct Hs. by apply HessianLinearOperator_valid.
  - apply HessianLinearOperator_bad_blocks; [done|].
    destruct (decide (len params = py_sum ib)); [right|left]; naive_solver.
Qed.

End construction.

(** ** Multiplication *)

Section matvec.
Context {P B E : Type} {Sc : Scalar E} {Bt : Batch B} {K : CurvatureKernel P B E}.
Implicit Types (params block : list P) (blocks : list (list P)) (data : list B).
Implicit Types (v : list E) (op : operator P B).

(** The action of a blocked operator: sub-vector [i] goes through block
    [i], and the results are concatenated. *)
Definition blockwise blocks data v : list E :=
  concat (zip_with (λ block vi, accumulate block data vi) blocks (chunks v (dim <$> blocks))).

Lemma dim_app block1 block2 : dim (block1 ++ block2) = (dim block1 + dim block2)%nat.
Proof. unfold dim. by rewrite fmap_app, sum_list_with_app. Qed.

Lemma dim_concat blocks : dim (concat blocks) = sum_list (dim <$> blocks).
Proof.
  induction blocks as [|block blocks IH]; [done|].
  cbn [concat]. by rewrite fmap_cons, dim_app, IH.
Qed.

Lemma sumZ_fmap_of_nat {A} (f : A → nat) (l : list A) :
  sumZ ((λ a, Z.of_nat (f a)) <$> l) = Z.of_nat (sum_list (f <$> l)).
Proof. induction l as [|a l IH]; [done|]. cbn. rewrite sumZ_cons, IH. lia. Qed.

(** The blocks that a valid partition cuts have the dimension of the
    parameter list. *)
Lemma dim_chunks params (sizes : list Z) :
  valid_sizes sizes → len params = py_sum sizes →
  sum_list (dim <$> chunks params (Z.to_nat <$> sizes)) = dim params.
Proof.
  intros Hv Hs. rewrite <- dim_concat, concat_chunks. f_equal. apply take_ge.
  pose proof (sum_list_to_nat sizes Hv). rewrite py_sum_sumZ in Hs. lia.
Qed.

(** [matvec] on a vector of the operator's dimension returns the blockwise
    action of the blocks that [split_list] cuts. *)
Lemma matvec_blockwise op v :
  valid_sizes (op_in_blocks op) → py_list (op_params op) →
  len (op_params op) = py_sum (op_in_blocks op) →
  py_list v → length v = dim (op_params op) →
  matvec op v
  = Return (blockwise (chunks (op_params op) (Z.to_nat <$> op_in_blocks op)) (op_data op) v).
Proof.
  intros Hv Hp Hs Hpv Hl. unfold matvec. rewrite decide_False by (cbn; lia).
  rewrite split_list_eq_chunks by done. pysimpl.
  pose proof (dim_chunks _ _ Hv Hs) as Hd.
  rewrite split_list_eq_chunks.
  - rewrite <- list_fmap_compose. unfold compose.
    by setoid_rewrite Nat2Z.id.
  - apply Forall_fmap, Forall_true. intros block. cbn. lia.
  - done.
  - rewrite py_sum_sumZ, sumZ_fmap_of_nat, Hd. lia.
Qed.

(** A vector of another length is refused. *)
Lemma matvec_shape_mismatch op v :
  length v ≠ dim (op_params op) →
  matvec op v = Raise (shape_mismatch (Z.of_nat (dim (op_params op))) (len v)).
Proof. intros Hl. unfold matvec. by rewrite decide_True. Qed.

(** An operator with valid input blocks: non-negative sizes that sum to the
    number of parameters. *)
Definition op_valid op : Prop :=
  valid_sizes (op_in_blocks op) ∧ py_list (op_params op)
  ∧ len (op_params op) = py_sum (op_in_blocks op).

#[global] Instance op_valid_dec op : Decision (op_valid op).
Proof. unfold op_valid, py_list. apply _. Defined.

(** The blocks of parameters of a valid operator. *)
Definition in_blocks_of op : list (list P) :=
  chunks (op_params op) (Z.to_nat <$> op_in_blocks op).

(** [matmat] returns the matrix whose columns are the blockwise action on
    the columns. *)
Lemma matmat_blockwise op (V : matrix E) :
  op_valid op → py_list (m_rows V) → length (m_rows V) = dim (op_params op) →
  matmat op V
  = Return (transpose (Matrix (dim (op_params op))
              (blockwise (in_blocks_of op) (op_data op) <$> columns (m_cols V) (m_rows V)))).
Proof.
  intros (Hv & Hp & Hs) HV Hl. unfold matmat. rewrite decide_False by (cbn; lia).
  rewrite (mapM_Return _ (blockwise (in_blocks_of op) (op_data op))); [done|].
  eapply Forall_impl; [apply columns_wf|]. intros col Hc. cbv beta in Hc.
  apply matvec_blockwise; unfold py_list in *; try done; lia.
Qed.

(** C27: the outcome of [matvec] on a valid operator: a vector of the
    operator's dimension is cut at the dimensions of the blocks, each block
    acts on its sub-vector, and the results are concatenated; a vector of
    another length is refused with both lengths in the message. *)
Theorem matvec_outcome op v :
  op_valid op → py_list v →
  matvec op v
  = if decide (length v = dim (op_params op))
    then Return (blockwise (in_blocks_of op) (op_data op) v)
    else Raise (shape_mismatch (Z.of_nat (dim (op_params op))) (len v)).
Proof.
  intros (Hv & Hp & Hs) Hpv. case_decide.
  - by apply matvec_blockwise.
  - by apply matvec_shape_mismatch.
Qed.

Lemma adjoint_involutive op : adjoint (adjoint op) = op.
Proof. by destruct op. Qed.

(** With the same partition on both sides the adjoint view is the
    operator. *)
Lemma adjoint_same_blocks op : op_in_blocks op = op_out_blocks op → adjoint op = op.
Proof. destruct op. cbn. by intros ->. Qed.

End matvec.

(** ** The operators that a program can hold *)

Section lifecycle.
Context {P B E : Type} {Sc : Scalar E} {Bt : Batch B} {K : CurvatureKernel P B E}.
Implicit Types (params : list P) (data : list B) (v : list E) (op : operator P B).
Implicit Types (fn : option (B → Z)).

(** An operator is obtained from the constructor, or as the adjoint view of
    an operator. *)
Inductive reachable : operator P B → Prop :=
| reachable_new params data fn (in_blocks out_blocks : option (list Z)) op :
    HessianLinearOperator params data fn in_blocks out_blocks = Return op →
    reachable op
| reachable_adjoint op : reachable op → reachable (adjoint op).

(** What construction has checked: every batch has a size, and both
    partitions sum to the number of parameters. *)
Definition op_inv op : Prop :=
  resolvable (op_batch_size_fn op) (op_data op)
  ∧ len (op_params op) = py_sum (op_in_blocks op)
  ∧ len (op_params op) = py_sum (op_out_blocks op).

#[global] Instance op_inv_dec op : Decision (op_inv op).
Proof. unfold op_inv. apply _. Defined.

(** An operator that the constructor returns, and what was checked. *)
Lemma HessianLinearOperator_Return params data fn (in_blocks out_blocks : option (list Z)) op :
  HessianLinearOperator params data fn in_blocks out_blocks = Return op →
  resolvable fn data
  ∧ len params = py_sum (default [len params] in_blocks)
  ∧ len params = py_sum (default [len params] out_blocks)
  ∧ op = Operator params data fn (default [len params] in_blocks)
           (default [len params] out_blocks).
Proof.
  intros Hop. destruct (decide (resolvable fn data)) as [Hr|Hr];
    [|by rewrite HessianLinearOperator_unresolvable in Hop].
  destruct (decide (len params = py_sum (default [len params] in_blocks)
                    ∧ len params = py_sum (default [len params] out_blocks))) as [[Hi Ho]|Hb].
  - rewrite HessianLinearOperator_valid in Hop by done. by injection Hop as <-.
  - rewrite HessianLinearOperator_bad_blocks in Hop; [done..|].
    destruct (decide (len params = py_sum (default [len params] in_blocks)));
      [right|left]; naive_solver.
Qed.

Lemma HessianLinearOperator_inv params data fn (in_blocks out_blocks : option (list Z)) op :
  HessianLinearOperator params data fn in_blocks out_blocks = Return op → op_inv op.
Proof. by intros (? & ? & ? & ->)%HessianLinearOperator_Return. Qed.

Lemma adjoint_inv op : op_inv op → op_inv (adjoint op).
Proof. by intros (? & ? & ?). Qed.

(** The invariant holds of every operator a program can hold. *)
Lemma reachable_op_inv op : reachable op → op_inv op.
Proof.
  induction 1 as [params data fn ib ob op Hop|op _ IH];
    [by eapply HessianLinearOperator_inv|by apply adjoint_inv].
Qed.

(** The adjoint view has the shape of the operator, transposed. *)
Lemma shape_adjoint op : shape (adjoint op) = ((shape op).2, (shape op).1).
Proof. done. Qed.

(** An operator that a program can hold multiplies every vector of its
    dimension, when no block size is negative. *)
Lemma reachable_matvec op v :
  reachable op → valid_sizes (op_in_blocks op) → py_list (op_params op) →
  py_list v → length v = (shape op).2 →
  matvec op v = Return (blockwise (in_blocks_of op) (op_data op) v).
Proof.
  intros (_ & Hi & _)%reachable_op_inv Hv Hp Hpv Hl. by apply matvec_blockwise.
Qed.

(** C25: the invariant of the operator: every operator that a program can
    hold, from the constructor or as an adjoint view of one, has a size for
    every batch and two partitions that sum to the number of parameters. *)
Theorem reachable_invariant op : reachable op → op_inv op.
Proof. apply reachable_op_inv. Qed.

(** An operator that a program can hold never refuses a vector of its
    dimension: when no block size is negative, [matvec] returns the
    blockwise action. *)
Theorem reachable_matvec_returns op v :
  reachable op → valid_sizes (op_in_blocks op) → py_list (op_params op) →
  py_list v → length v = (shape op).2 →
  matvec op v = Return (blockwise (in_blocks_of op) (op_data op) v).
Proof. apply reachable_matvec. Qed.

End lifecycle.

(** ** The SciPy front end *)

Section frontend.
Context {P B E : Type} {Sc : Scalar E} {Bt : Batch B} {K : CurvatureKernel P B E}.

(** An operator behind one of its two front ends: the native one, or the
    generic linear-operator protocol that [to_scipy] wraps it in.  The
    conversion of the entries between the array libraries is not modelled:
    both front ends carry entries of the dtype [E]. *)
Inductive linear_operator : Type :=
| Native (op : operator P B)
| SciPy (op : operator P B).

(** The operator behind a front end. *)
Definition wrapped (lo : linear_operator) : operator P B :=
  match lo with Native op | SciPy op => op end.

(** [op.to_scipy()]. *)
Definition to_scipy (op : operator P B) : linear_operator := SciPy op.

(** [op.adjoint()] through either front end. *)
Definition lo_adjoint (lo : linear_operator) : linear_operator :=
  match lo with
  | Native op => Native (adjoint op)
  | SciPy op => SciPy (adjoint op)
  end.

(** [op @ x] for a vector and [op @ X] for a matrix: both front ends
    delegate to the wrapped operator. *)
Definition lo_matvec (lo : linear_operator) (x : list E) : result (list E) :=
  matvec (wrapped lo) x.

Definition lo_matmat (lo : linear_operator) (X : matrix E) : result (matrix E) :=
  matmat (wrapped lo) X.

End frontend.

Arguments linear_operator P B : clear implicits.

(** ** The blocked operator and the block-diagonal matrix *)

Section block_diagonal.
Context {P B E : Type} {Sc : Scalar E} {Bt : Batch B} {K : CurvatureKernel P B E}.
Context `{!Equiv E} {Ex : ExactArith Sc}.
Implicit Types (params block : list P) (blocks : list (list P)) (data : list B).
Implicit Types (v : list E) (op : operator P B) (H : list P → matrix E).

(** [H] is the matrix of the operator on one block: it is square of the
    block's dimension, and the accumulated kernel acts as [H block]. *)
Definition matrix_of H data block : Prop :=
  matrix_wf (H block) ∧ m_cols (H block) = dim block
  ∧ length (m_rows (H block)) = dim block
  ∧ ∀ v, length v = dim block → accumulate block data v ≡ mat_vec (H block) v.

Lemma blockwise_cons block blocks data v :
  blockwise (block :: blocks) data v
  = accumulate block data (take (dim block) v) ++ blockwise blocks data (drop (dim block) v).
Proof. done. Qed.

(** Over exact arithmetic the blockwise action is the product with the
    block-diagonal matrix of the blocks' matrices. *)
Lemma blockwise_block_diag H blocks data v :
  Forall (matrix_of H data) blocks →
  length v = sum_list (dim <$> blocks) →
  blockwise blocks data v ≡ mat_vec (block_diag (H <$> blocks)) v.
Proof.
  intros HH. revert v. induction HH as [|block blocks (Hwf & Hc & _ & Hm) _ IH]; intros v Hl.
  { done. }
  rewrite fmap_cons in Hl. cbn in Hl.
  rewrite blockwise_cons, fmap_cons.
  transitivity (mat_vec (block_diag (H block :: (H <$> blocks)))
                  (take (dim block) v ++ drop (dim block) v)); [|by rewrite take_drop].
  rewrite mat_vec_block_diag_cons by (done || rewrite length_take; lia).
  f_equiv; [apply Hm; rewrite length_take; lia|apply IH; rewrite length_drop; lia].
Qed.

Lemma block_diag_rows_matrix_of H blocks data :
  Forall (matrix_of H data) blocks →
  length (m_rows (block_diag (H <$> blocks))) = sum_list (dim <$> blocks).
Proof.
  intros HH. rewrite block_diag_rows, <- list_fmap_compose.
  induction HH as [|block blocks (_ & _ & Hr & _) _ IH]; [done|].
  cbn. by rewrite Hr, IH.
Qed.

Lemma fmap_blockwise_block_diag H blocks data (cols : list (list E)) :
  Forall (matrix_of H data) blocks →
  Forall (λ col, length col = sum_list (dim <$> blocks)) cols →
  blockwise blocks data <$> cols ≡ mat_vec (block_diag (H <$> blocks)) <$> cols.
Proof.
  intros HH. induction 1 as [|col cols Hc _ IH]; [done|].
  cbn. f_equiv; [by apply blockwise_block_diag|done].
Qed.

(** On a vector of its dimension, a valid operator whose blocks have the
    matrices [H] returns the product with their block-diagonal matrix. *)
Lemma matvec_reference H op v :
  op_valid op → Forall (matrix_of H (op_data op)) (in_blocks_of op) →
  py_list v → length v = dim (op_params op) →
  ∃ y, matvec op v = Return y ∧ y ≡ mat_vec (block_diag (H <$> in_blocks_of op)) v.
Proof.
  intros (Hv & Hp & Hs) HH Hpv Hl. rewrite matvec_blockwise by done.
  eexists. split; [done|]. apply blockwise_block_diag; [done|].
  unfold in_blocks_of. by rewrite dim_chunks.
Qed.

(** The same for a matrix with as many rows as the operator has columns. *)
Lemma matmat_reference H op (V : matrix E) :
  op_valid op → Forall (matrix_of H (op_data op)) (in_blocks_of op) →
  py_list (m_rows V) → length (m_rows V) = dim (op_params op) →
  ∃ Y, matmat op V = Return Y ∧ Y ≡ mat_mat (block_diag (H <$> in_blocks_of op)) V.
Proof.
  intros Hop HH HV Hl. rewrite matmat_blockwise by done.
  pose proof Hop as (Hv & Hp & Hs).
  eexists. split; [done|]. unfold mat_mat. apply transpose_proper. split; cbn.
  - rewrite (block_diag_rows_matrix_of H _ (op_data op)) by done.
    unfold in_blocks_of. by rewrite dim_chunks.
  - apply fmap_blockwise_block_diag; [done|].
    eapply Forall_impl; [apply columns_wf|]. intros col Hc. cbv beta in Hc.
    unfold in_blocks_of. rewrite dim_chunks by done. lia.
Qed.

End block_diagonal.

(** ** The shape of the products *)

(** A kernel that keeps the dimension: on a vector of a block's dimension
    it returns a vector of that dimension. *)
Class ShapedKernel {P B E : Type} (K : CurvatureKernel P B E) : Prop := {
  kernel_length (block : list P) (b : B) (v : list E) :
    length v = dim block → length (kernel_apply block b v) = dim block;
}.

Section shape.
Context {P B E : Type} {Sc : Scalar E} {Bt : Batch B} {K : CurvatureKernel P B E}.
Context {Sh : ShapedKernel K}.
Implicit Types (params block : list P) (blocks : list (list P)) (data : list B).
Implicit Types (u v acc : list E) (a : E) (op : operator P B).

Local Abbreviation step block v := (λ acc b, vadd acc (kernel_apply block b v)).

Lemma length_vadd u v : length (vadd u v) = (length u `min` length v)%nat.
Proof. apply length_zip_with. Qed.

Lemma length_vscale a v : length (vscale a v) = length v.
Proof. apply length_fmap. Qed.

Lemma length_foldl_step block data v acc :
  length v = dim block → length acc = dim block →
  length (foldl (step block v) acc data) = dim block.
Proof.
  intros Hv. revert acc. induction data as [|b data IH]; intros acc Hacc; [done|].
  cbn [foldl]. apply IH. rewrite length_vadd, kernel_length by done. lia.
Qed.

(** The accumulated kernel returns a vector of the block's dimension. *)
Lemma length_accumulate block data v :
  length v = dim block → length (accumulate block data v) = dim block.
Proof. intros Hv. apply length_foldl_step; [done|apply length_zeros]. Qed.

Lemma sum_dim_cons block blocks :
  sum_list (dim <$> block :: blocks) = (dim block + sum_list (dim <$> blocks))%nat.
Proof. done. Qed.

(** The blockwise action keeps the dimension. *)
Lemma length_blockwise blocks data v :
  length v = sum_list (dim <$> blocks) →
  length (blockwise blocks data v) = sum_list (dim <$> blocks).
Proof.
  revert v. induction blocks as [|block blocks IH]; intros v Hl; [done|].
  rewrite sum_dim_cons in *.
  rewrite blockwise_cons, length_app, length_accumulate, IH; [done|..];
    rewrite ?length_drop, ?length_take; lia.
Qed.

(** A returned [matvec] is the blockwise action on a vector of the
    operator's dimension. *)
Lemma matvec_Return_inv op v y :
  op_valid op → py_list v → matvec op v = Return y →
  length v = dim (op_params op) ∧ y = blockwise (in_blocks_of op) (op_data op) v.
Proof.
  intros (Hv & Hp & Hs) Hpv Hy. destruct (decide (length v = dim (op_params op))) as [Hl|Hl].
  - rewrite matvec_blockwise in Hy by done. by injection Hy as <-.
  - by rewrite matvec_shape_mismatch in Hy.
Qed.

Lemma in_blocks_dim op :
  op_valid op → sum_list (dim <$> in_blocks_of op) = dim (op_params op).
Proof. intros (Hv & Hp & Hs). by apply dim_chunks. Qed.

(** What [matvec] returns has the dimension of the operator. *)
Lemma matvec_length op v y :
  op_valid op → py_list v → matvec op v = Return y →
  length v = (shape op).2 ∧ length y = (shape op).1.
Proof.
  intros Hop Hpv [Hv ->]%matvec_Return_inv; [|done..].
  pose proof (in_blocks_dim op Hop) as Hd. split; [done|].
  rewrite length_blockwise; cbn; lia.
Qed.

(** C28: the shape of a product: a vector that [matvec] accepts has as
    many entries as the operator has columns, and the vector returned has as
    many entries as the operator has rows. *)
Theorem matvec_shape op v y :
  op_valid op → py_list v → matvec op v = Return y →
  length v = (shape op).2 ∧ length y = (shape op).1.
Proof. apply matvec_length. Qed.

End shape.

(** ** Linearity *)

(** A linear kernel: on vectors of a block's dimension it keeps the
    dimension and is additive and homogeneous, up to the equivalence of the
    dtype. *)
Class LinearKernel {P B E : Type} (Sc : Scalar E) `{!Equiv E}
    (K : CurvatureKernel P B E) : Prop := {
  linear_shaped :: ShapedKernel K;
  kernel_additive (block : list P) (b : B) (u v : list E) :
    length u = dim block → length v = dim block →
    kernel_apply block b (vadd u v)
    ≡@{list E} vadd (kernel_apply block b u) (kernel_apply block b v);
  kernel_homogeneous (block : list P) (b : B) (a : E) (v : list E) :
    length v = dim block →
    kernel_apply block b (vscale a v)
    ≡@{list E} vscale a (kernel_apply block b v);
}.

Section linearity.
Context {P B E : Type} {Sc : Scalar E} {Bt : Batch B} {K : CurvatureKernel P B E}.
Context `{!Equiv E} {Ex : ExactArith Sc} {L : LinearKernel Sc K}.
Implicit Types (params block : list P) (blocks : list (list P)) (data : list B).
Implicit Types (u v acc : list E) (a : E) (op : operator P B).

Local Abbreviation step block v := (λ acc b, vadd acc (kernel_apply block b v)).

Lemma foldl_step_proper block data v acc acc' :
  acc ≡ acc' → foldl (step block v) acc data ≡ foldl (step block v) acc' data.
Proof.
  revert acc acc'. induction data as [|b data IH]; intros acc acc' Hacc; [done|].
  cbn [foldl]. apply IH. by rewrite Hacc.
Qed.

Lemma foldl_step_vadd block data u v acc1 acc2 :
  length u = dim block → length v = dim block →
  foldl (step block (vadd u v)) (vadd acc1 acc2) data
  ≡ vadd (foldl (step block u) acc1 data) (foldl (step block v) acc2 data).
Proof.
  intros Hu Hv. revert acc1 acc2. induction data as [|b data IH]; intros acc1 acc2; [done|].
  cbn [foldl]. rewrite <- IH. apply foldl_step_proper.
  by rewrite vadd_swap, kernel_additive.
Qed.

Lemma foldl_step_vscale block data a v acc :
  length v = dim block →
  foldl (step block (vscale a v)) (vscale a acc) data
  ≡ vscale a (foldl (step block v) acc data).
Proof.
  intros Hv. revert acc. induction data as [|b data IH]; intros acc; [done|].
  cbn [foldl]. rewrite <- IH. apply foldl_step_proper.
  by rewrite vscale_vadd, kernel_homogeneous.
Qed.

(** The accumulated kernel is additive and homogeneous. *)
Lemma accumulate_vadd block data u v :
  length u = dim block → length v = dim block →
  accumulate block data (vadd u v)
  ≡ vadd (accumulate block data u) (accumulate block data v).
Proof.
  intros Hu Hv. unfold accumulate. rewrite <- foldl_step_vadd by done.
  apply foldl_step_proper. symmetry. apply vadd_zeros_zeros.
Qed.

Lemma accumulate_vscale block data a v :
  length v = dim block →
  accumulate block data (vscale a v) ≡ vscale a (accumulate block data v).
Proof.
  intros Hv. unfold accumulate. rewrite <- foldl_step_vscale by done.
  apply foldl_step_proper. unfold vscale, zeros. rewrite fmap_replicate.
  f_equiv. symmetry. apply s_mul_0_r.
Qed.

Lemma vadd_app u1 u2 v1 v2 :
  length u1 = length v1 → vadd (u1 ++ u2) (v1 ++ v2) = vadd u1 v1 ++ vadd u2 v2.
Proof. apply zip_with_app. Qed.

(** The blockwise action is additive and homogeneous. *)
Lemma blockwise_vadd blocks data u v :
  length u = sum_list (dim <$> blocks) → length v = sum_list (dim <$> blocks) →
  blockwise blocks data (vadd u v)
  ≡ vadd (blockwise blocks data u) (blockwise blocks data v).
Proof.
  revert u v. induction blocks as [|block blocks IH]; intros u v Hu Hv; [done|].
  rewrite sum_dim_cons in *.
  rewrite !blockwise_cons, vadd_app
    by (rewrite !length_accumulate; rewrite ?length_take; lia).
  unfold vadd at 1 2. rewrite zip_with_take, zip_with_drop. fold (vadd (E := E)).
  f_equiv; [apply accumulate_vadd|apply IH];
    rewrite ?length_take, ?length_drop; lia.
Qed.

Lemma blockwise_vscale blocks data a v :
  length v = sum_list (dim <$> blocks) →
  blockwise blocks data (vscale a v) ≡ vscale a (blockwise blocks data v).
Proof.
  revert v. induction blocks as [|block blocks IH]; intros v Hv; [done|].
  rewrite sum_dim_cons in *.
  rewrite !blockwise_cons. unfold vscale at 1 2 3.
  rewrite fmap_app, <- fmap_take, <- fmap_drop. fold (vscale (E := E)).
  f_equiv; [apply accumulate_vscale|apply IH];
    rewrite ?length_take, ?length_drop; lia.
Qed.

(** [matvec] of a linear combination is the combination of the results. *)
Lemma matvec_combination op a b u v yu yv :
  op_valid op → py_list u → py_list v →
  matvec op u = Return yu → matvec op v = Return yv →
  ∃ y, matvec op (vadd (vscale a u) (vscale b v)) = Return y
       ∧ y ≡ vadd (vscale a yu) (vscale b yv).
Proof.
  intros Hop Hpu Hpv [Hu ->]%matvec_Return_inv [Hv ->]%matvec_Return_inv; try done.
  pose proof (in_blocks_dim op Hop) as Hd. destruct Hop as (Hvs & Hp & Hs).
  eexists. split.
  - apply matvec_blockwise; try done.
    + unfold py_list in *. rewrite length_vadd, !length_vscale. lia.
    + rewrite length_vadd, !length_vscale. lia.
  - fold (in_blocks_of op).
    rewrite blockwise_vadd, !blockwise_vscale by (rewrite ?length_vscale; lia). done.
Qed.

(** C29: the operator is linear: over exact arithmetic and a linear kernel,
    when [op @ u] and [op @ v] return [yu] and [yv], [op @ (a * u + b * v)]
    returns a vector equivalent to [a * yu + b * yv]. *)
Theorem matvec_linear op a b u v yu yv :
  op_valid op → py_list u → py_list v →
  matvec op u = Return yu → matvec op v = Return yv →
  ∃ y, matvec op (vadd (vscale a u) (vscale b v)) = Return y
       ∧ y ≡ vadd (vscale a yu) (vscale b yv).
Proof. apply matvec_combination. Qed.

End linearity.
