(* ===== verification/Stream.v ===== *)
(** * Stream: the order of the data stream

    [matvec] adds what the kernel returns in the order in which the data
    stream yields its batches: the specification fixes the order of the
    floating-point summation to the order of iteration.  Over exact
    arithmetic the order does not matter: two operators that differ only in
    the order of their batches return equivalent products and refuse the
    same vectors with the same error.  [Float64] shows a stream on float64
    entries where the order changes the product. *)

From S2P Require Import Prelude PyStr PySeq SplitList Scalar Linalg Operator.

(** ** Outcomes up to the equivalence of the entries *)

(** Two outcomes agree when both return equivalent values or both raise the
    same exception. *)
#[global] Instance result_equiv {A} `{Equiv A} : Equiv (result A) := λ r r',
  match r, r' with
  | Return a, Return a' => a ≡ a'
  | Raise e, Raise e' => e = e'
  | _, _ => False
  end.

#[global] Instance result_equivalence {A} `{Equiv A} :
  Equivalence (≡@{A}) → Equivalence (≡@{result A}).
Proof.
  intros HA. split.
  - intros [a|e]; unfold equiv, result_equiv; [reflexivity|done].
  - intros [a|e] [a'|e']; unfold equiv, result_equiv; done.
  - intros [a|e] [a'|e'] [a''|e'']; unfold equiv, result_equiv; try done.
    + apply transitivity.
    + congruence.
Qed.

Lemma result_equiv_Return {A} `{Equiv A} (r : result A) (a' : A) :
  r ≡ Return a' ↔ ∃ a, r = Return a ∧ a ≡ a'.
Proof.
  destruct r as [a|e]; unfold equiv at 1, result_equiv; split.
  - by exists a.
  - by intros (? & [= <-] & ?).
  - done.
  - by intros (? & [=] & ?).
Qed.

Lemma result_equiv_Raise {A} `{Equiv A} (r : result A) (e : exn) :
  r ≡ Raise e ↔ r = Raise e.
Proof.
  destruct r as [a|e']; unfold equiv, result_equiv; split; try done. all: congruence.
Qed.

(** ** The sum over a reordered stream *)

Section order.
Context {P B E : Type} {Sc : Scalar E} {Bt : Batch B} {K : CurvatureKernel P B E}.
Context `{!Equiv E} {Ex : ExactArith Sc}.
Implicit Types (block : list P) (blocks : list (list P)) (data : list B).
Implicit Types (u v acc : list E) (vs : list (list E)) (op : operator P B).

(** Two operators over the same parameters and input blocks whose streams
    hold the same batches. *)
Definition same_batches op op' : Prop :=
  op_params op = op_params op' ∧ op_in_blocks op = op_in_blocks op'
  ∧ op_data op ≡ₚ op_data op'.

Local Abbreviation step block v := (λ acc b, vadd acc (kernel_apply block b v)).

(** Two results added to the accumulator in either order. *)
Lemma vadd_exchange acc u v : vadd (vadd acc u) v ≡ vadd (vadd acc v) u.
Proof.
  revert u v. induction acc as [|a acc IH]; intros [|x u] [|y v]; try done.
  cbn. constructor; [|apply IH].
  by rewrite <- !s_add_assoc, (s_add_comm x y).
Qed.

Lemma foldl_step_Permutation block v data data' :
  data ≡ₚ data' →
  ∀ acc, foldl (step block v) acc data ≡ foldl (step block v) acc data'.
Proof.
  induction 1 as [|b d d' _ IH|b1 b2 d|d1 d2 d3 _ IH1 _ IH2]; intros acc.
  - done.
  - apply IH.
  - cbn [foldl]. apply foldl_step_proper, vadd_exchange.
  - by rewrite IH1.
Qed.

(** The accumulated action of a block does not depend on the order of the
    batches. *)
Lemma accumulate_Permutation block v data data' :
  data ≡ₚ data' → accumulate block data v ≡ accumulate block data' v.
Proof. intros Hd. by apply foldl_step_Permutation. Qed.

#[global] Instance accumulate_Permutation_proper block :
  Proper ((≡ₚ) ==> (=) ==> (≡@{list E})) (accumulate block).
Proof. intros data data' Hd v ? <-. by apply accumulate_Permutation. Qed.

Lemma concat_accumulate_Permutation blocks vs data data' :
  data ≡ₚ data' →
  concat (zip_with (λ block vi, accumulate block data vi) blocks vs)
  ≡ concat (zip_with (λ block vi, accumulate block data' vi) blocks vs).
Proof.
  intros Hd. revert vs. induction blocks as [|block blocks IH]; intros [|vi vs]; try done.
  cbn. by rewrite IH, (accumulate_Permutation block vi data data').
Qed.

Lemma matvec_same_batches op op' v :
  same_batches op op' → matvec op v ≡ matvec op' v.
Proof.
  intros (Hp & Hb & Hd). unfold matvec, shape. rewrite <- Hp, <- Hb.
  case_decide; [done|].
  destruct (split_list (op_params op) (op_in_blocks op)) as [blocks|e]; [|done].
  pysimpl. destruct (split_list v _) as [vs|e]; [|done].
  pysimpl. by apply concat_accumulate_Permutation.
Qed.

(** C30: over exact arithmetic the product of the operator does not depend
    on the order in which the data stream yields its batches: two operators
    over the same parameters and input blocks whose streams are permutations
    of each other return equivalent vectors on every vector, and raise the
    same exception where one of them raises. *)
Theorem matvec_stream_order op op' v :
  same_batches op op' → matvec op v ≡ matvec op' v.
Proof. apply matvec_same_batches. Qed.

End order.
