(* ===== verification/Scoped.v ===== *)
(** * Scoped: kernel calls that perturb the parameters

    The curvature kernel differentiates through the model: during a call it
    perturbs the values of the parameters, and it can fail.  The
    specification asks that the operator leaves no residual mutation: every
    kernel call runs inside a scoped acquisition that restores the values
    on every exit path, kernel failures included.

    This file models that design from the specification.  The values of
    the parameters are a state [S]; a kernel call is a computation of the
    state-and-error monad [st S] of [State]; every call runs in [scoped],
    which takes a snapshot, runs the call and restores the snapshot in a
    [finally]; [matvec_st] and [matmat_st]
    are the products of the operator with the state threaded through the
    calls, the data stream in the outer loop and the blocks in the inner
    one.

    The lemmas: a product leaves the state as it found it, whatever the
    kernel does to it and whether or not it fails (by the definition of
    [scoped]); and a kernel call that raises ends the product with its
    exception.  The theorem: where the kernel calls return what the pure
    kernel of [Operator] computes, the products are those of [matvec] and
    [matmat], although they scan the stream in the outer loop and the
    blocks in the inner one. *)

From S2P Require Import Prelude State PyStr PySeq SplitList Scalar Linalg Operator.

(** ** The products with the state threaded through *)

(** A kernel call with its effect on the parameter values. *)
Class KernelCall (P B E S : Type) : Type :=
  kernel_call : list P → B → list E → st S (list E).

Section products.
Context {P B E S : Type} {Sc : Scalar E} {Bt : Batch B} {K : CurvatureKernel P B E}.
Context {C : KernelCall P B E S}.
Implicit Types (block : list P) (blocks : list (list P)) (data : list B) (b : B).
Implicit Types (v acc : list E) (vs accs : list (list E)) (op : operator P B) (σ : S).

(** One batch: the scoped kernel call of every block on its sub-vector,
    added to the block's part of the result. *)
Fixpoint batch_st b blocks vs accs : st S (list (list E)) :=
  match blocks, vs, accs with
  | block :: blocks, vi :: vs, acc :: accs =>
      y ← scoped (kernel_call block b vi);
      rest ← batch_st b blocks vs accs;
      mret (vadd acc y :: rest)
  | _, _, _ => mret []
  end.

(** The scan of the data stream, in its order. *)
Fixpoint stream_st data blocks vs accs : st S (list (list E)) :=
  match data with
  | [] => mret accs
  | b :: data => accs' ← batch_st b blocks vs accs; stream_st data blocks vs accs'
  end.

(** [op.matvec(v)] with the parameter values threaded through. *)
Definition matvec_st op v : st S (list E) :=
  if decide (length v ≠ (shape op).2) then
    st_lift (Raise (shape_mismatch (Z.of_nat (shape op).2) (len v)))
  else
    blocks ← st_lift (split_list (op_params op) (op_in_blocks op));
    vs ← st_lift (split_list v ((λ block, Z.of_nat (dim block)) <$> blocks));
    ys ← stream_st (op_data op) blocks vs ((λ block, zeros (dim block)) <$> blocks);
    mret (concat ys).

(** [op.matmat(V)] with the parameter values threaded through. *)
Definition matmat_st op (V : matrix E) : st S (matrix E) :=
  if decide (length (m_rows V) ≠ (shape op).2) then
    st_lift (Raise (shape_mismatch (Z.of_nat (shape op).2) (len (m_rows V))))
  else
    cols ← mapM (matvec_st op) (columns (m_cols V) (m_rows V));
    mret (transpose (Matrix (shape op).1 cols)).

(** The kernel calls on the batches of [data] return, from the state [σ],
    what the pure kernel computes. *)
Definition implements σ data : Prop :=
  ∀ block b v, b ∈ data → (kernel_call block b v σ).1 = Return (kernel_apply block b v).

End products.

(** ** No residual mutation *)

Section restoration.
Context {P B E S : Type} {Sc : Scalar E} {Bt : Batch B} {K : CurvatureKernel P B E}.
Context {C : KernelCall P B E S}.
Implicit Types (block : list P) (blocks : list (list P)) (data : list B) (b : B).
Implicit Types (v acc : list E) (vs accs : list (list E)) (op : operator P B) (σ : S).

Lemma restores_batch_st b blocks vs accs : restores (batch_st b blocks vs accs).
Proof.
  revert vs accs. induction blocks as [|block blocks IH]; intros [|vi vs] [|acc accs];
    cbn [batch_st]; auto with restores.
Qed.

Lemma restores_stream_st data blocks vs accs : restores (stream_st data blocks vs accs).
Proof.
  revert accs. induction data as [|b data IH]; intros accs; cbn [stream_st];
    auto using restores_batch_st with restores.
Qed.

Lemma restores_matvec_st op v : restores (matvec_st op v).
Proof.
  unfold matvec_st. case_decide; auto 7 using restores_stream_st with restores.
Qed.

Lemma restores_matmat_st op (V : matrix E) : restores (matmat_st op V).
Proof.
  unfold matmat_st.
  case_decide; auto using restores_mapM, restores_matvec_st with restores.
Qed.

End restoration.

(** ** The products are those of the pure operator *)

Section zip.
Context {A B C : Type}.

Lemma zip_with_ignore (l : list A) (k : list B) :
  (length k ≤ length l)%nat → zip_with (λ _ y, y) l k = k.
Proof.
  revert k. induction l as [|x l IH]; intros [|y k] Hl; cbn in *; try done; [lia|].
  f_equal. apply IH. lia.
Qed.

Lemma zip_with_fuse (f : A → B → B) (g : A → B → C) (l : list A) (k : list B) :
  zip_with g l (zip_with f l k) = zip_with (λ x y, g x (f x y)) l k.
Proof. revert k. induction l as [|x l IH]; intros [|y k]; cbn; [done..|]. by rewrite IH. Qed.

End zip.

Section refinement.
Context {P B E S : Type} {Sc : Scalar E} {Bt : Batch B} {K : CurvatureKernel P B E}.
Context {C : KernelCall P B E S}.
Implicit Types (block : list P) (blocks : list (list P)) (data : list B) (b : B).
Implicit Types (v acc : list E) (vs accs : list (list E)) (op : operator P B) (σ : S).

Local Abbreviation step block v := (λ acc b, vadd acc (kernel_apply block b v)).

Lemma implements_cons σ b data : implements σ (b :: data) → implements σ data.
Proof. intros Hi block b' v Hb. apply Hi. by right. Qed.

(** One batch adds the kernel's result to every block's part. *)
Lemma batch_st_implements σ data b blocks vs accs :
  implements σ data → b ∈ data →
  batch_st b blocks vs accs σ
  = (Return (zip_with (λ bv acc, step bv.1 bv.2 acc b) (zip blocks vs) accs), σ).
Proof.
  intros Hi Hb. revert vs accs.
  induction blocks as [|block blocks IH]; intros [|vi vs] [|acc accs]; try done.
  cbn [batch_st]. erewrite st_bind_run by apply scoped_run.
  rewrite Hi, st_bind_lift by done.
  erewrite st_bind_run by apply IH. by rewrite st_bind_lift.
Qed.

(** The scan leaves in every block's part the sum over the stream. *)
Lemma stream_st_implements σ data blocks vs accs :
  implements σ data → (length accs ≤ length (zip blocks vs))%nat →
  stream_st data blocks vs accs σ
  = (Return (zip_with (λ bv acc, foldl (step bv.1 bv.2) acc data) (zip blocks vs) accs), σ).
Proof.
  revert accs. induction data as [|b data IH]; intros accs Hi Hl; cbn [stream_st foldl].
  - by rewrite zip_with_ignore.
  - erewrite st_bind_run by (eapply batch_st_implements; [done|by left]).
    rewrite st_bind_lift, IH, zip_with_fuse; [done|by eapply implements_cons|].
    rewrite length_zip_with. lia.
Qed.

Lemma zip_with_accumulate data blocks vs :
  zip_with (λ bv acc, foldl (step bv.1 bv.2) acc data) (zip blocks vs)
    ((λ block, zeros (dim block)) <$> blocks)
  = zip_with (λ block vi, accumulate block data vi) blocks vs.
Proof.
  revert vs. induction blocks as [|block blocks IH]; intros [|vi vs]; cbn; [done..|].
  by rewrite IH.
Qed.

(** Where the kernel calls return what the pure kernel computes, the
    product with the state threaded through is the product of [Operator],
    and the state is left as it was. *)
Lemma matvec_st_matvec op v σ :
  implements σ (op_data op) → matvec_st op v σ = (matvec op v, σ).
Proof.
  intros Hi. unfold matvec_st, matvec. case_decide; [done|].
  rewrite st_bind_lift.
  destruct (split_list (op_params op) _) as [blocks|e]; [|done].
  rewrite st_bind_lift. pysimpl.
  destruct (split_list v _) as [vs|e] eqn:Hvs; [|done].
  apply split_list_length in Hvs. rewrite length_fmap in Hvs.
  erewrite st_bind_run
    by (apply stream_st_implements; [done|rewrite length_zip, length_fmap; lia]).
  rewrite st_bind_lift, zip_with_accumulate. by pysimpl.
Qed.

Lemma matmat_st_matmat op (V : matrix E) σ :
  implements σ (op_data op) → matmat_st op V σ = (matmat op V, σ).
Proof.
  intros Hi. unfold matmat_st, matmat. case_decide; [done|].
  erewrite st_bind_run by (apply mapM_st_pure; intros v; by apply matvec_st_matvec).
  rewrite st_bind_lift. by destruct (mapM _ _).
Qed.

End refinement.

(** ** Kernel failures *)

Section failure.
Context {P B E S : Type} {Sc : Scalar E} {Bt : Batch B} {K : CurvatureKernel P B E}.
Context {C : KernelCall P B E S}.
Implicit Types (block : list P) (blocks : list (list P)) (data pre post : list B) (b : B).
Implicit Types (v acc : list E) (vs accs : list (list E)) (op : operator P B) (σ : S).
Implicit Types (e : exn).

Lemma batch_st_raises σ b block blocks vi vs acc accs e :
  (kernel_call block b vi σ).1 = Raise e →
  batch_st b (block :: blocks) (vi :: vs) (acc :: accs) σ = (Raise e, σ).
Proof. intros He. cbn [batch_st]. erewrite st_bind_run by apply scoped_run. by rewrite He. Qed.

(** The scan stops at the first kernel call that raises, with its
    exception. *)
Lemma stream_st_raises σ pre b post block blocks vi vs acc accs e :
  implements σ pre → (length accs ≤ length (zip blocks vs))%nat →
  (kernel_call block b vi σ).1 = Raise e →
  stream_st (pre ++ b :: post) (block :: blocks) (vi :: vs) (acc :: accs) σ = (Raise e, σ).
Proof.
  intros Hi Hl He. revert acc accs Hl.
  induction pre as [|b' pre IH]; intros acc accs Hl; cbn [app stream_st].
  - by erewrite st_bind_run by by apply batch_st_raises.
  - erewrite st_bind_run by (eapply batch_st_implements; [done|by left]).
    rewrite st_bind_lift. cbn [zip zip_with]. apply IH; [by eapply implements_cons|].
    rewrite length_zip_with. lia.
Qed.

(** A kernel call that raises on the first block of a batch, after batches
    on which the calls return, ends the product with its exception, in the
    state in which the product started. *)
Lemma matvec_st_raises op v σ pre b post block blocks vi vs e :
  length v = dim (op_params op) →
  split_list (op_params op) (op_in_blocks op) = Return (block :: blocks) →
  split_list v ((λ block, Z.of_nat (dim block)) <$> block :: blocks) = Return (vi :: vs) →
  op_data op = pre ++ b :: post → implements σ pre →
  (kernel_call block b vi σ).1 = Raise e →
  matvec_st op v σ = (Raise e, σ).
Proof.
  intros Hl Hb Hv Hd Hi He. unfold matvec_st. rewrite decide_False by (cbn; lia).
  rewrite Hb, st_bind_lift, Hv, st_bind_lift, Hd. cbn [fmap list_fmap].
  apply split_list_length in Hv. rewrite length_fmap, !length_cons in Hv.
  erewrite st_bind_run; [|apply stream_st_raises; [done| |done]].
  - by rewrite st_bind_lift.
  - rewrite length_zip, length_fmap. lia.
Qed.

End failure.

(** ** The theorems *)

Section theorems.
Context {P B E S : Type} {Sc : Scalar E} {Bt : Batch B} {K : CurvatureKernel P B E}.
Context {C : KernelCall P B E S}.
Implicit Types (v : list E) (V : matrix E) (op : operator P B) (σ : S).

(** C26: the products with the state threaded through refine those of the
    pure operator: from a state in which the kernel calls on the batches of
    the stream return what the pure kernel computes, [matvec_st] and
    [matmat_st] return (or raise) what [matvec] and [matmat] do, although
    they scan the stream in the outer loop and the blocks in the inner
    one. *)
Theorem matvec_st_refines op v V σ :
  implements σ (op_data op) →
  matvec_st op v σ = (matvec op v, σ) ∧ matmat_st op V σ = (matmat op V, σ).
Proof. intros Hi. split; [by apply matvec_st_matvec|by apply matmat_st_matmat]. Qed.

End theorems.
