(* ===== verification/Scenarios.v ===== *)
(** * Scenarios: the tests of [test_hessian.py]

    The three tests construct a [HessianLinearOperator], build a dense
    reference matrix with [functorch_hessian] (in the block-diagonal test,
    [torch.block_diag] of one reference per block of
    [split_list(params, block_sizes)]), pass both through the SciPy front
    end and the adjoint when asked, and compare the two products with a
    random vector or matrix.

    The model of a test returns the two values that the test compares; the
    random input is an argument.  The operator is the one of [Operator];
    [functorch_hessian] is a parameter.  The theorems say when the two values
    agree over exact arithmetic: when the reference is the matrix of the
    accumulated kernel, and symmetric where the adjoint is taken. *)

From S2P Require Import Prelude PySeq SplitList Blocking Scalar Linalg Operator.

Section scenarios.
Context {P B E : Type} {Sc : Scalar E} {Bt : Batch B} {K : CurvatureKernel P B E}.

(** [functorch_hessian(model_func, loss_func, params, data, input_key="x")]:
    the dense reference matrix for a list of parameters. *)
Context (functorch_hessian : list P → list B → matrix E).

(** ** The fixture *)

(** [case]: the parameters, the data and [batch_size_fn] (the model and the
    loss are those of the kernel). *)
Record case : Type := Case {
  case_params : list P;
  case_data : list B;
  case_batch_size_fn : option (B → Z);
}.

(** [with raises(ValueError): ...]: passes when the body raises an
    instance of [ValueError], fails when it raises nothing, and lets any
    other exception through. *)
Definition raises_ValueError_block {A} (body : result A) : result () :=
  match body with
  | Raise e => if is_ValueError e then Return () else Raise e
  | Return _ => Raise (Failed "DID NOT RAISE <class 'ValueError'>")
  end.

(** [data[0]]. *)
Definition first_batch (data : list B) : result B :=
  match data with
  | b :: _ => Return b
  | [] => Raise (IndexError "list index out of range")
  end.

(** The operator and its reference behind the front end and the adjoint
    that the test asks for. *)
Definition through (adjoint scipy_frontend : bool) (op : operator P B)
    (op_functorch : matrix E) : linear_operator P B * matrix E :=
  let lo := if scipy_frontend then to_scipy op else Native op in
  if adjoint then (lo_adjoint lo, transpose op_functorch) else (lo, op_functorch).

(** ** The tests *)

(** [test_HessianLinearOperator_matvec]: the two vectors it compares. *)
Definition test_HessianLinearOperator_matvec (c : case) (adjoint scipy_frontend : bool)
    (x : list E) : result (list E * list E) :=
  b ← first_batch (case_data c);
  _ ← (if mapping_like b then
         raises_ValueError_block
           (HessianLinearOperator (case_params c) (case_data c) None None None)
       else Return ());
  op ← HessianLinearOperator (case_params c) (case_data c) (case_batch_size_fn c) None None;
  let op_functorch := functorch_hessian (case_params c) (case_data c) in
  let '(op, op_functorch) := through adjoint scipy_frontend op op_functorch in
  y ← lo_matvec op x;
  mret (y, mat_vec op_functorch x).

(** [test_HessianLinearOperator_matmat]: the two matrices it compares. *)
Definition test_HessianLinearOperator_matmat (c : case) (adjoint scipy_frontend : bool)
    (X : matrix E) : result (matrix E * matrix E) :=
  op ← HessianLinearOperator (case_params c) (case_data c) (case_batch_size_fn c) None None;
  let op_functorch := functorch_hessian (case_params c) (case_data c) in
  let '(op, op_functorch) := through adjoint scipy_frontend op op_functorch in
  Y ← lo_matmat op X;
  mret (Y, mat_mat op_functorch X).

(** [test_blocked_HessianLinearOperator_matmat]: the two matrices it
    compares. *)
Definition test_blocked_HessianLinearOperator_matmat (c : case) (adjoint : bool)
    (blocking : blocking) (scipy_frontend : bool) (X : matrix E)
    : result (matrix E * matrix E) :=
  let block_sizes := BLOCKING_FNS blocking (case_params c) in
  op ← HessianLinearOperator (case_params c) (case_data c) (case_batch_size_fn c)
         (Some block_sizes) (Some block_sizes);
  blocks ← split_list (case_params c) block_sizes;
  let op_functorch :=
    block_diag ((λ params_block, functorch_hessian params_block (case_data c)) <$> blocks) in
  let '(op, op_functorch) := through adjoint scipy_frontend op op_functorch in
  Y ← lo_matmat op X;
  mret (Y, mat_mat op_functorch X).

End scenarios.

Arguments case P B : clear implicits.

(** ** When the tests pass *)

Section passing.
Context {P B E : Type} {Sc : Scalar E} {Bt : Batch B} {K : CurvatureKernel P B E}.
Context `{!Equiv E} {Ex : ExactArith Sc}.
Context (functorch_hessian : list P → list B → matrix E).
Implicit Types (c : case P B) (params block : list P) (blocks : list (list P)).
Implicit Types (data : list B) (op : operator P B) (M : matrix E).

(** The reference is exact on a block of parameters: it is the matrix of
    the accumulated kernel, and it is symmetric. *)
Definition exact_reference data block : Prop :=
  matrix_of (λ blk, functorch_hessian blk data) data block
  ∧ transpose (functorch_hessian block data) = functorch_hessian block data.

Lemma exact_reference_matrix_of data blocks :
  Forall (exact_reference data) blocks →
  Forall (matrix_of (λ blk, functorch_hessian blk data) data) blocks.
Proof. intros HH. eapply Forall_impl; [exact HH|]. by intros block [? _]. Qed.

(** The block-diagonal matrix of exact references is symmetric. *)
Lemma transpose_reference data blocks :
  Forall (exact_reference data) blocks →
  transpose (block_diag ((λ blk, functorch_hessian blk data) <$> blocks))
  = block_diag ((λ blk, functorch_hessian blk data) <$> blocks).
Proof.
  intros HH. rewrite transpose_block_diag.
  - f_equal. rewrite <- list_fmap_compose. apply list_fmap_ext.
    intros i block Hb. by destruct (Forall_lookup_1 _ _ _ _ HH Hb).
  - apply Forall_fmap. eapply Forall_impl; [exact HH|]. by intros block [[? _] _].
Qed.

(** With the same partition on both sides, the front end and the adjoint
    leave the operator and its exact reference as they are. *)
Lemma through_exact (adjoint scipy_frontend : bool) op data blocks :
  op_in_blocks op = op_out_blocks op → Forall (exact_reference data) blocks →
  let M := block_diag ((λ blk, functorch_hessian blk data) <$> blocks) in
  wrapped (through adjoint scipy_frontend op M).1 = op
  ∧ (through adjoint scipy_frontend op M).2 = M.
Proof.
  intros Hb HH. unfold through.
  destruct adjoint, scipy_frontend; cbn;
    by rewrite ?adjoint_same_blocks, ?transpose_reference.
Qed.

(** What the comparison of a test sees once the operator [op] is built:
    the product of a valid operator and the product of its exact reference
    agree. *)
Lemma compare_matmat (adjoint scipy_frontend : bool) op (X : matrix E) :
  op_valid op → op_in_blocks op = op_out_blocks op →
  Forall (exact_reference (op_data op)) (in_blocks_of op) →
  py_list (m_rows X) → length (m_rows X) = dim (op_params op) →
  ∃ Y Y',
    (let '(lo, M) := through adjoint scipy_frontend op
                       (block_diag ((λ blk, functorch_hessian blk (op_data op))
                                    <$> in_blocks_of op)) in
     Y ← lo_matmat lo X; mret (Y, mat_mat M X)) = Return (Y, Y')
    ∧ Y ≡ Y' ∧ matrix_wf Y'.
Proof.
  intros Hop Hb HH HX Hl.
  destruct (through_exact adjoint scipy_frontend op _ _ Hb HH) as [Hw HM].
  destruct (through _ _ _ _) as [lo M]. cbn in Hw, HM. subst M. unfold lo_matmat. rewrite Hw.
  destruct (matmat_reference (λ blk, functorch_hessian blk (op_data op)) op X)
    as (Y & -> & HY); [done|by apply exact_reference_matrix_of|done..|].
  eexists _, _. split; [done|]. split; [done|apply mat_mat_wf].
Qed.

Lemma compare_matvec (adjoint scipy_frontend : bool) op (x : list E) :
  op_valid op → op_in_blocks op = op_out_blocks op →
  Forall (exact_reference (op_data op)) (in_blocks_of op) →
  py_list x → length x = dim (op_params op) →
  ∃ y y',
    (let '(lo, M) := through adjoint scipy_frontend op
                       (block_diag ((λ blk, functorch_hessian blk (op_data op))
                                    <$> in_blocks_of op)) in
     y ← lo_matvec lo x; mret (y, mat_vec M x)) = Return (y, y')
    ∧ y ≡ y'.
Proof.
  intros Hop Hb HH Hx Hl.
  destruct (through_exact adjoint scipy_frontend op _ _ Hb HH) as [Hw HM].
  destruct (through _ _ _ _) as [lo M]. cbn in Hw, HM. subst M. unfold lo_matvec. rewrite Hw.
  destruct (matvec_reference (λ blk, functorch_hessian blk (op_data op)) op x)
    as (y & -> & Hy); [done|by apply exact_reference_matrix_of|done..|].
  by eexists _, _.
Qed.

(** The operator without blocks has one block: all the parameters. *)
Lemma unblocked_blocks params : chunks params (Z.to_nat <$> [len params]) = [params].
Proof. cbn. by rewrite Nat2Z.id, firstn_all. Qed.

Lemma unblocked_valid params data fn :
  py_list params → op_valid (Operator params data fn [len params] [len params]).
Proof.
  intros Hp. split; [|split]; cbn; [|done|apply py_sum_one_block].
  repeat constructor. lia.
Qed.

(** The values of the block-diagonal test. *)
Lemma test_blocked_matmat_values c (adjoint : bool) (blocking : blocking)
    (scipy_frontend : bool) (X : matrix E) :
  resolvable (case_batch_size_fn c) (case_data c) → py_list (case_params c) →
  Forall (exact_reference (case_data c))
    (chunks (case_params c) (Z.to_nat <$> BLOCKING_FNS blocking (case_params c))) →
  py_list (m_rows X) → length (m_rows X) = dim (case_params c) →
  ∃ Y Y',
    test_blocked_HessianLinearOperator_matmat functorch_hessian c adjoint blocking
      scipy_frontend X = Return (Y, Y')
    ∧ Y ≡ Y' ∧ matrix_wf Y'.
Proof.
  intros Hr Hp HH HX Hl.
  destruct (blocking_sizes_valid blocking (case_params c)) as [Hv Hs].
  unfold test_blocked_HessianLinearOperator_matmat.
  rewrite HessianLinearOperator_valid by done. pysimpl.
  rewrite split_list_eq_chunks by done. pysimpl.
  by apply (compare_matmat adjoint scipy_frontend (Operator _ _ _ _ _)).
Qed.

(** The values of the matrix-matrix test. *)
Lemma test_matmat_values c (adjoint scipy_frontend : bool) (X : matrix E) :
  resolvable (case_batch_size_fn c) (case_data c) → py_list (case_params c) →
  exact_reference (case_data c) (case_params c) →
  py_list (m_rows X) → length (m_rows X) = dim (case_params c) →
  ∃ Y Y',
    test_HessianLinearOperator_matmat functorch_hessian c adjoint scipy_frontend X
    = Return (Y, Y')
    ∧ Y ≡ Y' ∧ matrix_wf Y'.
Proof.
  intros Hr Hp HH HX Hl. unfold test_HessianLinearOperator_matmat.
  rewrite HessianLinearOperator_valid by (done || apply py_sum_one_block). pysimpl.
  pose proof (compare_matmat adjoint scipy_frontend
                (Operator (case_params c) (case_data c) (case_batch_size_fn c)
                   [len (case_params c)] [len (case_params c)]) X) as Hc.
  unfold in_blocks_of in Hc. cbn [op_params op_in_blocks op_data] in Hc.
  rewrite unblocked_blocks in Hc. cbn [fmap list_fmap] in Hc.
  rewrite block_diag_singleton in Hc.
  apply Hc; [by apply unblocked_valid|done|by constructor|done..].
Qed.

(** The guard of the matrix-vector test passes: without a resolver
    the constructor refuses a mapping-like first batch with an instance of
    [ValueError]. *)
Lemma test_matvec_guard_passes c b :
  head (case_data c) = Some b →
  (if mapping_like b then
     raises_ValueError_block
       (HessianLinearOperator (case_params c) (case_data c) None None None)
   else Return ()) = Return ().
Proof.
  intros Hb. destruct (mapping_like b) eqn:Hm; [|done].
  rewrite HessianLinearOperator_unresolvable; [done|].
  destruct (case_data c) as [|b' data]; [done|]. injection Hb as ->.
  intros [[? [=]]|Hall]. apply Forall_cons_1 in Hall as [? _]. congruence.
Qed.

(** The values of the matrix-vector test. *)
Lemma test_matvec_values c (adjoint scipy_frontend : bool) (x : list E) (b : B) :
  head (case_data c) = Some b →
  resolvable (case_batch_size_fn c) (case_data c) → py_list (case_params c) →
  exact_reference (case_data c) (case_params c) →
  py_list x → length x = dim (case_params c) →
  ∃ y y',
    test_HessianLinearOperator_matvec functorch_hessian c adjoint scipy_frontend x
    = Return (y, y')
    ∧ y ≡ y'.
Proof.
  intros Hb Hr Hp HH Hx Hl. unfold test_HessianLinearOperator_matvec.
  pose proof (test_matvec_guard_passes c b Hb) as Hg.
  destruct (case_data c) as [|b' data] eqn:Hd; [done|]. injection Hb as ->.
  cbn [first_batch]. pysimpl. rewrite <- Hd in *. rewrite Hg. pysimpl.
  rewrite HessianLinearOperator_valid by (done || apply py_sum_one_block). pysimpl.
  pose proof (compare_matvec adjoint scipy_frontend
                (Operator (case_params c) (case_data c) (case_batch_size_fn c)
                   [len (case_params c)] [len (case_params c)]) x) as Hc.
  unfold in_blocks_of in Hc. cbn [op_params op_in_blocks op_data] in Hc.
  rewrite unblocked_blocks in Hc. cbn [fmap list_fmap] in Hc.
  rewrite block_diag_singleton in Hc.
  apply Hc; [by apply unblocked_valid|done|by constructor|done..].
Qed.

(** C10: the block-diagonal test compares equal values.  Over exact
    arithmetic, for either blocking scheme, with or without the adjoint and
    the SciPy front end: when every block's reference is the symmetric matrix
    of the accumulated kernel on that block, the operator built with
    [in_blocks = out_blocks = block_sizes] and the [block_diag] of the
    references of [split_list(params, block_sizes)] give equivalent
    products with every matrix of the operator's dimension. *)
Theorem test_blocked_matmat_agrees c (adjoint : bool) (blocking : blocking)
    (scipy_frontend : bool) (X : matrix E) :
  resolvable (case_batch_size_fn c) (case_data c) → py_list (case_params c) →
  Forall (exact_reference (case_data c))
    (chunks (case_params c) (Z.to_nat <$> BLOCKING_FNS blocking (case_params c))) →
  py_list (m_rows X) → length (m_rows X) = dim (case_params c) →
  ∃ Y Y',
    test_blocked_HessianLinearOperator_matmat functorch_hessian c adjoint blocking
      scipy_frontend X = Return (Y, Y')
    ∧ Y ≡ Y'.
Proof.
  intros Hr Hp HH HX Hl.
  destruct (test_blocked_matmat_values c adjoint blocking scipy_frontend X)
    as (Y & Y' & ? & ? & _); by eauto.
Qed.

(** The matrix-matrix test compares equal values: over exact
    arithmetic the unblocked operator and a reference that is the symmetric
    matrix of the accumulated kernel give equivalent products, through
    either front end and the adjoint. *)
Theorem test_matmat_agrees c (adjoint scipy_frontend : bool) (X : matrix E) :
  resolvable (case_batch_size_fn c) (case_data c) → py_list (case_params c) →
  exact_reference (case_data c) (case_params c) →
  py_list (m_rows X) → length (m_rows X) = dim (case_params c) →
  ∃ Y Y',
    test_HessianLinearOperator_matmat functorch_hessian c adjoint scipy_frontend X
    = Return (Y, Y')
    ∧ Y ≡ Y'.
Proof.
  intros Hr Hp HH HX Hl.
  destruct (test_matmat_values c adjoint scipy_frontend X) as (Y & Y' & ? & ? & _);
    by eauto.
Qed.

(** The matrix-vector test compares equal values: over exact arithmetic
    the operator and a reference that is the symmetric matrix of the
    accumulated kernel give equivalent products, through either front end
    and the adjoint. *)
Theorem test_matvec_agrees c (adjoint scipy_frontend : bool) (x : list E) (b : B) :
  head (case_data c) = Some b →
  resolvable (case_batch_size_fn c) (case_data c) → py_list (case_params c) →
  exact_reference (case_data c) (case_params c) →
  py_list x → length x = dim (case_params c) →
  ∃ y y',
    test_HessianLinearOperator_matvec functorch_hessian c adjoint scipy_frontend x
    = Return (y, y')
    ∧ y ≡ y'.
Proof. apply test_matvec_values. Qed.

(** Without a resolver in the fixture the test of a mapping-like first
    batch passes the guard and ends at the construction after it. *)
Lemma test_matvec_unresolved c (adjoint scipy_frontend : bool) (x : list E) (b : B) :
  head (case_data c) = Some b → mapping_like b = true → case_batch_size_fn c = None →
  test_HessianLinearOperator_matvec functorch_hessian c adjoint scipy_frontend x
  = Raise resolver_error.
Proof.
  intros Hb Hm Hn. unfold test_HessianLinearOperator_matvec.
  pose proof (test_matvec_guard_passes c b Hb) as Hg.
  destruct (case_data c) as [|b' data] eqn:Hd; [done|]. injection Hb as ->.
  cbn [first_batch]. pysimpl. rewrite <- Hd in *. rewrite Hg, Hn. pysimpl.
  rewrite HessianLinearOperator_unresolvable; [done|].
  rewrite Hd. intros [[? [=]]|Hall]. apply Forall_cons_1 in Hall as [? _]. congruence.
Qed.

(** C24: the resolver guard of the matrix-vector test.  When the first batch
    has a mapping-like input, the constructor without [batch_size_fn] raises
    an instance of [ValueError], which the [raises(ValueError)] block of the
    test expects, and the test goes on: with the resolver of the fixture it
    compares equal values, and with a fixture that has none it ends with the
    resolver's error at the construction after the guard. *)
Theorem test_matvec_guard c (adjoint scipy_frontend : bool) (x : list E) (b : B) :
  head (case_data c) = Some b → mapping_like b = true →
  py_list (case_params c) → exact_reference (case_data c) (case_params c) →
  py_list x → length x = dim (case_params c) →
  match case_batch_size_fn c with
  | Some _ =>
      ∃ y y',
        test_HessianLinearOperator_matvec functorch_hessian c adjoint scipy_frontend x
        = Return (y, y')
        ∧ y ≡ y'
  | None =>
      test_HessianLinearOperator_matvec functorch_hessian c adjoint scipy_frontend x
      = Raise resolver_error
  end.
Proof.
  intros Hb Hm Hp HH Hx Hl. destruct (case_batch_size_fn c) as [fn|] eqn:Hfn.
  - eapply test_matvec_values; [done|rewrite Hfn; by left; eexists|done..].
  - by eapply test_matvec_unresolved.
Qed.

End passing.
