(* ===== verification/Float64.v ===== *)
(** * Float64: the tests on float64 entries

    Over floating point the operator and its dense reference round at
    different places: the operator adds the products of each batch, the
    reference multiplies by the sum of the batches.  This file gives the
    quadratic loss of [Quadratic] float64 weights and runs the tests on it:
    the two values that a test compares differ in their last bit.  On such
    values [allclose_report] of [utils.py] returns [True] at the tolerances
    that the tests name, and at zero tolerances it reports the entries with
    texts that read the same.  The sum over the data stream follows its
    order, and on float64 entries the order changes the product. *)

From S2P Require Import Prelude PySeq SplitList Blocking Scalar Format Tensor Allclose Report.
From S2P Require Import Linalg Operator Stream Scenarios.
From Stdlib Require Import SpecFloat.

#[local] Existing Instance float64.

(** ** The instance *)

(** A batch of the data stream, with a float64 weight. *)
Record fbatch : Type := FBatch {
  f_weight : spec_float;
  f_size : Z;
  f_mapping : bool;
}.

#[global] Instance fbatch_batch : Batch fbatch := {|
  mapping_like := f_mapping;
  leading_dim := f_size;
|}.

(** The kernel: a batch of weight [w] multiplies the vector by [w]. *)
#[global] Instance float_kernel : CurvatureKernel nat fbatch spec_float := {|
  param_numel := id;
  kernel_apply := λ _ b v, s_mul (f_weight b) <$> v;
|}.

(** The kernel keeps the dimension.  It is not linear: every product
    rounds. *)
#[global] Instance float_shaped : ShapedKernel float_kernel.
Proof. split. intros block b v Hv. cbn. by rewrite length_fmap. Qed.

(** The sum of the weights of the stream, in its order. *)
Definition float_total (data : list fbatch) : spec_float :=
  foldl (λ acc b, s_add acc (f_weight b)) s_zero data.

(** The dense reference of a block of parameters: the sum of the weights
    times the identity. *)
Definition float_hessian (block : list nat) (data : list fbatch) : matrix spec_float :=
  block_diag (replicate (dim block) (Matrix 1 [[float_total data]])).

(** Two parameters with 2 and 1 entries, and two batches of weights 0.1
    and 0.2. *)
Definition float_case : case nat fbatch :=
  Case [2; 1]%nat [FBatch (py_float 1 10) 4 false; FBatch (py_float 2 10) 4 false] None.

(** ** The runs *)

(** On float64 entries the matrix-vector test compares values that
    are not equal: at [x = 7] the operator computes [0.1 * 7 + 0.2 * 7] and
    the reference [(0.1 + 0.2) * 7].  On the two vectors [allclose_report]
    returns [True] with [rtol=1e-4] and [atol=1e-7], and at zero tolerances
    it reports the entry with two texts that read the same. *)
Example test_matvec_float64 :
  ∃ y y',
    test_HessianLinearOperator_matvec float_hessian float_case false false
      [py_float 1 1; py_float 3 1; py_float 7 1] = Return (y, y')
    ∧ y ≠ y'
    ∧ allclose_report_io (Tensor [3%nat] y) (Tensor [3%nat] y')
        (py_float 1 10000) (py_float 1 10000000) [] = Return (true, [])
    ∧ allclose_report_io (Tensor [3%nat] y) (Tensor [3%nat] y')
        (py_float 0 1) (py_float 0 1) []
      = Return (false,
                ["at index tensor([2]): 2.10000e+00 ≠ 2.10000e+00, ratio: 1.00000e+00"]).
Proof.
  eexists _, _. split; [by vm_compute|]. split; [by vm_compute|]. split; by vm_compute.
Qed.

(** The block-diagonal test, through the SciPy front end and the adjoint:
    the two matrices differ in two entries of the first column. *)
Example test_blocked_matmat_float64 :
  ∃ Y Y',
    test_blocked_HessianLinearOperator_matmat float_hessian float_case true TwoBlocks true
      (Matrix 2 [[py_float 1 1; py_float 3 1]; [py_float 7 1; py_float 1 3];
                 [py_float 5 1; py_float 9 1]]) = Return (Y, Y')
    ∧ allclose_report_io (Tensor [3; 2]%nat (concat (m_rows Y)))
        (Tensor [3; 2]%nat (concat (m_rows Y'))) (py_float 0 1) (py_float 0 1) []
      = Return (false,
                ["at index tensor([1, 0]): 2.10000e+00 ≠ 2.10000e+00, ratio: 1.00000e+00";
                 "at index tensor([2, 0]): 1.50000e+00 ≠ 1.50000e+00, ratio: 1.00000e+00"]).
Proof. eexists _, _. split; [by vm_compute|]. by vm_compute. Qed.

(** On float64 entries the order of the batches changes the product: with
    the weights [2^53], [1] and [1] the sum in this order drops both units,
    and the sum in the reverse order keeps them. *)
Example stream_order_float64 :
  let data := [FBatch (py_float 9007199254740992 1) 4 false; FBatch (py_float 1 1) 4 false;
               FBatch (py_float 1 1) 4 false] in
  let op := Operator [1]%nat data None [1]%Z [1]%Z in
  let op' := Operator [1]%nat (reverse data) None [1]%Z [1]%Z in
  same_batches op op'
  ∧ matvec op [py_float 1 1] = Return [py_float 9007199254740992 1]
  ∧ matvec op' [py_float 1 1] = Return [py_float 9007199254740994 1].
Proof.
  split; [|split; by vm_compute].
  split; [done|split; [done|]]. symmetry. apply reverse_Permutation.
Qed.
