(* ===== verification/Quadratic.v ===== *)
(** * Quadratic: a quadratic loss, as a concrete curvature kernel

    An instance of the collaborators of [Operator], on which the operator
    and the tests run and the hypotheses of their theorems hold: the loss
    [sum over the batches of w/2 * |theta|^2], whose curvature on a batch of
    weight [w] is [w] times the identity.  A parameter is given by its
    number of entries, a batch by its weight, its size and whether its input
    is mapping-like.  The dense reference is the sum of the weights times
    the identity.  Arithmetic is exact ([exact], the rationals), and the
    kernel is linear ([quadratic_linear]).  [quadratic_call] is a call of
    the kernel that perturbs the values of the parameters and can fail. *)

From S2P Require Import Prelude PySeq SplitList Blocking Scalar Tensor Allclose Report Linalg.
From S2P Require Import State Operator Stream Scoped Scenarios.
From Stdlib Require Import QArith.

#[local] Existing Instance exact.

(** ** The instance *)

(** A batch of the data stream. *)
Record qbatch : Type := QBatch {
  q_weight : Q;
  q_size : Z;
  q_mapping : bool;
}.

#[global] Instance qbatch_batch : Batch qbatch := {|
  mapping_like := q_mapping;
  leading_dim := q_size;
|}.

(** The kernel: on any block, a batch of weight [w] multiplies the vector
    by [w]. *)
#[global] Instance quadratic_kernel : CurvatureKernel nat qbatch Q := {|
  param_numel := id;
  kernel_apply := λ _ b v, Qmult (q_weight b) <$> v;
|}.

(** The kernel keeps the dimension, and is linear. *)
#[global] Instance quadratic_shaped : ShapedKernel quadratic_kernel.
Proof. split. intros block b v Hv. cbn. by rewrite length_fmap. Qed.

#[global] Instance quadratic_linear : LinearKernel exact quadratic_kernel.
Proof.
  split.
  - apply _.
  - intros block b u v _ _. apply (vscale_vadd (Sc := exact)).
  - intros block b a v _. cbn. unfold vscale. rewrite <- !list_fmap_compose.
    apply list_fmap_equiv_ext. intros _ c _. cbn.
    change (q_weight b * (a * c) == a * (q_weight b * c))%Q. ring.
Qed.

(** The sum of the weights of the stream, in its order. *)
Definition total_weight (data : list qbatch) : Q :=
  foldl (λ acc b, acc + q_weight b)%Q 0%Q data.

(** [c] times the identity matrix of dimension [n]. *)
Definition scaled_identity (n : nat) (c : Q) : matrix Q :=
  block_diag (Sc := exact) (replicate n (Matrix 1 [[c]])).

(** The dense reference of a block of parameters. *)
Definition quadratic_hessian (block : list nat) (data : list qbatch) : matrix Q :=
  scaled_identity (dim block) (total_weight data).

(** ** The reference is exact *)

Section exactness.
Implicit Types (v acc : list Q) (c s w : Q) (data : list qbatch) (block : list nat).

Lemma vadd_scale s w v :
  vadd (Sc := exact) (Qmult s <$> v) (Qmult w <$> v) ≡ Qmult (s + w) <$> v.
Proof.
  induction v as [|a v IH]; [done|]. cbn. f_equiv; [|exact IH].
  change (s * a + w * a == (s + w) * a)%Q. ring.
Qed.

Lemma zeros_scale v : zeros (Sc := exact) (length v) ≡ Qmult 0 <$> v.
Proof.
  induction v as [|a v IH]; [done|].
  change (0%Q :: zeros (Sc := exact) (length v) ≡ (0 * a)%Q :: (Qmult 0 <$> v)).
  constructor; [|exact IH]. change (0 == 0 * a)%Q. ring.
Qed.

Lemma foldl_kernel_scale block data v s acc :
  acc ≡ Qmult s <$> v →
  foldl (λ acc b, vadd (Sc := exact) acc (kernel_apply block b v)) acc data
  ≡ Qmult (foldl (λ a b, a + q_weight b)%Q s data) <$> v.
Proof.
  revert s acc. induction data as [|b data IH]; intros s acc Hacc; [done|].
  cbn [foldl]. apply IH. cbn. unfold vadd. rewrite Hacc. apply vadd_scale.
Qed.

(** The accumulated kernel multiplies by the sum of the weights. *)
Lemma accumulate_scale block data v :
  length v = dim block →
  accumulate (Sc := exact) block data v ≡ Qmult (total_weight data) <$> v.
Proof.
  intros Hl. unfold accumulate, total_weight. apply foldl_kernel_scale.
  rewrite <- Hl. apply zeros_scale.
Qed.

Lemma scaled_identity_wf (n : nat) c : matrix_wf (scaled_identity n c).
Proof. apply block_diag_wf, Forall_replicate. by repeat constructor. Qed.

Lemma scaled_identity_cols (n : nat) c : m_cols (scaled_identity n c) = n.
Proof.
  unfold scaled_identity. rewrite block_diag_cols, fmap_replicate, sum_list_replicate.
  cbn. lia.
Qed.

Lemma scaled_identity_rows (n : nat) c : length (m_rows (scaled_identity n c)) = n.
Proof.
  unfold scaled_identity. rewrite block_diag_rows, fmap_replicate, sum_list_replicate.
  cbn. lia.
Qed.

Lemma scaled_identity_symmetric (n : nat) c :
  transpose (Sc := exact) (scaled_identity n c) = scaled_identity n c.
Proof.
  unfold scaled_identity. rewrite transpose_block_diag, fmap_replicate; [done|].
  apply Forall_replicate. by repeat constructor.
Qed.

(** [c] times the identity multiplies a vector by [c]. *)
Lemma mat_vec_scaled_identity c v :
  mat_vec (Sc := exact) (scaled_identity (length v) c) v ≡ Qmult c <$> v.
Proof.
  unfold scaled_identity.
  transitivity (mat_vec (Sc := exact) (block_diag (Sc := exact) (replicate (length v) (Matrix 1 [[c]])))
                  (concat ((λ a, [a]) <$> v))).
  { f_equiv. by induction v as [|a v IH]; [|cbn; rewrite <- IH]. }
  rewrite mat_vec_block_diag_concat.
  - induction v as [|a v IH]; [done|]. cbn. f_equiv; [|exact IH].
    change (c * a + 0 == c * a)%Q. ring.
  - induction v as [|a v IH]; constructor; [|exact IH]. by repeat constructor.
Qed.

End exactness.

(** The reference of the quadratic loss is exact on every block. *)
Lemma quadratic_exact (data : list qbatch) (block : list nat) :
  exact_reference quadratic_hessian data block.
Proof.
  unfold exact_reference, matrix_of, quadratic_hessian.
  split; [|apply scaled_identity_symmetric].
  split; [apply scaled_identity_wf|]. split; [apply scaled_identity_cols|].
  split; [apply scaled_identity_rows|]. intros v Hl.
  rewrite accumulate_scale by done. rewrite <- Hl. symmetry. apply mat_vec_scaled_identity.
Qed.

(** ** Concrete runs *)

(** Three parameters with 2, 1 and 3 entries, and two batches of weights 1
    and 1/2. *)
Definition quadratic_case : case nat qbatch :=
  Case [2; 1; 3]%nat [QBatch 1 4 false; QBatch (1 # 2) 4 false] None.

(** The same parameters with a mapping-like first batch. *)
Definition mapping_case (batch_size_fn : option (qbatch → Z)) : case nat qbatch :=
  Case [2; 1; 3]%nat [QBatch 1 4 true] batch_size_fn.

Example test_matvec_quadratic :
  test_HessianLinearOperator_matvec quadratic_hessian quadratic_case true true
    [1; 2; 3; 4; 5; 6]%Q
  = Return ([3 # 2; 6 # 2; 9 # 2; 12 # 2; 15 # 2; 18 # 2]%Q,
            [3 # 2; 6 # 2; 9 # 2; 12 # 2; 15 # 2; 18 # 2]%Q).
Proof. by vm_compute. Qed.

Example test_blocked_matmat_quadratic :
  test_blocked_HessianLinearOperator_matmat quadratic_hessian quadratic_case false
    TwoBlocks false (Matrix 2 [[1; 0]; [0; 1]; [1; 1]; [2; 0]; [0; 2]; [1; 2]]%Q)
  = Return (Matrix 2 [[3 # 2; 0 # 2]; [0 # 2; 3 # 2]; [3 # 2; 3 # 2];
                      [6 # 2; 0 # 2]; [0 # 2; 6 # 2]; [3 # 2; 6 # 2]]%Q,
            Matrix 2 [[3 # 2; 0 # 2]; [0 # 2; 3 # 2]; [3 # 2; 3 # 2];
                      [6 # 2; 0 # 2]; [0 # 2; 6 # 2]; [3 # 2; 6 # 2]]%Q).
Proof. by vm_compute. Qed.

(** A vector of the wrong length is refused with both magnitudes. *)
Example test_matvec_wrong_length :
  test_HessianLinearOperator_matvec quadratic_hessian quadratic_case false false
    [1; 2; 3; 4; 5]%Q
  = Raise (ShapeMismatchError "expected 6 entries, got 5").
Proof. by vm_compute. Qed.

(** Blocks that do not sum to the number of parameters are refused at
    construction with the error of [split_list]. *)
Example construction_bad_blocks :
  HessianLinearOperator [2; 1; 3]%nat [QBatch 1 4 false] None (Some [2; 2]%Z) None
  = Raise (ValueError ("List to be split has length 3, but requested sub-list"
                       +:+ " with a total of 4 entries.")).
Proof. by vm_compute. Qed.

(** ** Witnesses *)

Lemma test_blocked_matmat_agrees_witness :
  ∃ Y Y',
    test_blocked_HessianLinearOperator_matmat quadratic_hessian quadratic_case true
      TwoBlocks true (Matrix 2 [[1; 0]; [0; 1]; [1; 1]; [2; 0]; [0; 2]; [1; 2]]%Q)
    = Return (Y, Y')
    ∧ Y ≡ Y'.
Proof.
  apply (test_blocked_matmat_agrees quadratic_hessian quadratic_case true TwoBlocks true).
  - right. by repeat constructor.
  - by vm_compute.
  - apply Forall_forall. intros block _. apply quadratic_exact.
  - by vm_compute.
  - reflexivity.
Defined.

Lemma test_matmat_agrees_witness :
  ∃ Y Y',
    test_HessianLinearOperator_matmat quadratic_hessian quadratic_case true false
      (Matrix 2 [[1; 0]; [0; 1]; [1; 1]; [2; 0]; [0; 2]; [1; 2]]%Q)
    = Return (Y, Y')
    ∧ Y ≡ Y'.
Proof.
  apply (test_matmat_agrees quadratic_hessian quadratic_case true false).
  - right. by repeat constructor.
  - by vm_compute.
  - apply quadratic_exact.
  - by vm_compute.
  - reflexivity.
Defined.

Lemma test_matvec_agrees_witness :
  ∃ y y',
    test_HessianLinearOperator_matvec quadratic_hessian quadratic_case false true
      [1; 2; 3; 4; 5; 6]%Q
    = Return (y, y')
    ∧ y ≡ y'.
Proof.
  apply (test_matvec_agrees quadratic_hessian quadratic_case false true _
           (QBatch 1 4 false)).
  - reflexivity.
  - right. by repeat constructor.
  - by vm_compute.
  - apply quadratic_exact.
  - by vm_compute.
  - reflexivity.
Defined.

Lemma test_matvec_guard_witness :
  ∃ y y',
    test_HessianLinearOperator_matvec quadratic_hessian (mapping_case (Some q_size))
      false false [1; 2; 3; 4; 5; 6]%Q
    = Return (y, y')
    ∧ y ≡ y'.
Proof.
  apply (test_matvec_guard quadratic_hessian (mapping_case (Some q_size)) false false
           [1; 2; 3; 4; 5; 6]%Q (QBatch 1 4 true)).
  - reflexivity.
  - reflexivity.
  - by vm_compute.
  - apply quadratic_exact.
  - by vm_compute.
  - reflexivity.
Defined.

Lemma block_diag_acts_blockwise_witness :
  mat_vec (block_diag [Matrix 2 [[1; 2]; [3; 4]]; Matrix 1 [[5]]]%Q)
    (concat [[1; 1]; [2]]%Q)
  ≡ concat (zip_with mat_vec [Matrix 2 [[1; 2]; [3; 4]]; Matrix 1 [[5]]]%Q [[1; 1]; [2]]%Q).
Proof.
  apply (block_diag_acts_blockwise [Matrix 2 [[1; 2]; [3; 4]]; Matrix 1 [[5]]]%Q
           [[1; 1]; [2]]%Q).
  by repeat constructor.
Defined.

Lemma block_diag_transpose_witness :
  transpose (block_diag [Matrix 2 [[1; 2]; [3; 4]]; Matrix 1 [[5]]]%Q)
  = block_diag (transpose <$> [Matrix 2 [[1; 2]; [3; 4]]; Matrix 1 [[5]]]%Q).
Proof.
  apply (block_diag_transpose [Matrix 2 [[1; 2]; [3; 4]]; Matrix 1 [[5]]]%Q).
  by repeat constructor.
Defined.

Lemma matvec_outcome_witness :
  matvec (Operator [2; 1; 3]%nat [QBatch 1 4 false] None [1; 2]%Z [1; 2]%Z)
    [1; 2; 3; 4; 5; 6]%Q
  = if decide (length [1; 2; 3; 4; 5; 6]%Q = dim [2; 1; 3]%nat)
    then Return (blockwise
                   (in_blocks_of (Operator [2; 1; 3]%nat [QBatch 1 4 false] None
                                    [1; 2]%Z [1; 2]%Z))
                   [QBatch 1 4 false] [1; 2; 3; 4; 5; 6]%Q)
    else Raise (shape_mismatch (Z.of_nat (dim [2; 1; 3]%nat)) (len [1; 2; 3; 4; 5; 6]%Q)).
Proof.
  apply (matvec_outcome (Operator [2; 1; 3]%nat [QBatch 1 4 false] None [1; 2]%Z [1; 2]%Z)
           [1; 2; 3; 4; 5; 6]%Q).
  - split; [|split]; [by repeat constructor|by vm_compute|by vm_compute].
  - by vm_compute.
Defined.

Lemma matvec_linear_witness :
  ∃ y, matvec (Operator [2; 1; 3]%nat [QBatch 1 4 false; QBatch (1 # 2) 4 false] None
                 [1; 2]%Z [1; 2]%Z)
         (vadd (vscale 2%Q [1; 2; 3; 4; 5; 6]%Q) (vscale (-1)%Q [6; 5; 4; 3; 2; 1]%Q))
       = Return y
       ∧ y ≡ vadd (vscale 2%Q [3 # 2; 6 # 2; 9 # 2; 12 # 2; 15 # 2; 18 # 2]%Q)
               (vscale (-1)%Q [18 # 2; 15 # 2; 12 # 2; 9 # 2; 6 # 2; 3 # 2]%Q).
Proof.
  apply (matvec_linear
           (Operator [2; 1; 3]%nat [QBatch 1 4 false; QBatch (1 # 2) 4 false] None
              [1; 2]%Z [1; 2]%Z)
           2%Q (-1)%Q [1; 2; 3; 4; 5; 6]%Q [6; 5; 4; 3; 2; 1]%Q).
  - split; [|split]; [by repeat constructor|by vm_compute|by vm_compute].
  - by vm_compute.
  - by vm_compute.
  - reflexivity.
  - reflexivity.
Defined.

Lemma matvec_shape_witness :
  length [1; 2; 3; 4; 5; 6]%Q
  = (shape (Operator [2; 1; 3]%nat [QBatch 1 4 false] None [1; 2]%Z [1; 2]%Z)).2
  ∧ length [1; 2; 3; 4; 5; 6]%Q
    = (shape (Operator [2; 1; 3]%nat [QBatch 1 4 false] None [1; 2]%Z [1; 2]%Z)).1.
Proof.
  apply (matvec_shape (Operator [2; 1; 3]%nat [QBatch 1 4 false] None [1; 2]%Z [1; 2]%Z)
           [1; 2; 3; 4; 5; 6]%Q [1; 2; 3; 4; 5; 6]%Q).
  - split; [|split]; [by repeat constructor|by vm_compute|by vm_compute].
  - by vm_compute.
  - reflexivity.
Defined.

Lemma reachable_invariant_witness :
  op_inv (adjoint (Operator [2; 1; 3]%nat [QBatch 1 4 false] None [1; 2]%Z [3]%Z)).
Proof.
  apply (reachable_invariant
           (adjoint (Operator [2; 1; 3]%nat [QBatch 1 4 false] None [1; 2]%Z [3]%Z))).
  apply reachable_adjoint.
  by apply (reachable_new [2; 1; 3]%nat [QBatch 1 4 false] None (Some [1; 2]%Z) None).
Defined.

Lemma reachable_matvec_returns_witness :
  matvec (adjoint (Operator [2; 1; 3]%nat [QBatch 1 4 false] None [1; 2]%Z [3]%Z))
    [1; 2; 3; 4; 5; 6]%Q
  = Return (blockwise
              (in_blocks_of (adjoint (Operator [2; 1; 3]%nat [QBatch 1 4 false] None
                                        [1; 2]%Z [3]%Z)))
              [QBatch 1 4 false] [1; 2; 3; 4; 5; 6]%Q).
Proof.
  apply (reachable_matvec_returns
           (adjoint (Operator [2; 1; 3]%nat [QBatch 1 4 false] None [1; 2]%Z [3]%Z))
           [1; 2; 3; 4; 5; 6]%Q).
  - apply reachable_adjoint.
    by apply (reachable_new [2; 1; 3]%nat [QBatch 1 4 false] None (Some [1; 2]%Z) None).
  - by repeat constructor.
  - by vm_compute.
  - by vm_compute.
  - reflexivity.
Defined.

(** ** Kernel calls that perturb the parameters *)

(** The call of the quadratic kernel on the parameter values [θ]: it moves
    every value by one and leaves it there, and it fails on a batch of
    negative size. *)
#[global] Instance quadratic_call : KernelCall nat qbatch Q (list Q) := λ block b v θ,
  (if decide (q_size b < 0)%Z then Raise (ValueError "batch of negative size")
   else Return (kernel_apply block b v),
   Qplus 1 <$> θ).

Lemma quadratic_call_implements (θ : list Q) (data : list qbatch) :
  Forall (λ b, (0 ≤ q_size b)%Z) data → implements θ data.
Proof.
  intros Hd block b v Hb. rewrite Forall_forall in Hd. specialize (Hd b Hb).
  unfold kernel_call, quadratic_call. cbn. rewrite decide_False by lia. done.
Qed.

(** A kernel call alone leaves the parameters perturbed; the product does
    not. *)
Example quadratic_call_perturbs :
  let op := Operator [2; 1]%nat [QBatch 2 4 false; QBatch 3 4 false] None [1; 1]%Z [1; 1]%Z in
  (kernel_call [2; 1]%nat (QBatch 2 4 false) [1; 2; 3]%Q [5; 6; 7]%Q).2 = [6; 7; 8]%Q
  ∧ matvec_st op [1; 2; 3]%Q [5; 6; 7]%Q = (Return [5; 10; 15]%Q, [5; 6; 7]%Q).
Proof. split; by vm_compute. Qed.

(** A kernel failure on the second batch ends the product with the
    kernel's exception, and the parameters are as before. *)
Example quadratic_call_fails :
  let op := Operator [2; 1]%nat [QBatch 2 4 false; QBatch 3 (-1) false] None [1; 1]%Z [1; 1]%Z in
  matvec_st op [1; 2; 3]%Q [5; 6; 7]%Q
  = (Raise (ValueError "batch of negative size"), [5; 6; 7]%Q)
  ∧ matmat_st op (Matrix 1 [[1]; [2]; [3]]%Q) [5; 6; 7]%Q
    = (Raise (ValueError "batch of negative size"), [5; 6; 7]%Q).
Proof. split; by vm_compute. Qed.

Lemma matvec_st_refines_witness :
  matvec_st (Operator [2; 1]%nat [QBatch 2 4 false; QBatch 3 4 false] None [1; 1]%Z [1; 1]%Z)
    [1; 2; 3]%Q [5; 6; 7]%Q
  = (matvec (Operator [2; 1]%nat [QBatch 2 4 false; QBatch 3 4 false] None [1; 1]%Z [1; 1]%Z)
       [1; 2; 3]%Q, [5; 6; 7]%Q)
  ∧ matmat_st (Operator [2; 1]%nat [QBatch 2 4 false; QBatch 3 4 false] None [1; 1]%Z [1; 1]%Z)
      (Matrix 1 [[1]; [2]; [3]]%Q) [5; 6; 7]%Q
    = (matmat (Operator [2; 1]%nat [QBatch 2 4 false; QBatch 3 4 false] None [1; 1]%Z [1; 1]%Z)
         (Matrix 1 [[1]; [2]; [3]]%Q), [5; 6; 7]%Q).
Proof.
  apply (matvec_st_refines
           (Operator [2; 1]%nat [QBatch 2 4 false; QBatch 3 4 false] None [1; 1]%Z [1; 1]%Z)
           [1; 2; 3]%Q (Matrix 1 [[1]; [2]; [3]]%Q) [5; 6; 7]%Q).
  apply quadratic_call_implements. by repeat constructor.
Defined.

Lemma matvec_stream_order_witness :
  matvec (Operator [2; 1]%nat [QBatch 2 4 false; QBatch (1 # 3) 4 false] None [1; 1]%Z [1; 1]%Z)
    [1; 2; 3]%Q
  ≡ matvec (Operator [2; 1]%nat [QBatch (1 # 3) 4 false; QBatch 2 4 false] None [1; 1]%Z
              [1; 1]%Z) [1; 2; 3]%Q.
Proof.
  apply (matvec_stream_order
           (Operator [2; 1]%nat [QBatch 2 4 false; QBatch (1 # 3) 4 false] None [1; 1]%Z
              [1; 1]%Z)
           (Operator [2; 1]%nat [QBatch (1 # 3) 4 false; QBatch 2 4 false] None [1; 1]%Z
              [1; 1]%Z)).
  split; [done|split; [done|]]. apply Permutation_swap.
Defined.

